(** * GDB/Guile glue: gsmobs, exceptions, iterators, symtab chains, memory ports

    A shallow embedding of the parts of gdb/guile/scm-smob.c, scm-exception.c,
    scm-iterator.c, scm-symtab.c and scm-ports.c that carry the handle
    invalidation protocol, the exception bridge, the conversion hooks, the
    iterator protocol and the memory port.

    C functions become functions in a state-and-exception monad: a Scheme
    throw (a non-local exit) is the outcome [Thrown key args], a failed
    gdb_assert or a dereference of a pointer that designates no object is the
    outcome [Fault].  Machine integers are [Z] with the wrap-around written
    out. *)

From Stdlib Require Import ZArith Lia.
From Stdlib.Strings Require Import Byte Ascii.
From stdpp Require Import gmap strings list fin_maps pretty.

(** ** Scheme values *)

(** The values of type SCM the glue code handles.  A smob is the pair of its
    16-bit type tag (SCM_TYP16) and its data word (SCM_SMOB_DATA), the address
    of the C struct allocated for it. *)
Inductive SCM : Type :=
| SCM_BOOL_F
| SCM_BOOL_T
| SCM_EOL
| SCM_UNSPECIFIED
| SCM_INUM (n : Z)
| SCM_STRING (s : string)
| SCM_SYMBOL (s : string)
| SCM_CONS (a d : SCM)
| SCM_PROC (code : N)
| SCM_SMOB (tag : Z) (data : N)
| SCM_PORT (desc : Z) (entry : N)
| SCM_OBJ (id : N).

#[global] Instance SCM_eq_dec : EqDecision SCM.
Proof. solve_decision. Defined.

Definition scm_list_1 (a : SCM) : SCM := SCM_CONS a SCM_EOL.
Definition scm_list_2 (a b : SCM) : SCM := SCM_CONS a (scm_list_1 b).
Definition scm_list_3 (a b c : SCM) : SCM := SCM_CONS a (scm_list_2 b c).
Definition scm_list_4 (a b c d : SCM) : SCM := SCM_CONS a (scm_list_3 b c d).

Definition scm_from_int (n : Z) : SCM := SCM_INUM n.
Definition scm_from_bool (b : bool) : SCM := if b then SCM_BOOL_T else SCM_BOOL_F.
Definition gdbscm_scm_from_ulongest (n : Z) : SCM := SCM_INUM n.
Definition gdbscm_scm_from_longest (n : Z) : SCM := SCM_INUM n.
Definition gdbscm_scm_from_c_string (s : string) : SCM := SCM_STRING s.
Definition scm_from_latin1_string (s : string) : SCM := SCM_STRING s.
Definition gdbscm_symbol_from_c_string (s : string) : SCM := SCM_SYMBOL s.

(** gdbscm_is_false is scm_is_eq against #f. *)
Definition gdbscm_is_false (scm : SCM) : bool :=
  match scm with SCM_BOOL_F => true | _ => false end.

Definition gdbscm_is_true (scm : SCM) : bool := negb (gdbscm_is_false scm).

(** gdbscm_is_procedure: scm_procedure_p. *)
Definition gdbscm_is_procedure (scm : SCM) : bool :=
  match scm with SCM_PROC _ => true | _ => false end.

Definition scm_is_integer (scm : SCM) : bool :=
  match scm with SCM_INUM _ => true | _ => false end.

(** SCM_SMOB_PREDICATE (tag, scm): scm is a heap object whose SCM_TYP16 is tag. *)
Definition SCM_SMOB_PREDICATE (tag : Z) (scm : SCM) : bool :=
  match scm with SCM_SMOB t _ => bool_decide (t = tag) | _ => false end.

(** ** The smob structs *)

(** gdb_smob, the header of every gsmob: the aux slot. *)
Record gdb_smob := { aux : SCM }.

(** chained_gdb_smob: the header plus the links of the per-objfile chain. *)
Record chained_gdb_smob := {
  c_aux : SCM;
  prev : option N;
  next : option N
}.

Record exception_smob := {
  e_base : gdb_smob;
  key : SCM;
  args : SCM
}.

Record iterator_smob := {
  i_base : gdb_smob;
  object : SCM;
  progress : SCM;
  next_x : SCM
}.

(** symtab is the struct symtab pointer; None is NULL. *)
Record symtab_smob := {
  st_base : chained_gdb_smob;
  symtab : option N
}.

(** type is the struct type pointer; None is NULL. *)
Record type_smob := {
  t_base : chained_gdb_smob;
  type : option N
}.

Inductive smob_data : Type :=
| ExceptionSmob (e : exception_smob)
| IteratorSmob (i : iterator_smob)
| SymtabSmob (s : symtab_smob)
| TypeSmob (t : type_smob).

(** ** The state of the glue *)

(** The C-level state the functions below read and write: the smob structs
    obtained from scm_gc_malloc, the registered_gsmobs table, the two hook
    variables, the exception counter, the per-objfile data slots (keyed by
    objfile and data key; an absent entry is a NULL datum), and the log of the
    calls made into Scheme. *)
Record gdb_state := {
  smobs : gmap N smob_data;
  registered_gsmobs : gset Z;
  scm_from_smob_var : SCM;
  scm_to_smob_var : SCM;
  gdbscm_exception_count : Z;
  objfile_data_tab : gmap (N * N) N;
  scm_calls : list (SCM * list SCM)
}.

Definition set_smobs (f : gmap N smob_data → gmap N smob_data) (st : gdb_state) : gdb_state :=
  {| smobs := f (smobs st);
     registered_gsmobs := registered_gsmobs st;
     scm_from_smob_var := scm_from_smob_var st;
     scm_to_smob_var := scm_to_smob_var st;
     gdbscm_exception_count := gdbscm_exception_count st;
     objfile_data_tab := objfile_data_tab st;
     scm_calls := scm_calls st |}.

Definition set_exception_count (n : Z) (st : gdb_state) : gdb_state :=
  {| smobs := smobs st;
     registered_gsmobs := registered_gsmobs st;
     scm_from_smob_var := scm_from_smob_var st;
     scm_to_smob_var := scm_to_smob_var st;
     gdbscm_exception_count := n;
     objfile_data_tab := objfile_data_tab st;
     scm_calls := scm_calls st |}.

Definition set_objfile_data_tab (f : gmap (N * N) N → gmap (N * N) N) (st : gdb_state)
    : gdb_state :=
  {| smobs := smobs st;
     registered_gsmobs := registered_gsmobs st;
     scm_from_smob_var := scm_from_smob_var st;
     scm_to_smob_var := scm_to_smob_var st;
     gdbscm_exception_count := gdbscm_exception_count st;
     objfile_data_tab := f (objfile_data_tab st);
     scm_calls := scm_calls st |}.

Definition log_call (proc : SCM) (actuals : list SCM) (st : gdb_state) : gdb_state :=
  {| smobs := smobs st;
     registered_gsmobs := registered_gsmobs st;
     scm_from_smob_var := scm_from_smob_var st;
     scm_to_smob_var := scm_to_smob_var st;
     gdbscm_exception_count := gdbscm_exception_count st;
     objfile_data_tab := objfile_data_tab st;
     scm_calls := scm_calls st ++ [(proc, actuals)] |}.

(** ** Outcomes and the monad *)

Inductive result (A : Type) : Type :=
| Returned (a : A)
| Thrown (k : SCM) (l : SCM)
| Fault.
Arguments Returned {A} a.
Arguments Thrown {A} k l.
Arguments Fault {A}.

Definition M (S A : Type) : Type := S → result A * S.

Definition ret {S A : Type} (a : A) : M S A := λ st, (Returned a, st).

Definition bind {S A B : Type} (m : M S A) (k : A → M S B) : M S B :=
  λ st, match m st with
        | (Returned a, st') => k a st'
        | (Thrown k l, st') => (Thrown k l, st')
        | (Fault, st') => (Fault, st')
        end.

Notation "'let*' x ':=' m 'in' k" := (bind m (λ x, k))
  (at level 10, x name, m at level 100, k at level 200).

(** scm_throw: the non-local exit of the extension runtime. *)
Definition scm_throw {S A : Type} (k l : SCM) : M S A := λ st, (Thrown k l, st).

Definition fault {S A : Type} : M S A := λ st, (Fault, st).

Definition get_state {S : Type} : M S S := λ st, (Returned st, st).

Definition modify_state {S : Type} (f : S → S) : M S unit := λ st, (Returned tt, f st).

(** gdb_assert: internal_error when the condition fails. *)
Definition gdb_assert {S : Type} (b : bool) : M S unit :=
  if b then ret tt else fault.

(** ** Parameters of the embedding *)

(** The smob tags and the port descriptor handed out by Guile at
    initialisation (scm_make_smob_type, scm_make_port_type).  Every call of
    scm_make_smob_type gives a new tag, and a tag is never zero: zero is the
    wildcard of gdbscm_scm_to_gsmob_safe. *)
Class SmobTags := {
  exception_smob_tag : Z;
  iterator_smob_tag : Z;
  symtab_smob_tag : Z;
  memory_port_desc : Z;
  exception_smob_tag_nz : exception_smob_tag ≠ 0%Z;
  iterator_smob_tag_nz : iterator_smob_tag ≠ 0%Z;
  symtab_smob_tag_nz : symtab_smob_tag ≠ 0%Z;
  iterator_exception_ne : iterator_smob_tag ≠ exception_smob_tag;
  symtab_exception_ne : symtab_smob_tag ≠ exception_smob_tag;
  symtab_iterator_ne : symtab_smob_tag ≠ iterator_smob_tag
}.

(** The Scheme evaluator: applying a Scheme value to actuals runs arbitrary
    script code, which may return, throw, and change any part of the state. *)
Class GuileRuntime := {
  scm_apply : SCM → list SCM → M gdb_state SCM
}.

(** What the code uses of gdb proper and of the platform: the enum value
    MEMORY_ERROR, the signal number SIGINT, the objfile a symtab belongs to,
    the two file name renderers, the data key registered for symtab smobs,
    and the constructors of objfile and block smobs. *)
Class GdbHost := {
  MEMORY_ERROR : Z;
  SIGINT : Z;
  symtab_objfile : N → option N;
  symtab_to_filename_for_display : N → string;
  symtab_to_fullname : N → string;
  stscm_objfile_data_key : N;
  ofscm_scm_from_objfile_unsafe : option N → M gdb_state SCM;
  bkscm_scm_from_global_block_unsafe : N → M gdb_state SCM;
  bkscm_scm_from_static_block_unsafe : N → M gdb_state SCM
}.

(** ** Guile's argument checking (libguile/error.c) *)

Definition SCM_ARG1 : Z := 1.
Definition SCM_ARG2 : Z := 2.
Definition SCM_ARG3 : Z := 3.

Definition scm_arg_type_key : SCM := SCM_SYMBOL "wrong-type-arg".
Definition scm_misc_error_key : SCM := SCM_SYMBOL "misc-error".

(** scm_error: throw KEY with the list (subr message args rest). *)
Definition scm_error {S A : Type} (k : SCM) (subr : option string) (message : string)
    (l rest : SCM) : M S A :=
  scm_throw k (scm_list_4 (from_option scm_from_latin1_string SCM_BOOL_F subr)
                          (scm_from_latin1_string message) l rest).

Definition scm_wrong_type_arg_msg {S A : Type} (subr : string) (pos : Z)
    (bad_value : SCM) (szMessage : string) : M S A :=
  if bool_decide (pos = 0%Z)
  then scm_error scm_arg_type_key (Some subr)
         "Wrong type argument (expecting ~A): ~S"
         (scm_list_2 (SCM_STRING szMessage) bad_value) (scm_list_1 bad_value)
  else scm_error scm_arg_type_key (Some subr)
         "Wrong type argument in position ~A (expecting ~A): ~S"
         (scm_list_3 (scm_from_int pos) (SCM_STRING szMessage) bad_value)
         (scm_list_1 bad_value).

Definition SCM_ASSERT_TYPE {S : Type} (cond : bool) (arg : SCM) (pos : Z)
    (subr : string) (msg : string) : M S unit :=
  if cond then ret tt else scm_wrong_type_arg_msg subr pos arg msg.

Definition scm_misc_error {S A : Type} (subr : string) (message : string) (l : SCM) : M S A :=
  scm_error scm_misc_error_key (Some subr) message l SCM_BOOL_F.

(** ** scm-smob.c, first part: the registry and the headers *)

Definition gdbscm_is_gsmob (scm : SCM) (st : gdb_state) : bool :=
  match scm with
  | SCM_SMOB t _ => bool_decide (t ∈ registered_gsmobs st)
  | _ => false
  end.

Definition register_gsmob (gsmob_code : Z) : M gdb_state unit :=
  λ st, if bool_decide (gsmob_code ∈ registered_gsmobs st) then (Fault, st)
        else (Returned tt,
              {| smobs := smobs st;
                 registered_gsmobs := {[ gsmob_code ]} ∪ registered_gsmobs st;
                 scm_from_smob_var := scm_from_smob_var st;
                 scm_to_smob_var := scm_to_smob_var st;
                 gdbscm_exception_count := gdbscm_exception_count st;
                 objfile_data_tab := objfile_data_tab st;
                 scm_calls := scm_calls st |}).

Definition gdbscm_init_gsmob : gdb_smob := {| aux := SCM_BOOL_F |}.

Definition gdbscm_init_chained_gsmob : chained_gdb_smob :=
  {| c_aux := aux gdbscm_init_gsmob; prev := None; next := None |}.

(** scm_gc_malloc followed by scm_new_smob: the struct is stored at an
    address no live struct has, and the smob cell carries tag and address. *)
Definition scm_new_smob (tag : Z) (d : smob_data) : M gdb_state SCM :=
  λ st, let a := fresh (dom (smobs st)) in
        (Returned (SCM_SMOB tag a), set_smobs (insert a d) st).

(** ** scm-exception.c *)

Definition exscm_error_symbol : SCM := gdbscm_symbol_from_c_string "gdb:error".
Definition exscm_memory_error_symbol : SCM := gdbscm_symbol_from_c_string "gdb:memory-error".
Definition gdbscm_invalid_object_error_symbol : SCM :=
  gdbscm_symbol_from_c_string "gdb:invalid-object-error".
Definition exscm_out_of_range_error_symbol : SCM := gdbscm_symbol_from_c_string "out-of-range".
Definition exscm_with_stack_error_symbol : SCM := gdbscm_symbol_from_c_string "gdb:with-stack".
Definition exscm_signal_symbol : SCM := gdbscm_symbol_from_c_string "signal".

(** unsigned long arithmetic of the exception counter. *)
Definition ulong_wrap (n : Z) : Z := (n mod 2 ^ 64)%Z.

Section Exceptions.
Context `{SmobTags}.

Definition gdbscm_make_exception (k l : SCM) : M gdb_state SCM :=
  let* smob := scm_new_smob exception_smob_tag
                 (ExceptionSmob {| e_base := gdbscm_init_gsmob; key := k; args := l |}) in
  let* _ := modify_state (λ st,
              set_exception_count (ulong_wrap (gdbscm_exception_count st + 1)) st) in
  ret smob.

Definition gdbscm_is_exception (scm : SCM) : bool :=
  SCM_SMOB_PREDICATE exception_smob_tag scm.

Definition gdbscm_exception_p (scm : SCM) : M gdb_state SCM :=
  ret (scm_from_bool (gdbscm_is_exception scm)).

(** (exception_smob * ) SCM_SMOB_DATA (self) *)
Definition exception_smob_data (self : SCM) : M gdb_state exception_smob :=
  λ st, match self with
        | SCM_SMOB _ a =>
            match smobs st !! a with
            | Some (ExceptionSmob e) => (Returned e, st)
            | _ => (Fault, st)
            end
        | _ => (Fault, st)
        end.

Definition gdbscm_exception_key (self : SCM) : M gdb_state SCM :=
  let* _ := SCM_ASSERT_TYPE (gdbscm_is_exception self) self SCM_ARG1
              "gdbscm_exception_key" "gdb:exception" in
  let* e_smob := exception_smob_data self in
  ret (key e_smob).

Definition gdbscm_exception_args (self : SCM) : M gdb_state SCM :=
  let* _ := SCM_ASSERT_TYPE (gdbscm_is_exception self) self SCM_ARG1
              "gdbscm_exception_args" "gdb:exception" in
  let* e_smob := exception_smob_data self in
  ret (args e_smob).

Definition gdbscm_make_exception_with_stack (k l stack : SCM) : M gdb_state SCM :=
  gdbscm_make_exception exscm_with_stack_error_symbol (SCM_CONS k (SCM_CONS stack l)).

Definition gdbscm_make_error_scm (k subr message l data : SCM) : M gdb_state SCM :=
  gdbscm_make_exception k (scm_list_4 subr message l data).

Definition gdbscm_make_error (k : SCM) (subr message : option string) (l data : SCM)
    : M gdb_state SCM :=
  gdbscm_make_error_scm k
    (from_option scm_from_latin1_string SCM_BOOL_F subr)
    (from_option scm_from_latin1_string SCM_BOOL_F message)
    l data.

Definition gdbscm_make_type_error (subr : option string) (arg_pos : Z) (bad_value : SCM)
    (expected_type : option string) : M gdb_state SCM :=
  let msg :=
    if bool_decide (0 < arg_pos)%Z then
      match expected_type with
      | Some ty => "Wrong type argument in position " +:+ pretty arg_pos
                     +:+ " (expecting " +:+ ty +:+ "): ~S"
      | None => "Wrong type argument in position " +:+ pretty arg_pos +:+ ": ~S"
      end
    else
      match expected_type with
      | Some ty => "Wrong type argument (expecting " +:+ ty +:+ "): ~S"
      | None => "Wrong type argument: ~S"
      end in
  gdbscm_make_error scm_arg_type_key subr (Some msg)
    (scm_list_1 bad_value) (scm_list_1 bad_value).

(** The message gdbscm_make_arg_error formats with xstrprintf. *)
Definition arg_error_message (arg_pos : Z) (error : string) : string :=
  if bool_decide (0 < arg_pos)%Z
  then error +:+ " in position " +:+ pretty arg_pos +:+ ": ~S"
  else error +:+ ": ~S".

(** The args of the exception gdbscm_make_arg_error makes for a function
    name: (subr message (bad-value) (bad-value)). *)
Definition arg_error_args (subr : string) (arg_pos : Z) (bad_value : SCM) (error : string)
    : SCM :=
  scm_list_4 (scm_from_latin1_string subr)
    (scm_from_latin1_string (arg_error_message arg_pos error))
    (scm_list_1 bad_value) (scm_list_1 bad_value).

Definition gdbscm_make_arg_error (k : SCM) (subr : option string) (arg_pos : Z)
    (bad_value : SCM) (error : string) : M gdb_state SCM :=
  let msg := arg_error_message arg_pos error in
  gdbscm_make_error k subr (Some msg) (scm_list_1 bad_value) (scm_list_1 bad_value).

Definition gdbscm_make_invalid_object_error (subr : option string) (arg_pos : Z)
    (bad_value : SCM) (error : string) : M gdb_state SCM :=
  gdbscm_make_arg_error gdbscm_invalid_object_error_symbol subr arg_pos bad_value error.

Definition gdbscm_make_out_of_range_error (subr : option string) (arg_pos : Z)
    (bad_value : SCM) (error : string) : M gdb_state SCM :=
  gdbscm_make_arg_error exscm_out_of_range_error_symbol subr arg_pos bad_value error.

Definition gdbscm_make_memory_error (subr : option string) (msg : string) (l : SCM)
    : M gdb_state SCM :=
  gdbscm_make_error exscm_memory_error_symbol subr (Some msg) l SCM_EOL.

Definition gdbscm_memory_error_p (k : SCM) : bool :=
  bool_decide (k = exscm_memory_error_symbol).

(** gdbscm_throw: scm_throw on the key and args read back from the smob. *)
Definition gdbscm_throw {A : Type} (exception : SCM) : M gdb_state A :=
  let* k := gdbscm_exception_key exception in
  let* l := gdbscm_exception_args exception in
  scm_throw k l.

Definition gdbscm_invalid_object_error {A : Type} (subr : option string) (arg_pos : Z)
    (bad_value : SCM) (error : string) : M gdb_state A :=
  let* exception := gdbscm_make_invalid_object_error subr arg_pos bad_value error in
  gdbscm_throw exception.

Definition gdbscm_out_of_range_error {A : Type} (subr : option string) (arg_pos : Z)
    (bad_value : SCM) (error : string) : M gdb_state A :=
  let* exception := gdbscm_make_out_of_range_error subr arg_pos bad_value error in
  gdbscm_throw exception.

Definition gdbscm_memory_error {A : Type} (subr : option string) (msg : string) (l : SCM)
    : M gdb_state A :=
  let* exception := gdbscm_make_memory_error subr msg l in
  gdbscm_throw exception.

(** enum return_reason of a caught gdb exception. *)
Inductive return_reason : Type := RETURN_QUIT | RETURN_ERROR.

(** struct gdb_exception; error is the enum errors code. *)
Record gdb_exception := {
  reason : return_reason;
  error : Z;
  message : string
}.

Context `{GdbHost}.

Definition gdbscm_scm_from_gdb_exception (exception : gdb_exception) : M gdb_state SCM :=
  match reason exception with
  | RETURN_QUIT =>
      gdbscm_make_error exscm_signal_symbol None (Some "User interrupt")
        SCM_EOL (scm_list_1 (scm_from_int SIGINT))
  | RETURN_ERROR =>
      let k := if bool_decide (error exception = MEMORY_ERROR)
               then exscm_memory_error_symbol
               else exscm_error_symbol in
      gdbscm_make_error k None (Some "~A")
        (scm_list_1 (gdbscm_scm_from_c_string (message exception)))
        SCM_BOOL_F
  end.

Definition gdbscm_throw_gdb_exception {A : Type} (exception : gdb_exception) : M gdb_state A :=
  let* e := gdbscm_scm_from_gdb_exception exception in
  gdbscm_throw e.

End Exceptions.

(** ** scm-smob.c, second part: the conversion hooks *)

Section Conversion.
Context `{SmobTags} `{GuileRuntime}.

(** Modelled from the spec: gdbscm_safe_call_1 of scm-safe-call.c, which is
    not among the sources, called with a NULL ok_excps as everywhere below:
    the procedure is applied to one argument; its result is returned as it
    is, and "any thrown failure is captured and returned as an Exception
    Value rather than propagated".  The call is entered in the log first. *)
Definition gdbscm_safe_call_1 (proc arg : SCM) : M gdb_state SCM :=
  λ st, match scm_apply proc [arg] (log_call proc [arg] st) with
        | (Returned v, st') => (Returned v, st')
        | (Thrown k l, st') => gdbscm_make_exception k l st'
        | (Fault, st') => (Fault, st')
        end.

Definition gdbscm_scm_from_gsmob_safe (smob : SCM) : M gdb_state SCM :=
  let* st := get_state in
  let proc := scm_from_smob_var st in
  if gdbscm_is_false proc then ret smob
  else gdbscm_safe_call_1 proc smob.

Definition gdbscm_scm_from_gsmob_unsafe (smob : SCM) : M gdb_state SCM :=
  let* result := gdbscm_scm_from_gsmob_safe smob in
  if gdbscm_is_exception result then gdbscm_throw result
  else ret result.

(** The test both halves of gdbscm_scm_to_gsmob_safe apply: the smob
    predicate of TAG, or membership in the registry when TAG is zero. *)
Definition matches_tag (tag : Z) (scm : SCM) (st : gdb_state) : bool :=
  if bool_decide (tag ≠ 0%Z) then SCM_SMOB_PREDICATE tag scm
  else gdbscm_is_gsmob scm st.

Definition gdbscm_scm_to_gsmob_safe (scm : SCM) (tag : Z) : M gdb_state SCM :=
  let* st := get_state in
  if matches_tag tag scm st then ret scm
  else
    let proc := scm_to_smob_var st in
    if gdbscm_is_false proc then ret SCM_BOOL_F
    else
      let* result := gdbscm_safe_call_1 proc scm in
      if gdbscm_is_false result then ret SCM_BOOL_F
      else if gdbscm_is_exception result then ret result
      else
        let* st' := get_state in
        if matches_tag tag result st' then ret result
        else gdbscm_make_out_of_range_error None 0 result
               "Result of *scm->smob* must be requested gsmob or #f".

Definition gdbscm_scm_to_gsmob_unsafe (scm : SCM) (tag : Z) : M gdb_state SCM :=
  let* result := gdbscm_scm_to_gsmob_safe scm tag in
  if gdbscm_is_exception result then gdbscm_throw result
  else ret result.

(** ** scm-iterator.c *)

Definition itscm_make_iterator_smob (obj prog nxt : SCM) : M gdb_state SCM :=
  scm_new_smob iterator_smob_tag
    (IteratorSmob {| i_base := gdbscm_init_gsmob;
                     object := obj; progress := prog; next_x := nxt |}).

Definition gdbscm_make_iterator (obj prog nxt : SCM) : M gdb_state SCM :=
  let* _ := SCM_ASSERT_TYPE (gdbscm_is_procedure nxt) nxt SCM_ARG3
              "gdbscm_make_iterator" "procedure" in
  let* i_scm := itscm_make_iterator_smob obj prog nxt in
  gdbscm_scm_from_gsmob_unsafe i_scm.

Definition itscm_is_iterator (scm : SCM) : bool :=
  SCM_SMOB_PREDICATE iterator_smob_tag scm.

Definition gdbscm_iterator_p (scm : SCM) : M gdb_state SCM :=
  ret (scm_from_bool (itscm_is_iterator scm)).

Definition itscm_scm_to_iterator_gsmob (scm : SCM) : M gdb_state SCM :=
  gdbscm_scm_to_gsmob_safe scm iterator_smob_tag.

(** (iterator_smob * ) SCM_SMOB_DATA (i_scm) *)
Definition iterator_smob_data (i_scm : SCM) : M gdb_state (N * iterator_smob) :=
  λ st, match i_scm with
        | SCM_SMOB _ a =>
            match smobs st !! a with
            | Some (IteratorSmob i) => (Returned (a, i), st)
            | _ => (Fault, st)
            end
        | _ => (Fault, st)
        end.

Definition itscm_safe_call_next_x (iter : SCM) : M gdb_state SCM :=
  let* _ := gdb_assert (itscm_is_iterator iter) in
  let* i_smob := iterator_smob_data iter in
  gdbscm_safe_call_1 (next_x i_smob.2) iter.

Definition itscm_get_iterator_arg_unsafe (self : SCM) (arg_pos : Z) (func_name : string)
    : M gdb_state SCM :=
  let* i_scm := itscm_scm_to_iterator_gsmob self in
  if gdbscm_is_exception i_scm then gdbscm_throw i_scm
  else
    let* _ := SCM_ASSERT_TYPE (itscm_is_iterator i_scm) self arg_pos func_name
                "gdb:iterator" in
    ret i_scm.

Definition gdbscm_iterator_object (self : SCM) : M gdb_state SCM :=
  let* i_scm := itscm_get_iterator_arg_unsafe self SCM_ARG1 "gdbscm_iterator_object" in
  let* i_smob := iterator_smob_data i_scm in
  ret (object i_smob.2).

Definition gdbscm_iterator_progress (self : SCM) : M gdb_state SCM :=
  let* i_scm := itscm_get_iterator_arg_unsafe self SCM_ARG1 "gdbscm_iterator_progress" in
  let* i_smob := iterator_smob_data i_scm in
  ret (progress i_smob.2).

Definition gdbscm_set_iterator_progress_x (self value : SCM) : M gdb_state SCM :=
  let* i_scm := itscm_get_iterator_arg_unsafe self SCM_ARG1
                  "gdbscm_set_iterator_progress_x" in
  let* i_smob := iterator_smob_data i_scm in
  let* _ := modify_state (set_smobs (insert i_smob.1
              (IteratorSmob {| i_base := i_base i_smob.2; object := object i_smob.2;
                               progress := value; next_x := next_x i_smob.2 |}))) in
  ret SCM_UNSPECIFIED.

Definition gdbscm_iterator_next_x (self : SCM) : M gdb_state SCM :=
  let* i_scm := itscm_get_iterator_arg_unsafe self SCM_ARG1 "gdbscm_iterator_next_x" in
  let* i_smob := iterator_smob_data i_scm in
  gdbscm_safe_call_1 (next_x i_smob.2) self.

End Conversion.

(** ** The objfile reference chains (scm-smob.c) and scm-symtab.c *)

(** The chained_gdb_smob header of the struct at an address. *)
Definition chained_base (d : smob_data) : option chained_gdb_smob :=
  match d with
  | SymtabSmob s => Some (st_base s)
  | TypeSmob t => Some (t_base t)
  | _ => None
  end.

Definition with_chained_base (b : chained_gdb_smob) (d : smob_data) : smob_data :=
  match d with
  | SymtabSmob s => SymtabSmob {| st_base := b; symtab := symtab s |}
  | TypeSmob t => TypeSmob {| t_base := b; type := type t |}
  | _ => d
  end.

Definition read_chained (a : N) : M gdb_state chained_gdb_smob :=
  λ st, match smobs st !! a ≫= chained_base with
        | Some b => (Returned b, st)
        | None => (Fault, st)
        end.

Definition write_chained (a : N) (f : chained_gdb_smob → chained_gdb_smob) : M gdb_state unit :=
  let* b := read_chained a in
  modify_state (set_smobs (alter (with_chained_base (f b)) a)).

Definition set_prev (p : option N) (b : chained_gdb_smob) : chained_gdb_smob :=
  {| c_aux := c_aux b; prev := p; next := next b |}.

Definition set_next (n : option N) (b : chained_gdb_smob) : chained_gdb_smob :=
  {| c_aux := c_aux b; prev := prev b; next := n |}.

(** objfile_data and set_objfile_data of gdb's objfiles.c: the slot of a
    data key in an objfile; storing NULL empties the slot. *)
Definition objfile_data (objfile data_key : N) (st : gdb_state) : option N :=
  objfile_data_tab st !! (objfile, data_key).

Definition set_objfile_data (objfile data_key : N) (datum : option N) : M gdb_state unit :=
  modify_state (set_objfile_data_tab
    (match datum with
     | Some d => insert (objfile, data_key) d
     | None => delete (objfile, data_key)
     end)).

Definition gdbscm_add_objfile_ref (objfile : option N) (data_key : N) (g_smob : N)
    : M gdb_state unit :=
  let* _ := write_chained g_smob (set_prev None) in
  match objfile with
  | Some o =>
      let* st := get_state in
      let nxt := objfile_data o data_key st in
      let* _ := write_chained g_smob (set_next nxt) in
      let* _ := match nxt with
                | Some n => write_chained n (set_prev (Some g_smob))
                | None => ret tt
                end in
      set_objfile_data o data_key (Some g_smob)
  | None => write_chained g_smob (set_next None)
  end.

Definition gdbscm_remove_objfile_ref (objfile : option N) (data_key : N) (g_smob : N)
    : M gdb_state unit :=
  let* b := read_chained g_smob in
  let* _ := match prev b with
            | Some p => write_chained p (set_next (next b))
            | None =>
                match objfile with
                | Some o => set_objfile_data o data_key (next b)
                | None => ret tt
                end
            end in
  match next b with
  | Some n => write_chained n (set_prev (prev b))
  | None => ret tt
  end.

(** (symtab_smob * ) SCM_SMOB_DATA (st_scm): the address and the struct. *)
Definition symtab_smob_data (st_scm : SCM) : M gdb_state (N * symtab_smob) :=
  λ st, match st_scm with
        | SCM_SMOB _ a =>
            match smobs st !! a with
            | Some (SymtabSmob s) => (Returned (a, s), st)
            | _ => (Fault, st)
            end
        | _ => (Fault, st)
        end.

Definition set_symtab (p : option N) (d : smob_data) : smob_data :=
  match d with
  | SymtabSmob s => SymtabSmob {| st_base := st_base s; symtab := p |}
  | _ => d
  end.

(** One turn of the loop of stscm_del_objfile_symtab on the struct it
    visits: symtab, next and prev are set to NULL. *)
Definition invalidate_symtab_smob (s : symtab_smob) : symtab_smob :=
  {| st_base := set_prev None (set_next None (st_base s)); symtab := None |}.

(** The while loop of stscm_del_objfile_symtab.  The fuel bounds the number
    of turns; a turn on an address that holds no symtab smob is a fault. *)
Fixpoint stscm_del_objfile_symtab_loop (fuel : nat) (st_smob : option N)
    (h : gmap N smob_data) : option (gmap N smob_data) :=
  match st_smob with
  | None => Some h
  | Some a =>
      match fuel with
      | O => None
      | S fuel' =>
          match h !! a with
          | Some (SymtabSmob s) =>
              stscm_del_objfile_symtab_loop fuel' (next (st_base s))
                (<[a := SymtabSmob (invalidate_symtab_smob s)]> h)
          | _ => None
          end
      end
  end.

(** stscm_del_objfile_symtab (objfile, datum).  Every turn but the last
    visits a struct whose next link is then cleared, so the loop takes at most
    one turn more than there are structs. *)
Definition stscm_del_objfile_symtab (objfile : N) (datum : option N) : M gdb_state unit :=
  λ st, match stscm_del_objfile_symtab_loop (S (size (smobs st))) datum (smobs st) with
        | Some h => (Returned tt, set_smobs (λ _, h) st)
        | None => (Fault, st)
        end.

Section Symtab.
Context `{SmobTags} `{GuileRuntime} `{GdbHost}.

Definition stscm_make_symtab_smob : M gdb_state SCM :=
  scm_new_smob symtab_smob_tag
    (SymtabSmob {| st_base := gdbscm_init_chained_gsmob; symtab := None |}).

Definition stscm_is_symtab (scm : SCM) : bool :=
  SCM_SMOB_PREDICATE symtab_smob_tag scm.

Definition gdbscm_symtab_p (scm : SCM) : M gdb_state SCM :=
  ret (scm_from_bool (stscm_is_symtab scm)).

Definition stscm_gsmob_from_symtab (sym : N) : M gdb_state SCM :=
  let* st_scm := stscm_make_symtab_smob in
  let* st_smob := symtab_smob_data st_scm in
  let* _ := gdbscm_add_objfile_ref (symtab_objfile sym) stscm_objfile_data_key st_smob.1 in
  let* _ := modify_state (set_smobs (alter (set_symtab (Some sym)) st_smob.1)) in
  ret st_scm.

Definition stscm_scm_from_symtab_unsafe (sym : N) : M gdb_state SCM :=
  let* st_scm := stscm_make_symtab_smob in
  let* st_smob := symtab_smob_data st_scm in
  let* _ := modify_state (set_smobs (alter (set_symtab (Some sym)) st_smob.1)) in
  let* result := gdbscm_scm_from_gsmob_unsafe st_scm in
  if gdbscm_is_exception result then gdbscm_throw result
  else
    let* _ := gdbscm_add_objfile_ref (symtab_objfile sym) stscm_objfile_data_key
                st_smob.1 in
    ret result.

(** The smob "free" function, run when the handle is collected. *)
Definition stscm_free_symtab_smob (self : SCM) : M gdb_state unit :=
  let* st_smob := symtab_smob_data self in
  let* _ := gdbscm_remove_objfile_ref
              (symtab st_smob.2 ≫= symtab_objfile)
              stscm_objfile_data_key st_smob.1 in
  modify_state (set_smobs (alter (set_symtab None) st_smob.1)).

Definition stscm_scm_to_symtab_gsmob (scm : SCM) : M gdb_state SCM :=
  gdbscm_scm_to_gsmob_safe scm symtab_smob_tag.

Definition stscm_get_symtab_arg_unsafe (self : SCM) (arg_pos : Z) (func_name : string)
    : M gdb_state SCM :=
  let* st_scm := stscm_scm_to_symtab_gsmob self in
  if gdbscm_is_exception st_scm then gdbscm_throw st_scm
  else
    let* _ := SCM_ASSERT_TYPE (stscm_is_symtab st_scm) self arg_pos func_name
                "gdb:symtab" in
    ret st_scm.

Definition stscm_get_symtab_smob_arg_unsafe (self : SCM) (arg_pos : Z) (func_name : string)
    : M gdb_state (N * symtab_smob) :=
  let* st_scm := stscm_get_symtab_arg_unsafe self arg_pos func_name in
  symtab_smob_data st_scm.

Definition stscm_is_valid (st_smob : symtab_smob) : bool :=
  bool_decide (symtab st_smob ≠ None).

Definition stscm_get_valid_symtab_smob_arg_unsafe (self : SCM) (arg_pos : Z)
    (func_name : string) : M gdb_state (N * symtab_smob) :=
  let* st_smob := stscm_get_symtab_smob_arg_unsafe self arg_pos func_name in
  if negb (stscm_is_valid st_smob.2)
  then gdbscm_invalid_object_error (Some func_name) arg_pos self "invalid <gdb:symtab>"
  else ret st_smob.

(** st_smob->symtab handed to a function of gdb that dereferences it. *)
Definition deref_symtab {A : Type} (st_smob : symtab_smob) (k : N → M gdb_state A)
    : M gdb_state A :=
  match symtab st_smob with
  | Some sym => k sym
  | None => fault
  end.

Definition gdbscm_symtab_valid_p (self : SCM) : M gdb_state SCM :=
  let* st_smob := stscm_get_symtab_smob_arg_unsafe self SCM_ARG1 "gdbscm_symtab_valid_p" in
  ret (scm_from_bool (stscm_is_valid st_smob.2)).

Definition gdbscm_symtab_filename (self : SCM) : M gdb_state SCM :=
  let* st_smob := stscm_get_valid_symtab_smob_arg_unsafe self SCM_ARG1
                    "gdbscm_symtab_filename" in
  deref_symtab st_smob.2 (λ sym,
    ret (gdbscm_scm_from_c_string (symtab_to_filename_for_display sym))).

Definition gdbscm_symtab_fullname (self : SCM) : M gdb_state SCM :=
  let* st_smob := stscm_get_valid_symtab_smob_arg_unsafe self SCM_ARG1
                    "gdbscm_symtab_fullname" in
  deref_symtab st_smob.2 (λ sym,
    ret (gdbscm_scm_from_c_string (symtab_to_fullname sym))).

Definition gdbscm_symtab_objfile (self : SCM) : M gdb_state SCM :=
  let* st_smob := stscm_get_valid_symtab_smob_arg_unsafe self SCM_ARG1
                    "gdbscm_symtab_objfile" in
  deref_symtab st_smob.2 (λ sym, ofscm_scm_from_objfile_unsafe (symtab_objfile sym)).

Definition gdbscm_symtab_global_block (self : SCM) : M gdb_state SCM :=
  let* st_smob := stscm_get_valid_symtab_smob_arg_unsafe self SCM_ARG1
                    "gdbscm_symtab_global_block" in
  deref_symtab st_smob.2 bkscm_scm_from_global_block_unsafe.

Definition gdbscm_symtab_static_block (self : SCM) : M gdb_state SCM :=
  let* st_smob := stscm_get_valid_symtab_smob_arg_unsafe self SCM_ARG1
                    "gdbscm_symtab_static_block" in
  deref_symtab st_smob.2 bkscm_scm_from_static_block_unsafe.

(** The arguments of the invalid-object error a stale symtab handle gets. *)
Definition stale_symtab_args (self : SCM) (arg_pos : Z) (func_name : string) : SCM :=
  scm_list_4 (SCM_STRING func_name)
    (SCM_STRING (arg_error_message arg_pos "invalid <gdb:symtab>"))
    (scm_list_1 self) (scm_list_1 self).

(** The accessors of scm-symtab.c that go through
    stscm_get_valid_symtab_smob_arg_unsafe. *)
Definition symtab_accessors : list (SCM → M gdb_state SCM) :=
  [gdbscm_symtab_filename; gdbscm_symtab_fullname; gdbscm_symtab_objfile;
   gdbscm_symtab_global_block; gdbscm_symtab_static_block].

(** Modelled from the spec: the objfile teardown of gdb's objfiles.c, which
    is not among the sources.  "The host's module/compilation-unit lifecycle
    calls a registered per-kind teardown function with the resource and the
    head of its Chained Handle list"; the callback registered for symtab
    smobs by register_objfile_data_with_cleanup is stscm_del_objfile_symtab.
    The objfile is gone afterwards, and its data slot with it. *)
Definition free_objfile (objfile : N) : M gdb_state unit :=
  let* st := get_state in
  let* _ := match objfile_data objfile stscm_objfile_data_key st with
            | Some datum => stscm_del_objfile_symtab objfile (Some datum)
            | None => ret tt
            end in
  set_objfile_data objfile stscm_objfile_data_key None.

End Symtab.

(** ** scm-ports.c: memory ports *)

(** Modelled from the spec: the integer types of defs.h and of the platform,
    which are not among the sources.  CORE_ADDR, ULONGEST and size_t are
    unsigned 64-bit integers ("0xFFFF...F (all bits set)" is the largest
    address), LONGEST and scm_t_off are signed 64-bit integers, int is a
    signed 32-bit integer. *)
Definition u64 (z : Z) : Z := (z mod 2 ^ 64)%Z.
Definition s64 (z : Z) : Z := ((z + 2 ^ 63) mod 2 ^ 64 - 2 ^ 63)%Z.
Definition s32 (z : Z) : Z := ((z + 2 ^ 31) mod 2 ^ 32 - 2 ^ 31)%Z.

(** ~(CORE_ADDR) 0 *)
Definition CORE_ADDR_MAX : Z := (2 ^ 64 - 1)%Z.

Definition SEEK_SET : Z := 0.
Definition SEEK_CUR : Z := 1.
Definition SEEK_END : Z := 2.
Definition EOF : Z := (-1).

Definition default_read_buf_size : Z := 16.
Definition default_write_buf_size : Z := 16.
Definition min_memory_port_buf_size : Z := 1.
Definition max_memory_port_buf_size : Z := 4096.

(** xstrprintf ("size not between %u - %u", min, max) *)
Definition out_of_range_buf_size : string :=
  "size not between " +:+ pretty min_memory_port_buf_size +:+ " - "
    +:+ pretty max_memory_port_buf_size.

(** Data for a memory port. *)
Record ioscm_memory_port := {
  iomem_start : Z;
  iomem_end : Z;
  iomem_size : Z;
  iomem_current : Z;
  iomem_read_buf_size : Z;
  iomem_write_buf_size : Z
}.

Inductive scm_t_port_rw_active : Type :=
| SCM_PORT_NEITHER
| SCM_PORT_READ
| SCM_PORT_WRITE.

(** The fields of Guile's scm_t_port the memory port uses.  A buffer is the
    list of its bytes; read_pos, read_end, write_pos and write_end are
    offsets from the start of their buffer.  putback says that read_buf is
    the putback buffer (pt->read_buf == pt->putback_buf), in which case the
    saved_ fields hold the regular read buffer. *)
Record scm_t_port := {
  rw_active : scm_t_port_rw_active;
  rw_random : bool;
  read_buf : list byte;
  read_pos : Z;
  read_end : Z;
  read_buf_size : Z;
  putback : bool;
  saved_read_buf : list byte;
  saved_read_pos : Z;
  saved_read_end : Z;
  saved_read_buf_size : Z;
  write_buf : list byte;
  write_pos : Z;
  write_end : Z;
  write_buf_size : Z
}.

(** A memory port: the cell type word, the port table entry and the stream. *)
Record memory_port := {
  cell_type : Z;
  pt : scm_t_port;
  iomem : ioscm_memory_port
}.

(** The debuggee: target_read_memory and target_write_memory of gdb's
    target.c succeed or fail as the target decides. *)
Class Target := {
  inferior : Type;
  target_read_memory : inferior → Z → Z → option (list byte);
  target_write_memory : inferior → Z → list byte → option inferior
}.

Record port_world `{Target} := {
  w_gdb : gdb_state;
  w_inferior : inferior;
  w_port : memory_port
}.

Definition set_current (c : Z) (io : ioscm_memory_port) : ioscm_memory_port :=
  {| iomem_start := iomem_start io; iomem_end := iomem_end io;
     iomem_size := iomem_size io; iomem_current := c;
     iomem_read_buf_size := iomem_read_buf_size io;
     iomem_write_buf_size := iomem_write_buf_size io |}.

Definition set_iomem_read_buf_size (n : Z) (io : ioscm_memory_port) : ioscm_memory_port :=
  {| iomem_start := iomem_start io; iomem_end := iomem_end io;
     iomem_size := iomem_size io; iomem_current := iomem_current io;
     iomem_read_buf_size := n;
     iomem_write_buf_size := iomem_write_buf_size io |}.

Definition set_iomem_write_buf_size (n : Z) (io : ioscm_memory_port) : ioscm_memory_port :=
  {| iomem_start := iomem_start io; iomem_end := iomem_end io;
     iomem_size := iomem_size io; iomem_current := iomem_current io;
     iomem_read_buf_size := iomem_read_buf_size io;
     iomem_write_buf_size := n |}.

Definition set_rw_active (a : scm_t_port_rw_active) (p : scm_t_port) : scm_t_port :=
  {| rw_active := a; rw_random := rw_random p;
     read_buf := read_buf p; read_pos := read_pos p; read_end := read_end p;
     read_buf_size := read_buf_size p; putback := putback p;
     saved_read_buf := saved_read_buf p; saved_read_pos := saved_read_pos p;
     saved_read_end := saved_read_end p; saved_read_buf_size := saved_read_buf_size p;
     write_buf := write_buf p; write_pos := write_pos p; write_end := write_end p;
     write_buf_size := write_buf_size p |}.

(** Assignment to read_buf, read_pos, read_end and read_buf_size. *)
Definition set_read (b : list byte) (pos e n : Z) (p : scm_t_port) : scm_t_port :=
  {| rw_active := rw_active p; rw_random := rw_random p;
     read_buf := b; read_pos := pos; read_end := e;
     read_buf_size := n; putback := putback p;
     saved_read_buf := saved_read_buf p; saved_read_pos := saved_read_pos p;
     saved_read_end := saved_read_end p; saved_read_buf_size := saved_read_buf_size p;
     write_buf := write_buf p; write_pos := write_pos p; write_end := write_end p;
     write_buf_size := write_buf_size p |}.

Definition set_putback (b : bool) (p : scm_t_port) : scm_t_port :=
  {| rw_active := rw_active p; rw_random := rw_random p;
     read_buf := read_buf p; read_pos := read_pos p; read_end := read_end p;
     read_buf_size := read_buf_size p; putback := b;
     saved_read_buf := saved_read_buf p; saved_read_pos := saved_read_pos p;
     saved_read_end := saved_read_end p; saved_read_buf_size := saved_read_buf_size p;
     write_buf := write_buf p; write_pos := write_pos p; write_end := write_end p;
     write_buf_size := write_buf_size p |}.

(** Assignment to write_buf, write_pos, write_end and write_buf_size. *)
Definition set_write (b : list byte) (pos e n : Z) (p : scm_t_port) : scm_t_port :=
  {| rw_active := rw_active p; rw_random := rw_random p;
     read_buf := read_buf p; read_pos := read_pos p; read_end := read_end p;
     read_buf_size := read_buf_size p; putback := putback p;
     saved_read_buf := saved_read_buf p; saved_read_pos := saved_read_pos p;
     saved_read_end := saved_read_end p; saved_read_buf_size := saved_read_buf_size p;
     write_buf := b; write_pos := pos; write_end := e;
     write_buf_size := n |}.

(** xmalloc (n): the bytes of a new buffer, taken to be zero. *)
Definition xmalloc (n : Z) : list byte := replicate (Z.to_nat n) Byte.x00.

(** Guile's scm_mode_bits (libguile/ports.c) and the mode flags of ports.h. *)
Definition SCM_OPN : Z := Z.shiftl 1 16.
Definition SCM_RDNG : Z := Z.shiftl 2 16.
Definition SCM_WRTNG : Z := Z.shiftl 4 16.
Definition SCM_BUF0 : Z := Z.shiftl 8 16.
Definition SCM_BUFLINE : Z := Z.shiftl 64 16.

Fixpoint strchr (s : string) (c : ascii) : bool :=
  match s with
  | EmptyString => false
  | String c' s' => if bool_decide (c' = c) then true else strchr s' c
  end.

Definition scm_mode_bits (mode : string) : Z :=
  Z.lor SCM_OPN
   (Z.lor (if strchr mode "r"%char || strchr mode "+"%char then SCM_RDNG else 0%Z)
     (Z.lor (if strchr mode "w"%char || strchr mode "a"%char || strchr mode "+"%char
             then SCM_WRTNG else 0%Z)
       (Z.lor (if strchr mode "0"%char then SCM_BUF0 else 0%Z)
              (if strchr mode "l"%char then SCM_BUFLINE else 0%Z)))).

(** The for loop of ioscm_parse_mode_bits: every further character is 'b'
    or '+'. *)
Fixpoint mode_modifiers_ok (p : string) : bool :=
  match p with
  | EmptyString => true
  | String c p' =>
      (bool_decide (c = "b"%char) || bool_decide (c = "+"%char)) && mode_modifiers_ok p'
  end.

Definition mode_string_ok (mode : string) : bool :=
  match mode with
  | EmptyString => false
  | String c p =>
      (bool_decide (c = "r"%char) || bool_decide (c = "w"%char)) && mode_modifiers_ok p
  end.

Section MemoryPort.
Context `{SmobTags} `{Target}.

(** A function of the glue that only touches the gdb state, run in a world
    that also holds the debuggee and the port. *)
Definition set_gdb (g : gdb_state) (w : port_world) : port_world :=
  {| w_gdb := g; w_inferior := w_inferior w; w_port := w_port w |}.

Definition lift_gdb {A : Type} (m : M gdb_state A) : M port_world A :=
  λ w, ((m (w_gdb w)).1, set_gdb (m (w_gdb w)).2 w).

Definition set_pt (f : scm_t_port → scm_t_port) (w : port_world) : port_world :=
  {| w_gdb := w_gdb w; w_inferior := w_inferior w;
     w_port := {| cell_type := cell_type (w_port w);
                  pt := f (pt (w_port w));
                  iomem := iomem (w_port w) |} |}.

Definition set_iomem (f : ioscm_memory_port → ioscm_memory_port) (w : port_world)
    : port_world :=
  {| w_gdb := w_gdb w; w_inferior := w_inferior w;
     w_port := {| cell_type := cell_type (w_port w);
                  pt := pt (w_port w);
                  iomem := f (iomem (w_port w)) |} |}.

Definition set_inferior (i : inferior) (w : port_world) : port_world :=
  {| w_gdb := w_gdb w; w_inferior := i; w_port := w_port w |}.

Definition ioscm_lseek_address (offset whence : Z) : M port_world bool :=
  let* w := get_state in
  let io := iomem (w_port w) in
  let* _ := gdb_assert (bool_decide (iomem_current io ≤ iomem_size io)%Z) in
  let finish (new_current : Z) : M port_world bool :=
    if bool_decide (new_current > iomem_size io)%Z then ret false
    else
      let* _ := modify_state (set_iomem (set_current new_current)) in
      ret true in
  if bool_decide (whence = SEEK_CUR) then
    if bool_decide ((offset < 0 ∧ u64 (iomem_current io + offset) > iomem_current io)
                    ∨ (offset >= 0 ∧ u64 (iomem_current io + offset) < iomem_current io))%Z
    then ret false
    else finish (u64 (iomem_current io + offset))
  else if bool_decide (whence = SEEK_SET) then finish (u64 offset)
  else if bool_decide (whence = SEEK_END) then
    if bool_decide (offset = 0%Z) then finish (iomem_size io) else ret false
  else ret false.

Definition byte_to_Z (b : byte) : Z := Z.of_N (Byte.to_N b).

Definition gdbscm_memory_port_fill_input (port : SCM) : M port_world Z :=
  let* w := get_state in
  let p := pt (w_port w) in
  let io := iomem (w_port w) in
  if bool_decide (iomem_current io >= iomem_size io)%Z then ret EOF
  else
    let to_read :=
      if bool_decide (u64 (read_buf_size p) > u64 (iomem_size io - iomem_current io))%Z
      then u64 (iomem_size io - iomem_current io)
      else u64 (read_buf_size p) in
    match target_read_memory (w_inferior w) (u64 (iomem_start io + iomem_current io))
            to_read with
    | None =>
        lift_gdb (gdbscm_memory_error (Some "gdbscm_memory_port_fill_input")
                    "error reading memory" SCM_EOL)
    | Some data =>
        let buf := data ++ drop (length data) (read_buf p) in
        let* _ := modify_state (set_pt (set_read buf 0 to_read (read_buf_size p))) in
        let* _ := modify_state
                    (set_iomem (set_current (u64 (iomem_current io + to_read)))) in
        ret (from_option byte_to_Z 0%Z (head buf))
    end.

Definition gdbscm_memory_port_end_input (port : SCM) (offset : Z) : M port_world unit :=
  let* w := get_state in
  let p := pt (w_port w) in
  let remaining := u64 (read_end p - read_pos p) in
  let* _ :=
    if bool_decide ((offset < 0 ∧ u64 (remaining + offset) > remaining)
                    ∨ (offset > 0 ∧ u64 (remaining + offset) < remaining))%Z
    then lift_gdb (gdbscm_out_of_range_error (Some "gdbscm_memory_port_end_input") 0
                     (scm_from_int offset) "overflow in offset calculation")
    else ret tt in
  let offset := s32 (offset + remaining) in
  let* _ :=
    if bool_decide (offset > 0)%Z then
      let* _ := modify_state
                  (set_pt (λ p, set_read (read_buf p) (read_end p) (read_end p)
                                   (read_buf_size p) p)) in
      let* ok := ioscm_lseek_address (s64 (- offset)) SEEK_CUR in
      if negb ok
      then lift_gdb (gdbscm_out_of_range_error (Some "gdbscm_memory_port_end_input") 0
                       (scm_from_int offset) "bad offset")
      else ret tt
    else ret tt in
  modify_state (set_pt (set_rw_active SCM_PORT_NEITHER)).

(** Guile's scm_end_input (libguile/ports.c): leave the putback buffer, if
    it is in use, and hand the number of bytes it still held to the port's
    end_input method. *)
Definition scm_end_input (port : SCM) : M port_world unit :=
  let* w := get_state in
  let p := pt (w_port w) in
  if putback p then
    let offset := s64 (read_end p - read_pos p) in
    let* _ := modify_state
                (set_pt (λ p, set_putback false
                   (set_read (saved_read_buf p) (saved_read_pos p) (saved_read_end p)
                             (saved_read_buf_size p) p))) in
    gdbscm_memory_port_end_input port (s32 offset)
  else gdbscm_memory_port_end_input port 0.

Definition gdbscm_memory_port_flush (port : SCM) : M port_world unit :=
  let* w := get_state in
  let p := pt (w_port w) in
  let io := iomem (w_port w) in
  let to_write := u64 (write_pos p) in
  if bool_decide (to_write = 0%Z) then ret tt
  else
    let* _ :=
      if bool_decide (to_write > u64 (iomem_size io - iomem_current io))%Z
      then lift_gdb (gdbscm_out_of_range_error (Some "gdbscm_memory_port_flush") 0
                       (gdbscm_scm_from_ulongest to_write)
                       "writing beyond end of memory range")
      else ret tt in
    match target_write_memory (w_inferior w) (u64 (iomem_start io + iomem_current io))
            (take (Z.to_nat to_write) (write_buf p)) with
    | None =>
        lift_gdb (gdbscm_memory_error (Some "gdbscm_memory_port_flush")
                    "error writing memory" SCM_EOL)
    | Some inf' =>
        let* _ := modify_state (set_inferior inf') in
        let* _ := modify_state
                    (set_iomem (set_current (u64 (iomem_current io + to_write)))) in
        let* _ := modify_state
                    (set_pt (λ p, set_write (write_buf p) 0 (write_end p)
                                    (write_buf_size p) p)) in
        modify_state (set_pt (set_rw_active SCM_PORT_NEITHER))
    end.

(** The world after a flush of n bytes that the target accepted. *)
Definition flushed (n : Z) (inf' : inferior) (w : port_world) : port_world :=
  set_pt (set_rw_active SCM_PORT_NEITHER)
    (set_pt (λ p, set_write (write_buf p) 0 (write_end p) (write_buf_size p) p)
       (set_iomem (set_current (iomem_current (iomem (w_port w)) + n))
          (set_inferior inf' w))).

(** The request is DATA, of size [length data]. *)
Definition gdbscm_memory_port_write (port : SCM) (data : list byte) : M port_world unit :=
  let size := u64 (Z.of_nat (length data)) in
  let* _ := gdbscm_memory_port_flush port in
  let* w := get_state in
  let io := iomem (w_port w) in
  let* _ :=
    if bool_decide (size > u64 (iomem_size io - iomem_current io))%Z
    then lift_gdb (gdbscm_out_of_range_error (Some "gdbscm_memory_port_write") 0
                     (gdbscm_scm_from_ulongest size)
                     "writing beyond end of memory range")
    else ret tt in
  match target_write_memory (w_inferior w) (u64 (iomem_start io + iomem_current io))
          data with
  | None =>
      lift_gdb (gdbscm_memory_error (Some "gdbscm_memory_port_write")
                  "error writing memory" SCM_EOL)
  | Some inf' =>
      let* _ := modify_state (set_inferior inf') in
      modify_state (set_iomem (set_current (u64 (iomem_current io + size))))
  end.

(** The world after a direct write of len bytes that the target accepted. *)
Definition written (len : Z) (inf' : inferior) (w : port_world) : port_world :=
  set_iomem (set_current (iomem_current (iomem (w_port w)) + len)) (set_inferior inf' w).

(** The pair (rc, result) the branches of gdbscm_memory_port_seek compute;
    result is not assigned when rc is zero. *)
Definition seek_after (offset whence : Z) : M port_world (bool * Z) :=
  let* rc := ioscm_lseek_address offset whence in
  let* w := get_state in
  ret (rc, iomem_current (iomem (w_port w))).

Definition gdbscm_memory_port_seek (port : SCM) (offset whence : Z) : M port_world Z :=
  let* w := get_state in
  let p := pt (w_port w) in
  let io := iomem (w_port w) in
  let* r :=
    match rw_active p with
    | SCM_PORT_WRITE =>
        if bool_decide (offset ≠ 0%Z ∨ whence ≠ SEEK_CUR) then
          let* _ := gdbscm_memory_port_flush port in
          seek_after offset whence
        else
          let current := iomem_current io in
          let delta := u64 (write_pos p) in
          if bool_decide (u64 (current + delta) < current
                          ∨ u64 (current + delta) > u64 (iomem_size io + 1))%Z
          then ret (false, 0%Z)
          else ret (true, u64 (current + delta))
    | SCM_PORT_READ =>
        if bool_decide (offset ≠ 0%Z ∨ whence ≠ SEEK_CUR) then
          let* _ := scm_end_input port in
          seek_after offset whence
        else
          let current := iomem_current io in
          let remaining := u64 (read_end p - read_pos p) in
          let r1 :=
            if bool_decide (u64 (current - remaining) > current
                            ∨ u64 (current - remaining) < iomem_start io)%Z
            then (false, 0%Z)
            else (true, u64 (current - remaining)) in
          if r1.1 && putback p then
            let saved_remaining := u64 (saved_read_end p - saved_read_pos p) in
            if bool_decide (u64 (r1.2 - saved_remaining) > r1.2
                            ∨ u64 (r1.2 - saved_remaining) < iomem_start io)%Z
            then ret (false, r1.2)
            else ret (true, u64 (r1.2 - saved_remaining))
          else ret r1
    | SCM_PORT_NEITHER => seek_after offset whence
    end in
  if negb r.1
  then lift_gdb (gdbscm_out_of_range_error (Some "gdbscm_memory_port_seek") 0
                   (gdbscm_scm_from_longest offset) "bad seek")
  else ret (s64 r.2).

(** Guile's scm_c_write (libguile/ports.c), the entry point of every write
    to a port: leave read mode, call the port's write method, and mark a
    random-access port as writing. *)
Definition scm_c_write (port : SCM) (data : list byte) : M port_world unit :=
  let* w := get_state in
  let* _ := match rw_active (pt (w_port w)) with
            | SCM_PORT_READ => scm_end_input port
            | _ => ret tt
            end in
  let* _ := gdbscm_memory_port_write port data in
  let* w' := get_state in
  if rw_random (pt (w_port w'))
  then modify_state (set_pt (set_rw_active SCM_PORT_WRITE))
  else ret tt.

Definition ioscm_parse_mode_bits (func_name : string) (mode : string) : M gdb_state Z :=
  if mode_string_ok mode then ret (scm_mode_bits mode)
  else gdbscm_out_of_range_error (Some func_name) 0 (gdbscm_scm_from_c_string mode)
         "bad mode string".

(** scm_new_port_table_entry gives an entry with no buffers, neither
    reading nor writing. *)
Definition ioscm_open_port (port_type mode_bits : Z) : memory_port :=
  {| cell_type := Z.lor port_type mode_bits;
     pt := {| rw_active := SCM_PORT_NEITHER; rw_random := false;
              read_buf := []; read_pos := 0; read_end := 0; read_buf_size := 0;
              putback := false;
              saved_read_buf := []; saved_read_pos := 0; saved_read_end := 0;
              saved_read_buf_size := 0;
              write_buf := []; write_pos := 0; write_end := 0; write_buf_size := 0 |};
     iomem := {| iomem_start := 0; iomem_end := 0; iomem_size := 0; iomem_current := 0;
                 iomem_read_buf_size := 0; iomem_write_buf_size := 0 |} |}.

Definition ioscm_init_memory_port (port : memory_port) (start end_ : Z)
    : M gdb_state memory_port :=
  let* _ := gdb_assert (bool_decide (start ≤ end_)%Z) in
  let* _ := gdb_assert (bool_decide (end_ < CORE_ADDR_MAX)%Z) in
  let io := {| iomem_start := start; iomem_end := end_;
               iomem_size := u64 (end_ - start + 1); iomem_current := 0;
               iomem_read_buf_size := default_read_buf_size;
               iomem_write_buf_size := default_write_buf_size |} in
  ret {| cell_type := cell_type port;
         pt := {| rw_active := rw_active (pt port); rw_random := true;
                  read_buf := xmalloc (iomem_read_buf_size io);
                  read_pos := 0; read_end := 0;
                  read_buf_size := iomem_read_buf_size io;
                  putback := putback (pt port);
                  saved_read_buf := saved_read_buf (pt port);
                  saved_read_pos := saved_read_pos (pt port);
                  saved_read_end := saved_read_end (pt port);
                  saved_read_buf_size := saved_read_buf_size (pt port);
                  write_buf := xmalloc (iomem_write_buf_size io);
                  write_pos := 0;
                  write_end := iomem_write_buf_size io;
                  write_buf_size := iomem_write_buf_size io |};
         iomem := io |}.

Definition ioscm_reinit_memory_port (port : SCM) (read_size write_size : Z)
    (func_name : string) : M port_world unit :=
  let* _ := gdb_assert (bool_decide (read_size >= min_memory_port_buf_size
                                     ∧ read_size ≤ max_memory_port_buf_size)%Z) in
  let* _ := gdb_assert (bool_decide (write_size >= min_memory_port_buf_size
                                     ∧ write_size ≤ max_memory_port_buf_size)%Z) in
  let* w := get_state in
  let p := pt (w_port w) in
  let* _ :=
    if bool_decide (read_size ≠ read_buf_size p ∧ read_end p ≠ 0%Z)
    then scm_misc_error func_name "read buffer not empty: ~a" (scm_list_1 port)
    else ret tt in
  let* _ :=
    if bool_decide (write_size ≠ write_buf_size p ∧ write_pos p ≠ 0%Z)
    then scm_misc_error func_name "write buffer not empty: ~a" (scm_list_1 port)
    else ret tt in
  let* _ :=
    if bool_decide (read_size ≠ read_buf_size p) then
      let* _ := modify_state (set_iomem (set_iomem_read_buf_size read_size)) in
      modify_state (set_pt (set_read (xmalloc read_size) 0 0 read_size))
    else ret tt in
  if bool_decide (write_size ≠ write_buf_size p) then
    let* _ := modify_state (set_iomem (set_iomem_write_buf_size write_size)) in
    modify_state (set_pt (set_write (xmalloc write_size) 0 write_size write_size))
  else ret tt.

(** The world after ioscm_reinit_memory_port has replaced the read buffer,
    and the one after it has replaced the write buffer, by one of n bytes. *)
Definition read_buffer_replaced (n : Z) (w : port_world) : port_world :=
  set_pt (set_read (xmalloc n) 0 0 n) (set_iomem (set_iomem_read_buf_size n) w).

Definition write_buffer_replaced (n : Z) (w : port_world) : port_world :=
  set_pt (set_write (xmalloc n) 0 n n) (set_iomem (set_iomem_write_buf_size n) w).

(** gdbscm_open_memory after gdbscm_parse_function_args has read the keyword
    arguments: MODE and START are the parsed #:mode and #:start or None, SIZE
    is the parsed #:size or None (size_arg_pos > 0 exactly when it is given). *)
Definition gdbscm_open_memory (mode : option string) (start_arg size_arg : option Z)
    : M gdb_state memory_port :=
  let func_name := "gdbscm_open_memory" in
  let mode := default "r" mode in
  let start := default 0%Z start_arg in
  let* _ :=
    if bool_decide (start = CORE_ADDR_MAX)
    then gdbscm_out_of_range_error (Some func_name) SCM_ARG1 (scm_from_int (-1))
           "start address of 0xff..ff not allowed"
    else ret tt in
  let* end_ :=
    match size_arg with
    | Some size =>
        let* _ :=
          if bool_decide (size = 0%Z)
          then gdbscm_out_of_range_error (Some func_name) 0 (scm_from_int 0) "zero size"
          else ret tt in
        let* _ :=
          if bool_decide (u64 (start + size) < start)%Z
          then gdbscm_out_of_range_error (Some func_name) 0
                 (scm_list_2 (gdbscm_scm_from_ulongest start)
                             (gdbscm_scm_from_ulongest size))
                 "start+size overflows"
          else ret tt in
        let end_ := u64 (start + size - 1) in
        let* _ :=
          if bool_decide (end_ = CORE_ADDR_MAX)
          then gdbscm_out_of_range_error (Some func_name) 0
                 (scm_list_2 (gdbscm_scm_from_ulongest start)
                             (gdbscm_scm_from_ulongest size))
                 "end address of 0xff..ff not allowed"
          else ret tt in
        ret end_
    | None => ret (CORE_ADDR_MAX - 1)%Z
    end in
  let* mode_bits := ioscm_parse_mode_bits func_name mode in
  let port := ioscm_open_port memory_port_desc mode_bits in
  ioscm_init_memory_port port start end_.

Definition gdbscm_is_memory_port (obj : SCM) : bool :=
  match obj with
  | SCM_PORT d _ => bool_decide (d = memory_port_desc)
  | _ => false
  end.

Definition gdbscm_memory_port_p (obj : SCM) : M port_world SCM :=
  ret (scm_from_bool (gdbscm_is_memory_port obj)).

Definition gdbscm_memory_port_range (port : SCM) : M port_world SCM :=
  let* _ := SCM_ASSERT_TYPE (gdbscm_is_memory_port port) port SCM_ARG1
              "gdbscm_memory_port_range" "gdb:memory-port" in
  let* w := get_state in
  ret (scm_list_2 (gdbscm_scm_from_ulongest (iomem_start (iomem (w_port w))))
                  (gdbscm_scm_from_ulongest (iomem_end (iomem (w_port w))))).

Definition gdbscm_memory_port_read_buffer_size (port : SCM) : M port_world SCM :=
  let* _ := SCM_ASSERT_TYPE (gdbscm_is_memory_port port) port SCM_ARG1
              "gdbscm_memory_port_read_buffer_size" "gdb:memory-port" in
  let* w := get_state in
  ret (SCM_INUM (iomem_read_buf_size (iomem (w_port w)))).

Definition gdbscm_memory_port_write_buffer_size (port : SCM) : M port_world SCM :=
  let* _ := SCM_ASSERT_TYPE (gdbscm_is_memory_port port) port SCM_ARG1
              "gdbscm_memory_port_write_buffer_size" "gdb:memory-port" in
  let* w := get_state in
  ret (SCM_INUM (iomem_write_buf_size (iomem (w_port w)))).

(** scm_is_unsigned_integer (size, min, max) *)
Definition scm_is_unsigned_integer (size : SCM) (lo hi : Z) : bool :=
  match size with
  | SCM_INUM n => bool_decide (lo ≤ n ∧ n ≤ hi)%Z
  | _ => false
  end.

Definition scm_to_uint (size : SCM) : Z :=
  match size with SCM_INUM n => n | _ => 0%Z end.

Definition gdbscm_set_memory_port_read_buffer_size_x (port size : SCM) : M port_world SCM :=
  let func_name := "gdbscm_set_memory_port_read_buffer_size_x" in
  let* _ := SCM_ASSERT_TYPE (gdbscm_is_memory_port port) port SCM_ARG1 func_name
              "gdb:memory-port" in
  let* _ := SCM_ASSERT_TYPE (scm_is_integer size) size SCM_ARG2 func_name "integer" in
  let* _ :=
    if negb (scm_is_unsigned_integer size min_memory_port_buf_size
               max_memory_port_buf_size)
    then lift_gdb (gdbscm_out_of_range_error (Some func_name) SCM_ARG2 size
                     out_of_range_buf_size)
    else ret tt in
  let* w := get_state in
  let* _ := ioscm_reinit_memory_port port (scm_to_uint size)
              (iomem_write_buf_size (iomem (w_port w))) func_name in
  ret SCM_UNSPECIFIED.

Definition gdbscm_set_memory_port_write_buffer_size_x (port size : SCM) : M port_world SCM :=
  let func_name := "gdbscm_set_memory_port_write_buffer_size_x" in
  let* _ := SCM_ASSERT_TYPE (gdbscm_is_memory_port port) port SCM_ARG1 func_name
              "gdb:memory-port" in
  let* _ := SCM_ASSERT_TYPE (scm_is_integer size) size SCM_ARG2 func_name "integer" in
  let* _ :=
    if negb (scm_is_unsigned_integer size min_memory_port_buf_size
               max_memory_port_buf_size)
    then lift_gdb (gdbscm_out_of_range_error (Some func_name) SCM_ARG2 size
                     out_of_range_buf_size)
    else ret tt in
  let* w := get_state in
  let* _ := ioscm_reinit_memory_port port (iomem_read_buf_size (iomem (w_port w)))
              (scm_to_uint size) func_name in
  ret SCM_UNSPECIFIED.

End MemoryPort.

(** The invalidation chain as a list: CUR points at the first address of
    L, every address of L holds a symtab smob whose prev link is its
    predecessor (PRV for the first) and whose next link is its successor,
    and the last next link is NULL. *)
Fixpoint symtab_chain (h : gmap N smob_data) (prv cur : option N) (l : list N) : Prop :=
  match l with
  | [] => cur = None
  | a :: l' =>
      cur = Some a
      ∧ ∃ s, h !! a = Some (SymtabSmob s)
             ∧ prev (st_base s) = prv
             ∧ symtab_chain h (Some a) (next (st_base s)) l'
  end.

(** The symtab smobs chained to an objfile, from the head in its data slot. *)
Definition chained_symtabs `{GdbHost} (objfile : N) (l : list N) (st : gdb_state) : Prop :=
  symtab_chain (smobs st) None (objfile_data objfile stscm_objfile_data_key st) l
  ∧ NoDup l.

(** ** The invariant of a memory port *)

(** What ioscm_init_memory_port establishes and the port methods keep: the
    range ends below the largest address, size is end - start + 1, current
    lies in [0, size], the buffer sizes Guile and gdb record agree and lie in
    [1, 4096], and the buffer positions are in order. *)
Definition port_wf (port : memory_port) : Prop :=
  let io := iomem port in
  let p := pt port in
  (0 ≤ iomem_start io ∧ iomem_start io ≤ iomem_end io ∧ iomem_end io < CORE_ADDR_MAX
   ∧ iomem_size io = iomem_end io - iomem_start io + 1
   ∧ 0 ≤ iomem_current io ∧ iomem_current io ≤ iomem_size io
   ∧ read_buf_size p = iomem_read_buf_size io
   ∧ write_buf_size p = iomem_write_buf_size io
   ∧ min_memory_port_buf_size ≤ read_buf_size p ∧ read_buf_size p ≤ max_memory_port_buf_size
   ∧ min_memory_port_buf_size ≤ write_buf_size p
   ∧ write_buf_size p ≤ max_memory_port_buf_size
   ∧ 0 ≤ read_pos p ∧ read_pos p ≤ read_end p ∧ read_end p ≤ read_buf_size p
   ∧ 0 ≤ write_pos p ∧ write_pos p ≤ write_buf_size p
   ∧ write_end p = write_buf_size p)%Z.

(** The claim that a port opened without a size ends at the largest
    address. *)
Definition ends_at_max_address `{SmobTags} (start : Z) (st : gdb_state) : Prop :=
  ∃ port st', gdbscm_open_memory None (Some start) None st = (Returned port, st')
              ∧ iomem_end (iomem port) = CORE_ADDR_MAX
              ∧ iomem_size (iomem port) = (iomem_end (iomem port) - start + 1)%Z.

(** ** Concrete parameters for the worked examples *)

(** Tags as scm_make_smob_type numbers them: scm_tc7_smob + 256 * n. *)
Definition demo_tags : SmobTags :=
  {| exception_smob_tag := 383; iterator_smob_tag := 639; symtab_smob_tag := 895;
     memory_port_desc := 381;
     exception_smob_tag_nz := ltac:(discriminate);
     iterator_smob_tag_nz := ltac:(discriminate);
     symtab_smob_tag_nz := ltac:(discriminate);
     iterator_exception_ne := ltac:(discriminate);
     symtab_exception_ne := ltac:(discriminate);
     symtab_iterator_ne := ltac:(discriminate) |}.

(** A small script world.  Procedure 1 wraps its argument in a pair, as a
    smob->scm hook may; procedure 2 undoes that and answers #f for anything
    else, as a scm->smob hook must; procedure 3 throws; procedure 4 answers
    the number 42; applying a value that is not a procedure throws
    wrong-type-arg. *)
Definition demo_scm_apply (proc : SCM) (actuals : list SCM) : M gdb_state SCM :=
  match proc with
  | SCM_PROC 1 =>
      match actuals with
      | [x] => ret (SCM_CONS (SCM_SYMBOL "wrapped") x)
      | _ => scm_throw (SCM_SYMBOL "wrong-number-of-args") SCM_EOL
      end
  | SCM_PROC 2 =>
      match actuals with
      | [SCM_CONS (SCM_SYMBOL "wrapped") x] => ret x
      | _ => ret SCM_BOOL_F
      end
  | SCM_PROC 3 => scm_throw (SCM_SYMBOL "misc-error") (scm_list_1 (SCM_STRING "boom"))
  | SCM_PROC 4 => ret (SCM_INUM 42)
  | SCM_PROC _ => ret SCM_UNSPECIFIED
  | _ => scm_throw scm_arg_type_key (scm_list_1 proc)
  end.

Definition demo_runtime : GuileRuntime := {| scm_apply := demo_scm_apply |}.

(** The state after initialisation, with given hooks. *)
Definition demo_state (from_hook to_hook : SCM) : gdb_state :=
  {| smobs := ∅;
     registered_gsmobs := {[ 383%Z; 639%Z; 895%Z ]};
     scm_from_smob_var := from_hook;
     scm_to_smob_var := to_hook;
     gdbscm_exception_count := 0;
     objfile_data_tab := ∅;
     scm_calls := [] |}.

(** The claim that the inbound conversion has exactly three outcomes: the
    value itself, #f, or an exception object. *)
Definition three_outcomes `{SmobTags} `{GuileRuntime} (v : SCM) (t : Z) (st : gdb_state)
    : Prop :=
  let r := (gdbscm_scm_to_gsmob_safe v t st).1 in
  r = Returned v ∨ r = Returned SCM_BOOL_F
  ∨ ∃ x, r = Returned x ∧ gdbscm_is_exception x = true.

(** The claim that make-iterator, given a procedure, returns the handle it
    has allocated and does nothing else. *)
Definition returns_new_iterator_only `{SmobTags} `{GuileRuntime} (obj prog nxt : SCM)
    (st : gdb_state) : Prop :=
  ∃ a, gdbscm_make_iterator obj prog nxt st =
       (Returned (SCM_SMOB iterator_smob_tag a),
        set_smobs (insert a (IteratorSmob {| i_base := gdbscm_init_gsmob; object := obj;
                                             progress := prog; next_x := nxt |})) st).

(** A host with two objfiles: symtab n belongs to objfile n / 10. *)
Definition demo_host : GdbHost :=
  {| MEMORY_ERROR := 8;
     SIGINT := 2;
     symtab_objfile := λ sym, Some (sym `div` 10)%N;
     symtab_to_filename_for_display := λ sym, "main.c";
     symtab_to_fullname := λ sym, "/src/main.c";
     stscm_objfile_data_key := 0%N;
     ofscm_scm_from_objfile_unsafe := λ _, ret SCM_UNSPECIFIED;
     bkscm_scm_from_global_block_unsafe := λ _, ret SCM_UNSPECIFIED;
     bkscm_scm_from_static_block_unsafe := λ _, ret SCM_UNSPECIFIED |}.

(** The state after handles for the symtabs 10 and 11 of objfile 1 and for
    the symtab 20 of objfile 2 have been made, in that order: the smobs live
    at the addresses 0, 1 and 2. *)
Definition demo_symtab_state : gdb_state :=
  (bind (@stscm_gsmob_from_symtab demo_tags demo_host 10%N) (λ _,
   bind (@stscm_gsmob_from_symtab demo_tags demo_host 11%N) (λ _,
         @stscm_gsmob_from_symtab demo_tags demo_host 20%N))
     (demo_state SCM_BOOL_F SCM_BOOL_F)).2.

(** A debuggee whose mapped memory is a finite map from addresses to bytes:
    an access succeeds when every address it touches is mapped. *)
Fixpoint mem_write (m : gmap Z byte) (addr : Z) (data : list byte) : option (gmap Z byte) :=
  match data with
  | [] => Some m
  | b :: data' =>
      match m !! addr with
      | Some _ => mem_write (<[addr := b]> m) (addr + 1) data'
      | None => None
      end
  end.

Fixpoint mem_read (m : gmap Z byte) (addr : Z) (n : nat) : option (list byte) :=
  match n with
  | O => Some []
  | S n' =>
      match m !! addr, mem_read m (addr + 1) n' with
      | Some b, Some bs => Some (b :: bs)
      | _, _ => None
      end
  end.

Definition demo_target : Target :=
  {| inferior := gmap Z byte;
     target_read_memory := λ m addr len, mem_read m addr (Z.to_nat len);
     target_write_memory := mem_write |}.

(** Sixteen mapped bytes at 0x1000, all zero. *)
Definition demo_inferior : gmap Z byte :=
  list_to_map ((λ i : nat, ((4096 + Z.of_nat i)%Z, Byte.x00)) <$> seq 0 16).

(** The port open-memory makes for mode "r+", start 0x1000 and size 4, with
    the state it leaves; a fault stands for a failed open. *)
Definition demo_open : result memory_port * gdb_state :=
  @gdbscm_open_memory demo_tags (Some "r+") (Some 4096%Z) (Some 4%Z)
    (demo_state SCM_BOOL_F SCM_BOOL_F).

Definition demo_world : @port_world demo_target :=
  @Build_port_world demo_target demo_open.2 demo_inferior
    match demo_open.1 with
    | Returned port => port
    | _ => ioscm_open_port 381 0
    end.

Definition demo_port : SCM := SCM_PORT 381 0.

(** The example port after Guile has asked it to fill its read buffer: the
    four bytes of the range are buffered and none is consumed. *)
Definition demo_world_reading : @port_world demo_target :=
  (@gdbscm_memory_port_fill_input demo_tags demo_target demo_port demo_world).2.
(** * Further parts of the glue *)

(** ** scm-smob.c, third part: the gsmob accessors *)

(** base->aux of the struct at an address: every smob struct starts with a
    gdb_smob or a chained_gdb_smob, whose first member is aux. *)
Definition smob_aux (d : smob_data) : SCM :=
  match d with
  | ExceptionSmob e => aux (e_base e)
  | IteratorSmob i => aux (i_base i)
  | SymtabSmob s => c_aux (st_base s)
  | TypeSmob t => c_aux (t_base t)
  end.

(** base->aux = v *)
Definition set_smob_aux (v : SCM) (d : smob_data) : smob_data :=
  match d with
  | ExceptionSmob e => ExceptionSmob {| e_base := {| aux := v |}; key := key e; args := args e |}
  | IteratorSmob i =>
      IteratorSmob {| i_base := {| aux := v |}; object := object i;
                      progress := progress i; next_x := next_x i |}
  | SymtabSmob s =>
      SymtabSmob {| st_base := {| c_aux := v; prev := prev (st_base s);
                                  next := next (st_base s) |};
                    symtab := symtab s |}
  | TypeSmob t =>
      TypeSmob {| t_base := {| c_aux := v; prev := prev (t_base t);
                               next := next (t_base t) |};
                  type := type t |}
  end.

(** (gdb_smob * ) SCM_SMOB_DATA (self): the address and the struct there. *)
Definition gdb_smob_data (self : SCM) : M gdb_state (N * smob_data) :=
  λ st, match self with
        | SCM_SMOB _ a =>
            match smobs st !! a with
            | Some d => (Returned (a, d), st)
            | None => (Fault, st)
            end
        | _ => (Fault, st)
        end.

(** gdbscm_make_smob_type (name, size): scm_make_smob_type hands out the tag
    NEW_TAG, which is then registered. *)
Definition gdbscm_make_smob_type (new_tag : Z) : M gdb_state Z :=
  let* _ := register_gsmob new_tag in
  ret new_tag.

Section Gsmob.
Context `{SmobTags} `{GuileRuntime}.

Definition gsscm_get_gsmob_arg_unsafe (self : SCM) (arg_pos : Z) (func_name : string)
    : M gdb_state SCM :=
  let* gsmob := gdbscm_scm_to_gsmob_safe self 0 in
  if gdbscm_is_exception gsmob then gdbscm_throw gsmob
  else
    let* st := get_state in
    let* _ := SCM_ASSERT_TYPE (gdbscm_is_gsmob gsmob st) self arg_pos func_name
                "any gdb smob" in
    ret gsmob.

(** (gsmob-aux gsmob): the header is read through SELF, not through the
    converted smob. *)
Definition gdbscm_gsmob_aux (self : SCM) : M gdb_state SCM :=
  let* smob := gsscm_get_gsmob_arg_unsafe self SCM_ARG1 "gdbscm_gsmob_aux" in
  let* base := gdb_smob_data self in
  ret (smob_aux base.2).

(** (set-gsmob-aux! gsmob object) *)
Definition gdbscm_set_gsmob_aux_x (self aux : SCM) : M gdb_state SCM :=
  let* smob := gsscm_get_gsmob_arg_unsafe self SCM_ARG1 "gdbscm_set_gsmob_aux_x" in
  let* base := gdb_smob_data self in
  let* _ := modify_state (set_smobs (insert base.1 (set_smob_aux aux base.2))) in
  ret SCM_UNSPECIFIED.

End Gsmob.

(** ** scm-exception.c: the counter *)

(** (%exception-count): scm_from_ulong (gdbscm_exception_count) *)
Definition gdbscm_percent_exception_count : M gdb_state SCM :=
  let* st := get_state in
  ret (SCM_INUM (gdbscm_exception_count st)).

(** ** scm-ports.c: what the port methods keep *)

(** A port method has left the port in order: the invariant holds, no
    put-back buffer is in use, and the range, the size, the type word and the
    random-access flag are the ones the port had before. *)
Definition port_kept (port port' : memory_port) : Prop :=
  port_wf port'
  ∧ putback (pt port') = false
  ∧ iomem_start (iomem port') = iomem_start (iomem port)
  ∧ iomem_end (iomem port') = iomem_end (iomem port)
  ∧ iomem_size (iomem port') = iomem_size (iomem port)
  ∧ cell_type port' = cell_type port
  ∧ rw_random (pt port') = rw_random (pt port).

(** The outcome of a port method run in the world W: it is a return or a
    throw, not a failed assertion, and the port is in order. *)
Definition kept_outcome `{Target} {A : Type} (w : port_world)
    (out : result A * port_world) : Prop :=
  out.1 ≠ Fault ∧ port_kept (w_port w) (w_port out.2).

(** The example port while Guile reads from it: the four bytes of the range
    are buffered, and the port is marked as reading. *)
Definition demo_world_read_mode : @port_world demo_target :=
  @set_pt demo_target (set_rw_active SCM_PORT_READ) demo_world_reading.

(** ** scm-symtab.c, second part: symtab-and-line smobs *)

(** struct symtab_and_line of gdb's symtab.h, the members the glue reads:
    symtab (None is NULL), line (an int), pc and end (CORE_ADDR, unsigned). *)
Record symtab_and_line := {
  sal_symtab : option N;
  sal_line : Z;
  sal_pc : Z;
  sal_end : Z
}.

(** memset (&s_smob->sal, 0, sizeof (s_smob->sal)) *)
Definition zero_sal : symtab_and_line :=
  {| sal_symtab := None; sal_line := 0; sal_pc := 0; sal_end := 0 |}.

(** A <gdb:sal> smob. *)
Record sal_smob := {
  s_base : gdb_smob;
  symtab_scm : SCM;
  converted_symtab_scm : SCM;
  sal : symtab_and_line
}.

(** The tag of the sal smob type: a tag of its own. *)
Class SalTag `{SmobTags} := {
  sal_smob_tag : Z;
  sal_smob_tag_nz : sal_smob_tag ≠ 0%Z;
  sal_exception_ne : sal_smob_tag ≠ exception_smob_tag;
  sal_symtab_ne : sal_smob_tag ≠ symtab_smob_tag
}.

(** The state of the glue together with the sal structs, which live at
    addresses of their own: a sal smob's data word is looked up among the sal
    structs, every other smob's among the structs of the state. *)
Record sal_world := {
  sw_gdb : gdb_state;
  sw_sals : gmap N sal_smob
}.

Definition lift_sal {A : Type} (m : M gdb_state A) : M sal_world A :=
  λ w, ((m (sw_gdb w)).1, {| sw_gdb := (m (sw_gdb w)).2; sw_sals := sw_sals w |}).

Definition set_sals (f : gmap N sal_smob → gmap N sal_smob) (w : sal_world) : sal_world :=
  {| sw_gdb := sw_gdb w; sw_sals := f (sw_sals w) |}.

(** (sal_smob * ) SCM_SMOB_DATA (s_scm): the address and the struct. *)
Definition sal_smob_data (s_scm : SCM) : M sal_world (N * sal_smob) :=
  λ w, match s_scm with
       | SCM_SMOB _ a =>
           match sw_sals w !! a with
           | Some s => (Returned (a, s), w)
           | None => (Fault, w)
           end
       | _ => (Fault, w)
       end.

Section Sal.
Context `{SalTag} `{GuileRuntime} `{GdbHost}.

Definition stscm_make_sal_smob : M sal_world SCM :=
  λ w, let a := fresh (dom (sw_sals w)) in
       (Returned (SCM_SMOB sal_smob_tag a),
        set_sals (insert a {| s_base := gdbscm_init_gsmob;
                              symtab_scm := SCM_BOOL_F;
                              converted_symtab_scm := SCM_BOOL_F;
                              sal := zero_sal |}) w).

Definition stscm_is_sal (scm : SCM) : bool := SCM_SMOB_PREDICATE sal_smob_tag scm.

Definition gdbscm_sal_p (scm : SCM) : M sal_world SCM :=
  ret (scm_from_bool (stscm_is_sal scm)).

Definition stscm_gsmob_from_sal (sal_ : symtab_and_line) : M sal_world SCM :=
  let* s_scm := stscm_make_sal_smob in
  let* s_smob := sal_smob_data s_scm in
  let* st_scm := match sal_symtab sal_ with
                 | Some sym => lift_sal (stscm_gsmob_from_symtab sym)
                 | None => ret (symtab_scm s_smob.2)
                 end in
  let* _ := modify_state (set_sals (insert s_smob.1
              {| s_base := s_base s_smob.2; symtab_scm := st_scm;
                 converted_symtab_scm := converted_symtab_scm s_smob.2;
                 sal := sal_ |})) in
  ret s_scm.

Definition stscm_scm_from_sal_unsafe (sal_ : symtab_and_line) : M sal_world SCM :=
  let* s_scm := stscm_gsmob_from_sal sal_ in
  let* result := lift_sal (gdbscm_scm_from_gsmob_safe s_scm) in
  if gdbscm_is_exception result then
    let* s_smob := sal_smob_data s_scm in
    let* _ := if negb (gdbscm_is_false (symtab_scm s_smob.2))
              then lift_sal (stscm_free_symtab_smob (symtab_scm s_smob.2))
              else ret tt in
    lift_sal (gdbscm_throw result)
  else ret result.

Definition stscm_scm_to_sal_gsmob (scm : SCM) : M sal_world SCM :=
  lift_sal (gdbscm_scm_to_gsmob_safe scm sal_smob_tag).

Definition stscm_get_sal_arg (self : SCM) (arg_pos : Z) (func_name : string)
    : M sal_world SCM :=
  let* s_scm := stscm_scm_to_sal_gsmob self in
  if gdbscm_is_exception s_scm then lift_sal (gdbscm_throw s_scm)
  else
    let* _ := SCM_ASSERT_TYPE (stscm_is_sal s_scm) self arg_pos func_name "gdb:sal" in
    ret s_scm.

Definition stscm_get_sal_smob_arg (self : SCM) (arg_pos : Z) (func_name : string)
    : M sal_world (N * sal_smob) :=
  let* s_scm := stscm_get_sal_arg self arg_pos func_name in
  sal_smob_data s_scm.

Definition stscm_sal_is_valid (s_smob : sal_smob) : M sal_world bool :=
  if gdbscm_is_false (symtab_scm s_smob) then ret true
  else
    let* st_smob := lift_sal (symtab_smob_data (symtab_scm s_smob)) in
    ret (bool_decide (symtab st_smob.2 ≠ None)).

Definition stscm_get_valid_sal_smob_arg (self : SCM) (arg_pos : Z) (func_name : string)
    : M sal_world (N * sal_smob) :=
  let* s_smob := stscm_get_sal_smob_arg self arg_pos func_name in
  let* valid := stscm_sal_is_valid s_smob.2 in
  if negb valid
  then lift_sal (gdbscm_invalid_object_error (Some func_name) arg_pos self
                   "invalid <gdb:sal>")
  else ret s_smob.

(** (sal-valid? <gdb:sal>) *)
Definition gdbscm_sal_valid_p (self : SCM) : M sal_world SCM :=
  let* s_smob := stscm_get_sal_smob_arg self SCM_ARG1 "gdbscm_sal_valid_p" in
  let* valid := stscm_sal_is_valid s_smob.2 in
  ret (scm_from_bool valid).

(** (sal-pc <gdb:sal>) *)
Definition gdbscm_sal_pc (self : SCM) : M sal_world SCM :=
  let* s_smob := stscm_get_valid_sal_smob_arg self SCM_ARG1 "gdbscm_sal_pc" in
  ret (gdbscm_scm_from_ulongest (sal_pc (sal s_smob.2))).

(** (sal-last <gdb:sal>) *)
Definition gdbscm_sal_last (self : SCM) : M sal_world SCM :=
  let* s_smob := stscm_get_valid_sal_smob_arg self SCM_ARG1 "gdbscm_sal_last" in
  if bool_decide (sal_end (sal s_smob.2) > 0)%Z
  then ret (gdbscm_scm_from_ulongest (sal_end (sal s_smob.2) - 1))
  else ret SCM_BOOL_F.

(** (sal-line <gdb:sal>) *)
Definition gdbscm_sal_line (self : SCM) : M sal_world SCM :=
  let* s_smob := stscm_get_valid_sal_smob_arg self SCM_ARG1 "gdbscm_sal_line" in
  if bool_decide (sal_line (sal s_smob.2) > 0)%Z
  then ret (scm_from_int (sal_line (sal s_smob.2)))
  else ret SCM_BOOL_F.

(** (sal-symtab <gdb:sal>) *)
Definition gdbscm_sal_symtab (self : SCM) : M sal_world SCM :=
  let* s_smob := stscm_get_valid_sal_smob_arg self SCM_ARG1 "gdbscm_sal_symtab" in
  ret (symtab_scm s_smob.2).

(** The arguments of the invalid-object error a stale sal gets. *)
Definition stale_sal_args (self : SCM) (arg_pos : Z) (func_name : string) : SCM :=
  scm_list_4 (SCM_STRING func_name)
    (SCM_STRING (arg_error_message arg_pos "invalid <gdb:sal>"))
    (scm_list_1 self) (scm_list_1 self).

End Sal.

(** The sal tag of the worked examples: the type registered after the
    symtab type. *)
Definition demo_sal_tag : @SalTag demo_tags :=
  @Build_SalTag demo_tags 1151 ltac:(discriminate) ltac:(cbn; discriminate)
    ltac:(cbn; discriminate).

(** The example state with no sal made yet. *)
Definition demo_sal_world : sal_world :=
  {| sw_gdb := demo_symtab_state; sw_sals := ∅ |}.

(** A sal of symtab 12, of objfile 1, and a sal without a symtab. *)
Definition demo_sal : symtab_and_line :=
  {| sal_symtab := Some 12%N; sal_line := 42; sal_pc := 4096; sal_end := 0 |}.

Definition demo_sal_no_symtab : symtab_and_line :=
  {| sal_symtab := None; sal_line := 0; sal_pc := 4096; sal_end := 4100 |}.

(** A state in which the smob->scm hook is procedure 3, which throws, and a
    handle for symtab 10 of objfile 1 has been made. *)
Definition demo_sal_world_throwing : sal_world :=
  {| sw_gdb := (@stscm_gsmob_from_symtab demo_tags demo_host 10%N
                  (demo_state (SCM_PROC 3) SCM_BOOL_F)).2;
     sw_sals := ∅ |}.

(** ** The refusals of open-memory, as first claimed *)

(** The message of the out-of-range error open-memory throws for a start
    address and a size, if it throws one. *)
Definition open_memory_error_message `{SmobTags} (start size : Z) (st : gdb_state)
    : option SCM :=
  match gdbscm_open_memory None (Some start) (Some size) st with
  | (Thrown k (SCM_CONS _ (SCM_CONS message _)), _) =>
      if bool_decide (k = exscm_out_of_range_error_symbol) then Some message else None
  | _ => None
  end.

(** The claim that each refusal has an error of its own, read for the last
    two: START and SIZE, whose end address start + size - 1 is all-ones, are
    refused with an out-of-range error that is not the one START' and SIZE'
    get, whose sum wraps while their end address is not all-ones. *)
Definition end_all_ones_has_its_own_error `{SmobTags} (start size start' size' : Z)
    (st : gdb_state) : Prop :=
  ∃ m m', open_memory_error_message start size st = Some m
          ∧ open_memory_error_message start' size' st = Some m'
          ∧ m ≠ m'.

(** ** Buffer resizing on a port that reads from the put-back buffer *)




(** ** scm-type.c: type smobs and their objfile chain *)




Section Types.
Context `{TypeHost} `{GuileRuntime}.













End Types.







(** The script world of the examples with one more procedure: procedure 5
    answers an exception object it makes with make-exception. *)
Definition demo_scm_apply_exception (proc : SCM) (actuals : list SCM) : M gdb_state SCM :=
  match proc with
  | SCM_PROC 5 => @gdbscm_make_exception demo_tags (SCM_SYMBOL "my-error") SCM_EOL
  | _ => demo_scm_apply proc actuals
  end.

Definition demo_runtime_exception : GuileRuntime :=
  {| scm_apply := demo_scm_apply_exception |}.


(** * Properties *)

(** ** The exception bridge *)

Section ExceptionFacts.
Context `{SmobTags}.

Lemma gdbscm_make_exception_eq (k l : SCM) (st : gdb_state) :
  gdbscm_make_exception k l st =
  (Returned (SCM_SMOB exception_smob_tag (fresh (dom (smobs st)))),
   set_exception_count (ulong_wrap (gdbscm_exception_count st + 1))
     (set_smobs (insert (fresh (dom (smobs st)))
        (ExceptionSmob {| e_base := gdbscm_init_gsmob; key := k; args := l |})) st)).
Proof. reflexivity. Qed.

Lemma fresh_smob_unused (st : gdb_state) : smobs st !! fresh (dom (smobs st)) = None.
Proof. apply not_elem_of_dom, is_fresh. Qed.

Lemma gdbscm_is_exception_smob (a : N) :
  gdbscm_is_exception (SCM_SMOB exception_smob_tag a) = true.
Proof. unfold gdbscm_is_exception; simpl. by apply bool_decide_eq_true. Qed.

(** An exception object is a smob of the exception tag. *)
Lemma is_exception_smob (x : SCM) :
  gdbscm_is_exception x = true → ∃ e, x = SCM_SMOB exception_smob_tag e.
Proof.
  unfold gdbscm_is_exception. destruct x; simpl; try discriminate.
  intros Ht. apply bool_decide_eq_true in Ht. subst. by eexists.
Qed.

Lemma gdbscm_exception_key_smob (a : N) (e : exception_smob) (st : gdb_state) :
  smobs st !! a = Some (ExceptionSmob e) →
  gdbscm_exception_key (SCM_SMOB exception_smob_tag a) st = (Returned (key e), st).
Proof.
  intros Hl. unfold gdbscm_exception_key, bind.
  rewrite gdbscm_is_exception_smob; simpl. by rewrite Hl.
Qed.

Lemma gdbscm_exception_args_smob (a : N) (e : exception_smob) (st : gdb_state) :
  smobs st !! a = Some (ExceptionSmob e) →
  gdbscm_exception_args (SCM_SMOB exception_smob_tag a) st = (Returned (args e), st).
Proof.
  intros Hl. unfold gdbscm_exception_args, bind.
  rewrite gdbscm_is_exception_smob; simpl. by rewrite Hl.
Qed.

Lemma gdbscm_throw_smob {A : Type} (a : N) (e : exception_smob) (st : gdb_state) :
  smobs st !! a = Some (ExceptionSmob e) →
  @gdbscm_throw _ A (SCM_SMOB exception_smob_tag a) st = (Thrown (key e) (args e), st).
Proof.
  intros Hl. unfold gdbscm_throw, bind.
  rewrite (gdbscm_exception_key_smob _ _ _ Hl), (gdbscm_exception_args_smob _ _ _ Hl).
  reflexivity.
Qed.

(** Allocating an exception object and throwing it right away: the throw
    carries the key and the arguments, and the state is the one the
    allocation left. *)
Lemma make_then_throw {A : Type} (k l : SCM) (st : gdb_state) :
  (let* e := gdbscm_make_exception k l in @gdbscm_throw _ A e) st =
  (Thrown k l, (gdbscm_make_exception k l st).2).
Proof.
  unfold bind at 1. rewrite gdbscm_make_exception_eq. cbn [snd].
  rewrite (gdbscm_throw_smob _ {| e_base := gdbscm_init_gsmob; key := k; args := l |});
    [reflexivity|].
  cbn. apply lookup_insert_eq.
Qed.

(** What an allocation of an exception object leaves untouched. *)
Lemma gdbscm_make_exception_frame (k l : SCM) (st : gdb_state) :
  let st' := (gdbscm_make_exception k l st).2 in
  scm_calls st' = scm_calls st ∧ scm_from_smob_var st' = scm_from_smob_var st ∧
  scm_to_smob_var st' = scm_to_smob_var st ∧
  registered_gsmobs st' = registered_gsmobs st ∧
  objfile_data_tab st' = objfile_data_tab st ∧
  (∀ a d, smobs st !! a = Some d → smobs st' !! a = Some d).
Proof.
  cbv zeta. rewrite gdbscm_make_exception_eq. cbn. repeat split.
  intros a d Ha. rewrite lookup_insert_ne; [done|].
  intros Heq. rewrite <- Heq in Ha. by rewrite fresh_smob_unused in Ha.
Qed.

Lemma gdbscm_out_of_range_error_eq {A : Type} subr arg_pos bad_value error (st : gdb_state) :
  @gdbscm_out_of_range_error _ A subr arg_pos bad_value error st =
  (Thrown exscm_out_of_range_error_symbol
     (scm_list_4 (from_option scm_from_latin1_string SCM_BOOL_F subr)
                 (SCM_STRING (arg_error_message arg_pos error))
                 (scm_list_1 bad_value) (scm_list_1 bad_value)),
   (gdbscm_make_out_of_range_error subr arg_pos bad_value error st).2).
Proof.
  unfold gdbscm_out_of_range_error, gdbscm_make_out_of_range_error,
    gdbscm_make_arg_error, gdbscm_make_error, gdbscm_make_error_scm.
  rewrite make_then_throw. reflexivity.
Qed.

End ExceptionFacts.

Section ExceptionBridge.
Context `{SmobTags} `{GdbHost}.

(** C10.  Exception values stay outside the conversion protocol.  Whatever
    the two hook variables hold, make-exception returns the raw smob it has
    just allocated, with the given key and args, and makes no call into
    Scheme: the call log, the hooks and every other object are as before.
    exception-key and exception-args return the fields of a raw exception
    smob and leave the state alone; on any value that is not an exception
    smob they throw wrong-type-arg, again without a call into Scheme. *)
Theorem exception_values_bypass_the_hooks (k l self : SCM) (st : gdb_state) :
  (∃ a st',
      gdbscm_make_exception k l st = (Returned (SCM_SMOB exception_smob_tag a), st')
      ∧ smobs st !! a = None
      ∧ smobs st' = <[a := ExceptionSmob {| e_base := gdbscm_init_gsmob;
                                            key := k; args := l |}]> (smobs st)
      ∧ scm_calls st' = scm_calls st
      ∧ scm_from_smob_var st' = scm_from_smob_var st
      ∧ scm_to_smob_var st' = scm_to_smob_var st
      ∧ gdbscm_exception_key (SCM_SMOB exception_smob_tag a) st' = (Returned k, st')
      ∧ gdbscm_exception_args (SCM_SMOB exception_smob_tag a) st' = (Returned l, st'))
  ∧ (∀ a e, self = SCM_SMOB exception_smob_tag a →
            smobs st !! a = Some (ExceptionSmob e) →
            gdbscm_exception_key self st = (Returned (key e), st)
            ∧ gdbscm_exception_args self st = (Returned (args e), st))
  ∧ (gdbscm_is_exception self = false →
       (∃ l', gdbscm_exception_key self st = (Thrown scm_arg_type_key l', st))
       ∧ (∃ l', gdbscm_exception_args self st = (Thrown scm_arg_type_key l', st))).
Proof.
  split; [|split].
  - eexists _, _. rewrite gdbscm_make_exception_eq. split; [reflexivity|].
    split; [apply fresh_smob_unused|]. cbn.
    repeat (split; [reflexivity|]).
    split.
    + rewrite (gdbscm_exception_key_smob _
                 {| e_base := gdbscm_init_gsmob; key := k; args := l |});
        [reflexivity|]. cbn. apply lookup_insert_eq.
    + rewrite (gdbscm_exception_args_smob _
                 {| e_base := gdbscm_init_gsmob; key := k; args := l |});
        [reflexivity|]. cbn. apply lookup_insert_eq.
  - intros a e -> Hl. split.
    + by apply gdbscm_exception_key_smob.
    + by apply gdbscm_exception_args_smob.
  - intros Hno. unfold gdbscm_exception_key, gdbscm_exception_args, bind.
    rewrite Hno. cbn. split; eexists; reflexivity.
Qed.

(** C6.  The conversion of a gdb exception always returns a fresh exception
    smob.  Its key depends on the reason and the error code only: signal for
    a quit, gdb:memory-error for an error with code MEMORY_ERROR, gdb:error
    for every other error.  The quit carries the data list (SIGINT); the
    other two carry the single message argument, the text of the record. *)
Theorem gdb_exception_conversion (exception : gdb_exception) (st : gdb_state) :
  ∃ a st' e,
    gdbscm_scm_from_gdb_exception exception st
      = (Returned (SCM_SMOB exception_smob_tag a), st')
    ∧ smobs st !! a = None
    ∧ smobs st' !! a = Some (ExceptionSmob e)
    ∧ gdbscm_is_exception (SCM_SMOB exception_smob_tag a) = true
    ∧ (reason exception = RETURN_QUIT →
         key e = SCM_SYMBOL "signal"
         ∧ args e = scm_list_4 SCM_BOOL_F (SCM_STRING "User interrupt") SCM_EOL
                      (scm_list_1 (SCM_INUM SIGINT)))
    ∧ (reason exception = RETURN_ERROR →
         (error exception = MEMORY_ERROR → key e = SCM_SYMBOL "gdb:memory-error")
         ∧ (error exception ≠ MEMORY_ERROR → key e = SCM_SYMBOL "gdb:error")
         ∧ args e = scm_list_4 SCM_BOOL_F (SCM_STRING "~A")
                      (scm_list_1 (SCM_STRING (message exception))) SCM_BOOL_F).
Proof.
  unfold gdbscm_scm_from_gdb_exception, gdbscm_make_error, gdbscm_make_error_scm.
  destruct (reason exception) eqn:Hr; rewrite gdbscm_make_exception_eq;
    eexists _, _, _; (split; [reflexivity|]);
    (split; [apply fresh_smob_unused|]);
    (split; [cbn; apply lookup_insert_eq|]);
    (split; [apply gdbscm_is_exception_smob|]); cbn.
  - split; [done|]. intros; discriminate.
  - split; [intros; discriminate|]. intros _.
    split; [|split]; [| |reflexivity]; intros He.
    + by rewrite bool_decide_eq_true_2.
    + by rewrite bool_decide_eq_false_2.
Qed.

(** The exception thrown for a caught gdb exception has that key and those
    arguments. *)
Lemma gdbscm_throw_gdb_exception_eq {A : Type} (exception : gdb_exception)
    (st : gdb_state) :
  ∃ st',
    @gdbscm_throw_gdb_exception _ _ A exception st =
    (match reason exception with
     | RETURN_QUIT =>
         Thrown exscm_signal_symbol
           (scm_list_4 SCM_BOOL_F (SCM_STRING "User interrupt") SCM_EOL
              (scm_list_1 (SCM_INUM SIGINT)))
     | RETURN_ERROR =>
         Thrown (if bool_decide (error exception = MEMORY_ERROR)
                 then exscm_memory_error_symbol else exscm_error_symbol)
           (scm_list_4 SCM_BOOL_F (SCM_STRING "~A")
              (scm_list_1 (SCM_STRING (message exception))) SCM_BOOL_F)
     end, st').
Proof.
  unfold gdbscm_throw_gdb_exception, gdbscm_scm_from_gdb_exception,
    gdbscm_make_error, gdbscm_make_error_scm.
  destruct (reason exception); rewrite make_then_throw; eexists; reflexivity.
Qed.

End ExceptionBridge.

(** ** The conversion hooks *)

Section ConversionFacts.
Context `{SmobTags} `{GuileRuntime}.

Lemma gdbscm_safe_call_1_returned (proc arg x : SCM) (st st1 : gdb_state) :
  scm_apply proc [arg] (log_call proc [arg] st) = (Returned x, st1) →
  gdbscm_safe_call_1 proc arg st = (Returned x, st1).
Proof. intros Hc. unfold gdbscm_safe_call_1. by rewrite Hc. Qed.

Lemma gdbscm_safe_call_1_thrown (proc arg k l : SCM) (st st1 : gdb_state) :
  scm_apply proc [arg] (log_call proc [arg] st) = (Thrown k l, st1) →
  gdbscm_safe_call_1 proc arg st = gdbscm_make_exception k l st1.
Proof. intros Hc. unfold gdbscm_safe_call_1. by rewrite Hc. Qed.

(** gdbscm_safe_call_1 never lets a throw through. *)
Lemma gdbscm_safe_call_1_no_throw (proc arg k l : SCM) (st st1 : gdb_state) :
  gdbscm_safe_call_1 proc arg st ≠ (Thrown k l, st1).
Proof.
  unfold gdbscm_safe_call_1.
  destruct (scm_apply proc [arg] (log_call proc [arg] st)) as [[x|k' l'|] st2];
    [discriminate| |discriminate].
  rewrite gdbscm_make_exception_eq. discriminate.
Qed.

(** The safe inbound conversion neither throws nor, as long as the hook
    does not, faults. *)
Lemma gdbscm_scm_to_gsmob_safe_no_throw (scm : SCM) (tag : Z) (k l : SCM)
    (st st1 : gdb_state) :
  gdbscm_scm_to_gsmob_safe scm tag st ≠ (Thrown k l, st1).
Proof.
  unfold gdbscm_scm_to_gsmob_safe, bind, get_state, ret.
  destruct (matches_tag tag scm st); [discriminate|].
  destruct (gdbscm_is_false (scm_to_smob_var st)); [discriminate|].
  destruct (gdbscm_safe_call_1 (scm_to_smob_var st) scm st) as [[x|k' l'|] st2] eqn:Hc;
    [| by apply gdbscm_safe_call_1_no_throw in Hc | discriminate].
  destruct (gdbscm_is_false x); [discriminate|].
  destruct (gdbscm_is_exception x); [discriminate|].
  destruct (matches_tag tag x st2); [discriminate|].
  unfold gdbscm_make_out_of_range_error, gdbscm_make_arg_error, gdbscm_make_error,
    gdbscm_make_error_scm.
  rewrite gdbscm_make_exception_eq. discriminate.
Qed.

(** C5, as amended.  The safe inbound conversion has four outcomes.  (1) A
    value whose tag matches (or, for the wildcard tag 0, any registered
    gsmob) is returned as it is, and the hook is not called.  (2) Otherwise,
    with the hook unset the result is #f.  (3) With the hook set it is called
    on the value: if it throws, the result is an exception object with the
    thrown key and args; if it returns #f the result is #f; if it returns an
    exception object, that object is the result; (4) if it returns a value
    of the requested tag, that value, which need not be the argument, is the
    result; any other return value gives an out-of-range exception object.
    The unsafe variant returns the same result unless it is an exception
    object, whose key and args it throws. *)
Theorem inbound_conversion_outcomes (v : SCM) (t : Z) (st : gdb_state) :
  let proc := scm_to_smob_var st in
  (matches_tag t v st = true →
     gdbscm_scm_to_gsmob_safe v t st = (Returned v, st))
  ∧ (matches_tag t v st = false → gdbscm_is_false proc = true →
     gdbscm_scm_to_gsmob_safe v t st = (Returned SCM_BOOL_F, st))
  ∧ (matches_tag t v st = false → gdbscm_is_false proc = false →
     (∀ k l st1, scm_apply proc [v] (log_call proc [v] st) = (Thrown k l, st1) →
        ∃ a st2,
          gdbscm_scm_to_gsmob_safe v t st = (Returned (SCM_SMOB exception_smob_tag a), st2)
          ∧ smobs st2 !! a = Some (ExceptionSmob {| e_base := gdbscm_init_gsmob;
                                                    key := k; args := l |}))
     ∧ (∀ x st1, scm_apply proc [v] (log_call proc [v] st) = (Returned x, st1) →
        (gdbscm_is_false x = true →
           gdbscm_scm_to_gsmob_safe v t st = (Returned SCM_BOOL_F, st1))
        ∧ (gdbscm_is_exception x = true →
           gdbscm_scm_to_gsmob_safe v t st = (Returned x, st1))
        ∧ (gdbscm_is_false x = false → matches_tag t x st1 = true →
           gdbscm_scm_to_gsmob_safe v t st = (Returned x, st1))
        ∧ (gdbscm_is_false x = false → gdbscm_is_exception x = false →
           matches_tag t x st1 = false →
           ∃ a st2 e,
             gdbscm_scm_to_gsmob_safe v t st
               = (Returned (SCM_SMOB exception_smob_tag a), st2)
             ∧ smobs st2 !! a = Some (ExceptionSmob e)
             ∧ key e = exscm_out_of_range_error_symbol)))
  ∧ (∀ r st', gdbscm_scm_to_gsmob_safe v t st = (Returned r, st') →
       (gdbscm_is_exception r = false →
          gdbscm_scm_to_gsmob_unsafe v t st = (Returned r, st'))
       ∧ (∀ a e, r = SCM_SMOB exception_smob_tag a →
                 smobs st' !! a = Some (ExceptionSmob e) →
                 gdbscm_scm_to_gsmob_unsafe v t st = (Thrown (key e) (args e), st'))).
Proof.
  cbv zeta. split; [|split; [|split]].
  - intros Hm. unfold gdbscm_scm_to_gsmob_safe, bind, get_state. by rewrite Hm.
  - intros Hm Hf. unfold gdbscm_scm_to_gsmob_safe, bind, get_state. by rewrite Hm, Hf.
  - intros Hm Hf. split.
    + intros k l st1 Hc. unfold gdbscm_scm_to_gsmob_safe, bind, get_state.
      rewrite Hm, Hf, (gdbscm_safe_call_1_thrown _ _ _ _ _ _ Hc).
      rewrite gdbscm_make_exception_eq. cbn [gdbscm_is_false].
      rewrite gdbscm_is_exception_smob. eexists _, _. split; [reflexivity|].
      cbn. apply lookup_insert_eq.
    + intros x st1 Hc.
      assert (Hsafe : gdbscm_scm_to_gsmob_safe v t st =
                (if gdbscm_is_false x then ret SCM_BOOL_F
                 else if gdbscm_is_exception x then ret x
                 else if matches_tag t x st1 then ret x
                 else gdbscm_make_out_of_range_error None 0 x
                        "Result of *scm->smob* must be requested gsmob or #f") st1).
      { unfold gdbscm_scm_to_gsmob_safe, bind, get_state.
        rewrite Hm, Hf, (gdbscm_safe_call_1_returned _ _ _ _ _ Hc).
        destruct (gdbscm_is_false x); [reflexivity|].
        destruct (gdbscm_is_exception x); [reflexivity|].
        destruct (matches_tag t x st1); reflexivity. }
      rewrite Hsafe. split; [|split; [|split]].
      * by intros ->.
      * intros Hex. destruct (gdbscm_is_false x) eqn:Hfx; [by destruct x|].
        by rewrite Hex.
      * intros -> ->. by destruct (gdbscm_is_exception x).
      * intros -> -> ->.
        unfold gdbscm_make_out_of_range_error, gdbscm_make_arg_error, gdbscm_make_error,
          gdbscm_make_error_scm.
        rewrite gdbscm_make_exception_eq. eexists _, _, _. split; [reflexivity|].
        split; [cbn; apply lookup_insert_eq|reflexivity].
  - intros r st' Hs. split.
    + intros Hex. unfold gdbscm_scm_to_gsmob_unsafe, bind. by rewrite Hs, Hex.
    + intros a e -> Hl. unfold gdbscm_scm_to_gsmob_unsafe, bind.
      rewrite Hs, gdbscm_is_exception_smob. by apply gdbscm_throw_smob.
Qed.

End ConversionFacts.

(** C5, as stated, fails: with a scm->smob hook that unwraps a pair, the
    conversion of a wrapped symtab handle returns the handle inside, which is
    neither the argument, nor #f, nor an exception object. *)
Lemma inbound_conversion_fourth_outcome :
  (@gdbscm_scm_to_gsmob_safe demo_tags demo_runtime
     (SCM_CONS (SCM_SYMBOL "wrapped") (SCM_SMOB 895 7)) 895
     (demo_state SCM_BOOL_F (SCM_PROC 2))).1 = Returned (SCM_SMOB 895 7)
  ∧ ¬ @three_outcomes demo_tags demo_runtime
        (SCM_CONS (SCM_SYMBOL "wrapped") (SCM_SMOB 895 7)) 895
        (demo_state SCM_BOOL_F (SCM_PROC 2)).
Proof.
  assert (Hr : (@gdbscm_scm_to_gsmob_safe demo_tags demo_runtime
     (SCM_CONS (SCM_SYMBOL "wrapped") (SCM_SMOB 895 7)) 895
     (demo_state SCM_BOOL_F (SCM_PROC 2))).1 = Returned (SCM_SMOB 895 7))
    by (vm_compute; reflexivity).
  split; [exact Hr|].
  unfold three_outcomes. rewrite Hr. intros [Heq|[Heq|[x [Heq Hx]]]].
  - discriminate.
  - discriminate.
  - injection Heq as <-. vm_compute in Hx. discriminate.
Qed.

(** ** Iterators *)

Section IteratorFacts.
Context `{SmobTags} `{GuileRuntime}.

Lemma itscm_is_iterator_smob (a : N) :
  itscm_is_iterator (SCM_SMOB iterator_smob_tag a) = true.
Proof. unfold itscm_is_iterator; simpl. by apply bool_decide_eq_true. Qed.

Lemma iterator_smob_not_exception (a : N) :
  gdbscm_is_exception (SCM_SMOB iterator_smob_tag a) = false.
Proof.
  unfold gdbscm_is_exception; simpl. apply bool_decide_eq_false, iterator_exception_ne.
Qed.

Lemma matches_own_tag (tag : Z) (a : N) (st : gdb_state) :
  tag ≠ 0%Z → matches_tag tag (SCM_SMOB tag a) st = true.
Proof.
  intros Hnz. unfold matches_tag. rewrite bool_decide_eq_true_2 by done.
  simpl. by apply bool_decide_eq_true.
Qed.

(** A raw iterator smob passes the argument check unchanged, and no hook is
    called. *)
Lemma itscm_get_iterator_arg_unsafe_smob (a : N) (arg_pos : Z) (func_name : string)
    (st : gdb_state) :
  itscm_get_iterator_arg_unsafe (SCM_SMOB iterator_smob_tag a) arg_pos func_name st
  = (Returned (SCM_SMOB iterator_smob_tag a), st).
Proof.
  unfold itscm_get_iterator_arg_unsafe, itscm_scm_to_iterator_gsmob,
    gdbscm_scm_to_gsmob_safe, bind, get_state.
  rewrite (matches_own_tag _ _ _ iterator_smob_tag_nz). cbn [ret].
  rewrite iterator_smob_not_exception, itscm_is_iterator_smob. reflexivity.
Qed.

(** C9, as amended.  make-iterator throws wrong-type-arg, changing nothing,
    when the step argument is not a procedure.  Otherwise it allocates a new
    iterator smob whose object, progress and step fields are the three
    arguments, and passes the handle through the smob->scm hook: with the
    hook unset the handle is returned and nothing else has changed; with the
    hook set, a value the hook returns is returned unless it is an exception
    object, in which case the exception it records is thrown, and what the
    hook throws is thrown.  iterator-next! on an iterator smob calls the
    stored step procedure on the iterator and returns the outcome of that
    call as gdbscm_safe_call_1 gives it: the value the step returns, whatever
    it is, or the exception object made for what the step throws. *)
Theorem iterator_protocol (obj prog nxt self : SCM) (st : gdb_state) :
  (gdbscm_is_procedure nxt = false →
     ∃ l, gdbscm_make_iterator obj prog nxt st = (Thrown scm_arg_type_key l, st))
  ∧ (gdbscm_is_procedure nxt = true →
     let a := fresh (dom (smobs st)) in
     let i_scm := SCM_SMOB iterator_smob_tag a in
     let st1 := set_smobs (insert a (IteratorSmob {| i_base := gdbscm_init_gsmob;
                  object := obj; progress := prog; next_x := nxt |})) st in
     let hook := scm_from_smob_var st in
     smobs st !! a = None
     ∧ (gdbscm_is_false hook = true →
          gdbscm_make_iterator obj prog nxt st = (Returned i_scm, st1))
     ∧ (gdbscm_is_false hook = false →
          (∀ x st2, scm_apply hook [i_scm] (log_call hook [i_scm] st1) = (Returned x, st2) →
             gdbscm_is_exception x = false →
             gdbscm_make_iterator obj prog nxt st = (Returned x, st2))
          ∧ (∀ x st2, scm_apply hook [i_scm] (log_call hook [i_scm] st1) = (Returned x, st2) →
             gdbscm_is_exception x = true →
             ∃ e, x = SCM_SMOB exception_smob_tag e
                  ∧ ∀ ex, smobs st2 !! e = Some (ExceptionSmob ex) →
                      gdbscm_make_iterator obj prog nxt st
                      = (Thrown (key ex) (args ex), st2))
          ∧ (∀ k l st2, scm_apply hook [i_scm] (log_call hook [i_scm] st1)
                          = (Thrown k l, st2) →
             ∃ st3, gdbscm_make_iterator obj prog nxt st = (Thrown k l, st3))))
  ∧ (∀ a i, self = SCM_SMOB iterator_smob_tag a →
       smobs st !! a = Some (IteratorSmob i) →
       gdbscm_iterator_next_x self st = gdbscm_safe_call_1 (next_x i) self st
       ∧ (∀ x st', scm_apply (next_x i) [self] (log_call (next_x i) [self] st)
                     = (Returned x, st') →
            gdbscm_iterator_next_x self st = (Returned x, st'))
       ∧ (∀ k l st', scm_apply (next_x i) [self] (log_call (next_x i) [self] st)
                       = (Thrown k l, st') →
            gdbscm_iterator_next_x self st = gdbscm_make_exception k l st')).
Proof.
  split; [|split].
  - intros Hp. unfold gdbscm_make_iterator, bind. rewrite Hp. cbn.
    eexists. reflexivity.
  - intros Hp. cbv zeta. split; [apply fresh_smob_unused|].
    assert (Hmk : gdbscm_make_iterator obj prog nxt st =
              gdbscm_scm_from_gsmob_unsafe
                (SCM_SMOB iterator_smob_tag (fresh (dom (smobs st))))
                (set_smobs (insert (fresh (dom (smobs st)))
                   (IteratorSmob {| i_base := gdbscm_init_gsmob; object := obj;
                                    progress := prog; next_x := nxt |})) st)).
    { unfold gdbscm_make_iterator, bind. rewrite Hp. reflexivity. }
    rewrite Hmk. unfold gdbscm_scm_from_gsmob_unsafe, gdbscm_scm_from_gsmob_safe,
      bind, get_state. cbn [scm_from_smob_var set_smobs].
    split.
    + intros ->. cbn [ret]. by rewrite iterator_smob_not_exception.
    + intros ->. split; [|split].
      * intros x st2 Hc Hx. by rewrite (gdbscm_safe_call_1_returned _ _ _ _ _ Hc), Hx.
      * intros x st2 Hc Hx. rewrite (gdbscm_safe_call_1_returned _ _ _ _ _ Hc), Hx.
        destruct (is_exception_smob x Hx) as [e ->]. exists e. split; [reflexivity|].
        intros ex He. by apply gdbscm_throw_smob.
      * intros k l st2 Hc. rewrite (gdbscm_safe_call_1_thrown _ _ _ _ _ _ Hc).
        rewrite gdbscm_make_exception_eq, gdbscm_is_exception_smob.
        rewrite (gdbscm_throw_smob _ {| e_base := gdbscm_init_gsmob;
                                        key := k; args := l |});
          [by eexists|]. cbn. apply lookup_insert_eq.
  - intros a i -> Hl.
    assert (Hn : gdbscm_iterator_next_x (SCM_SMOB iterator_smob_tag a) st
                 = gdbscm_safe_call_1 (next_x i) (SCM_SMOB iterator_smob_tag a) st).
    { unfold gdbscm_iterator_next_x, bind.
      rewrite itscm_get_iterator_arg_unsafe_smob. cbn. by rewrite Hl. }
    split; [exact Hn|]. split.
    + intros x st' Hc. rewrite Hn. by apply gdbscm_safe_call_1_returned.
    + intros k l st' Hc. rewrite Hn. by apply gdbscm_safe_call_1_thrown.
Qed.

End IteratorFacts.

(** C9, as stated, fails: with a smob->scm hook installed, make-iterator
    calls it and returns the wrapper the hook built, not the handle. *)
Lemma make_iterator_goes_through_the_hook :
  gdbscm_is_procedure (SCM_PROC 4) = true
  ∧ (@gdbscm_make_iterator demo_tags demo_runtime (SCM_INUM 0) SCM_BOOL_F (SCM_PROC 4)
       (demo_state (SCM_PROC 1) SCM_BOOL_F)).1
    = Returned (SCM_CONS (SCM_SYMBOL "wrapped") (SCM_SMOB 639 0))
  ∧ ¬ @returns_new_iterator_only demo_tags demo_runtime
        (SCM_INUM 0) SCM_BOOL_F (SCM_PROC 4) (demo_state (SCM_PROC 1) SCM_BOOL_F).
Proof.
  assert (Hr : (@gdbscm_make_iterator demo_tags demo_runtime (SCM_INUM 0) SCM_BOOL_F
                  (SCM_PROC 4) (demo_state (SCM_PROC 1) SCM_BOOL_F)).1
               = Returned (SCM_CONS (SCM_SYMBOL "wrapped") (SCM_SMOB 639 0)))
    by (vm_compute; reflexivity).
  split; [reflexivity|]. split; [exact Hr|].
  intros [a Ha]. rewrite Ha in Hr. discriminate.
Qed.

(** ** Symtab handles and the objfile chain *)

Section ChainFacts.

Lemma symtab_chain_elem (h : gmap N smob_data) (l : list N) (prv cur : option N) (a : N) :
  symtab_chain h prv cur l → a ∈ l → ∃ s, h !! a = Some (SymtabSmob s).
Proof.
  revert prv cur. induction l as [|b l IH]; intros prv cur Hc Ha.
  - by apply elem_of_nil in Ha.
  - destruct Hc as (_ & s & Hs & _ & Hc). apply elem_of_cons in Ha as [->|Ha].
    + by exists s.
    + by eapply IH.
Qed.

(** Writing to a struct outside the chain leaves the chain as it is. *)
Lemma symtab_chain_insert_other (h : gmap N smob_data) (l : list N)
    (prv cur : option N) (a : N) (d : smob_data) :
  a ∉ l → symtab_chain h prv cur l → symtab_chain (<[a := d]> h) prv cur l.
Proof.
  revert prv cur. induction l as [|b l IH]; intros prv cur Ha Hc; [exact Hc|].
  destruct Hc as (Hcur & s & Hs & Hp & Hc).
  apply not_elem_of_cons in Ha as [Hne Ha].
  split; [exact Hcur|]. exists s. split; [by rewrite lookup_insert_ne|].
  split; [exact Hp|]. by apply IH.
Qed.

(** The loop on a chain: it ends within as many turns as the chain is long,
    every struct of the chain is invalidated, and no other struct changes. *)
Lemma stscm_del_objfile_symtab_loop_chain (l : list N) :
  ∀ (h : gmap N smob_data) (prv cur : option N) (fuel : nat),
    symtab_chain h prv cur l → NoDup l → length l ≤ fuel →
    ∃ h', stscm_del_objfile_symtab_loop fuel cur h = Some h'
          ∧ (∀ a, a ∈ l → ∃ s, h !! a = Some (SymtabSmob s)
                                ∧ h' !! a = Some (SymtabSmob (invalidate_symtab_smob s)))
          ∧ (∀ a, a ∉ l → h' !! a = h !! a).
Proof.
  induction l as [|a l IH]; intros h prv cur fuel Hc Hnd Hfuel.
  - simpl in Hc. subst cur. exists h. split; [by destruct fuel|].
    split; [intros a Ha; by apply elem_of_nil in Ha|done].
  - destruct Hc as (-> & s & Hs & Hp & Hc).
    apply NoDup_cons in Hnd as [Hnotin Hnd].
    destruct fuel as [|fuel]; [simpl in Hfuel; lia|].
    simpl in Hfuel. simpl. rewrite Hs.
    destruct (IH (<[a := SymtabSmob (invalidate_symtab_smob s)]> h) (Some a)
                (next (st_base s)) fuel) as (h' & Hrun & Hin & Hout).
    { by apply symtab_chain_insert_other. }
    { exact Hnd. }
    { lia. }
    exists h'. split; [exact Hrun|]. split.
    + intros b Hb. apply elem_of_cons in Hb as [->|Hb].
      * exists s. split; [exact Hs|]. rewrite (Hout a Hnotin). apply lookup_insert_eq.
      * destruct (Hin b Hb) as (s' & Hs' & Hh'). exists s'. split; [|exact Hh'].
        rewrite lookup_insert_ne in Hs'; [exact Hs'|]. intros ->. done.
    + intros b Hb. apply not_elem_of_cons in Hb as [Hne Hb].
      rewrite (Hout b Hb). by rewrite lookup_insert_ne.
Qed.

(** A chain without repetition is no longer than the heap is large. *)
Lemma symtab_chain_length (h : gmap N smob_data) (l : list N) (prv cur : option N) :
  symtab_chain h prv cur l → NoDup l → length l ≤ size h.
Proof.
  intros Hc Hnd.
  rewrite <- (size_list_to_set (C := gset N) l Hnd), <- size_dom.
  apply subseteq_size. intros a Ha. apply elem_of_list_to_set in Ha.
  destruct (symtab_chain_elem _ _ _ _ _ Hc Ha) as [s Hs].
  apply elem_of_dom. by eexists.
Qed.

Lemma symtab_chain_alter_other (h : gmap N smob_data) (l : list N)
    (prv cur : option N) (a : N) (f : smob_data → smob_data) :
  a ∉ l → symtab_chain h prv cur l → symtab_chain (alter f a h) prv cur l.
Proof.
  revert prv cur. induction l as [|b l IH]; intros prv cur Ha Hc; [exact Hc|].
  destruct Hc as (Hcur & s & Hs & Hp & Hc).
  apply not_elem_of_cons in Ha as [Hne Ha].
  split; [exact Hcur|]. exists s. split; [by rewrite lookup_alter_ne|].
  split; [exact Hp|]. by apply IH.
Qed.

Lemma write_chained_eq (a : N) (f : chained_gdb_smob → chained_gdb_smob) (s : symtab_smob)
    (st : gdb_state) :
  smobs st !! a = Some (SymtabSmob s) →
  write_chained a f st
  = (Returned tt,
     set_smobs (insert a (SymtabSmob {| st_base := f (st_base s); symtab := symtab s |})) st).
Proof.
  intros Hl. unfold write_chained, read_chained, bind, modify_state. rewrite Hl. cbn.
  f_equal. unfold set_smobs. f_equal.
  apply map_eq. intros b. destruct (decide (a = b)) as [<-|Hne].
  - rewrite lookup_alter_eq, lookup_insert_eq, Hl. reflexivity.
  - by rewrite lookup_alter_ne, lookup_insert_ne.
Qed.

Lemma gdbscm_add_objfile_ref_chain (o data_key a : N) (l : list N) (s : symtab_smob)
    (st : gdb_state) :
  symtab_chain (smobs st) None (objfile_data o data_key st) l → NoDup l → a ∉ l →
  smobs st !! a = Some (SymtabSmob s) →
  ∃ st', gdbscm_add_objfile_ref (Some o) data_key a st = (Returned tt, st')
         ∧ symtab_chain (smobs st') None (objfile_data o data_key st') (a :: l)
         ∧ smobs st' !! a
           = Some (SymtabSmob {| st_base := {| c_aux := c_aux (st_base s); prev := None;
                                               next := objfile_data o data_key st |};
                                 symtab := symtab s |})
         ∧ (∀ o', o' ≠ o → objfile_data o' data_key st' = objfile_data o' data_key st).
Proof.
  intros Hc Hnd Ha Hs.
  unfold gdbscm_add_objfile_ref. unfold bind at 1.
  rewrite (write_chained_eq _ _ s _ Hs).
  unfold bind at 1. unfold get_state at 1. cbv zeta.
  change (objfile_data o data_key (set_smobs _ st)) with (objfile_data o data_key st).
  unfold bind at 1.
  rewrite (write_chained_eq a _ {| st_base := set_prev None (st_base s);
                                   symtab := symtab s |})
    by (cbn; apply lookup_insert_eq).
  cbn [st_base symtab set_next set_prev c_aux prev next].
  destruct l as [|n l'].
  - simpl in Hc. rewrite Hc. unfold bind, ret, set_objfile_data, modify_state.
    eexists. split; [reflexivity|]. cbn.
    unfold objfile_data. cbn. rewrite lookup_insert_eq.
    split; [|split].
    + split; [reflexivity|]. eexists. split; [apply lookup_insert_eq|].
      split; reflexivity.
    + apply lookup_insert_eq.
    + intros o' Hne. rewrite lookup_insert_ne; [done|]. intros [=]. done.
  - destruct Hc as (Hhead & sn & Hsn & Hprev & Hrest). rewrite Hhead.
    apply not_elem_of_cons in Ha as [Hne Ha].
    apply NoDup_cons in Hnd as [Hn Hnd].
    unfold bind at 1.
    rewrite (write_chained_eq n _ sn)
      by (cbn; rewrite !lookup_insert_ne by done; exact Hsn).
    unfold set_objfile_data, modify_state.
    eexists. split; [reflexivity|]. cbn.
    unfold objfile_data. cbn. rewrite lookup_insert_eq.
    split; [|split].
    + split; [reflexivity|]. eexists.
      split; [rewrite lookup_insert_ne by done; apply lookup_insert_eq|].
      split; [reflexivity|]. cbn.
      split; [reflexivity|]. eexists. split; [apply lookup_insert_eq|].
      split; [reflexivity|]. cbn.
      apply symtab_chain_insert_other; [exact Hn|].
      apply symtab_chain_insert_other; [exact Ha|].
      apply symtab_chain_insert_other; [exact Ha|]. exact Hrest.
    + rewrite lookup_insert_ne by done. apply lookup_insert_eq.
    + intros o' Hne'. rewrite lookup_insert_ne; [done|]. intros [=]. done.
Qed.

(** The chain does not look at the symtab pointers. *)
Lemma symtab_chain_set_symtab (h : gmap N smob_data) (l : list N)
    (prv cur : option N) (a : N) (p : option N) :
  symtab_chain h prv cur l → symtab_chain (alter (set_symtab p) a h) prv cur l.
Proof.
  revert prv cur. induction l as [|b l IH]; intros prv cur Hc; [exact Hc|].
  destruct Hc as (Hcur & s & Hs & Hp & Hc).
  split; [exact Hcur|]. destruct (decide (a = b)) as [->|Hne].
  - exists {| st_base := st_base s; symtab := p |}.
    split; [by rewrite lookup_alter_eq, Hs|]. split; [exact Hp|]. by apply IH.
  - exists s. split; [by rewrite lookup_alter_ne|]. split; [exact Hp|]. by apply IH.
Qed.

End ChainFacts.

Section SymtabFacts.
Context `{SmobTags} `{GuileRuntime} `{GdbHost}.

Lemma stscm_is_symtab_smob (a : N) : stscm_is_symtab (SCM_SMOB symtab_smob_tag a) = true.
Proof. unfold stscm_is_symtab; simpl. by apply bool_decide_eq_true. Qed.

Lemma symtab_smob_not_exception (a : N) :
  gdbscm_is_exception (SCM_SMOB symtab_smob_tag a) = false.
Proof.
  unfold gdbscm_is_exception; simpl. apply bool_decide_eq_false, symtab_exception_ne.
Qed.

(** A raw symtab smob passes the argument check unchanged, whatever the
    scm->smob hook is. *)
Lemma stscm_get_symtab_smob_arg_unsafe_smob (a : N) (s : symtab_smob) (arg_pos : Z)
    (func_name : string) (st : gdb_state) :
  smobs st !! a = Some (SymtabSmob s) →
  stscm_get_symtab_smob_arg_unsafe (SCM_SMOB symtab_smob_tag a) arg_pos func_name st
  = (Returned (a, s), st).
Proof.
  intros Hl.
  unfold stscm_get_symtab_smob_arg_unsafe, stscm_get_symtab_arg_unsafe,
    stscm_scm_to_symtab_gsmob, gdbscm_scm_to_gsmob_safe, bind, get_state.
  rewrite (matches_own_tag _ _ _ symtab_smob_tag_nz). cbn [ret].
  rewrite symtab_smob_not_exception, stscm_is_symtab_smob. cbn. by rewrite Hl.
Qed.

Lemma stscm_get_valid_symtab_smob_arg_unsafe_stale (a : N) (s : symtab_smob)
    (arg_pos : Z) (func_name : string) (st : gdb_state) :
  smobs st !! a = Some (SymtabSmob s) → symtab s = None →
  let self := SCM_SMOB symtab_smob_tag a in
  stscm_get_valid_symtab_smob_arg_unsafe self arg_pos func_name st
  = (Thrown gdbscm_invalid_object_error_symbol (stale_symtab_args self arg_pos func_name),
     (gdbscm_make_invalid_object_error (Some func_name) arg_pos self
        "invalid <gdb:symtab>" st).2).
Proof.
  intros Hl Hs. cbv zeta. unfold stscm_get_valid_symtab_smob_arg_unsafe.
  unfold bind at 1. rewrite (stscm_get_symtab_smob_arg_unsafe_smob _ _ _ _ _ Hl).
  cbn [snd]. unfold stscm_is_valid. rewrite Hs. cbn [negb bool_decide decide_rel].
  rewrite bool_decide_eq_false_2 by (intros Hne; by apply Hne). cbn [negb].
  unfold gdbscm_invalid_object_error, gdbscm_make_invalid_object_error,
    gdbscm_make_arg_error, gdbscm_make_error, gdbscm_make_error_scm.
  rewrite make_then_throw. reflexivity.
Qed.

Lemma stscm_get_valid_symtab_smob_arg_unsafe_valid (a : N) (s : symtab_smob) (sym : N)
    (arg_pos : Z) (func_name : string) (st : gdb_state) :
  smobs st !! a = Some (SymtabSmob s) → symtab s = Some sym →
  stscm_get_valid_symtab_smob_arg_unsafe (SCM_SMOB symtab_smob_tag a) arg_pos func_name st
  = (Returned (a, s), st).
Proof.
  intros Hl Hs. unfold stscm_get_valid_symtab_smob_arg_unsafe.
  unfold bind at 1. rewrite (stscm_get_symtab_smob_arg_unsafe_smob _ _ _ _ _ Hl).
  cbn [snd]. unfold stscm_is_valid. rewrite Hs.
  by rewrite bool_decide_eq_true_2.
Qed.

(** Every accessor that needs a valid symtab throws the invalid-object
    error on a stale handle, before any use of the symtab pointer. *)
Lemma symtab_accessors_stale (a : N) (s : symtab_smob) (st : gdb_state)
    (f : SCM → M gdb_state SCM) :
  smobs st !! a = Some (SymtabSmob s) → symtab s = None →
  f ∈ symtab_accessors →
  ∃ l st', f (SCM_SMOB symtab_smob_tag a) st
           = (Thrown gdbscm_invalid_object_error_symbol l, st')
           ∧ smobs st' !! a = Some (SymtabSmob s).
Proof.
  intros Hl Hs Hf.
  assert (Hkeep : ∀ fn, smobs (gdbscm_make_invalid_object_error (Some fn) SCM_ARG1
                     (SCM_SMOB symtab_smob_tag a) "invalid <gdb:symtab>" st).2 !! a
                   = Some (SymtabSmob s)).
  { intros fn. by apply (gdbscm_make_exception_frame _ _ st). }
  unfold symtab_accessors in Hf.
  repeat (apply elem_of_cons in Hf as [->|Hf]);
    [..|by apply elem_of_nil in Hf];
    eexists _, _;
    (split; [|apply Hkeep]);
    [unfold gdbscm_symtab_filename|unfold gdbscm_symtab_fullname
    |unfold gdbscm_symtab_objfile|unfold gdbscm_symtab_global_block
    |unfold gdbscm_symtab_static_block];
    unfold bind;
    rewrite (stscm_get_valid_symtab_smob_arg_unsafe_stale _ _ _ _ _ Hl Hs);
    reflexivity.
Qed.

(** Making a handle for a symtab of an objfile puts the new smob at the
    head of the objfile's chain: the chains the teardown walks are the ones
    this code builds. *)
Lemma stscm_gsmob_from_symtab_chain (sym o : N) (l : list N) (st : gdb_state) :
  symtab_objfile sym = Some o →
  chained_symtabs o l st →
  ∃ a st',
    stscm_gsmob_from_symtab sym st = (Returned (SCM_SMOB symtab_smob_tag a), st')
    ∧ smobs st !! a = None
    ∧ chained_symtabs o (a :: l) st'
    ∧ smobs st' !! a
      = Some (SymtabSmob {| st_base := {| c_aux := SCM_BOOL_F; prev := None;
                                          next := objfile_data o stscm_objfile_data_key st |};
                            symtab := Some sym |}).
Proof.
  intros Hobj [Hc Hnd].
  set (a := fresh (dom (smobs st))).
  assert (Hfresh : smobs st !! a = None) by apply fresh_smob_unused.
  assert (Ha : a ∉ l).
  { intros Hin. destruct (symtab_chain_elem _ _ _ _ _ Hc Hin) as [s Hs]. congruence. }
  set (st1 := set_smobs (insert a (SymtabSmob {| st_base := gdbscm_init_chained_gsmob;
                                                 symtab := None |})) st).
  destruct (gdbscm_add_objfile_ref_chain o stscm_objfile_data_key a l
              {| st_base := gdbscm_init_chained_gsmob; symtab := None |} st1)
    as (st2 & Hadd & Hchain & Hat & _).
  { by apply symtab_chain_insert_other. }
  { exact Hnd. }
  { exact Ha. }
  { cbn. apply lookup_insert_eq. }
  exists a, (set_smobs (alter (set_symtab (Some sym)) a) st2).
  split.
  { unfold stscm_gsmob_from_symtab, stscm_make_symtab_smob, bind.
    unfold scm_new_smob. fold a. fold st1. cbn [symtab_smob_data].
    assert (Hl1 : smobs st1 !! a
                  = Some (SymtabSmob {| st_base := gdbscm_init_chained_gsmob;
                                        symtab := None |}))
      by (cbn; apply lookup_insert_eq).
    rewrite Hl1. cbn [fst snd]. rewrite Hobj, Hadd. reflexivity. }
  split; [exact Hfresh|]. split.
  - split.
    + exact (symtab_chain_set_symtab _ _ _ _ a (Some sym) Hchain).
    + apply NoDup_cons. by split.
  - cbn. rewrite lookup_alter_eq, Hat. reflexivity.
Qed.

End SymtabFacts.

Section Teardown.
Context `{SmobTags} `{GuileRuntime} `{GdbHost}.

(** The teardown as far as symtab handles go.  Let L be the symtab smobs
    chained to an objfile.  Running the symtab callback and dropping the
    slot succeeds; afterwards the chain head is cleared, every smob of L has
    a NULL symtab pointer and NULL prev and next links (its aux slot is
    kept), and no other struct has changed.  On each handle of L the validity
    check and every accessor behind it then throw gdb:invalid-object-error
    instead of using the pointer, while the handle is still a symtab smob for
    which symtab? answers #t and symtab-valid? answers #f. *)
Lemma objfile_teardown_invalidates_symtabs (objfile : N) (l : list N) (st : gdb_state) :
  chained_symtabs objfile l st →
  ∃ st',
    free_objfile objfile st = (Returned tt, st')
    ∧ objfile_data objfile stscm_objfile_data_key st' = None
    ∧ (∀ a, a ∉ l → smobs st' !! a = smobs st !! a)
    ∧ (∀ a, a ∈ l →
         let self := SCM_SMOB symtab_smob_tag a in
         ∃ s,
           smobs st !! a = Some (SymtabSmob s)
           ∧ smobs st' !! a
             = Some (SymtabSmob {| st_base := {| c_aux := c_aux (st_base s);
                                                 prev := None; next := None |};
                                   symtab := None |})
           ∧ (∀ arg_pos func_name, ∃ st'',
                stscm_get_valid_symtab_smob_arg_unsafe self arg_pos func_name st'
                = (Thrown gdbscm_invalid_object_error_symbol
                     (stale_symtab_args self arg_pos func_name), st''))
           ∧ (∀ f, f ∈ symtab_accessors →
                ∃ l' st'', f self st' = (Thrown gdbscm_invalid_object_error_symbol l', st''))
           ∧ stscm_is_symtab self = true
           ∧ gdbscm_symtab_p self st' = (Returned SCM_BOOL_T, st')
           ∧ gdbscm_symtab_valid_p self st' = (Returned SCM_BOOL_F, st')).
Proof.
  intros [Hc Hnd].
  destruct (stscm_del_objfile_symtab_loop_chain l (smobs st) None
              (objfile_data objfile stscm_objfile_data_key st) (S (size (smobs st)))
              Hc Hnd) as (h' & Hrun & Hin & Hout).
  { pose proof (symtab_chain_length _ _ _ _ Hc Hnd). lia. }
  set (st1 := set_smobs (λ _, h') st).
  exists (set_objfile_data_tab (delete (objfile, stscm_objfile_data_key)) st1).
  assert (Hfree : free_objfile objfile st
                  = (Returned tt,
                     set_objfile_data_tab (delete (objfile, stscm_objfile_data_key)) st1)).
  { unfold free_objfile, bind, get_state.
    destruct (objfile_data objfile stscm_objfile_data_key st) as [datum|] eqn:Hd.
    - unfold stscm_del_objfile_symtab. rewrite Hrun. reflexivity.
    - destruct l as [|a l']; [|by destruct Hc].
      simpl in Hrun. injection Hrun as <-.
      unfold st1. cbn. by destruct st. }
  split; [exact Hfree|].
  split; [unfold objfile_data; cbn; apply lookup_delete_eq|].
  split; [intros a Ha; cbn; by apply Hout|].
  intros a Ha. cbv zeta. destruct (Hin a Ha) as (s & Hs & Hs').
  exists s. split; [exact Hs|].
  assert (Hl' : smobs (set_objfile_data_tab (delete (objfile, stscm_objfile_data_key)) st1)
                  !! a = Some (SymtabSmob (invalidate_symtab_smob s))) by exact Hs'.
  split; [exact Hl'|].
  split.
  { intros arg_pos func_name. eexists.
    by apply (stscm_get_valid_symtab_smob_arg_unsafe_stale _ _ _ _ _ Hl'). }
  split.
  { intros f Hf.
    destruct (symtab_accessors_stale _ _ _ f Hl' eq_refl Hf) as (l' & st'' & Hthrow & _).
    by exists l', st''. }
  split; [apply stscm_is_symtab_smob|].
  split.
  { unfold gdbscm_symtab_p. by rewrite stscm_is_symtab_smob. }
  unfold gdbscm_symtab_valid_p, bind.
  by rewrite (stscm_get_symtab_smob_arg_unsafe_smob _ _ _ _ _ Hl').
Qed.

End Teardown.

(** The handles of objfile 1 in the example state are chained: the smob at
    address 1 is the head and the smob at address 0 follows it. *)
Lemma demo_symtab_state_chained :
  @chained_symtabs demo_host 1%N [1%N; 0%N] demo_symtab_state.
Proof.
  split.
  - simpl. split; [vm_compute; reflexivity|].
    eexists. split; [vm_compute; reflexivity|]. split; [reflexivity|].
    simpl. split; [reflexivity|].
    eexists. split; [vm_compute; reflexivity|]. split; reflexivity.
  - apply NoDup_cons. split; [|apply NoDup_singleton].
    intros Hin. apply list_elem_of_singleton in Hin. discriminate.
Defined.

(** Objfile 1 is destroyed while two handles on its symtabs are alive. *)
Lemma objfile_teardown_of_symtabs_example :
  ∃ st',
    @free_objfile demo_host 1%N demo_symtab_state = (Returned tt, st')
    ∧ @objfile_data 1%N (@stscm_objfile_data_key demo_host) st' = None
    ∧ (∃ l' st'', @gdbscm_symtab_filename demo_tags demo_runtime demo_host
                    (SCM_SMOB 895 0) st'
                  = (Thrown gdbscm_invalid_object_error_symbol l', st''))
    ∧ (∃ l' st'', @gdbscm_symtab_fullname demo_tags demo_runtime demo_host
                    (SCM_SMOB 895 1) st'
                  = (Thrown gdbscm_invalid_object_error_symbol l', st''))
    ∧ @gdbscm_symtab_valid_p demo_tags demo_runtime (SCM_SMOB 895 2) st'
      = (Returned SCM_BOOL_T, st').
Proof.
  destruct (@objfile_teardown_invalidates_symtabs demo_tags demo_runtime demo_host
              1%N [1%N; 0%N] demo_symtab_state demo_symtab_state_chained)
    as (st' & Hfree & Hhead & Hout & Hin).
  exists st'. split; [exact Hfree|]. split; [exact Hhead|].
  split.
  { destruct (Hin 0%N) as (s & _ & _ & _ & Hacc & _).
    { apply elem_of_cons. right. apply list_elem_of_singleton. reflexivity. }
    apply (Hacc (@gdbscm_symtab_filename demo_tags demo_runtime demo_host)).
    apply elem_of_cons. by left. }
  split.
  { destruct (Hin 1%N) as (s & _ & _ & _ & Hacc & _).
    { apply elem_of_cons. by left. }
    apply (Hacc (@gdbscm_symtab_fullname demo_tags demo_runtime demo_host)).
    apply elem_of_cons. right. apply elem_of_cons. by left. }
  assert (Hother : smobs st' !! 2%N = smobs demo_symtab_state !! 2%N).
  { apply Hout. intros Hel. apply elem_of_cons in Hel as [Hel|Hel]; [discriminate|].
    apply list_elem_of_singleton in Hel. discriminate. }
  unfold gdbscm_symtab_valid_p, bind.
  rewrite (@stscm_get_symtab_smob_arg_unsafe_smob demo_tags demo_runtime 2%N
             {| st_base := gdbscm_init_chained_gsmob; symtab := Some 20%N |}).
  - reflexivity.
  - rewrite Hother. vm_compute. reflexivity.
Defined.

(** ** Memory ports *)

Lemma u64_small (z : Z) : (0 ≤ z < 2 ^ 64)%Z → u64 z = z.
Proof. intros Hz. unfold u64. by apply Z.mod_small. Qed.

Section OpenMemory.
Context `{SmobTags}.

Lemma open_memory_throw {A : Type} (arg_pos : Z) (bad_value : SCM) (error : string)
    (st : gdb_state) :
  ∃ st', @gdbscm_out_of_range_error _ A (Some "gdbscm_open_memory") arg_pos bad_value
           error st
         = (Thrown exscm_out_of_range_error_symbol
              (arg_error_args "gdbscm_open_memory" arg_pos bad_value error), st').
Proof. rewrite gdbscm_out_of_range_error_eq. by eexists. Qed.

(** What ioscm_init_memory_port returns for a range below the largest
    address. *)
Lemma ioscm_init_memory_port_ok (port : memory_port) (start end_ : Z) (st : gdb_state) :
  (0 ≤ start ≤ end_)%Z → (end_ < CORE_ADDR_MAX)%Z →
  ∃ port', ioscm_init_memory_port port start end_ st = (Returned port', st)
           ∧ iomem_start (iomem port') = start
           ∧ iomem_end (iomem port') = end_
           ∧ iomem_size (iomem port') = (end_ - start + 1)%Z
           ∧ iomem_current (iomem port') = 0%Z
           ∧ iomem_read_buf_size (iomem port') = default_read_buf_size
           ∧ iomem_write_buf_size (iomem port') = default_write_buf_size
           ∧ write_pos (pt port') = 0%Z
           ∧ read_pos (pt port') = 0%Z ∧ read_end (pt port') = 0%Z
           ∧ rw_active (pt port') = rw_active (pt port)
           ∧ rw_random (pt port') = true
           ∧ port_wf port'.
Proof.
  intros Hse Hmax. unfold ioscm_init_memory_port, bind, gdb_assert.
  rewrite !bool_decide_eq_true_2 by (done || lia). cbn [ret].
  unfold CORE_ADDR_MAX in Hmax.
  assert (Hsz : u64 (end_ - start + 1) = (end_ - start + 1)%Z) by (apply u64_small; lia).
  eexists. split; [reflexivity|]. unfold port_wf. cbn.
  rewrite Hsz.
  unfold CORE_ADDR_MAX, default_read_buf_size, default_write_buf_size,
    min_memory_port_buf_size, max_memory_port_buf_size.
  repeat split; try reflexivity; lia.
Qed.

Lemma ioscm_parse_mode_bits_ok (func_name mode : string) (st : gdb_state) :
  mode_string_ok mode = true →
  ioscm_parse_mode_bits func_name mode st = (Returned (scm_mode_bits mode), st).
Proof. intros Hm. unfold ioscm_parse_mode_bits. by rewrite Hm. Qed.

(** The open with an explicit size that passes the four checks. *)
Lemma gdbscm_open_memory_sized (mode : option string) (start_arg : option Z) (size : Z)
    (st : gdb_state) :
  let start := default 0%Z start_arg in
  (0 ≤ start)%Z → start ≠ CORE_ADDR_MAX → (0 < size)%Z → (start + size < 2 ^ 64)%Z →
  mode_string_ok (default "r" mode) = true →
  gdbscm_open_memory mode start_arg (Some size) st
  = ioscm_init_memory_port
      (ioscm_open_port memory_port_desc (scm_mode_bits (default "r" mode)))
      start (start + size - 1)%Z st.
Proof.
  cbv zeta. intros H0 Hne Hsz Hsum Hm.
  unfold gdbscm_open_memory, bind.
  rewrite (bool_decide_eq_false_2 (default 0%Z start_arg = CORE_ADDR_MAX)) by done.
  cbn [ret].
  rewrite (bool_decide_eq_false_2 (size = 0%Z)) by lia. cbn [ret].
  rewrite (u64_small (default 0%Z start_arg + size)) by lia.
  rewrite (bool_decide_eq_false_2 (_ < _)%Z) by lia. cbn [ret].
  rewrite (u64_small (default 0%Z start_arg + size - 1)) by lia.
  rewrite (bool_decide_eq_false_2 (_ = CORE_ADDR_MAX)) by (unfold CORE_ADDR_MAX; lia).
  cbn [ret]. by rewrite ioscm_parse_mode_bits_ok.
Qed.

(** The open without a size. *)
Lemma gdbscm_open_memory_unsized (mode : option string) (start_arg : option Z)
    (st : gdb_state) :
  default 0%Z start_arg ≠ CORE_ADDR_MAX →
  mode_string_ok (default "r" mode) = true →
  gdbscm_open_memory mode start_arg None st
  = ioscm_init_memory_port
      (ioscm_open_port memory_port_desc (scm_mode_bits (default "r" mode)))
      (default 0%Z start_arg) (CORE_ADDR_MAX - 1)%Z st.
Proof.
  intros Hne Hm. unfold gdbscm_open_memory, bind.
  rewrite (bool_decide_eq_false_2 (default 0%Z start_arg = CORE_ADDR_MAX)) by done.
  cbn [ret]. by rewrite ioscm_parse_mode_bits_ok.
Qed.

(** C3, as amended.  For a well-formed mode string and arguments in the
    range of their 64-bit types, open-memory throws out-of-range, each time
    with a message of its own, when the start address is all-ones, when the
    given size is zero, and when start + size wraps.  A resulting end address
    of all-ones has no error of its own: it only arises together with one of
    these three, whose error is then thrown, and the error for an all-ones
    end address is never thrown.  In every other case open-memory returns a
    port with current = 0 and end = start + size - 1 and leaves the state
    alone. *)
Theorem open_memory_range_checks (mode : option string) (start_arg size_arg : option Z)
    (st : gdb_state) :
  let start := default 0%Z start_arg in
  let fails arg_pos bad_value error :=
    ∃ st', gdbscm_open_memory mode start_arg size_arg st
           = (Thrown exscm_out_of_range_error_symbol
                (arg_error_args "gdbscm_open_memory" arg_pos bad_value error), st') in
  (0 ≤ start < 2 ^ 64)%Z →
  (∀ size, size_arg = Some size → (0 ≤ size < 2 ^ 64)%Z) →
  mode_string_ok (default "r" mode) = true →
  (start = CORE_ADDR_MAX →
     fails SCM_ARG1 (scm_from_int (-1)) "start address of 0xff..ff not allowed")
  ∧ (start ≠ CORE_ADDR_MAX → size_arg = Some 0%Z →
     fails 0%Z (scm_from_int 0) "zero size")
  ∧ (∀ size, start ≠ CORE_ADDR_MAX → size_arg = Some size → size ≠ 0%Z →
       (2 ^ 64 ≤ start + size)%Z →
       fails 0%Z (scm_list_2 (SCM_INUM start) (SCM_INUM size)) "start+size overflows")
  ∧ (∀ size, size_arg = Some size → u64 (start + size - 1) = CORE_ADDR_MAX →
       (start = CORE_ADDR_MAX
        ∧ fails SCM_ARG1 (scm_from_int (-1)) "start address of 0xff..ff not allowed")
       ∨ (start = 0%Z ∧ size = 0%Z ∧ fails 0%Z (scm_from_int 0) "zero size")
       ∨ (start ≠ CORE_ADDR_MAX ∧ size ≠ 0%Z ∧ (start + size = 2 ^ 64)%Z
          ∧ fails 0%Z (scm_list_2 (SCM_INUM start) (SCM_INUM size))
              "start+size overflows"))
  ∧ (∀ arg_pos bad_value st',
       gdbscm_open_memory mode start_arg size_arg st
       ≠ (Thrown exscm_out_of_range_error_symbol
            (arg_error_args "gdbscm_open_memory" arg_pos bad_value
               "end address of 0xff..ff not allowed"), st'))
  ∧ (∀ size, start ≠ CORE_ADDR_MAX → size_arg = Some size → size ≠ 0%Z →
       (start + size < 2 ^ 64)%Z →
       ∃ port, gdbscm_open_memory mode start_arg size_arg st = (Returned port, st)
               ∧ iomem_start (iomem port) = start
               ∧ iomem_end (iomem port) = (start + size - 1)%Z
               ∧ iomem_size (iomem port) = size
               ∧ iomem_current (iomem port) = 0%Z
               ∧ port_wf port)
  ∧ (start ≠ CORE_ADDR_MAX → size_arg = None →
       ∃ port, gdbscm_open_memory mode start_arg size_arg st = (Returned port, st)
               ∧ iomem_start (iomem port) = start
               ∧ iomem_end (iomem port)
                 = (start + iomem_size (iomem port) - 1)%Z
               ∧ iomem_current (iomem port) = 0%Z
               ∧ port_wf port).
Proof.
  cbv zeta. intros Hstart Hsize Hmode.
  assert (Hcase1 : default 0%Z start_arg = CORE_ADDR_MAX →
            ∃ st', gdbscm_open_memory mode start_arg size_arg st
                   = (Thrown exscm_out_of_range_error_symbol
                        (arg_error_args "gdbscm_open_memory" SCM_ARG1 (scm_from_int (-1))
                           "start address of 0xff..ff not allowed"), st')).
  { intros Heq. unfold gdbscm_open_memory. unfold bind at 1.
    rewrite (bool_decide_eq_true_2 _ Heq).
    destruct (open_memory_throw (A := unit) SCM_ARG1 (scm_from_int (-1))
                "start address of 0xff..ff not allowed" st) as [st' Hst'].
    rewrite Hst'. by exists st'. }
  assert (Hcase2 : default 0%Z start_arg ≠ CORE_ADDR_MAX → size_arg = Some 0%Z →
            ∃ st', gdbscm_open_memory mode start_arg size_arg st
                   = (Thrown exscm_out_of_range_error_symbol
                        (arg_error_args "gdbscm_open_memory" 0 (scm_from_int 0)
                           "zero size"), st')).
  { intros Hne ->. unfold gdbscm_open_memory. unfold bind at 1.
    rewrite (bool_decide_eq_false_2 _ Hne). cbn [ret].
    unfold bind at 1. unfold bind at 1.
    rewrite (bool_decide_eq_true_2 (0 = 0)%Z) by done.
    destruct (open_memory_throw (A := unit) 0 (scm_from_int 0) "zero size" st)
      as [st' Hst'].
    rewrite Hst'. by exists st'. }
  assert (Hcase3 : ∀ size, default 0%Z start_arg ≠ CORE_ADDR_MAX →
            size_arg = Some size → size ≠ 0%Z →
            (2 ^ 64 ≤ default 0%Z start_arg + size)%Z →
            ∃ st', gdbscm_open_memory mode start_arg size_arg st
                   = (Thrown exscm_out_of_range_error_symbol
                        (arg_error_args "gdbscm_open_memory" 0
                           (scm_list_2 (SCM_INUM (default 0%Z start_arg)) (SCM_INUM size))
                           "start+size overflows"), st')).
  { intros size Hne Hs Hnz Hwrap. specialize (Hsize size Hs). subst size_arg.
    unfold gdbscm_open_memory. unfold bind at 1.
    rewrite (bool_decide_eq_false_2 _ Hne). cbn [ret].
    unfold bind at 1. unfold bind at 1.
    rewrite (bool_decide_eq_false_2 (size = 0%Z)) by done. cbn [ret].
    unfold bind at 1.
    assert (Hlt : (u64 (default 0%Z start_arg + size) < default 0%Z start_arg)%Z).
    { unfold u64.
      replace (default 0%Z start_arg + size)%Z
        with ((default 0%Z start_arg + size - 2 ^ 64) + 1 * 2 ^ 64)%Z by lia.
      rewrite Z.mod_add by lia. rewrite Z.mod_small by lia. lia. }
    rewrite (bool_decide_eq_true_2 _ Hlt).
    destruct (open_memory_throw (A := unit) 0
                (scm_list_2 (gdbscm_scm_from_ulongest (default 0%Z start_arg))
                            (gdbscm_scm_from_ulongest size))
                "start+size overflows" st) as [st' Hst'].
    rewrite Hst'. by exists st'. }
  assert (Hcase5 : ∀ size, default 0%Z start_arg ≠ CORE_ADDR_MAX →
            size_arg = Some size → size ≠ 0%Z →
            (default 0%Z start_arg + size < 2 ^ 64)%Z →
            ∃ port, gdbscm_open_memory mode start_arg size_arg st = (Returned port, st)
                    ∧ iomem_start (iomem port) = default 0%Z start_arg
                    ∧ iomem_end (iomem port) = (default 0%Z start_arg + size - 1)%Z
                    ∧ iomem_size (iomem port) = size
                    ∧ iomem_current (iomem port) = 0%Z
                    ∧ port_wf port).
  { intros size Hne Hs Hnz Hsum. pose proof (Hsize size Hs) as Hrange. subst size_arg.
    rewrite gdbscm_open_memory_sized by (done || lia).
    destruct (ioscm_init_memory_port_ok
                (ioscm_open_port memory_port_desc (scm_mode_bits (default "r" mode)))
                (default 0%Z start_arg) (default 0%Z start_arg + size - 1) st)
      as (port & Hp & Hst & Hen & Hsz & Hcur & _ & _ & _ & _ & _ & _ & _ & Hwf).
    { lia. }
    { unfold CORE_ADDR_MAX. lia. }
    exists port. split; [exact Hp|]. split; [exact Hst|]. split; [exact Hen|].
    split; [rewrite Hsz; lia|]. by split. }
  assert (Hcase6 : default 0%Z start_arg ≠ CORE_ADDR_MAX → size_arg = None →
            ∃ port, gdbscm_open_memory mode start_arg size_arg st = (Returned port, st)
                    ∧ iomem_start (iomem port) = default 0%Z start_arg
                    ∧ iomem_end (iomem port)
                      = (default 0%Z start_arg + iomem_size (iomem port) - 1)%Z
                    ∧ iomem_current (iomem port) = 0%Z
                    ∧ port_wf port).
  { intros Hne ->. rewrite gdbscm_open_memory_unsized by done.
    destruct (ioscm_init_memory_port_ok
                (ioscm_open_port memory_port_desc (scm_mode_bits (default "r" mode)))
                (default 0%Z start_arg) (CORE_ADDR_MAX - 1) st)
      as (port & Hp & Hst & Hen & Hsz & Hcur & _ & _ & _ & _ & _ & _ & _ & Hwf).
    { unfold CORE_ADDR_MAX in *. lia. }
    { lia. }
    exists port. split; [exact Hp|]. split; [exact Hst|].
    split; [rewrite Hsz, Hen; lia|]. by split. }
  split; [exact Hcase1|]. split; [exact Hcase2|]. split; [exact Hcase3|].
  split; [|split; [|split; [exact Hcase5|exact Hcase6]]].
  - intros size Hs Hend. pose proof (Hsize size Hs) as Hrange.
    destruct (decide (default 0%Z start_arg = CORE_ADDR_MAX)) as [Heq|Hne].
    { left. split; [exact Heq|]. by apply Hcase1. }
    right. destruct (decide (size = 0%Z)) as [->|Hnz].
    { left. assert (H0 : default 0%Z start_arg = 0%Z).
      { destruct (decide (default 0%Z start_arg = 0%Z)) as [Hz|Hnz0]; [exact Hz|].
        exfalso. rewrite u64_small in Hend by lia. unfold CORE_ADDR_MAX in *. lia. }
      split; [exact H0|]. split; [reflexivity|]. by apply Hcase2. }
    right. destruct (decide (2 ^ 64 ≤ default 0%Z start_arg + size)%Z) as [Hwrap|Hsmall].
    { split; [exact Hne|]. split; [exact Hnz|]. split; [|by apply Hcase3].
      destruct (decide (default 0%Z start_arg + size = 2 ^ 64)%Z) as [Heq|Hgt];
        [exact Heq|]. exfalso. unfold u64 in Hend.
      replace (default 0%Z start_arg + size - 1)%Z
        with ((default 0%Z start_arg + size - 1 - 2 ^ 64) + 1 * 2 ^ 64)%Z in Hend by lia.
      rewrite Z.mod_add in Hend by lia. rewrite Z.mod_small in Hend by lia.
      unfold CORE_ADDR_MAX in *. lia. }
    exfalso. rewrite u64_small in Hend by lia. unfold CORE_ADDR_MAX in *. lia.
  - intros arg_pos bad_value st' Heq.
    assert (Hmsg : ∀ pos pos' c err, c ≠ "e"%char →
              arg_error_message pos (String c err)
              ≠ arg_error_message pos' "end address of 0xff..ff not allowed").
    { intros pos pos' c err Hc Hm. unfold arg_error_message in Hm.
      apply (f_equal (String.get 0)) in Hm.
      destruct (bool_decide (0 < pos)%Z), (bool_decide (0 < pos')%Z);
        vm_compute in Hm; injection Hm as Hm; by apply Hc. }
    assert (Hthrown : ∀ pos bad c err st1, c ≠ "e"%char →
              (Thrown exscm_out_of_range_error_symbol
                 (arg_error_args "gdbscm_open_memory" pos bad (String c err)), st1)
              ≠ (@Thrown memory_port exscm_out_of_range_error_symbol
                   (arg_error_args "gdbscm_open_memory" arg_pos bad_value
                      "end address of 0xff..ff not allowed"), st')).
    { intros pos bad c err st1 Hc Hth.
      apply (Hmsg pos arg_pos c err Hc).
      unfold arg_error_args, scm_list_4, scm_list_3, scm_from_latin1_string in Hth.
      congruence. }
    destruct (decide (default 0%Z start_arg = CORE_ADDR_MAX)) as [Hmax|Hne].
    { destruct (Hcase1 Hmax) as [st1 Hst1]. rewrite Hst1 in Heq.
      by apply Hthrown in Heq. }
    destruct size_arg as [size|].
    2: { destruct (Hcase6 Hne eq_refl) as (port & Hp & _). rewrite Hp in Heq.
         discriminate. }
    pose proof (Hsize size eq_refl) as Hrange.
    destruct (decide (size = 0%Z)) as [->|Hnz].
    { destruct (Hcase2 Hne eq_refl) as [st1 Hst1]. rewrite Hst1 in Heq.
      by apply Hthrown in Heq. }
    destruct (decide (2 ^ 64 ≤ default 0%Z start_arg + size)%Z) as [Hwrap|Hsmall].
    { destruct (Hcase3 size Hne eq_refl Hnz Hwrap) as [st1 Hst1]. rewrite Hst1 in Heq.
      by apply Hthrown in Heq. }
    destruct (Hcase5 size Hne eq_refl Hnz) as (port & Hp & _); [lia|].
    rewrite Hp in Heq. discriminate.
Qed.

(** C8, as amended.  A port opened with a start address below all-ones and
    without a size ends one below the largest address, at 0xff..fe, and its
    size is end - start + 1, that is 2^64 - 1 - start. *)
Theorem open_memory_without_size (mode : option string) (start : Z) (st : gdb_state) :
  (0 ≤ start < CORE_ADDR_MAX)%Z →
  mode_string_ok (default "r" mode) = true →
  ∃ port, gdbscm_open_memory mode (Some start) None st = (Returned port, st)
          ∧ iomem_start (iomem port) = start
          ∧ iomem_end (iomem port) = (CORE_ADDR_MAX - 1)%Z
          ∧ iomem_size (iomem port) = (iomem_end (iomem port) - start + 1)%Z
          ∧ iomem_size (iomem port) = (2 ^ 64 - 1 - start)%Z
          ∧ iomem_current (iomem port) = 0%Z.
Proof.
  intros Hstart Hmode.
  rewrite gdbscm_open_memory_unsized by (cbn; done || lia).
  destruct (ioscm_init_memory_port_ok
              (ioscm_open_port memory_port_desc (scm_mode_bits (default "r" mode)))
              start (CORE_ADDR_MAX - 1) st)
    as (port & Hp & Hst & Hen & Hsz & Hcur & _).
  { lia. }
  { lia. }
  exists port. cbn [default]. split; [exact Hp|]. split; [exact Hst|].
  split; [exact Hen|]. split; [rewrite Hsz, Hen; reflexivity|].
  split; [rewrite Hsz; unfold CORE_ADDR_MAX; lia|exact Hcur].
Qed.

End OpenMemory.

Lemma open_memory_range_checks_witness :
  (∃ st', @gdbscm_open_memory demo_tags (Some "r+") (Some CORE_ADDR_MAX) (Some 4%Z)
            (demo_state SCM_BOOL_F SCM_BOOL_F)
          = (Thrown exscm_out_of_range_error_symbol
               (arg_error_args "gdbscm_open_memory" SCM_ARG1 (scm_from_int (-1))
                  "start address of 0xff..ff not allowed"), st')).
Proof.
  apply (@open_memory_range_checks demo_tags (Some "r+") (Some CORE_ADDR_MAX) (Some 4%Z)
           (demo_state SCM_BOOL_F SCM_BOOL_F)).
  - vm_compute. split; [discriminate|reflexivity].
  - intros size Hs. injection Hs as <-. lia.
  - reflexivity.
  - reflexivity.
Defined.

(** C3, as stated, fails: start 1 with size 2^64 - 1 ends at the all-ones
    address and start 2 with the same size does not, yet both are refused
    with the same error, the one for a wrapping start + size. *)
Lemma open_memory_end_error_is_not_distinct :
  u64 (1 + (2 ^ 64 - 1) - 1) = CORE_ADDR_MAX
  ∧ u64 (2 + (2 ^ 64 - 1) - 1) ≠ CORE_ADDR_MAX
  ∧ (2 ^ 64 ≤ 2 + (2 ^ 64 - 1))%Z
  ∧ (∃ st', @gdbscm_open_memory demo_tags None (Some 1%Z) (Some (2 ^ 64 - 1)%Z)
              (demo_state SCM_BOOL_F SCM_BOOL_F)
            = (Thrown exscm_out_of_range_error_symbol
                 (arg_error_args "gdbscm_open_memory" 0
                    (scm_list_2 (SCM_INUM 1) (SCM_INUM (2 ^ 64 - 1)))
                    "start+size overflows"), st'))
  ∧ ¬ @end_all_ones_has_its_own_error demo_tags 1 (2 ^ 64 - 1) 2 (2 ^ 64 - 1)
        (demo_state SCM_BOOL_F SCM_BOOL_F).
Proof.
  split; [vm_compute; reflexivity|].
  split; [vm_compute; discriminate|].
  split; [vm_compute; discriminate|].
  split; [eexists; vm_compute; reflexivity|].
  intros (m & m' & Hm & Hm' & Hne).
  vm_compute in Hm. vm_compute in Hm'. congruence.
Qed.

(** C8, as stated, fails: opened at 0x1000 without a size, the port ends at
    0xfffffffffffffffe, not at the largest address. *)
Lemma open_memory_without_size_ends_below_max :
  (∃ port st', @gdbscm_open_memory demo_tags None (Some 4096%Z) None
                 (demo_state SCM_BOOL_F SCM_BOOL_F) = (Returned port, st')
               ∧ iomem_end (iomem port) = (CORE_ADDR_MAX - 1)%Z)
  ∧ ¬ @ends_at_max_address demo_tags 4096 (demo_state SCM_BOOL_F SCM_BOOL_F).
Proof.
  split.
  - eexists _, _. split; [vm_compute; reflexivity|]. vm_compute. reflexivity.
  - intros (port & st' & Hopen & Hend & _).
    vm_compute in Hopen. injection Hopen as <- _. vm_compute in Hend. discriminate.
Qed.

Lemma open_memory_without_size_witness :
  ∃ port, @gdbscm_open_memory demo_tags None (Some 4096%Z) None
            (demo_state SCM_BOOL_F SCM_BOOL_F)
          = (Returned port, demo_state SCM_BOOL_F SCM_BOOL_F)
          ∧ iomem_start (iomem port) = 4096%Z
          ∧ iomem_end (iomem port) = (CORE_ADDR_MAX - 1)%Z
          ∧ iomem_size (iomem port) = (iomem_end (iomem port) - 4096 + 1)%Z
          ∧ iomem_size (iomem port) = (2 ^ 64 - 1 - 4096)%Z
          ∧ iomem_current (iomem port) = 0%Z.
Proof.
  apply (@open_memory_without_size demo_tags None 4096%Z
           (demo_state SCM_BOOL_F SCM_BOOL_F)).
  - vm_compute. split; [discriminate|reflexivity].
  - reflexivity.
Defined.

Section PortMethods.
Context `{SmobTags} `{Target}.

Lemma lift_out_of_range_error {A : Type} (subr : string) (arg_pos : Z) (bad_value : SCM)
    (error : string) (w : port_world) :
  lift_gdb (@gdbscm_out_of_range_error _ A (Some subr) arg_pos bad_value error) w
  = (Thrown exscm_out_of_range_error_symbol (arg_error_args subr arg_pos bad_value error),
     set_gdb (gdbscm_make_out_of_range_error (Some subr) arg_pos bad_value error
                (w_gdb w)).2 w).
Proof. unfold lift_gdb. by rewrite gdbscm_out_of_range_error_eq. Qed.

Lemma lift_memory_error {A : Type} (subr msg : string) (l : SCM) (w : port_world) :
  lift_gdb (@gdbscm_memory_error _ A (Some subr) msg l) w
  = (Thrown exscm_memory_error_symbol
       (scm_list_4 (SCM_STRING subr) (SCM_STRING msg) l SCM_EOL),
     set_gdb (gdbscm_make_memory_error (Some subr) msg l (w_gdb w)).2 w).
Proof.
  unfold lift_gdb, gdbscm_memory_error, gdbscm_make_memory_error, gdbscm_make_error,
    gdbscm_make_error_scm.
  by rewrite make_then_throw.
Qed.

(** The bounds a well-formed port gives the arithmetic of the methods. *)
Lemma port_wf_bounds (port : memory_port) :
  port_wf port →
  (0 ≤ iomem_current (iomem port) ≤ iomem_size (iomem port)
   ∧ iomem_size (iomem port) < 2 ^ 64
   ∧ 0 ≤ write_pos (pt port) ≤ 4096
   ∧ 0 ≤ iomem_start (iomem port) < 2 ^ 64)%Z.
Proof.
  unfold port_wf, CORE_ADDR_MAX, max_memory_port_buf_size. cbv zeta.
  intros (? & ? & ? & ? & ? & ? & ? & ? & ? & ? & ? & ? & ? & ? & ? & ? & ? & ?). lia.
Qed.

(** Nothing buffered: the flush does nothing. *)
Lemma gdbscm_memory_port_flush_empty (port : SCM) (w : port_world) :
  write_pos (pt (w_port w)) = 0%Z →
  gdbscm_memory_port_flush port w = (Returned tt, w).
Proof.
  intros Hn. unfold gdbscm_memory_port_flush, bind, get_state. rewrite Hn.
  reflexivity.
Qed.

Lemma gdbscm_memory_port_flush_cases (port : SCM) (w : port_world) :
  port_wf (w_port w) →
  let p := pt (w_port w) in
  let io := iomem (w_port w) in
  let n := write_pos p in
  (0 < n)%Z →
  ((n > iomem_size io - iomem_current io)%Z →
     gdbscm_memory_port_flush port w
     = (Thrown exscm_out_of_range_error_symbol
          (arg_error_args "gdbscm_memory_port_flush" 0 (SCM_INUM n)
             "writing beyond end of memory range"),
        set_gdb (gdbscm_make_out_of_range_error (Some "gdbscm_memory_port_flush") 0
                   (SCM_INUM n) "writing beyond end of memory range" (w_gdb w)).2 w))
  ∧ ((n ≤ iomem_size io - iomem_current io)%Z →
     match target_write_memory (w_inferior w) (u64 (iomem_start io + iomem_current io))
             (take (Z.to_nat n) (write_buf p)) with
     | Some inf' => gdbscm_memory_port_flush port w = (Returned tt, flushed n inf' w)
     | None =>
         gdbscm_memory_port_flush port w
         = (Thrown exscm_memory_error_symbol
              (scm_list_4 (SCM_STRING "gdbscm_memory_port_flush")
                 (SCM_STRING "error writing memory") SCM_EOL SCM_EOL),
            set_gdb (gdbscm_make_memory_error (Some "gdbscm_memory_port_flush")
                       "error writing memory" SCM_EOL (w_gdb w)).2 w)
     end).
Proof.
  intros Hwf. cbv zeta. intros Hn.
  destruct (port_wf_bounds _ Hwf) as (Hcur & Hsz & Hwp & Hst).
  assert (Hprep : gdbscm_memory_port_flush port w
            = (let* _ :=
                 if bool_decide (write_pos (pt (w_port w))
                                 > iomem_size (iomem (w_port w))
                                   - iomem_current (iomem (w_port w)))%Z
                 then lift_gdb (gdbscm_out_of_range_error
                                  (Some "gdbscm_memory_port_flush") 0
                                  (gdbscm_scm_from_ulongest (write_pos (pt (w_port w))))
                                  "writing beyond end of memory range")
                 else ret tt in
               match target_write_memory (w_inferior w)
                       (u64 (iomem_start (iomem (w_port w))
                             + iomem_current (iomem (w_port w))))
                       (take (Z.to_nat (write_pos (pt (w_port w))))
                          (write_buf (pt (w_port w)))) with
               | None =>
                   lift_gdb (gdbscm_memory_error (Some "gdbscm_memory_port_flush")
                               "error writing memory" SCM_EOL)
               | Some inf' => λ _, (Returned tt,
                   flushed (write_pos (pt (w_port w))) inf' w)
               end) w).
  { unfold gdbscm_memory_port_flush. unfold bind at 1. unfold get_state at 1.
    cbv zeta. rewrite (u64_small (write_pos _)) by lia.
    rewrite (bool_decide_eq_false_2 (write_pos _ = 0%Z)) by lia.
    rewrite (u64_small (iomem_size _ - iomem_current _)) by lia.
    case_bool_decide.
    - unfold bind. by rewrite lift_out_of_range_error.
    - destruct (target_write_memory _ _ _) as [inf'|]; [|reflexivity].
      unfold bind, modify_state, flushed. cbn.
      rewrite (u64_small (iomem_current _ + write_pos _)) by lia. reflexivity. }
  rewrite Hprep. unfold bind.
  split; intros Hcmp.
  - rewrite (bool_decide_eq_true_2 _ Hcmp).
    by rewrite lift_out_of_range_error.
  - rewrite bool_decide_eq_false_2 by lia. cbn [ret].
    destruct (target_write_memory _ _ _) as [inf'|]; [reflexivity|].
    by rewrite lift_memory_error.
Qed.

Lemma flushed_wf (inf' : inferior) (w : port_world) :
  port_wf (w_port w) →
  (write_pos (pt (w_port w))
   ≤ iomem_size (iomem (w_port w)) - iomem_current (iomem (w_port w)))%Z →
  port_wf (w_port (flushed (write_pos (pt (w_port w))) inf' w)).
Proof.
  unfold port_wf, flushed. cbn.
  intros (? & ? & ? & ? & ? & ? & ? & ? & ? & ? & ? & ? & ? & ? & ? & ? & ? & ?) Hle.
  repeat split; try done; lia.
Qed.

Lemma written_wf (len : Z) (inf' : inferior) (w : port_world) :
  port_wf (w_port w) →
  (0 ≤ len ≤ iomem_size (iomem (w_port w)) - iomem_current (iomem (w_port w)))%Z →
  port_wf (w_port (written len inf' w)).
Proof.
  unfold port_wf, written. cbn.
  intros (? & ? & ? & ? & ? & ? & ? & ? & ? & ? & ? & ? & ? & ? & ? & ? & ? & ?) Hle.
  repeat split; try done; lia.
Qed.

(** A direct write is the flush followed by the unbuffered request: a flush
    that throws ends the write. *)
Lemma gdbscm_memory_port_write_flush_throws (port : SCM) (data : list byte)
    (w w1 : port_world) (k l : SCM) :
  gdbscm_memory_port_flush port w = (Thrown k l, w1) →
  gdbscm_memory_port_write port data w = (Thrown k l, w1).
Proof.
  intros Hf. unfold gdbscm_memory_port_write. cbv zeta. unfold bind at 1.
  by rewrite Hf.
Qed.

(** After the flush the request meets the same bounds check, against the
    position the flush left. *)
Lemma gdbscm_memory_port_write_after_flush (port : SCM) (data : list byte)
    (w w1 : port_world) :
  gdbscm_memory_port_flush port w = (Returned tt, w1) →
  port_wf (w_port w1) →
  let io := iomem (w_port w1) in
  let len := Z.of_nat (length data) in
  (len < 2 ^ 64)%Z →
  ((len > iomem_size io - iomem_current io)%Z →
     gdbscm_memory_port_write port data w
     = (Thrown exscm_out_of_range_error_symbol
          (arg_error_args "gdbscm_memory_port_write" 0 (SCM_INUM len)
             "writing beyond end of memory range"),
        set_gdb (gdbscm_make_out_of_range_error (Some "gdbscm_memory_port_write") 0
                   (SCM_INUM len) "writing beyond end of memory range" (w_gdb w1)).2 w1))
  ∧ ((len ≤ iomem_size io - iomem_current io)%Z →
     match target_write_memory (w_inferior w1) (u64 (iomem_start io + iomem_current io))
             data with
     | Some inf' => gdbscm_memory_port_write port data w = (Returned tt, written len inf' w1)
     | None =>
         gdbscm_memory_port_write port data w
         = (Thrown exscm_memory_error_symbol
              (scm_list_4 (SCM_STRING "gdbscm_memory_port_write")
                 (SCM_STRING "error writing memory") SCM_EOL SCM_EOL),
            set_gdb (gdbscm_make_memory_error (Some "gdbscm_memory_port_write")
                       "error writing memory" SCM_EOL (w_gdb w1)).2 w1)
     end).
Proof.
  intros Hf Hwf. cbv zeta. intros Hlen.
  destruct (port_wf_bounds _ Hwf) as (Hcur & Hsz & Hwp & Hst).
  assert (Hprep : gdbscm_memory_port_write port data w
            = (let* _ :=
                 if bool_decide (Z.of_nat (length data)
                                 > iomem_size (iomem (w_port w1))
                                   - iomem_current (iomem (w_port w1)))%Z
                 then lift_gdb (gdbscm_out_of_range_error
                                  (Some "gdbscm_memory_port_write") 0
                                  (gdbscm_scm_from_ulongest (Z.of_nat (length data)))
                                  "writing beyond end of memory range")
                 else ret tt in
               match target_write_memory (w_inferior w1)
                       (u64 (iomem_start (iomem (w_port w1))
                             + iomem_current (iomem (w_port w1)))) data with
               | None =>
                   lift_gdb (gdbscm_memory_error (Some "gdbscm_memory_port_write")
                               "error writing memory" SCM_EOL)
               | Some inf' => λ _, (Returned tt,
                   written (Z.of_nat (length data)) inf' w1)
               end) w1).
  { unfold gdbscm_memory_port_write. cbv zeta. unfold bind at 1. rewrite Hf.
    unfold bind at 1. unfold get_state at 1.
    rewrite (u64_small (Z.of_nat _)) by lia.
    rewrite (u64_small (iomem_size _ - iomem_current _)) by lia.
    case_bool_decide.
    - unfold bind. by rewrite lift_out_of_range_error.
    - destruct (target_write_memory _ _ _) as [inf'|]; [|reflexivity].
      unfold bind, modify_state, written. cbn.
      rewrite (u64_small (iomem_current _ + Z.of_nat _)) by lia. reflexivity. }
  rewrite Hprep. unfold bind.
  split; intros Hcmp.
  - rewrite (bool_decide_eq_true_2 _ Hcmp).
    by rewrite lift_out_of_range_error.
  - rewrite bool_decide_eq_false_2 by lia. cbn [ret].
    destruct (target_write_memory _ _ _) as [inf'|]; [reflexivity|].
    by rewrite lift_memory_error.
Qed.

Lemma gdbscm_memory_port_flush_returned_wf (port : SCM) (w w1 : port_world) :
  port_wf (w_port w) →
  gdbscm_memory_port_flush port w = (Returned tt, w1) →
  port_wf (w_port w1).
Proof.
  intros Hwf Hf.
  destruct (port_wf_bounds _ Hwf) as (Hcur & Hsz & Hwp & Hst).
  destruct (decide (write_pos (pt (w_port w)) = 0%Z)) as [Hz|Hnz].
  { rewrite (gdbscm_memory_port_flush_empty _ _ Hz) in Hf. by injection Hf as <-. }
  destruct (gdbscm_memory_port_flush_cases port w Hwf) as [Hbig Hfit]; [lia|].
  destruct (decide (write_pos (pt (w_port w))
                    > iomem_size (iomem (w_port w))
                      - iomem_current (iomem (w_port w)))%Z) as [Hgt|Hle].
  { rewrite (Hbig Hgt) in Hf. discriminate. }
  assert (Hle' : (write_pos (pt (w_port w))
                  ≤ iomem_size (iomem (w_port w))
                    - iomem_current (iomem (w_port w)))%Z) by lia.
  specialize (Hfit Hle').
  destruct (target_write_memory _ _ _) as [inf'|].
  - rewrite Hfit in Hf. injection Hf as <-. by apply flushed_wf.
  - rewrite Hfit in Hf. discriminate.
Qed.

(** C2.  (1) A flush with pending bytes that do not fit between current and
    size throws out-of-range and leaves the port, with current and the
    buffered bytes, and the debuggee as they were; with nothing pending it
    does nothing; otherwise the pending bytes go to the target at
    start + current, and when the target accepts them current advances by
    their count and the buffer is empty, while a target failure throws
    gdb:memory-error and again leaves port and debuggee as they were.
    (2) A direct write flushes first, so a failing flush ends it, and then
    applies the same check to the request at the position the flush left.
    (3) On a port just opened with size N a write of N bytes moves current
    to N, and a write of N + 1 bytes throws out-of-range with the port as
    opened, current at 0. *)
Theorem memory_port_flush_is_atomic :
  (∀ (port : SCM) (w : port_world),
     port_wf (w_port w) →
     let p := pt (w_port w) in
     let io := iomem (w_port w) in
     let n := write_pos p in
     let room := (iomem_size io - iomem_current io)%Z in
     ((n > room)%Z →
        ∃ l g, gdbscm_memory_port_flush port w
               = (Thrown exscm_out_of_range_error_symbol l, set_gdb g w))
     ∧ (n = 0%Z → gdbscm_memory_port_flush port w = (Returned tt, w))
     ∧ ((0 < n ≤ room)%Z →
        (∀ inf', target_write_memory (w_inferior w)
                   (u64 (iomem_start io + iomem_current io))
                   (take (Z.to_nat n) (write_buf p)) = Some inf' →
           ∃ w', gdbscm_memory_port_flush port w = (Returned tt, w')
                 ∧ w_inferior w' = inf'
                 ∧ iomem_current (iomem (w_port w')) = (iomem_current io + n)%Z
                 ∧ write_pos (pt (w_port w')) = 0%Z
                 ∧ iomem_start (iomem (w_port w')) = iomem_start io
                 ∧ iomem_size (iomem (w_port w')) = iomem_size io
                 ∧ w_gdb w' = w_gdb w
                 ∧ port_wf (w_port w'))
        ∧ (target_write_memory (w_inferior w)
             (u64 (iomem_start io + iomem_current io))
             (take (Z.to_nat n) (write_buf p)) = None →
           ∃ l g, gdbscm_memory_port_flush port w
                  = (Thrown exscm_memory_error_symbol l, set_gdb g w))))
  ∧ (∀ (port : SCM) (data : list byte) (w : port_world),
       port_wf (w_port w) →
       let len := Z.of_nat (length data) in
       (len < 2 ^ 64)%Z →
       (∀ k l w1, gdbscm_memory_port_flush port w = (Thrown k l, w1) →
          gdbscm_memory_port_write port data w = (Thrown k l, w1))
       ∧ (∀ w1, gdbscm_memory_port_flush port w = (Returned tt, w1) →
            let io := iomem (w_port w1) in
            ((len > iomem_size io - iomem_current io)%Z →
               ∃ l g, gdbscm_memory_port_write port data w
                      = (Thrown exscm_out_of_range_error_symbol l, set_gdb g w1))
            ∧ ((len ≤ iomem_size io - iomem_current io)%Z →
               ∀ inf', target_write_memory (w_inferior w1)
                         (u64 (iomem_start io + iomem_current io)) data = Some inf' →
                 ∃ w', gdbscm_memory_port_write port data w = (Returned tt, w')
                       ∧ w_inferior w' = inf'
                       ∧ iomem_current (iomem (w_port w')) = (iomem_current io + len)%Z
                       ∧ pt (w_port w') = pt (w_port w1))))
  ∧ (∀ (mode : option string) (A N : Z) (st : gdb_state) (inf : inferior)
       (port_scm : SCM) (data : list byte),
       (0 ≤ A)%Z → (0 < N)%Z → (A + N < 2 ^ 64)%Z →
       (Z.of_nat (length data) < 2 ^ 64)%Z →
       mode_string_ok (default "r" mode) = true →
       ∃ port,
         gdbscm_open_memory mode (Some A) (Some N) st = (Returned port, st)
         ∧ iomem_current (iomem port) = 0%Z
         ∧ let w0 := {| w_gdb := st; w_inferior := inf; w_port := port |} in
           (Z.of_nat (length data) = N →
              ∀ inf', target_write_memory inf A data = Some inf' →
                ∃ w', gdbscm_memory_port_write port_scm data w0 = (Returned tt, w')
                      ∧ iomem_current (iomem (w_port w')) = N)
           ∧ (Z.of_nat (length data) = (N + 1)%Z →
                ∃ l g, gdbscm_memory_port_write port_scm data w0
                       = (Thrown exscm_out_of_range_error_symbol l, set_gdb g w0))).
Proof.
  split; [|split].
  - intros port w Hwf. cbv zeta.
    destruct (port_wf_bounds _ Hwf) as (Hcur & Hsz & Hwp & Hst).
    split; [|split].
    + intros Hgt.
      destruct (gdbscm_memory_port_flush_cases port w Hwf) as [Hbig _]; [lia|].
      rewrite (Hbig Hgt). by eexists _, _.
    + apply gdbscm_memory_port_flush_empty.
    + intros [Hpos Hle].
      destruct (gdbscm_memory_port_flush_cases port w Hwf Hpos) as [_ Hfit].
      specialize (Hfit Hle). split.
      * intros inf' Htw. rewrite Htw in Hfit. eexists. split; [exact Hfit|].
        repeat (split; [reflexivity|]). by apply flushed_wf.
      * intros Htw. rewrite Htw in Hfit. rewrite Hfit. by eexists _, _.
  - intros port data w Hwf. cbv zeta. intros Hlen. split.
    + intros k l w1. apply gdbscm_memory_port_write_flush_throws.
    + intros w1 Hf.
      pose proof (gdbscm_memory_port_flush_returned_wf _ _ _ Hwf Hf) as Hwf1.
      destruct (gdbscm_memory_port_write_after_flush port data w w1 Hf Hwf1 Hlen)
        as [Hbig Hfit].
      split.
      * intros Hgt. rewrite (Hbig Hgt). by eexists _, _.
      * intros Hle inf' Htw. specialize (Hfit Hle). rewrite Htw in Hfit.
        eexists. split; [exact Hfit|]. by repeat split.
  - intros mode A N st inf port_scm data HS HN Hsum Hsize_t Hmode.
    rewrite (gdbscm_open_memory_sized mode (Some A) N st)
      by (cbn; unfold CORE_ADDR_MAX; done || lia).
    destruct (ioscm_init_memory_port_ok
                (ioscm_open_port memory_port_desc (scm_mode_bits (default "r" mode)))
                A (A + N - 1) st)
      as (port & Hp & Hst & Hen & Hsz & Hcur & _ & _ & Hwp & _ & _ & _ & _ & Hwf).
    { lia. }
    { unfold CORE_ADDR_MAX. lia. }
    exists port. cbn [default]. split; [exact Hp|]. split; [exact Hcur|].
    cbv zeta.
    set (w0 := {| w_gdb := st; w_inferior := inf; w_port := port |}).
    assert (Hf : gdbscm_memory_port_flush port_scm w0 = (Returned tt, w0))
      by (by apply gdbscm_memory_port_flush_empty).
    split.
    + intros Hlen inf' Htw.
      destruct (gdbscm_memory_port_write_after_flush port_scm data w0 w0 Hf Hwf)
        as [_ Hfit]; [lia|].
      cbn [w0 w_port w_inferior] in Hfit. rewrite Hsz, Hcur, Hst, Z.add_0_r in Hfit.
      rewrite (u64_small A) in Hfit by lia. rewrite Htw in Hfit.
      eexists. split; [apply Hfit; lia|]. cbn. lia.
    + intros Hlen.
      destruct (gdbscm_memory_port_write_after_flush port_scm data w0 w0 Hf Hwf)
        as [Hbig _]; [lia|].
      cbn [w0 w_port] in Hbig. rewrite Hsz, Hcur in Hbig.
      rewrite Hbig by lia. by eexists _, _.
Qed.

End PortMethods.

(** C2 at work on the port opened with start 0x1000 and size 4: four bytes
    are written and current is 4; five bytes are refused and the port stays
    as opened, with current 0. *)
Lemma memory_port_write_bounds_witness :
  (∃ w', @gdbscm_memory_port_write demo_tags demo_target demo_port
           [Byte.x01; Byte.x02; Byte.x03; Byte.x04] demo_world = (Returned tt, w')
         ∧ iomem_current (iomem (w_port w')) = 4%Z)
  ∧ (∃ l g, @gdbscm_memory_port_write demo_tags demo_target demo_port
              [Byte.x01; Byte.x02; Byte.x03; Byte.x04; Byte.x05] demo_world
            = (Thrown exscm_out_of_range_error_symbol l, set_gdb g demo_world))
  ∧ iomem_current (iomem (w_port demo_world)) = 0%Z.
Proof.
  destruct (@memory_port_flush_is_atomic demo_tags demo_target) as (_ & _ & Hopen).
  split; [|split].
  - destruct (Hopen (Some "r+") 4096%Z 4%Z (demo_state SCM_BOOL_F SCM_BOOL_F)
                demo_inferior demo_port [Byte.x01; Byte.x02; Byte.x03; Byte.x04])
      as (port & Hp & _ & Hfit & _); [lia|lia|lia|simpl; lia|reflexivity|].
    edestruct Hfit as (w' & Hw & Hc); [reflexivity|vm_compute; reflexivity|].
    exists w'. split; [|exact Hc]. rewrite <- Hw.
    unfold demo_world, demo_open. rewrite Hp. reflexivity.
  - destruct (Hopen (Some "r+") 4096%Z 4%Z (demo_state SCM_BOOL_F SCM_BOOL_F)
                demo_inferior demo_port
                [Byte.x01; Byte.x02; Byte.x03; Byte.x04; Byte.x05])
      as (port & Hp & _ & _ & Hbig); [lia|lia|lia|simpl; lia|reflexivity|].
    destruct (Hbig eq_refl) as (l & g & Hw).
    exists l, g.
    assert (Hworld : demo_world
                     = @Build_port_world demo_target (demo_state SCM_BOOL_F SCM_BOOL_F)
                         demo_inferior port).
    { unfold demo_world, demo_open. rewrite Hp. reflexivity. }
    rewrite Hworld. exact Hw.
  - vm_compute. reflexivity.
Defined.

Lemma s64_small (z : Z) : (- 2 ^ 63 ≤ z < 2 ^ 63)%Z → s64 z = z.
Proof. intros Hz. unfold s64. rewrite Z.mod_small by lia. lia. Qed.

Section Seek.
Context `{SmobTags} `{Target}.

(** The degenerate seek of a port in write mode: it reports current plus
    the number of buffered bytes and changes nothing. *)
Lemma gdbscm_memory_port_seek_tell_write (port : SCM) (w : port_world) :
  port_wf (w_port w) →
  rw_active (pt (w_port w)) = SCM_PORT_WRITE →
  (iomem_current (iomem (w_port w)) + write_pos (pt (w_port w))
   ≤ iomem_size (iomem (w_port w)) + 1)%Z →
  (iomem_size (iomem (w_port w)) + 1 < 2 ^ 63)%Z →
  gdbscm_memory_port_seek port 0 SEEK_CUR w
  = (Returned (iomem_current (iomem (w_port w)) + write_pos (pt (w_port w)))%Z, w).
Proof.
  intros Hwf Hrw Hle Hsmall.
  destruct (port_wf_bounds _ Hwf) as (Hcur & Hsz & Hwp & Hst).
  unfold gdbscm_memory_port_seek. unfold bind at 1. unfold get_state at 1.
  rewrite Hrw. cbv zeta.
  rewrite (bool_decide_eq_false_2 (0%Z ≠ 0%Z ∨ SEEK_CUR ≠ SEEK_CUR)) by (intros [?|?]; done).
  rewrite (u64_small (write_pos _)) by lia.
  rewrite (u64_small (iomem_current _ + write_pos _)) by lia.
  rewrite (u64_small (iomem_size _ + 1)) by lia.
  rewrite (bool_decide_eq_false_2 (_ ∨ _)) by lia.
  unfold bind, ret. cbn [fst snd negb].
  rewrite s64_small by lia. reflexivity.
Qed.

(** scm_c_write on a port that is not reading. *)
Lemma scm_c_write_not_reading (port : SCM) (data : list byte) (w : port_world) :
  rw_active (pt (w_port w)) ≠ SCM_PORT_READ →
  scm_c_write port data w
  = match gdbscm_memory_port_write port data w with
    | (Returned _, w') =>
        if rw_random (pt (w_port w'))
        then (Returned tt, set_pt (set_rw_active SCM_PORT_WRITE) w')
        else (Returned tt, w')
    | (Thrown k l, w') => (Thrown k l, w')
    | (Fault, w') => (Fault, w')
    end.
Proof.
  intros Hrw. unfold scm_c_write. unfold bind at 1. unfold get_state at 1.
  destruct (rw_active (pt (w_port w))); [|done|]; unfold bind, ret;
    destruct (gdbscm_memory_port_write port data w) as [[[]|k l|] w']; try reflexivity;
    cbn; by destruct (rw_random (pt (w_port w'))).
Qed.

(** C4.  On the port opened with mode "r+", start 0x1000 and size 4, a
    write of three bytes the target accepts leaves current at 3; the seek
    with offset 0 relative to the current position then returns 3 and
    changes nothing; a write of two more bytes throws out-of-range and
    leaves the port as it was, so that the position is still reported as
    3.  The same holds when the three bytes sit in the write buffer instead
    (current 0, three bytes pending): the seek returns 3 without flushing,
    and the write of two bytes flushes the three, throws out-of-range on its
    own request and leaves current at 3 with nothing pending. *)
Theorem memory_port_seek_reports_position (port_scm : SCM) (st : gdb_state)
    (inf inf1 : inferior) (d3 d2 : list byte) :
  length d3 = 3 → length d2 = 2 →
  target_write_memory inf 4096 d3 = Some inf1 →
  (∃ port w1,
     gdbscm_open_memory (Some "r+") (Some 4096%Z) (Some 4%Z) st = (Returned port, st)
     ∧ scm_c_write port_scm d3 {| w_gdb := st; w_inferior := inf; w_port := port |}
       = (Returned tt, w1)
     ∧ iomem_current (iomem (w_port w1)) = 3%Z
     ∧ gdbscm_memory_port_seek port_scm 0 SEEK_CUR w1 = (Returned 3%Z, w1)
     ∧ ∃ l g, scm_c_write port_scm d2 w1
              = (Thrown exscm_out_of_range_error_symbol l, set_gdb g w1)
              ∧ gdbscm_memory_port_seek port_scm 0 SEEK_CUR (set_gdb g w1)
                = (Returned 3%Z, set_gdb g w1))
  ∧ (∀ w, port_wf (w_port w) →
       iomem_start (iomem (w_port w)) = 4096%Z →
       iomem_size (iomem (w_port w)) = 4%Z →
       iomem_current (iomem (w_port w)) = 0%Z →
       rw_active (pt (w_port w)) = SCM_PORT_WRITE →
       write_pos (pt (w_port w)) = 3%Z →
       w_inferior w = inf →
       take 3 (write_buf (pt (w_port w))) = d3 →
       gdbscm_memory_port_seek port_scm 0 SEEK_CUR w = (Returned 3%Z, w)
       ∧ ∃ l w2, scm_c_write port_scm d2 w
                 = (Thrown exscm_out_of_range_error_symbol l, w2)
                 ∧ iomem_current (iomem (w_port w2)) = 3%Z
                 ∧ write_pos (pt (w_port w2)) = 0%Z
                 ∧ w_inferior w2 = inf1).
Proof.
  intros Hd3 Hd2 Htw. split.
  - rewrite (gdbscm_open_memory_sized (Some "r+") (Some 4096%Z) 4 st)
      by (cbn; unfold CORE_ADDR_MAX; done || lia).
    destruct (ioscm_init_memory_port_ok
                (ioscm_open_port memory_port_desc (scm_mode_bits "r+")) 4096
                (4096 + 4 - 1) st)
      as (port & Hp & Hst & Hen & Hsz & Hcur & _ & _ & Hwp & _ & _ & Hrw & Hrand & Hwf).
    { lia. }
    { unfold CORE_ADDR_MAX. lia. }
    cbn [ioscm_open_port pt rw_active] in Hrw.
    exists port. cbn [default].
    set (w0 := {| w_gdb := st; w_inferior := inf; w_port := port |}).
    assert (Hf : gdbscm_memory_port_flush port_scm w0 = (Returned tt, w0))
      by (by apply gdbscm_memory_port_flush_empty).
    destruct (gdbscm_memory_port_write_after_flush port_scm d3 w0 w0 Hf Hwf)
      as [_ Hfit]; [lia|].
    cbn [w0 w_port w_inferior] in Hfit.
    rewrite Hsz, Hcur, Hst, Z.add_0_r, (u64_small 4096), Htw in Hfit by lia.
    specialize (Hfit ltac:(lia)).
    set (w1 := set_pt (set_rw_active SCM_PORT_WRITE)
                 (written (Z.of_nat (length d3)) inf1 w0)).
    assert (Hwf1 : port_wf (w_port w1)).
    { revert Hwf. unfold port_wf, w1, written, w0. cbn. rewrite Hcur, Hsz, Hd3.
      intros (? & ? & ? & ? & ? & ? & ? & ? & ? & ? & ? & ? & ? & ? & ? & ? & ? & ?).
      repeat split; try done; lia. }
    assert (Hcur1 : iomem_current (iomem (w_port w1)) = 3%Z).
    { unfold w1, written, w0. cbn. rewrite Hcur, Hd3. reflexivity. }
    assert (Hwp1 : write_pos (pt (w_port w1)) = 0%Z) by exact Hwp.
    assert (Hsz1 : iomem_size (iomem (w_port w1)) = 4%Z).
    { unfold w1, written, w0. cbn. rewrite Hsz. lia. }
    assert (Htell : ∀ g, gdbscm_memory_port_seek port_scm 0 SEEK_CUR (set_gdb g w1)
                         = (Returned 3%Z, set_gdb g w1)).
    { intros g.
      rewrite (gdbscm_memory_port_seek_tell_write port_scm (set_gdb g w1)).
      - cbn [set_gdb w_port]. by rewrite Hcur1, Hwp1.
      - exact Hwf1.
      - reflexivity.
      - cbn [set_gdb w_port]. rewrite Hcur1, Hwp1, Hsz1. lia.
      - cbn [set_gdb w_port]. rewrite Hsz1. lia. }
    exists w1. split; [exact Hp|]. split.
    { rewrite scm_c_write_not_reading by (cbn [w0 w_port]; by rewrite Hrw).
      rewrite Hfit.
      assert (Hrand1 : rw_random (pt (w_port (written (Z.of_nat (length d3)) inf1 w0)))
                       = true) by exact Hrand.
      by rewrite Hrand1. }
    split; [exact Hcur1|]. split.
    { specialize (Htell (w_gdb w1)). by destruct w1. }
    assert (Hf1 : gdbscm_memory_port_flush port_scm w1 = (Returned tt, w1))
      by (by apply gdbscm_memory_port_flush_empty).
    destruct (gdbscm_memory_port_write_after_flush port_scm d2 w1 w1 Hf1 Hwf1)
      as [Hbig _]; [lia|].
    rewrite Hsz1, Hcur1 in Hbig. specialize (Hbig ltac:(lia)).
    eexists _, _. split; [|apply Htell].
    rewrite scm_c_write_not_reading by done. by rewrite Hbig.
  - intros w Hwf Hst Hsz Hcur Hrw Hwp Hinf Hbuf. split.
    { rewrite (gdbscm_memory_port_seek_tell_write port_scm w Hwf Hrw) by (rewrite ?Hsz; lia).
      by rewrite Hcur, Hwp. }
    destruct (gdbscm_memory_port_flush_cases port_scm w Hwf) as [_ Hfit]; [lia|].
    rewrite Hwp, Hsz, Hcur, Hst, Hinf, Z.add_0_r, (u64_small 4096) in Hfit by lia.
    change (Z.to_nat 3) with 3%nat in Hfit. rewrite Hbuf, Htw in Hfit.
    specialize (Hfit ltac:(lia)).
    assert (Hwf2 : port_wf (w_port (flushed 3 inf1 w))).
    { rewrite <- Hwp. apply flushed_wf; [exact Hwf|]. lia. }
    destruct (gdbscm_memory_port_write_after_flush port_scm d2 w _ Hfit Hwf2)
      as [Hbig _]; [lia|].
    cbn [flushed set_pt set_iomem set_inferior w_port iomem iomem_size iomem_current
         set_current] in Hbig.
    rewrite Hsz, Hcur in Hbig. specialize (Hbig ltac:(lia)).
    eexists _, _. split.
    { rewrite scm_c_write_not_reading by (by rewrite Hrw). by rewrite Hbig. }
    cbn. by rewrite Hcur.
Qed.

End Seek.

(** C4 at work on the example debuggee. *)
Lemma memory_port_seek_witness :
  ∃ port w1,
    @gdbscm_open_memory demo_tags (Some "r+") (Some 4096%Z) (Some 4%Z)
      (demo_state SCM_BOOL_F SCM_BOOL_F)
    = (Returned port, demo_state SCM_BOOL_F SCM_BOOL_F)
    ∧ @scm_c_write demo_tags demo_target demo_port [Byte.x01; Byte.x02; Byte.x03]
        (@Build_port_world demo_target (demo_state SCM_BOOL_F SCM_BOOL_F)
           demo_inferior port)
      = (Returned tt, w1)
    ∧ iomem_current (iomem (w_port w1)) = 3%Z
    ∧ @gdbscm_memory_port_seek demo_tags demo_target demo_port 0 SEEK_CUR w1
      = (Returned 3%Z, w1)
    ∧ ∃ l g, @scm_c_write demo_tags demo_target demo_port [Byte.x04; Byte.x05] w1
             = (Thrown exscm_out_of_range_error_symbol l, set_gdb g w1)
             ∧ @gdbscm_memory_port_seek demo_tags demo_target demo_port 0 SEEK_CUR
                 (set_gdb g w1)
               = (Returned 3%Z, set_gdb g w1).
Proof.
  destruct (@memory_port_seek_reports_position demo_tags demo_target demo_port
              (demo_state SCM_BOOL_F SCM_BOOL_F) demo_inferior
              (default demo_inferior
                 (mem_write demo_inferior 4096 [Byte.x01; Byte.x02; Byte.x03]))
              [Byte.x01; Byte.x02; Byte.x03] [Byte.x04; Byte.x05] eq_refl eq_refl)
    as [Hscenario _].
  - vm_compute. reflexivity.
  - exact Hscenario.
Defined.

Section Resize.
Context `{SmobTags} `{Target}.

(** The world after the read buffer has been replaced by one of n bytes. *)
Lemma ioscm_reinit_memory_port_read (port : SCM) (n : Z) (func_name : string)
    (w : port_world) :
  port_wf (w_port w) →
  (min_memory_port_buf_size ≤ n ≤ max_memory_port_buf_size)%Z →
  ioscm_reinit_memory_port port n (iomem_write_buf_size (iomem (w_port w))) func_name w
  = if bool_decide (n ≠ read_buf_size (pt (w_port w)) ∧ read_end (pt (w_port w)) ≠ 0%Z)
    then (Thrown scm_misc_error_key
            (scm_list_4 (SCM_STRING func_name) (SCM_STRING "read buffer not empty: ~a")
               (scm_list_1 port) SCM_BOOL_F), w)
    else if bool_decide (n ≠ read_buf_size (pt (w_port w)))
    then (Returned tt, read_buffer_replaced n w)
    else (Returned tt, w).
Proof.
  intros Hwf Hn.
  destruct Hwf as (? & ? & ? & ? & ? & ? & Hrs & Hws & ? & ? & ? & ? & ? & ? & ? & ? & ? & ?).
  unfold ioscm_reinit_memory_port. unfold bind at 1.
  rewrite (bool_decide_eq_true_2 (_ ∧ _)) by lia. cbn [gdb_assert ret].
  unfold bind at 1.
  rewrite (bool_decide_eq_true_2 (_ ∧ _)) by (rewrite <- Hws; lia). cbn [gdb_assert ret].
  unfold bind at 1. unfold get_state at 1. unfold bind at 1.
  case_bool_decide as Hchk; [reflexivity|]. cbn [ret].
  unfold bind at 1.
  rewrite (bool_decide_eq_false_2 (_ ≠ _ ∧ _)) by (intros [Hne _]; by apply Hne).
  cbn [ret]. unfold bind at 1.
  case_bool_decide as Hsame.
  - unfold bind, modify_state. rewrite bool_decide_eq_false_2 by (intros Hne; by apply Hne).
    reflexivity.
  - cbn [ret]. rewrite bool_decide_eq_false_2 by (intros Hne; by apply Hne).
    reflexivity.
Qed.

Lemma ioscm_reinit_memory_port_write (port : SCM) (n : Z) (func_name : string)
    (w : port_world) :
  port_wf (w_port w) →
  (min_memory_port_buf_size ≤ n ≤ max_memory_port_buf_size)%Z →
  ioscm_reinit_memory_port port (iomem_read_buf_size (iomem (w_port w))) n func_name w
  = if bool_decide (n ≠ write_buf_size (pt (w_port w)) ∧ write_pos (pt (w_port w)) ≠ 0%Z)
    then (Thrown scm_misc_error_key
            (scm_list_4 (SCM_STRING func_name) (SCM_STRING "write buffer not empty: ~a")
               (scm_list_1 port) SCM_BOOL_F), w)
    else if bool_decide (n ≠ write_buf_size (pt (w_port w)))
    then (Returned tt, write_buffer_replaced n w)
    else (Returned tt, w).
Proof.
  intros Hwf Hn.
  destruct Hwf as (? & ? & ? & ? & ? & ? & Hrs & Hws & ? & ? & ? & ? & ? & ? & ? & ? & ? & ?).
  unfold ioscm_reinit_memory_port. unfold bind at 1.
  rewrite (bool_decide_eq_true_2 (_ ∧ _)) by (rewrite <- Hrs; lia). cbn [gdb_assert ret].
  unfold bind at 1.
  rewrite (bool_decide_eq_true_2 (_ ∧ _)) by lia. cbn [gdb_assert ret].
  unfold bind at 1. unfold get_state at 1. unfold bind at 1.
  rewrite (bool_decide_eq_false_2 (_ ≠ _ ∧ _)) by (intros [Hne _]; by apply Hne).
  cbn [ret]. unfold bind at 1.
  case_bool_decide as Hchk; [reflexivity|]. cbn [ret].
  unfold bind at 1.
  rewrite (bool_decide_eq_false_2 (_ ≠ _)) by (intros Hne; by apply Hne).
  cbn [ret]. case_bool_decide as Hsame; reflexivity.
Qed.



Lemma gdbscm_set_memory_port_read_buffer_size_x_cases (port : SCM) (n : Z)
    (w : port_world) :
  gdbscm_is_memory_port port = true →
  gdbscm_set_memory_port_read_buffer_size_x port (SCM_INUM n) w
  = if bool_decide (min_memory_port_buf_size ≤ n ≤ max_memory_port_buf_size)%Z
    then (let* _ := ioscm_reinit_memory_port port n
                      (iomem_write_buf_size (iomem (w_port w)))
                      "gdbscm_set_memory_port_read_buffer_size_x" in
          ret SCM_UNSPECIFIED) w
    else lift_gdb (gdbscm_out_of_range_error
                     (Some "gdbscm_set_memory_port_read_buffer_size_x") SCM_ARG2
                     (SCM_INUM n) out_of_range_buf_size) w.
Proof.
  intros Hport. unfold gdbscm_set_memory_port_read_buffer_size_x. cbv zeta.
  rewrite Hport. cbn [SCM_ASSERT_TYPE scm_is_integer scm_is_unsigned_integer scm_to_uint].
  unfold bind at 1. cbn [ret]. unfold bind at 1. cbn [ret]. unfold bind at 1.
  case_bool_decide; cbn [negb ret].
  - reflexivity.
  - by rewrite !lift_out_of_range_error.
Qed.

Lemma gdbscm_set_memory_port_write_buffer_size_x_cases (port : SCM) (n : Z)
    (w : port_world) :
  gdbscm_is_memory_port port = true →
  gdbscm_set_memory_port_write_buffer_size_x port (SCM_INUM n) w
  = if bool_decide (min_memory_port_buf_size ≤ n ≤ max_memory_port_buf_size)%Z
    then (let* _ := ioscm_reinit_memory_port port
                      (iomem_read_buf_size (iomem (w_port w))) n
                      "gdbscm_set_memory_port_write_buffer_size_x" in
          ret SCM_UNSPECIFIED) w
    else lift_gdb (gdbscm_out_of_range_error
                     (Some "gdbscm_set_memory_port_write_buffer_size_x") SCM_ARG2
                     (SCM_INUM n) out_of_range_buf_size) w.
Proof.
  intros Hport. unfold gdbscm_set_memory_port_write_buffer_size_x. cbv zeta.
  rewrite Hport. cbn [SCM_ASSERT_TYPE scm_is_integer scm_is_unsigned_integer scm_to_uint].
  unfold bind at 1. cbn [ret]. unfold bind at 1. cbn [ret]. unfold bind at 1.
  case_bool_decide; cbn [negb ret].
  - reflexivity.
  - by rewrite !lift_out_of_range_error.
Qed.



End Resize.

Lemma demo_world_wf : port_wf (@w_port demo_target demo_world).
Proof.
  unfold port_wf. cbv zeta.
  repeat split; vm_compute; (reflexivity || discriminate).
Defined.

Lemma demo_world_reading_wf : port_wf (@w_port demo_target demo_world_reading).
Proof.
  unfold port_wf. cbv zeta.
  repeat split; vm_compute; (reflexivity || discriminate).
Defined.



(** ** Worked examples *)

(** A scm->smob hook that throws: the safe conversion returns the exception
    object, the unsafe one throws its key and args. *)
Example inbound_hook_throws :
  (@gdbscm_scm_to_gsmob_safe demo_tags demo_runtime (SCM_INUM 5) 895
     (demo_state SCM_BOOL_F (SCM_PROC 3))).1 = Returned (SCM_SMOB 383 0)
  ∧ (@gdbscm_scm_to_gsmob_unsafe demo_tags demo_runtime (SCM_INUM 5) 895
       (demo_state SCM_BOOL_F (SCM_PROC 3))).1
    = Thrown (SCM_SYMBOL "misc-error") (scm_list_1 (SCM_STRING "boom")).
Proof. split; vm_compute; reflexivity. Qed.

(** A hook that answers neither #f nor a handle: out-of-range. *)
Example inbound_hook_answers_a_number :
  (@gdbscm_scm_to_gsmob_unsafe demo_tags demo_runtime (SCM_INUM 5) 895
     (demo_state SCM_BOOL_F (SCM_PROC 4))).1
  = Thrown exscm_out_of_range_error_symbol
      (scm_list_4 SCM_BOOL_F
         (SCM_STRING "Result of *scm->smob* must be requested gsmob or #f: ~S")
         (scm_list_1 (SCM_INUM 42)) (scm_list_1 (SCM_INUM 42))).
Proof. vm_compute. reflexivity. Qed.

(** With no hook installed, make-iterator returns the new handle, and
    iterator-next! returns what the step procedure returns. *)
Example iterator_without_hook :
  let made := @gdbscm_make_iterator demo_tags demo_runtime (SCM_INUM 0) SCM_BOOL_F
                (SCM_PROC 4) (demo_state SCM_BOOL_F SCM_BOOL_F) in
  made.1 = Returned (SCM_SMOB 639 0)
  ∧ scm_calls made.2 = []
  ∧ (@gdbscm_iterator_next_x demo_tags demo_runtime (SCM_SMOB 639 0) made.2).1
    = Returned (SCM_INUM 42).
Proof. cbv zeta. repeat split; vm_compute; reflexivity. Qed.

(** The same call with a smob->scm hook installed calls the hook once, on
    the new handle. *)
Example iterator_with_hook :
  scm_calls (@gdbscm_make_iterator demo_tags demo_runtime (SCM_INUM 0) SCM_BOOL_F
               (SCM_PROC 4) (demo_state (SCM_PROC 1) SCM_BOOL_F)).2
  = [(SCM_PROC 1, [SCM_SMOB 639 0])].
Proof. vm_compute. reflexivity. Qed.

(** make-exception with both hooks installed calls none of them. *)
Example exception_with_hooks :
  let made := @gdbscm_make_exception demo_tags (SCM_SYMBOL "my-error") SCM_EOL
                (demo_state (SCM_PROC 1) (SCM_PROC 2)) in
  made.1 = Returned (SCM_SMOB 383 0) ∧ scm_calls made.2 = [].
Proof. cbv zeta. split; vm_compute; reflexivity. Qed.

(** A memory fault of the debuggee becomes a gdb:memory-error throw. *)
Example memory_fault_is_thrown :
  (@gdbscm_throw_gdb_exception demo_tags demo_host unit
     {| reason := RETURN_ERROR; error := 8;
        message := "Cannot access memory at address 0x0" |}
     (demo_state SCM_BOOL_F SCM_BOOL_F)).1
  = Thrown (SCM_SYMBOL "gdb:memory-error")
      (scm_list_4 SCM_BOOL_F (SCM_STRING "~A")
         (scm_list_1 (SCM_STRING "Cannot access memory at address 0x0")) SCM_BOOL_F).
Proof. vm_compute. reflexivity. Qed.

(** A user interrupt becomes a throw of signal with the data (SIGINT). *)
Example quit_is_thrown :
  (@gdbscm_throw_gdb_exception demo_tags demo_host unit
     {| reason := RETURN_QUIT; error := 0; message := "Quit" |}
     (demo_state SCM_BOOL_F SCM_BOOL_F)).1
  = Thrown (SCM_SYMBOL "signal")
      (scm_list_4 SCM_BOOL_F (SCM_STRING "User interrupt") SCM_EOL
         (scm_list_1 (SCM_INUM 2))).
Proof. vm_compute. reflexivity. Qed.

(** * Further properties *)

(** ** Unlinking a handle from its objfile chain *)

Section UnlinkFacts.

Lemma symtab_chain_head (h : gmap N smob_data) (l : list N) (prv cur : option N) :
  symtab_chain h prv cur l → cur = head l.
Proof. destruct l; [done|]. by intros [-> _]. Qed.

(** The chain only looks at the structs of its members. *)
Lemma symtab_chain_ext (h h' : gmap N smob_data) (l : list N) (prv cur : option N) :
  (∀ x, x ∈ l → h' !! x = h !! x) → symtab_chain h prv cur l → symtab_chain h' prv cur l.
Proof.
  revert prv cur. induction l as [|b l IH]; intros prv cur Hext Hc; [exact Hc|].
  destruct Hc as (Hcur & s & Hs & Hp & Hc).
  split; [exact Hcur|]. exists s.
  split; [rewrite Hext; [exact Hs|by left]|]. split; [exact Hp|].
  apply IH; [|exact Hc]. intros x Hx. apply Hext. by right.
Qed.

(** What the links of a member of a chain are. *)
Lemma symtab_chain_links (a : N) (l2 : list N) :
  ∀ (l1 : list N) (h : gmap N smob_data) (prv cur : option N),
    symtab_chain h prv cur (l1 ++ a :: l2) →
    ∃ s, h !! a = Some (SymtabSmob s)
         ∧ prev (st_base s) = from_option Some prv (last l1)
         ∧ next (st_base s) = head l2
         ∧ (∀ p, last l1 = Some p →
              ∃ sp, h !! p = Some (SymtabSmob sp) ∧ next (st_base sp) = Some a)
         ∧ (∀ n, head l2 = Some n →
              ∃ sn, h !! n = Some (SymtabSmob sn) ∧ prev (st_base sn) = Some a).
Proof.
  induction l1 as [|x l1 IH]; intros h prv cur Hc.
  - destruct Hc as (_ & s & Hs & Hp & Hc). exists s.
    split; [exact Hs|]. split; [exact Hp|].
    split; [by apply symtab_chain_head in Hc|].
    split; [intros p [=]|].
    intros n Hn. destruct l2 as [|n' l2]; [discriminate|]. injection Hn as ->.
    destruct Hc as (_ & sn & Hsn & Hpn & _). by exists sn.
  - destruct Hc as (_ & sx & Hsx & Hpx & Hc).
    destruct (IH h (Some x) _ Hc) as (s & Hs & Hp & Hn & Hprev & Hnext).
    exists s. split; [exact Hs|].
    split.
    { rewrite Hp. destruct l1 as [|y l1]; [reflexivity|].
      change (last (x :: y :: l1)) with (last (y :: l1)).
      by destruct (last (y :: l1)) eqn:Hlast; [|apply last_None in Hlast]. }
    split; [exact Hn|].
    split; [|exact Hnext].
    intros p Hl. destruct l1 as [|y l1].
    + injection Hl as <-. exists sx. split; [exact Hsx|].
      by apply symtab_chain_head in Hc.
    + apply Hprev. exact Hl.
Qed.

(** Taking a member out of a chain: when its predecessor's next link and its
    successor's prev link are redirected around it, and nothing else in the
    chain changes, what is left is the chain of the other members. *)
Lemma symtab_chain_unlink (a : N) (l2 : list N) (h' : gmap N smob_data) :
  ∀ (l1 : list N) (h : gmap N smob_data) (prv cur : option N),
    symtab_chain h prv cur (l1 ++ a :: l2) → NoDup (l1 ++ a :: l2) →
    (∀ x, x ∈ l1 ++ l2 → last l1 ≠ Some x → head l2 ≠ Some x → h' !! x = h !! x) →
    (∀ p sp, last l1 = Some p → h !! p = Some (SymtabSmob sp) →
       h' !! p = Some (SymtabSmob {| st_base := set_next (head l2) (st_base sp);
                                     symtab := symtab sp |})) →
    (∀ n sn, head l2 = Some n → h !! n = Some (SymtabSmob sn) →
       h' !! n = Some (SymtabSmob
                         {| st_base := set_prev (from_option Some prv (last l1)) (st_base sn);
                            symtab := symtab sn |})) →
    symtab_chain h' prv (head (l1 ++ l2)) (l1 ++ l2).
Proof.
  induction l1 as [|x l1 IH]; intros h prv cur Hc Hnd Hsame Hp Hn.
  - destruct Hc as (_ & s & Hs & Hps & Hc). simpl in *.
    apply NoDup_cons in Hnd as [Ha Hnd].
    destruct l2 as [|n l2]; [done|].
    destruct Hc as (_ & sn & Hsn & Hpn & Hc).
    apply NoDup_cons in Hnd as [Hnn Hnd].
    split; [reflexivity|]. eexists. split; [by apply Hn|].
    split; [reflexivity|]. cbn.
    apply (symtab_chain_ext h); [|exact Hc].
    intros y Hy. apply Hsame; [by right|done|].
    intros [= ->]. done.
  - destruct Hc as (_ & sx & Hsx & Hpx & Hc).
    change ((x :: l1) ++ a :: l2) with (x :: (l1 ++ a :: l2)) in Hnd.
    apply NoDup_cons in Hnd as [Hx Hnd].
    assert (Hx1 : x ∉ l1) by (intros ?; apply Hx, elem_of_app; by left).
    assert (Hx2 : x ∉ l2) by (intros ?; apply Hx, elem_of_app; right; by right).
    assert (Hlast : from_option Some prv (last (x :: l1))
                    = from_option Some (Some x) (last l1)).
    { destruct l1 as [|y l1]; [reflexivity|].
      change (last (x :: y :: l1)) with (last (y :: l1)).
      by destruct (last (y :: l1)) eqn:Hl; [|apply last_None in Hl]. }
    assert (Hrest : symtab_chain h' (Some x) (head (l1 ++ l2)) (l1 ++ l2)).
    { apply (IH h (Some x) _ Hc Hnd).
      - intros y Hy Hly Hhy. apply Hsame; [by right| |exact Hhy].
        destruct l1 as [|z l1]; [|exact Hly].
        intros [= ->]. simpl in Hy. done.
      - intros p sp Hl. apply Hp. by destruct l1.
      - intros n sn Hh Hsn. rewrite <- Hlast. by apply Hn. }
    split; [reflexivity|].
    destruct l1 as [|y l1].
    + eexists. split; [by apply Hp|]. split; [exact Hpx|]. exact Hrest.
    + exists sx. split.
      { rewrite Hsame; [exact Hsx|by left| |].
        - change (last (x :: y :: l1)) with (last (y :: l1)).
          intros Hl. apply Hx1. by apply last_Some_elem_of in Hl.
        - intros Hh. apply Hx2. destruct l2; [discriminate|].
          injection Hh as ->. by left. }
      split; [exact Hpx|].
      apply symtab_chain_head in Hc. rewrite Hc. exact Hrest.
Qed.

(** The chain functions make no call into Scheme. *)
Lemma write_chained_calls (a : N) (f : chained_gdb_smob → chained_gdb_smob)
    (st st' : gdb_state) (r : result unit) :
  write_chained a f st = (r, st') → scm_calls st' = scm_calls st.
Proof.
  unfold write_chained, read_chained, bind, modify_state.
  destruct (smobs st !! a ≫= chained_base); intros [= <- <-]; reflexivity.
Qed.

Lemma gdbscm_add_objfile_ref_calls (objfile : option N) (data_key a : N)
    (st st' : gdb_state) (r : result unit) :
  gdbscm_add_objfile_ref objfile data_key a st = (r, st') → scm_calls st' = scm_calls st.
Proof.
  unfold gdbscm_add_objfile_ref. unfold bind at 1.
  destruct (write_chained a (set_prev None) st) as [[[]| |] st1] eqn:H1;
    apply write_chained_calls in H1; [|by intros [= <- <-]..].
  destruct objfile as [o|].
  - unfold bind at 1, get_state. unfold bind at 1.
    destruct (write_chained a _ st1) as [[[]| |] st2] eqn:H2;
      apply write_chained_calls in H2; [|intros [= <- <-]; congruence..].
    unfold bind at 1.
    destruct (objfile_data o data_key st1) as [n|].
    + destruct (write_chained n _ st2) as [[[]| |] st3] eqn:H3;
        apply write_chained_calls in H3; intros [= <- <-]; cbn; congruence.
    + intros [= <- <-]. cbn. congruence.
  - intros Hw. apply write_chained_calls in Hw. congruence.
Qed.

(** The chain functions write to links only: every symtab smob keeps its
    symtab pointer. *)
Lemma write_chained_keeps_symtab (a : N) (f : chained_gdb_smob → chained_gdb_smob)
    (st st' : gdb_state) (r : result unit) :
  write_chained a f st = (r, st') →
  ∀ b sb, smobs st !! b = Some (SymtabSmob sb) →
    ∃ sb', smobs st' !! b = Some (SymtabSmob sb') ∧ symtab sb' = symtab sb.
Proof.
  unfold write_chained, read_chained, bind, modify_state.
  destruct (smobs st !! a ≫= chained_base) as [c|]; intros [= <- <-] b sb Hb.
  - cbn. destruct (decide (b = a)) as [->|Hne].
    + rewrite lookup_alter_eq, Hb. cbn. by eexists.
    + rewrite lookup_alter_ne by done. by exists sb.
  - by exists sb.
Qed.

Lemma gdbscm_add_objfile_ref_keeps_symtab (objfile : option N) (data_key a : N)
    (st st' : gdb_state) (r : result unit) :
  gdbscm_add_objfile_ref objfile data_key a st = (r, st') →
  ∀ b sb, smobs st !! b = Some (SymtabSmob sb) →
    ∃ sb', smobs st' !! b = Some (SymtabSmob sb') ∧ symtab sb' = symtab sb.
Proof.
  unfold gdbscm_add_objfile_ref. unfold bind at 1.
  destruct (write_chained a (set_prev None) st) as [[[]| |] st1] eqn:H1;
    pose proof (write_chained_keeps_symtab _ _ _ _ _ H1) as K1;
    [|by intros [= <- <-]..].
  destruct objfile as [o|].
  - unfold bind at 1, get_state. unfold bind at 1.
    destruct (write_chained a _ st1) as [[[]| |] st2] eqn:H2;
      pose proof (write_chained_keeps_symtab _ _ _ _ _ H2) as K2.
    2,3: intros [= <- <-] b sb Hb; destruct (K1 b sb Hb) as (sb1 & Hb1 & E1);
         destruct (K2 b sb1 Hb1) as (sb2 & Hb2 & E2); exists sb2; split; congruence.
    unfold bind at 1.
    destruct (objfile_data o data_key st1) as [n|].
    + destruct (write_chained n _ st2) as [[[]| |] st3] eqn:H3;
        pose proof (write_chained_keeps_symtab _ _ _ _ _ H3) as K3;
        intros [= <- <-] b sb Hb; destruct (K1 b sb Hb) as (sb1 & Hb1 & E1);
        destruct (K2 b sb1 Hb1) as (sb2 & Hb2 & E2);
        destruct (K3 b sb2 Hb2) as (sb3 & Hb3 & E3); exists sb3; split;
        first [exact Hb3 | congruence].
    + intros [= <- <-] b sb Hb. destruct (K1 b sb Hb) as (sb1 & Hb1 & E1).
      destruct (K2 b sb1 Hb1) as (sb2 & Hb2 & E2). exists sb2. split; [exact Hb2|congruence].
  - intros Hw b sb Hb. destruct (K1 b sb Hb) as (sb1 & Hb1 & E1).
    destruct (write_chained_keeps_symtab _ _ _ _ _ Hw b sb1 Hb1) as (sb2 & Hb2 & E2).
    exists sb2. split; [exact Hb2|congruence].
Qed.

(** gdbscm_remove_objfile_ref on a member of an objfile's chain: the member
    is taken out, the other members stay chained in their order, the data
    slot follows the head, and no struct loses its symtab pointer or its aux
    slot.  The struct taken out is not written to. *)
Lemma gdbscm_remove_objfile_ref_chain (o data_key a : N) (l1 l2 : list N)
    (st : gdb_state) :
  symtab_chain (smobs st) None (objfile_data o data_key st) (l1 ++ a :: l2) →
  NoDup (l1 ++ a :: l2) →
  ∃ st', gdbscm_remove_objfile_ref (Some o) data_key a st = (Returned tt, st')
         ∧ symtab_chain (smobs st') None (objfile_data o data_key st') (l1 ++ l2)
         ∧ smobs st' !! a = smobs st !! a
         ∧ (∀ b, b ∉ l1 ++ l2 → smobs st' !! b = smobs st !! b)
         ∧ (∀ b sb, smobs st !! b = Some (SymtabSmob sb) →
              ∃ sb', smobs st' !! b = Some (SymtabSmob sb')
                     ∧ symtab sb' = symtab sb
                     ∧ c_aux (st_base sb') = c_aux (st_base sb))
         ∧ (∀ o' k', (o', k') ≠ (o, data_key) →
              objfile_data o' k' st' = objfile_data o' k' st)
         ∧ scm_calls st' = scm_calls st.
Proof.
  intros Hc Hnd.
  destruct (symtab_chain_links a l2 l1 _ _ _ Hc) as (s & Hs & Hp & Hn & Hprev & Hnext).
  pose proof (symtab_chain_head _ _ _ _ Hc) as Hslot.
  assert (Ha1 : a ∉ l1).
  { intros Hin. apply NoDup_app in Hnd as (_ & Hd & _). apply (Hd a Hin). by left. }
  assert (Ha2 : a ∉ l2).
  { apply NoDup_app in Hnd as (_ & _ & Hd). by apply NoDup_cons in Hd as [? _]. }
  assert (Hdisj : ∀ p n, last l1 = Some p → head l2 = Some n → p ≠ n).
  { intros p n Hl Hh ->. apply last_Some_elem_of in Hl.
    apply NoDup_app in Hnd as (_ & Hd & _). apply (Hd n Hl). right.
    destruct l2; [discriminate|]. injection Hh as ->. by left. }
  assert (Hrun : gdbscm_remove_objfile_ref (Some o) data_key a st
                 = (let* _ := match prev (st_base s) with
                              | Some p => write_chained p (set_next (next (st_base s)))
                              | None => set_objfile_data o data_key (next (st_base s))
                              end in
                    match next (st_base s) with
                    | Some n => write_chained n (set_prev (prev (st_base s)))
                    | None => ret tt
                    end) st).
  { unfold gdbscm_remove_objfile_ref. unfold bind at 1. unfold read_chained.
    rewrite Hs. reflexivity. }
  rewrite Hrun, Hp, Hn. clear Hrun. cbn [from_option].
  destruct (last l1) as [p|] eqn:Hl1; destruct (head l2) as [n|] eqn:Hl2; cbn [from_option].
  - destruct (Hprev p eq_refl) as (sp & Hsp & _).
    destruct (Hnext n eq_refl) as (sn & Hsn & _).
    pose proof (Hdisj p n eq_refl eq_refl) as Hpn.
    unfold bind. rewrite (write_chained_eq _ _ sp _ Hsp).
    rewrite (write_chained_eq n _ sn) by (cbn; by rewrite lookup_insert_ne).
    eexists. split; [reflexivity|]. cbn.
    assert (Hhead : objfile_data o data_key st = head (l1 ++ l2)).
    { rewrite Hslot. destruct l1; [discriminate|]. reflexivity. }
    split.
    { unfold objfile_data in *. rewrite Hhead.
      apply (symtab_chain_unlink a l2 _ l1 (smobs st) None _ Hc Hnd).
      - intros x _ Hx1 Hx2. rewrite Hl1 in Hx1. rewrite Hl2 in Hx2.
        rewrite !lookup_insert_ne; [done|congruence|congruence].
      - intros p' sp' Hp' Hsp'. rewrite Hl1 in Hp'. injection Hp' as <-.
        rewrite Hsp in Hsp'. injection Hsp' as <-.
        rewrite lookup_insert_ne by done. rewrite Hl2. apply lookup_insert_eq.
      - intros n' sn' Hn' Hsn'. rewrite Hl2 in Hn'. injection Hn' as <-.
        rewrite Hsn in Hsn'. injection Hsn' as <-.
        rewrite Hl1. apply lookup_insert_eq. }
    apply last_Some_elem_of in Hl1.
    assert (Hn2 : n ∈ l2) by (destruct l2; [discriminate|]; injection Hl2 as ->; by left).
    split.
    { rewrite !lookup_insert_ne; [done| |]; intros ->; done. }
    split.
    { intros b Hb. rewrite !lookup_insert_ne; [done| |]; intros ->; apply Hb, elem_of_app;
        [by left|by right]. }
    split; [|done].
    intros b sb Hb. destruct (decide (b = n)) as [->|Hbn].
    { rewrite lookup_insert_eq. rewrite Hsn in Hb. injection Hb as <-. by eexists. }
    rewrite lookup_insert_ne by done.
    destruct (decide (b = p)) as [->|Hbp].
    { rewrite lookup_insert_eq. rewrite Hsp in Hb. injection Hb as <-. by eexists. }
    rewrite lookup_insert_ne by done. by exists sb.
  - destruct (Hprev p eq_refl) as (sp & Hsp & _).
    unfold bind. rewrite (write_chained_eq _ _ sp _ Hsp).
    eexists. split; [reflexivity|]. cbn.
    assert (Hhead : objfile_data o data_key st = head (l1 ++ l2)).
    { rewrite Hslot. destruct l1; [discriminate|]. reflexivity. }
    split.
    { unfold objfile_data in *. rewrite Hhead.
      apply (symtab_chain_unlink a l2 _ l1 (smobs st) None _ Hc Hnd).
      - intros x _ Hx1 _. rewrite Hl1 in Hx1.
        rewrite !lookup_insert_ne; [done|congruence].
      - intros p' sp' Hp' Hsp'. rewrite Hl1 in Hp'. injection Hp' as <-.
        rewrite Hsp in Hsp'. injection Hsp' as <-.
        rewrite Hl2. apply lookup_insert_eq.
      - intros n' sn' Hn'. rewrite Hl2 in Hn'. discriminate. }
    apply last_Some_elem_of in Hl1.
    split.
    { rewrite !lookup_insert_ne; [done|]; intros ->; done. }
    split.
    { intros b Hb. rewrite !lookup_insert_ne; [done|]; intros ->; apply Hb, elem_of_app;
        by left. }
    split; [|done].
    intros b sb Hb. destruct (decide (b = p)) as [->|Hbp].
    { rewrite lookup_insert_eq. rewrite Hsp in Hb. injection Hb as <-. by eexists. }
    rewrite lookup_insert_ne by done. by exists sb.
  - destruct (Hnext n eq_refl) as (sn & Hsn & _).
    apply last_None in Hl1. subst l1. simpl in *.
    unfold bind, set_objfile_data, modify_state.
    rewrite (write_chained_eq n _ sn) by exact Hsn.
    eexists. split; [reflexivity|]. cbn.
    assert (Hn2 : n ∈ l2) by (destruct l2; [discriminate|]; injection Hl2 as ->; by left).
    split.
    { unfold objfile_data. cbn. rewrite lookup_insert_eq, <- Hl2.
      apply (symtab_chain_unlink a l2 _ [] (smobs st) None _ Hc Hnd).
      - intros x _ _ Hx2. rewrite Hl2 in Hx2.
        rewrite !lookup_insert_ne; [done|congruence].
      - intros p' sp' Hp'. discriminate.
      - intros n' sn' Hn' Hsn'. rewrite Hl2 in Hn'. injection Hn' as <-.
        rewrite Hsn in Hsn'. injection Hsn' as <-. apply lookup_insert_eq. }
    split.
    { rewrite !lookup_insert_ne; [done|]; intros ->; done. }
    split.
    { intros b Hb. rewrite !lookup_insert_ne; [done|]; intros ->; done. }
    split; [|split; [|done]].
    + intros b sb Hb. destruct (decide (b = n)) as [->|Hbn].
      { rewrite lookup_insert_eq. rewrite Hsn in Hb. injection Hb as <-. by eexists. }
      rewrite lookup_insert_ne by done. by exists sb.
    + intros o' k' Hne. unfold objfile_data. cbn. by rewrite lookup_insert_ne.
  - apply last_None in Hl1. subst l1. destruct l2; [|discriminate]. simpl in *.
    unfold bind, set_objfile_data, modify_state, ret.
    eexists. split; [reflexivity|]. cbn.
    split; [unfold objfile_data; cbn; apply lookup_delete_eq|].
    split; [done|]. split; [done|].
    split; [|split; [|done]].
    + intros b sb Hb. by exists sb.
    + intros o' k' Hne. unfold objfile_data. cbn. by rewrite lookup_delete_ne.
Qed.

End UnlinkFacts.

(** ** Collecting symtab handles *)

Section FreeSymtab.
Context `{SmobTags} `{GuileRuntime} `{GdbHost}.

(** The state the objfile teardown leaves. *)
Lemma free_objfile_chain (objfile : N) (l : list N) (st : gdb_state) :
  chained_symtabs objfile l st →
  ∃ h', free_objfile objfile st
        = (Returned tt,
           set_objfile_data_tab (delete (objfile, stscm_objfile_data_key))
             (set_smobs (λ _, h') st))
        ∧ (∀ a, a ∈ l → ∃ s, smobs st !! a = Some (SymtabSmob s)
                              ∧ h' !! a = Some (SymtabSmob (invalidate_symtab_smob s)))
        ∧ (∀ a, a ∉ l → h' !! a = smobs st !! a).
Proof.
  intros [Hc Hnd].
  destruct (stscm_del_objfile_symtab_loop_chain l (smobs st) None
              (objfile_data objfile stscm_objfile_data_key st) (S (size (smobs st)))
              Hc Hnd) as (h' & Hrun & Hin & Hout).
  { pose proof (symtab_chain_length _ _ _ _ Hc Hnd). lia. }
  exists h'. split; [|by split].
  unfold free_objfile, bind, get_state.
  destruct (objfile_data objfile stscm_objfile_data_key st) as [datum|] eqn:Hd.
  - unfold stscm_del_objfile_symtab. rewrite Hrun. reflexivity.
  - destruct l as [|a l']; [|by destruct Hc].
    simpl in Hrun. injection Hrun as <-. cbn. by destruct st.
Qed.

(** The "free" function on a handle whose links and symtab pointer are NULL
    changes nothing. *)
Lemma stscm_free_symtab_smob_stale (t : Z) (a : N) (s : symtab_smob) (st : gdb_state) :
  smobs st !! a = Some (SymtabSmob s) →
  symtab s = None → prev (st_base s) = None → next (st_base s) = None →
  stscm_free_symtab_smob (SCM_SMOB t a) st = (Returned tt, st).
Proof.
  intros Hs Hsym Hp Hn.
  unfold stscm_free_symtab_smob, bind, symtab_smob_data. rewrite Hs. cbn [fst snd].
  rewrite Hsym. cbn [mbind option_bind].
  unfold gdbscm_remove_objfile_ref, bind, read_chained. rewrite Hs. cbn.
  rewrite Hp, Hn. cbn. unfold modify_state. f_equal.
  destruct st as [h r f t' c d calls]. unfold set_smobs. cbn in *. f_equal.
  apply map_eq. intros b. destruct (decide (b = a)) as [->|Hne].
  - rewrite lookup_alter_eq, Hs. cbn. destruct s as [b0 sy]. cbn in *. by subst.
  - by rewrite lookup_alter_ne.
Qed.

(** stscm_free_symtab_smob on a handle that is linked in its objfile's
    chain: the handle leaves the chain and loses its symtab pointer. *)
Lemma stscm_free_symtab_smob_linked (o a sym : N) (l1 l2 : list N) (s : symtab_smob)
    (st : gdb_state) :
  chained_symtabs o (l1 ++ a :: l2) st →
  smobs st !! a = Some (SymtabSmob s) →
  symtab s = Some sym →
  symtab_objfile sym = Some o →
  ∃ st',
    stscm_free_symtab_smob (SCM_SMOB symtab_smob_tag a) st = (Returned tt, st')
    ∧ chained_symtabs o (l1 ++ l2) st'
    ∧ smobs st' !! a = Some (SymtabSmob {| st_base := st_base s; symtab := None |})
    ∧ (∀ b, b ∉ l1 ++ a :: l2 → smobs st' !! b = smobs st !! b).
Proof.
  intros [Hc Hnd] Hs Hsym Hobj.
  destruct (gdbscm_remove_objfile_ref_chain o stscm_objfile_data_key a l1 l2 st Hc Hnd)
    as (st1 & Hrun & Hc1 & Ha & Hout & _).
  assert (Ha12 : a ∉ l1 ++ l2).
  { intros Hin. apply elem_of_app in Hin as [Hin|Hin].
    - apply NoDup_app in Hnd as (_ & Hd & _). apply (Hd a Hin). by left.
    - apply NoDup_app in Hnd as (_ & _ & Hd). by apply NoDup_cons in Hd as [? _]. }
  exists (set_smobs (alter (set_symtab None) a) st1).
  split.
  { unfold stscm_free_symtab_smob, bind, symtab_smob_data. rewrite Hs. cbn [fst snd].
    rewrite Hsym. cbn [mbind option_bind]. rewrite Hobj, Hrun. reflexivity. }
  split.
  { split.
    - change (objfile_data o stscm_objfile_data_key (set_smobs _ st1))
        with (objfile_data o stscm_objfile_data_key st1).
      cbn [smobs set_smobs]. by apply symtab_chain_alter_other.
    - apply NoDup_app in Hnd as (Hd1 & Hd & Hd2). apply NoDup_cons in Hd2 as [_ Hd2].
      apply NoDup_app. split; [exact Hd1|]. split; [|exact Hd2].
      intros x Hx Hx2. apply (Hd x Hx). by right. }
  split.
  { cbn [smobs set_smobs]. rewrite lookup_alter_eq, Ha, Hs. reflexivity. }
  intros b Hb. cbn [smobs set_smobs].
  rewrite lookup_alter_ne.
  - apply Hout. intros Hin. apply Hb. apply elem_of_app in Hin as [Hin|Hin];
      apply elem_of_app; [by left|right; by right].
  - intros ->. apply Hb, elem_of_app. right. by left.
Qed.

(** X1.  The "free" function of a symtab handle that is still linked takes
    the handle out of its objfile's chain: the other handles of the objfile
    stay chained in their order, with the data slot pointing at the first of
    them, they keep their symtab pointers, the chains of other objfiles are
    not touched, and the collected struct has its symtab pointer cleared. *)
Theorem free_symtab_smob_unlinks (o a sym : N) (l1 l2 : list N) (s : symtab_smob)
    (st : gdb_state) :
  chained_symtabs o (l1 ++ a :: l2) st →
  smobs st !! a = Some (SymtabSmob s) →
  symtab s = Some sym →
  symtab_objfile sym = Some o →
  ∃ st',
    stscm_free_symtab_smob (SCM_SMOB symtab_smob_tag a) st = (Returned tt, st')
    ∧ chained_symtabs o (l1 ++ l2) st'
    ∧ smobs st' !! a = Some (SymtabSmob {| st_base := st_base s; symtab := None |})
    ∧ (∀ b, b ∉ l1 ++ a :: l2 → smobs st' !! b = smobs st !! b)
    ∧ (∀ b sb, b ≠ a → smobs st !! b = Some (SymtabSmob sb) →
         ∃ sb', smobs st' !! b = Some (SymtabSmob sb')
                ∧ symtab sb' = symtab sb
                ∧ c_aux (st_base sb') = c_aux (st_base sb))
    ∧ (∀ o', o' ≠ o →
         objfile_data o' stscm_objfile_data_key st'
         = objfile_data o' stscm_objfile_data_key st)
    ∧ scm_calls st' = scm_calls st.
Proof.
  intros [Hc Hnd] Hs Hsym Hobj.
  destruct (gdbscm_remove_objfile_ref_chain o stscm_objfile_data_key a l1 l2 st Hc Hnd)
    as (st1 & Hrun & Hc1 & Ha & Hout & Hkeep & Hslots & Hcalls).
  assert (Ha12 : a ∉ l1 ++ l2).
  { intros Hin. apply elem_of_app in Hin as [Hin|Hin].
    - apply NoDup_app in Hnd as (_ & Hd & _). apply (Hd a Hin). by left.
    - apply NoDup_app in Hnd as (_ & _ & Hd). by apply NoDup_cons in Hd as [? _]. }
  exists (set_smobs (alter (set_symtab None) a) st1).
  split.
  { unfold stscm_free_symtab_smob, bind, symtab_smob_data. rewrite Hs. cbn [fst snd].
    rewrite Hsym. cbn [mbind option_bind]. rewrite Hobj, Hrun. reflexivity. }
  split.
  { split.
    - change (objfile_data o stscm_objfile_data_key (set_smobs _ st1))
        with (objfile_data o stscm_objfile_data_key st1).
      cbn [smobs set_smobs]. by apply symtab_chain_alter_other.
    - apply NoDup_app in Hnd as (Hd1 & Hd & Hd2). apply NoDup_cons in Hd2 as [_ Hd2].
      apply NoDup_app. split; [exact Hd1|]. split; [|exact Hd2].
      intros x Hx Hx2. apply (Hd x Hx). by right. }
  split.
  { cbn [smobs set_smobs]. rewrite lookup_alter_eq, Ha, Hs. reflexivity. }
  split.
  { intros b Hb. cbn [smobs set_smobs].
    rewrite lookup_alter_ne.
    - apply Hout. intros Hin. apply Hb. apply elem_of_app in Hin as [Hin|Hin];
        apply elem_of_app; [by left|right; by right].
    - intros ->. apply Hb, elem_of_app. right. by left. }
  split.
  { intros b sb Hne Hb. cbn [smobs set_smobs]. rewrite lookup_alter_ne by done.
    by apply Hkeep. }
  split; [|exact Hcalls].
  intros o' Hne. apply (Hslots o' stscm_objfile_data_key). intros [=]. done.
Qed.

(** X2.  Collecting a handle after its objfile is gone is harmless: the
    teardown has cleared the handle's links and its symtab pointer, so the
    "free" function finds nothing to unlink and leaves the state, the data
    slot of the objfile included, as it is. *)
Theorem free_symtab_smob_after_teardown (o a : N) (l : list N) (st : gdb_state) :
  chained_symtabs o l st → a ∈ l →
  ∃ st',
    free_objfile o st = (Returned tt, st')
    ∧ stscm_free_symtab_smob (SCM_SMOB symtab_smob_tag a) st' = (Returned tt, st')
    ∧ objfile_data o stscm_objfile_data_key st' = None.
Proof.
  intros Hch Ha.
  destruct (free_objfile_chain o l st Hch) as (h' & Hfree & Hin & _).
  destruct (Hin a Ha) as (s & _ & Hs').
  eexists. split; [exact Hfree|]. split.
  - by apply (stscm_free_symtab_smob_stale _ a (invalidate_symtab_smob s)).
  - unfold objfile_data. cbn. apply lookup_delete_eq.
Qed.

End FreeSymtab.

(** X1 at work: the handle at address 0, the second of objfile 1, is
    collected; the handle at address 1 is then the whole chain. *)
Lemma free_symtab_smob_unlinks_witness :
  ∃ st',
    @stscm_free_symtab_smob demo_host (SCM_SMOB 895 0) demo_symtab_state
    = (Returned tt, st')
    ∧ @chained_symtabs demo_host 1%N [1%N] st'.
Proof.
  destruct (@free_symtab_smob_unlinks demo_tags demo_host 1%N 0%N 10%N [1%N] []
              {| st_base := {| c_aux := SCM_BOOL_F; prev := Some 1%N; next := None |};
                 symtab := Some 10%N |}
              demo_symtab_state demo_symtab_state_chained)
    as (st' & Hrun & Hch & _); [vm_compute; reflexivity|reflexivity|reflexivity|].
  exists st'. split; [exact Hrun|exact Hch].
Defined.

(** X2 at work on the same state. *)
Lemma free_symtab_smob_after_teardown_witness :
  ∃ st',
    @free_objfile demo_host 1%N demo_symtab_state = (Returned tt, st')
    ∧ @stscm_free_symtab_smob demo_host (SCM_SMOB 895 1) st' = (Returned tt, st').
Proof.
  destruct (@free_symtab_smob_after_teardown demo_tags demo_host 1%N 1%N [1%N; 0%N]
              demo_symtab_state demo_symtab_state_chained)
    as (st' & Hfree & Hrun & _); [by left|].
  exists st'. split; [exact Hfree|exact Hrun].
Defined.

(** ** The outbound conversion *)

Section OutboundFacts.
Context `{SmobTags} `{GuileRuntime}.

Lemma gdbscm_scm_from_gsmob_unsafe_unset (smob : SCM) (st : gdb_state) :
  gdbscm_is_false (scm_from_smob_var st) = true →
  gdbscm_is_exception smob = false →
  gdbscm_scm_from_gsmob_unsafe smob st = (Returned smob, st).
Proof.
  intros Hhook Hx.
  unfold gdbscm_scm_from_gsmob_unsafe, gdbscm_scm_from_gsmob_safe, bind, get_state.
  rewrite Hhook. cbn [ret]. by rewrite Hx.
Qed.

Lemma gdbscm_scm_from_gsmob_unsafe_thrown (smob k l : SCM) (st st2 : gdb_state) :
  gdbscm_is_false (scm_from_smob_var st) = false →
  scm_apply (scm_from_smob_var st) [smob] (log_call (scm_from_smob_var st) [smob] st)
  = (Thrown k l, st2) →
  gdbscm_scm_from_gsmob_unsafe smob st = (Thrown k l, (gdbscm_make_exception k l st2).2).
Proof.
  intros Hhook Hcall.
  unfold gdbscm_scm_from_gsmob_unsafe, gdbscm_scm_from_gsmob_safe, bind, get_state.
  rewrite Hhook. rewrite (gdbscm_safe_call_1_thrown _ _ _ _ _ _ Hcall).
  rewrite gdbscm_make_exception_eq, gdbscm_is_exception_smob.
  rewrite (gdbscm_throw_smob _ {| e_base := gdbscm_init_gsmob; key := k; args := l |});
    [reflexivity|]. cbn. apply lookup_insert_eq.
Qed.

Lemma gdbscm_scm_from_gsmob_unsafe_exception (smob : SCM) (e : N) (ex : exception_smob)
    (st st2 : gdb_state) :
  gdbscm_is_false (scm_from_smob_var st) = false →
  scm_apply (scm_from_smob_var st) [smob] (log_call (scm_from_smob_var st) [smob] st)
  = (Returned (SCM_SMOB exception_smob_tag e), st2) →
  smobs st2 !! e = Some (ExceptionSmob ex) →
  gdbscm_scm_from_gsmob_unsafe smob st = (Thrown (key ex) (args ex), st2).
Proof.
  intros Hhook Hcall He.
  unfold gdbscm_scm_from_gsmob_unsafe, gdbscm_scm_from_gsmob_safe, bind, get_state.
  rewrite Hhook. rewrite (gdbscm_safe_call_1_returned _ _ _ _ _ Hcall).
  rewrite gdbscm_is_exception_smob. by apply gdbscm_throw_smob.
Qed.

Lemma gdbscm_scm_from_gsmob_unsafe_returned (smob x : SCM) (st st2 : gdb_state) :
  gdbscm_is_false (scm_from_smob_var st) = false →
  scm_apply (scm_from_smob_var st) [smob] (log_call (scm_from_smob_var st) [smob] st)
  = (Returned x, st2) →
  gdbscm_is_exception x = false →
  gdbscm_scm_from_gsmob_unsafe smob st = (Returned x, st2).
Proof.
  intros Hhook Hcall Hx.
  unfold gdbscm_scm_from_gsmob_unsafe, gdbscm_scm_from_gsmob_safe, bind, get_state.
  rewrite Hhook. rewrite (gdbscm_safe_call_1_returned _ _ _ _ _ Hcall). by rewrite Hx.
Qed.

End OutboundFacts.

(** ** Making a symtab handle for a script *)

Section SymtabThroughHook.
Context `{SmobTags} `{GuileRuntime} `{GdbHost}.

(** The first steps of stscm_scm_from_symtab_unsafe: a new struct that
    holds the symtab pointer and is not linked yet. *)
Lemma stscm_scm_from_symtab_unsafe_eq (sym : N) (st : gdb_state) :
  let a := fresh (dom (smobs st)) in
  let st_scm := SCM_SMOB symtab_smob_tag a in
  let st1 := set_smobs (insert a (SymtabSmob {| st_base := gdbscm_init_chained_gsmob;
                                                symtab := Some sym |})) st in
  stscm_scm_from_symtab_unsafe sym st
  = (let* result := gdbscm_scm_from_gsmob_unsafe st_scm in
     if gdbscm_is_exception result then gdbscm_throw result
     else
       let* _ := gdbscm_add_objfile_ref (symtab_objfile sym) stscm_objfile_data_key a in
       ret result) st1.
Proof.
  cbv zeta. unfold stscm_scm_from_symtab_unsafe, stscm_make_symtab_smob, scm_new_smob.
  unfold bind at 1. unfold bind at 1. cbn [symtab_smob_data smobs set_smobs].
  rewrite lookup_insert_eq. cbn [fst snd]. unfold bind at 1. unfold modify_state at 1.
  replace (set_smobs (alter (set_symtab (Some sym)) (fresh (dom (smobs st))))
             (set_smobs (insert (fresh (dom (smobs st)))
                (SymtabSmob {| st_base := gdbscm_init_chained_gsmob; symtab := None |})) st))
    with (set_smobs (insert (fresh (dom (smobs st)))
            (SymtabSmob {| st_base := gdbscm_init_chained_gsmob; symtab := Some sym |})) st);
    [reflexivity|].
  unfold set_smobs. cbn. f_equal. by rewrite alter_insert_eq.
Qed.

(** X3.  stscm_scm_from_symtab_unsafe makes a handle for a symtab of an
    objfile and passes it through the smob->scm hook before it links it.
    With the hook unset the new handle is returned, valid and first in the
    objfile's chain, and no script code has run.  When the hook throws, the
    throw is passed on and the glue has done nothing after the hook call but
    record the exception: the new struct is not linked into any chain.  When
    the hook returns an exception object, the exception it records is thrown
    and the state is the one the hook left: the new struct is not linked
    either.  When the hook returns any other value, and the script has left
    the objfile's chain and the new struct in place, that value is returned
    and the new handle is then linked in front of the objfile's chain. *)
Theorem symtab_handle_linked_after_the_hook (sym o : N) (l : list N) (st : gdb_state) :
  symtab_objfile sym = Some o →
  chained_symtabs o l st →
  let a := fresh (dom (smobs st)) in
  let st_scm := SCM_SMOB symtab_smob_tag a in
  let st1 := set_smobs (insert a (SymtabSmob {| st_base := gdbscm_init_chained_gsmob;
                                                symtab := Some sym |})) st in
  let hook := scm_from_smob_var st in
  smobs st !! a = None
  ∧ (gdbscm_is_false hook = true →
       ∃ st', stscm_scm_from_symtab_unsafe sym st = (Returned st_scm, st')
              ∧ chained_symtabs o (a :: l) st'
              ∧ (∃ s, smobs st' !! a = Some (SymtabSmob s) ∧ symtab s = Some sym)
              ∧ scm_calls st' = scm_calls st)
  ∧ (gdbscm_is_false hook = false →
       (∀ k args st2,
          scm_apply hook [st_scm] (log_call hook [st_scm] st1) = (Thrown k args, st2) →
          stscm_scm_from_symtab_unsafe sym st
          = (Thrown k args, (gdbscm_make_exception k args st2).2))
       ∧ (∀ x st2,
            scm_apply hook [st_scm] (log_call hook [st_scm] st1) = (Returned x, st2) →
            gdbscm_is_exception x = true →
            ∃ e, x = SCM_SMOB exception_smob_tag e
                 ∧ ∀ ex, smobs st2 !! e = Some (ExceptionSmob ex) →
                     stscm_scm_from_symtab_unsafe sym st
                     = (Thrown (key ex) (args ex), st2))
       ∧ (∀ x st2,
            scm_apply hook [st_scm] (log_call hook [st_scm] st1) = (Returned x, st2) →
            gdbscm_is_exception x = false →
            chained_symtabs o l st2 →
            (∃ s2, smobs st2 !! a = Some (SymtabSmob s2)) →
            ∃ st', stscm_scm_from_symtab_unsafe sym st = (Returned x, st')
                   ∧ chained_symtabs o (a :: l) st')).
Proof.
  intros Hobj [Hc Hnd]. cbv zeta.
  set (a := fresh (dom (smobs st))).
  set (st1 := set_smobs (insert a (SymtabSmob {| st_base := gdbscm_init_chained_gsmob;
                                                 symtab := Some sym |})) st).
  assert (Hfresh : smobs st !! a = None) by apply fresh_smob_unused.
  assert (Ha : a ∉ l).
  { intros Hin. destruct (symtab_chain_elem _ _ _ _ _ Hc Hin) as [s Hs]. congruence. }
  pose proof (stscm_scm_from_symtab_unsafe_eq sym st) as Heq. cbv zeta in Heq.
  fold a in Heq. fold st1 in Heq. rewrite Heq, Hobj. clear Heq.
  split; [exact Hfresh|]. split.
  - intros Hhook.
    destruct (gdbscm_add_objfile_ref_chain o stscm_objfile_data_key a l
                {| st_base := gdbscm_init_chained_gsmob; symtab := Some sym |} st1)
      as (st2 & Hadd & Hchain & Hat & _).
    { by apply symtab_chain_insert_other. }
    { exact Hnd. }
    { exact Ha. }
    { cbn. apply lookup_insert_eq. }
    exists st2. split.
    { unfold bind at 1.
      rewrite gdbscm_scm_from_gsmob_unsafe_unset
        by (exact Hhook || apply symtab_smob_not_exception).
      rewrite symtab_smob_not_exception. unfold bind. by rewrite Hadd. }
    split; [split; [exact Hchain|by apply NoDup_cons]|].
    split; [eexists; split; [exact Hat|reflexivity]|].
    by apply gdbscm_add_objfile_ref_calls in Hadd.
  - intros Hhook. split; [|split].
    + intros k args st2 Hcall.
      unfold bind at 1.
      by rewrite (gdbscm_scm_from_gsmob_unsafe_thrown _ k args st1 st2 Hhook Hcall).
    + intros x st2 Hcall Hx.
      destruct (is_exception_smob x Hx) as [e ->]. exists e. split; [reflexivity|].
      intros ex He. unfold bind at 1.
      by rewrite (gdbscm_scm_from_gsmob_unsafe_exception _ e ex st1 st2 Hhook Hcall He).
    + intros x st2 Hcall Hx [Hc2 _] [s2 Hs2].
      destruct (gdbscm_add_objfile_ref_chain o stscm_objfile_data_key a l s2 st2
                  Hc2 Hnd Ha Hs2) as (st3 & Hadd & Hchain & _).
      exists st3. split.
      { unfold bind at 1.
        rewrite (gdbscm_scm_from_gsmob_unsafe_returned _ x st1 st2 Hhook Hcall Hx).
        rewrite Hx. unfold bind. by rewrite Hadd. }
      split; [exact Hchain|by apply NoDup_cons].
Qed.

End SymtabThroughHook.

(** X3 at work: a third handle for objfile 1, made while the smob->scm hook
    is unset. *)
Lemma symtab_handle_linked_after_the_hook_witness :
  ∃ st',
    @stscm_scm_from_symtab_unsafe demo_tags demo_runtime demo_host 12%N demo_symtab_state
    = (Returned (SCM_SMOB 895 3), st')
    ∧ @chained_symtabs demo_host 1%N [3%N; 1%N; 0%N] st'.
Proof.
  destruct (@symtab_handle_linked_after_the_hook demo_tags demo_runtime demo_host
              12%N 1%N [1%N; 0%N] demo_symtab_state eq_refl demo_symtab_state_chained)
    as (_ & Hunset & _).
  destruct (Hunset eq_refl) as (st' & Hrun & Hch & _).
  exists st'. split; [exact Hrun|exact Hch].
Defined.

(** ** The aux slot of a gsmob *)

Section GsmobFacts.
Context `{SmobTags} `{GuileRuntime}.

(** A smob of a registered type other than the exception type passes the
    argument check of the gsmob accessors as it is; no hook is consulted. *)
Lemma gsscm_get_gsmob_arg_unsafe_smob (t : Z) (a : N) (arg_pos : Z) (func_name : string)
    (st : gdb_state) :
  t ∈ registered_gsmobs st → t ≠ exception_smob_tag →
  gsscm_get_gsmob_arg_unsafe (SCM_SMOB t a) arg_pos func_name st
  = (Returned (SCM_SMOB t a), st).
Proof.
  intros Hreg Hne.
  assert (Hg : gdbscm_is_gsmob (SCM_SMOB t a) st = true) by by apply bool_decide_eq_true.
  assert (Hx : gdbscm_is_exception (SCM_SMOB t a) = false) by by apply bool_decide_eq_false.
  unfold gsscm_get_gsmob_arg_unsafe, gdbscm_scm_to_gsmob_safe, bind, get_state, matches_tag.
  rewrite bool_decide_eq_false_2 by (intros Hz; by apply Hz).
  rewrite Hg. cbn [ret]. rewrite Hx, Hg. reflexivity.
Qed.

(** Writing the aux slot of a struct leaves every chain as it is. *)
Lemma symtab_chain_set_smob_aux (h : gmap N smob_data) (l : list N)
    (prv cur : option N) (a : N) (d : smob_data) (v : SCM) :
  h !! a = Some d →
  symtab_chain h prv cur l → symtab_chain (<[a := set_smob_aux v d]> h) prv cur l.
Proof.
  intros Hd. revert prv cur. induction l as [|b l IH]; intros prv cur Hc; [exact Hc|].
  destruct Hc as (Hcur & s & Hs & Hp & Hc).
  split; [exact Hcur|]. destruct (decide (a = b)) as [->|Hne].
  - rewrite Hs in Hd. injection Hd as <-.
    eexists. split; [apply lookup_insert_eq|]. split; [exact Hp|]. by apply IH.
  - exists s. split; [by rewrite lookup_insert_ne|]. split; [exact Hp|]. by apply IH.
Qed.

(** X4.  set-gsmob-aux! and gsmob-aux on a smob of a registered type other
    than the exception type: gsmob-aux reads the aux slot of the struct;
    set-gsmob-aux! stores the value there, after which gsmob-aux returns it.
    The store changes nothing else: the other fields of the struct, every
    other struct and the objfile chains are as before, and no script code
    runs. *)
Theorem gsmob_aux_round_trip (t : Z) (a : N) (d : smob_data) (v : SCM) (st : gdb_state) :
  t ∈ registered_gsmobs st → t ≠ exception_smob_tag →
  smobs st !! a = Some d →
  let self := SCM_SMOB t a in
  gdbscm_gsmob_aux self st = (Returned (smob_aux d), st)
  ∧ ∃ st',
      gdbscm_set_gsmob_aux_x self v st = (Returned SCM_UNSPECIFIED, st')
      ∧ gdbscm_gsmob_aux self st' = (Returned v, st')
      ∧ smobs st' !! a = Some (set_smob_aux v d)
      ∧ (∀ b, b ≠ a → smobs st' !! b = smobs st !! b)
      ∧ (∀ prv cur l, symtab_chain (smobs st) prv cur l → symtab_chain (smobs st') prv cur l)
      ∧ objfile_data_tab st' = objfile_data_tab st
      ∧ scm_calls st' = scm_calls st.
Proof.
  intros Hreg Hne Hd. cbv zeta.
  split.
  { unfold gdbscm_gsmob_aux, bind.
    rewrite (gsscm_get_gsmob_arg_unsafe_smob _ _ _ _ _ Hreg Hne). cbn. by rewrite Hd. }
  exists (set_smobs (insert a (set_smob_aux v d)) st).
  split.
  { unfold gdbscm_set_gsmob_aux_x, bind.
    rewrite (gsscm_get_gsmob_arg_unsafe_smob _ _ _ _ _ Hreg Hne). cbn. by rewrite Hd. }
  split.
  { unfold gdbscm_gsmob_aux, bind.
    rewrite (gsscm_get_gsmob_arg_unsafe_smob t a _ _
               (set_smobs (insert a (set_smob_aux v d)) st) Hreg Hne). cbn.
    rewrite lookup_insert_eq. cbn. by destruct d. }
  split; [cbn; apply lookup_insert_eq|].
  split; [intros b Hb; cbn; by rewrite lookup_insert_ne|].
  split; [intros prv cur l; cbn; by apply symtab_chain_set_smob_aux|].
  split; reflexivity.
Qed.

(** X5.  The argument check of the gsmob accessors.  Given an exception
    object, gsmob-aux and set-gsmob-aux! throw the exception it records
    instead of reading or writing its aux slot.  Given a value that is no
    registered smob while the scm->smob hook is unset, they throw
    wrong-type-arg.  In both cases the state is not changed. *)
Theorem gsmob_accessors_argument_check (self v : SCM) (st : gdb_state) :
  (∀ a e, self = SCM_SMOB exception_smob_tag a →
          exception_smob_tag ∈ registered_gsmobs st →
          smobs st !! a = Some (ExceptionSmob e) →
          gdbscm_gsmob_aux self st = (Thrown (key e) (args e), st)
          ∧ gdbscm_set_gsmob_aux_x self v st = (Thrown (key e) (args e), st))
  ∧ (gdbscm_is_gsmob self st = false →
     gdbscm_is_false (scm_to_smob_var st) = true →
     (∃ l, gdbscm_gsmob_aux self st = (Thrown scm_arg_type_key l, st))
     ∧ (∃ l, gdbscm_set_gsmob_aux_x self v st = (Thrown scm_arg_type_key l, st))).
Proof.
  split.
  - intros a e -> Hreg He.
    assert (Hg : gdbscm_is_gsmob (SCM_SMOB exception_smob_tag a) st = true)
      by by apply bool_decide_eq_true.
    assert (Hcheck : ∀ pos fn,
              gsscm_get_gsmob_arg_unsafe (SCM_SMOB exception_smob_tag a) pos fn st
              = (Thrown (key e) (args e), st)).
    { intros pos fn.
      unfold gsscm_get_gsmob_arg_unsafe, gdbscm_scm_to_gsmob_safe, bind, get_state,
        matches_tag.
      rewrite bool_decide_eq_false_2 by (intros Hz; by apply Hz).
      rewrite Hg. cbn [ret]. rewrite gdbscm_is_exception_smob.
      by apply gdbscm_throw_smob. }
    unfold gdbscm_gsmob_aux, gdbscm_set_gsmob_aux_x, bind. by rewrite !Hcheck.
  - intros Hg Hhook.
    assert (Hcheck : ∀ pos fn, ∃ l,
              gsscm_get_gsmob_arg_unsafe self pos fn st = (Thrown scm_arg_type_key l, st)).
    { intros pos fn.
      unfold gsscm_get_gsmob_arg_unsafe, gdbscm_scm_to_gsmob_safe, bind, get_state,
        matches_tag.
      rewrite bool_decide_eq_false_2 by (intros Hz; by apply Hz).
      rewrite Hg, Hhook. cbn [ret].
      assert (Hf : gdbscm_is_exception SCM_BOOL_F = false) by reflexivity.
      rewrite Hf. cbn [gdbscm_is_gsmob SCM_ASSERT_TYPE].
      unfold scm_wrong_type_arg_msg, scm_error, scm_throw.
      destruct (bool_decide (pos = 0%Z)); eexists; reflexivity. }
    split.
    + destruct (Hcheck SCM_ARG1 "gdbscm_gsmob_aux") as [l Hl].
      exists l. unfold gdbscm_gsmob_aux, bind. by rewrite Hl.
    + destruct (Hcheck SCM_ARG1 "gdbscm_set_gsmob_aux_x") as [l Hl].
      exists l. unfold gdbscm_set_gsmob_aux_x, bind. by rewrite Hl.
Qed.

End GsmobFacts.

(** X4 at work: the aux slot of the symtab handle at address 1 of the
    example state is set to a symbol and read back. *)
Lemma gsmob_aux_round_trip_witness :
  ∃ st',
    @gdbscm_set_gsmob_aux_x demo_tags demo_runtime (SCM_SMOB 895 1) (SCM_SYMBOL "mine")
      demo_symtab_state = (Returned SCM_UNSPECIFIED, st')
    ∧ @gdbscm_gsmob_aux demo_tags demo_runtime (SCM_SMOB 895 1) st'
      = (Returned (SCM_SYMBOL "mine"), st').
Proof.
  destruct (@gsmob_aux_round_trip demo_tags demo_runtime 895 1%N
              (SymtabSmob {| st_base := {| c_aux := SCM_BOOL_F; prev := None;
                                           next := Some 0%N |};
                             symtab := Some 11%N |})
              (SCM_SYMBOL "mine") demo_symtab_state)
    as (_ & st' & Hset & Hget & _).
  - vm_compute. set_solver.
  - discriminate.
  - vm_compute. reflexivity.
  - exists st'. split; [exact Hset|exact Hget].
Defined.

(** ** Conversions never hand out exception objects *)

Section ConversionInvariants.
Context `{SmobTags} `{GuileRuntime}.

(** X6.  The outbound conversion.  With the smob->scm hook unset the smob is
    returned as it is and no script code runs.  With the hook set the hook is
    called on the smob once; the value it returns is the result, and what it
    throws is returned as an exception object that records the key and the
    arguments of the throw.  The safe conversion never throws. *)
Theorem outbound_conversion_outcomes (smob : SCM) (st : gdb_state) :
  let hook := scm_from_smob_var st in
  (gdbscm_is_false hook = true →
     gdbscm_scm_from_gsmob_safe smob st = (Returned smob, st))
  ∧ (gdbscm_is_false hook = false →
     (∀ x st1, scm_apply hook [smob] (log_call hook [smob] st) = (Returned x, st1) →
        gdbscm_scm_from_gsmob_safe smob st = (Returned x, st1))
     ∧ (∀ k l st1, scm_apply hook [smob] (log_call hook [smob] st) = (Thrown k l, st1) →
        ∃ a st2,
          gdbscm_scm_from_gsmob_safe smob st
          = (Returned (SCM_SMOB exception_smob_tag a), st2)
          ∧ smobs st1 !! a = None
          ∧ smobs st2 !! a = Some (ExceptionSmob {| e_base := gdbscm_init_gsmob;
                                                    key := k; args := l |})))
  ∧ (∀ k l st1, gdbscm_scm_from_gsmob_safe smob st ≠ (Thrown k l, st1)).
Proof.
  cbv zeta. split; [|split].
  - intros Hhook. unfold gdbscm_scm_from_gsmob_safe, bind, get_state. by rewrite Hhook.
  - intros Hhook. split.
    + intros x st1 Hcall. unfold gdbscm_scm_from_gsmob_safe, bind, get_state.
      rewrite Hhook. by apply gdbscm_safe_call_1_returned.
    + intros k l st1 Hcall. exists (fresh (dom (smobs st1))). eexists.
      split; [|split].
      * unfold gdbscm_scm_from_gsmob_safe, bind, get_state. rewrite Hhook.
        rewrite (gdbscm_safe_call_1_thrown _ _ _ _ _ _ Hcall).
        apply gdbscm_make_exception_eq.
      * apply fresh_smob_unused.
      * cbn. apply lookup_insert_eq.
  - intros k l st1. unfold gdbscm_scm_from_gsmob_safe, bind, get_state.
    destruct (gdbscm_is_false (scm_from_smob_var st)); [discriminate|].
    apply gdbscm_safe_call_1_no_throw.
Qed.

(** X7.  No unsafe conversion returns an exception object.  What
    gdbscm_scm_from_gsmob_unsafe returns is not an exception object; what
    gdbscm_scm_to_gsmob_unsafe returns is not one either, and is #f or a value
    that passes the test for the requested tag (for tag zero: a smob of a
    registered type) in the state the conversion leaves. *)
Theorem unsafe_conversions_return_no_exception_object (v : SCM) (t : Z) (st : gdb_state) :
  (∀ x st', gdbscm_scm_from_gsmob_unsafe v st = (Returned x, st') →
     gdbscm_is_exception x = false)
  ∧ (∀ x st', gdbscm_scm_to_gsmob_unsafe v t st = (Returned x, st') →
       gdbscm_is_exception x = false
       ∧ (x = SCM_BOOL_F ∨ matches_tag t x st' = true)).
Proof.
  split.
  - intros x st'. unfold gdbscm_scm_from_gsmob_unsafe. unfold bind at 1.
    destruct (gdbscm_scm_from_gsmob_safe v st) as [[r| |] st1]; [|discriminate..].
    destruct (gdbscm_is_exception r) eqn:Hr.
    + unfold gdbscm_throw, bind, scm_throw.
      destruct (gdbscm_exception_key r st1) as [[?| |] ?]; [|discriminate..].
      destruct (gdbscm_exception_args r g) as [[?| |] ?]; discriminate.
    + intros [= <- <-]. exact Hr.
  - intros x st'. unfold gdbscm_scm_to_gsmob_unsafe. unfold bind at 1.
    destruct (gdbscm_scm_to_gsmob_safe v t st) as [[r| |] st1] eqn:Hsafe; [|discriminate..].
    destruct (gdbscm_is_exception r) eqn:Hr.
    { unfold gdbscm_throw, bind, scm_throw.
      destruct (gdbscm_exception_key r st1) as [[?| |] ?]; [|discriminate..].
      destruct (gdbscm_exception_args r g) as [[?| |] ?]; discriminate. }
    intros [= <- <-]. split; [exact Hr|].
    revert Hsafe. unfold gdbscm_scm_to_gsmob_safe, bind, get_state.
    destruct (matches_tag t v st) eqn:Hm.
    { intros [= <- <-]. by right. }
    destruct (gdbscm_is_false (scm_to_smob_var st)).
    { intros [= <- <-]. by left. }
    destruct (gdbscm_safe_call_1 (scm_to_smob_var st) v st) as [[y| |] st2];
      [|discriminate..].
    destruct (gdbscm_is_false y).
    { intros [= <- <-]. by left. }
    destruct (gdbscm_is_exception y) eqn:Hy.
    { intros [= <- <-]. congruence. }
    destruct (matches_tag t y st2) eqn:Hm2.
    { intros [= <- <-]. by right. }
    unfold gdbscm_make_out_of_range_error, gdbscm_make_arg_error, gdbscm_make_error,
      gdbscm_make_error_scm.
    rewrite gdbscm_make_exception_eq. intros [= <- <-].
    by rewrite gdbscm_is_exception_smob in Hr.
Qed.

End ConversionInvariants.

(** ** Iterator accessors *)

Section IteratorAccessors.
Context `{SmobTags} `{GuileRuntime}.

(** X8.  The accessors of an iterator smob.  iterator-object and
    iterator-progress read the fields; set-iterator-progress! stores the new
    progress value, after which iterator-progress returns it, while the
    object, the step procedure, the aux slot and every other struct are as
    before.  No script code runs. *)
Theorem iterator_progress_round_trip (a : N) (i : iterator_smob) (v : SCM)
    (st : gdb_state) :
  smobs st !! a = Some (IteratorSmob i) →
  let self := SCM_SMOB iterator_smob_tag a in
  gdbscm_iterator_object self st = (Returned (object i), st)
  ∧ gdbscm_iterator_progress self st = (Returned (progress i), st)
  ∧ ∃ st',
      gdbscm_set_iterator_progress_x self v st = (Returned SCM_UNSPECIFIED, st')
      ∧ gdbscm_iterator_progress self st' = (Returned v, st')
      ∧ gdbscm_iterator_object self st' = (Returned (object i), st')
      ∧ smobs st' !! a
        = Some (IteratorSmob {| i_base := i_base i; object := object i;
                                progress := v; next_x := next_x i |})
      ∧ (∀ b, b ≠ a → smobs st' !! b = smobs st !! b)
      ∧ scm_calls st' = scm_calls st.
Proof.
  intros Hi. cbv zeta.
  split.
  { unfold gdbscm_iterator_object, bind.
    rewrite itscm_get_iterator_arg_unsafe_smob. cbn. by rewrite Hi. }
  split.
  { unfold gdbscm_iterator_progress, bind.
    rewrite itscm_get_iterator_arg_unsafe_smob. cbn. by rewrite Hi. }
  eexists. split.
  { unfold gdbscm_set_iterator_progress_x, bind.
    rewrite itscm_get_iterator_arg_unsafe_smob. cbn. rewrite Hi. reflexivity. }
  split.
  { unfold gdbscm_iterator_progress, bind.
    rewrite itscm_get_iterator_arg_unsafe_smob. cbn. by rewrite lookup_insert_eq. }
  split.
  { unfold gdbscm_iterator_object, bind.
    rewrite itscm_get_iterator_arg_unsafe_smob. cbn. by rewrite lookup_insert_eq. }
  split; [cbn; apply lookup_insert_eq|].
  split; [intros b Hb; cbn; by rewrite lookup_insert_ne|reflexivity].
Qed.

(** The argument check of the iterator accessors on a value that is not an
    iterator smob. *)
Lemma itscm_get_iterator_arg_unsafe_other (self : SCM) (arg_pos : Z) (func_name : string)
    (st : gdb_state) :
  itscm_is_iterator self = false →
  let hook := scm_to_smob_var st in
  (gdbscm_is_false hook = true →
     ∃ l, itscm_get_iterator_arg_unsafe self arg_pos func_name st
          = (Thrown scm_arg_type_key l, st))
  ∧ (gdbscm_is_false hook = false →
     ∀ a st1, scm_apply hook [self] (log_call hook [self] st)
              = (Returned (SCM_SMOB iterator_smob_tag a), st1) →
       itscm_get_iterator_arg_unsafe self arg_pos func_name st
       = (Returned (SCM_SMOB iterator_smob_tag a), st1)).
Proof.
  intros Hself. cbv zeta.
  assert (Hm : matches_tag iterator_smob_tag self st = false).
  { unfold matches_tag. rewrite bool_decide_eq_true_2 by apply iterator_smob_tag_nz.
    exact Hself. }
  split.
  - intros Hhook.
    unfold itscm_get_iterator_arg_unsafe, itscm_scm_to_iterator_gsmob,
      gdbscm_scm_to_gsmob_safe, bind, get_state.
    rewrite Hm, Hhook. cbn [ret].
    assert (Hf : gdbscm_is_exception SCM_BOOL_F = false) by reflexivity.
    rewrite Hf. cbn [itscm_is_iterator SCM_SMOB_PREDICATE SCM_ASSERT_TYPE].
    unfold scm_wrong_type_arg_msg, scm_error, scm_throw.
    destruct (bool_decide (arg_pos = 0%Z)); eexists; reflexivity.
  - intros Hhook a st1 Hcall.
    unfold itscm_get_iterator_arg_unsafe, itscm_scm_to_iterator_gsmob,
      gdbscm_scm_to_gsmob_safe, bind, get_state.
    rewrite Hm, Hhook. rewrite (gdbscm_safe_call_1_returned _ _ _ _ _ Hcall).
    cbn [gdbscm_is_false]. rewrite iterator_smob_not_exception.
    rewrite (matches_own_tag _ _ _ iterator_smob_tag_nz). cbn [ret].
    rewrite iterator_smob_not_exception, itscm_is_iterator_smob. reflexivity.
Qed.

(** X9.  The iterator accessors on a value that is not an iterator smob.
    With the scm->smob hook unset each of them throws wrong-type-arg and
    changes nothing.  With the hook set, and answering an iterator smob, the
    accessors work on that smob; iterator-next! then calls the step
    procedure on the value it was given, not on the smob the hook answered,
    whereas itscm_safe_call_next_x, which takes an iterator smob, calls the
    step procedure on that smob and fails its assertion on anything else. *)
Theorem iterator_accessors_convert_their_argument (self v : SCM) (st : gdb_state) :
  itscm_is_iterator self = false →
  let hook := scm_to_smob_var st in
  (gdbscm_is_false hook = true →
     (∃ l, gdbscm_iterator_object self st = (Thrown scm_arg_type_key l, st))
     ∧ (∃ l, gdbscm_iterator_progress self st = (Thrown scm_arg_type_key l, st))
     ∧ (∃ l, gdbscm_set_iterator_progress_x self v st = (Thrown scm_arg_type_key l, st))
     ∧ (∃ l, gdbscm_iterator_next_x self st = (Thrown scm_arg_type_key l, st)))
  ∧ (gdbscm_is_false hook = false →
     ∀ a i st1, scm_apply hook [self] (log_call hook [self] st)
                = (Returned (SCM_SMOB iterator_smob_tag a), st1) →
       smobs st1 !! a = Some (IteratorSmob i) →
       gdbscm_iterator_object self st = (Returned (object i), st1)
       ∧ gdbscm_iterator_progress self st = (Returned (progress i), st1)
       ∧ gdbscm_iterator_next_x self st = gdbscm_safe_call_1 (next_x i) self st1
       ∧ itscm_safe_call_next_x (SCM_SMOB iterator_smob_tag a) st1
         = gdbscm_safe_call_1 (next_x i) (SCM_SMOB iterator_smob_tag a) st1)
  ∧ itscm_safe_call_next_x self st = (Fault, st).
Proof.
  intros Hself. cbv zeta. split; [|split].
  - intros Hhook.
    assert (Hcheck : ∀ pos fn, ∃ l,
              itscm_get_iterator_arg_unsafe self pos fn st
              = (Thrown scm_arg_type_key l, st)).
    { intros pos fn.
      by apply (itscm_get_iterator_arg_unsafe_other self pos fn st Hself). }
    split; [|split; [|split]].
    + destruct (Hcheck SCM_ARG1 "gdbscm_iterator_object") as [l Hl].
      exists l. unfold gdbscm_iterator_object, bind. by rewrite Hl.
    + destruct (Hcheck SCM_ARG1 "gdbscm_iterator_progress") as [l Hl].
      exists l. unfold gdbscm_iterator_progress, bind. by rewrite Hl.
    + destruct (Hcheck SCM_ARG1 "gdbscm_set_iterator_progress_x") as [l Hl].
      exists l. unfold gdbscm_set_iterator_progress_x, bind. by rewrite Hl.
    + destruct (Hcheck SCM_ARG1 "gdbscm_iterator_next_x") as [l Hl].
      exists l. unfold gdbscm_iterator_next_x, bind. by rewrite Hl.
  - intros Hhook a i st1 Hcall Hi.
    assert (Hcheck : ∀ pos fn,
              itscm_get_iterator_arg_unsafe self pos fn st
              = (Returned (SCM_SMOB iterator_smob_tag a), st1)).
    { intros pos fn.
      by apply (itscm_get_iterator_arg_unsafe_other self pos fn st Hself). }
    split; [|split; [|split]].
    + unfold gdbscm_iterator_object, bind. rewrite Hcheck. cbn. by rewrite Hi.
    + unfold gdbscm_iterator_progress, bind. rewrite Hcheck. cbn. by rewrite Hi.
    + unfold gdbscm_iterator_next_x, bind. rewrite Hcheck. cbn. by rewrite Hi.
    + unfold itscm_safe_call_next_x, bind. rewrite itscm_is_iterator_smob. cbn.
      by rewrite Hi.
  - unfold itscm_safe_call_next_x, bind. by rewrite Hself.
Qed.

End IteratorAccessors.

(** X8 at work on the iterator that make-iterator builds in the initial
    state. *)
Lemma iterator_progress_round_trip_witness :
  ∃ st',
    @gdbscm_set_iterator_progress_x demo_tags demo_runtime (SCM_SMOB 639 0) (SCM_INUM 7)
      (@gdbscm_make_iterator demo_tags demo_runtime (SCM_SYMBOL "things") (SCM_INUM 0)
         (SCM_PROC 4) (demo_state SCM_BOOL_F SCM_BOOL_F)).2
    = (Returned SCM_UNSPECIFIED, st')
    ∧ @gdbscm_iterator_progress demo_tags demo_runtime (SCM_SMOB 639 0) st'
      = (Returned (SCM_INUM 7), st')
    ∧ @gdbscm_iterator_object demo_tags demo_runtime (SCM_SMOB 639 0) st'
      = (Returned (SCM_SYMBOL "things"), st').
Proof.
  destruct (@iterator_progress_round_trip demo_tags demo_runtime 0%N
              {| i_base := gdbscm_init_gsmob; object := SCM_SYMBOL "things";
                 progress := SCM_INUM 0; next_x := SCM_PROC 4 |}
              (SCM_INUM 7)
              (@gdbscm_make_iterator demo_tags demo_runtime (SCM_SYMBOL "things")
                 (SCM_INUM 0) (SCM_PROC 4) (demo_state SCM_BOOL_F SCM_BOOL_F)).2)
    as (_ & _ & st' & Hset & Hget & Hobj & _); [vm_compute; reflexivity|].
  exists st'. split; [exact Hset|]. split; [exact Hget|exact Hobj].
Defined.

(** X9 at work: the scm->smob hook of the example (procedure 2) unwraps the
    pair that wraps an iterator. *)
Lemma iterator_accessors_convert_their_argument_witness :
  @gdbscm_iterator_object demo_tags demo_runtime
    (SCM_CONS (SCM_SYMBOL "wrapped") (SCM_SMOB 639 0))
    (@gdbscm_make_iterator demo_tags demo_runtime (SCM_SYMBOL "things") (SCM_INUM 0)
       (SCM_PROC 4) (demo_state SCM_BOOL_F SCM_BOOL_F)).2
  = (Thrown scm_arg_type_key
       (scm_list_4 (SCM_STRING "gdbscm_iterator_object")
          (SCM_STRING "Wrong type argument in position ~A (expecting ~A): ~S")
          (scm_list_3 (SCM_INUM 1) (SCM_STRING "gdb:iterator")
             (SCM_CONS (SCM_SYMBOL "wrapped") (SCM_SMOB 639 0)))
          (scm_list_1 (SCM_CONS (SCM_SYMBOL "wrapped") (SCM_SMOB 639 0)))),
     (@gdbscm_make_iterator demo_tags demo_runtime (SCM_SYMBOL "things") (SCM_INUM 0)
        (SCM_PROC 4) (demo_state SCM_BOOL_F SCM_BOOL_F)).2).
Proof.
  destruct (@iterator_accessors_convert_their_argument demo_tags demo_runtime
              (SCM_CONS (SCM_SYMBOL "wrapped") (SCM_SMOB 639 0)) SCM_BOOL_F
              (@gdbscm_make_iterator demo_tags demo_runtime (SCM_SYMBOL "things")
                 (SCM_INUM 0) (SCM_PROC 4) (demo_state SCM_BOOL_F SCM_BOOL_F)).2
              eq_refl) as (Hunset & _ & _).
  destruct (Hunset eq_refl) as ([l Hl] & _).
  rewrite Hl. vm_compute in Hl. injection Hl as <-. reflexivity.
Defined.

(** ** The exception counter *)

Section ExceptionCount.
Context `{SmobTags} `{GdbHost}.

(** X10.  The counter behind %exception-count.  %exception-count reports
    the counter and changes nothing.  Every constructor of an exception
    object, and every function that makes an exception object and throws it,
    advances the counter by exactly one, wrapping as an unsigned long does;
    reading the key or the arguments of an exception object and throwing an
    existing one leave it alone. *)
Theorem exception_count_counts_exception_objects (st : gdb_state) :
  let count (r : result SCM * gdb_state) := gdbscm_exception_count r.2 in
  let count_u (r : result unit * gdb_state) := gdbscm_exception_count r.2 in
  let one_more := ulong_wrap (gdbscm_exception_count st + 1) in
  gdbscm_percent_exception_count st
  = (Returned (SCM_INUM (gdbscm_exception_count st)), st)
  ∧ (∀ k l, count (gdbscm_make_exception k l st) = one_more)
  ∧ (∀ k l stack, count (gdbscm_make_exception_with_stack k l stack st) = one_more)
  ∧ (∀ k subr msg l data, count (gdbscm_make_error k subr msg l data st) = one_more)
  ∧ (∀ subr pos bad ty, count (gdbscm_make_type_error subr pos bad ty st) = one_more)
  ∧ (∀ ex, count (gdbscm_scm_from_gdb_exception ex st) = one_more)
  ∧ (∀ subr pos bad msg,
       count_u (gdbscm_invalid_object_error subr pos bad msg st) = one_more
       ∧ count_u (gdbscm_out_of_range_error subr pos bad msg st) = one_more)
  ∧ (∀ subr msg l, count_u (gdbscm_memory_error subr msg l st) = one_more)
  ∧ (∀ ex, count_u (gdbscm_throw_gdb_exception ex st) = one_more)
  ∧ (∀ self, count (gdbscm_exception_key self st) = gdbscm_exception_count st
             ∧ count (gdbscm_exception_args self st) = gdbscm_exception_count st
             ∧ count_u (gdbscm_throw self st) = gdbscm_exception_count st)
  ∧ (gdbscm_exception_count st = (2 ^ 64 - 1)%Z → one_more = 0%Z).
Proof.
  cbv zeta.
  assert (Hthrow : ∀ k l, gdbscm_exception_count
            ((let* e := gdbscm_make_exception k l in @gdbscm_throw _ unit e) st).2
            = ulong_wrap (gdbscm_exception_count st + 1)).
  { intros k l. by rewrite make_then_throw. }
  split; [reflexivity|]. split; [reflexivity|]. split; [reflexivity|].
  split; [reflexivity|]. split; [reflexivity|].
  split; [intros [[] e m]; reflexivity|].
  split; [intros; split; apply Hthrow|].
  split; [intros; apply Hthrow|].
  split.
  { intros [[] e m]; unfold gdbscm_throw_gdb_exception, gdbscm_scm_from_gdb_exception;
      cbn [reason]; apply Hthrow. }
  split.
  { intros self.
    assert (Hk : (gdbscm_exception_key self st).2 = st).
    { unfold gdbscm_exception_key, bind, SCM_ASSERT_TYPE, exception_smob_data.
      destruct (gdbscm_is_exception self); [|reflexivity]. cbn.
      destruct self; try reflexivity. by destruct (smobs st !! data) as [[]|]. }
    assert (Ha : (gdbscm_exception_args self st).2 = st).
    { unfold gdbscm_exception_args, bind, SCM_ASSERT_TYPE, exception_smob_data.
      destruct (gdbscm_is_exception self); [|reflexivity]. cbn.
      destruct self; try reflexivity. by destruct (smobs st !! data) as [[]|]. }
    rewrite Hk, Ha. split; [reflexivity|]. split; [reflexivity|].
    unfold gdbscm_throw, bind.
    destruct (gdbscm_exception_key self st) as [[?| |] st1] eqn:Hk1; cbn in Hk; subst st1;
      [|reflexivity..].
    destruct (gdbscm_exception_args self st) as [[?| |] st1] eqn:Ha1; cbn in Ha; subst st1;
      reflexivity. }
  intros ->. reflexivity.
Qed.

End ExceptionCount.

(** ** Memory ports: seeking *)

Lemma s64_u64 (z : Z) : (- 2 ^ 63 ≤ z < 2 ^ 63)%Z → s64 (u64 z) = z.
Proof.
  intros Hz. unfold s64, u64.
  destruct (decide (0 ≤ z)%Z).
  - rewrite (Z.mod_small z) by lia. rewrite Z.mod_small by lia. lia.
  - replace (z mod 2 ^ 64)%Z with (z + 2 ^ 64)%Z.
    + replace (z + 2 ^ 64 + 2 ^ 63)%Z with (z + 2 ^ 63 + 1 * 2 ^ 64)%Z by lia.
      rewrite Z.mod_add by lia. rewrite Z.mod_small by lia. lia.
    + replace z with (z + 2 ^ 64 + (-1) * 2 ^ 64)%Z at 2 by lia.
      rewrite Z.mod_add by lia. by rewrite Z.mod_small by lia.
Qed.

Lemma u64_neg (z : Z) : (- 2 ^ 64 ≤ z < 0)%Z → u64 z = (z + 2 ^ 64)%Z.
Proof.
  intros Hz. unfold u64.
  replace z with (z + 2 ^ 64 + (-1) * 2 ^ 64)%Z at 1 by lia.
  rewrite Z.mod_add by lia. by rewrite Z.mod_small by lia.
Qed.

Lemma u64_over (z : Z) : (2 ^ 64 ≤ z < 2 ^ 65)%Z → u64 z = (z - 2 ^ 64)%Z.
Proof.
  intros Hz. unfold u64.
  replace z with (z - 2 ^ 64 + 1 * 2 ^ 64)%Z at 1 by lia.
  rewrite Z.mod_add by lia. by rewrite Z.mod_small by lia.
Qed.

Section Lseek.
Context `{SmobTags} `{Target}.

(** ioscm_lseek_address, by the value of WHENCE. *)
Lemma ioscm_lseek_address_set (offset : Z) (w : port_world) :
  port_wf (w_port w) →
  ioscm_lseek_address offset SEEK_SET w
  = if bool_decide (u64 offset ≤ iomem_size (iomem (w_port w)))%Z
    then (Returned true, set_iomem (set_current (u64 offset)) w)
    else (Returned false, w).
Proof.
  intros Hwf. destruct (port_wf_bounds _ Hwf) as (Hcur & Hsz & Hwp & Hst).
  unfold ioscm_lseek_address, bind, get_state. cbv zeta.
  rewrite (bool_decide_eq_true_2 (iomem_current _ ≤ iomem_size _)%Z) by lia.
  cbn [gdb_assert ret].
  rewrite (bool_decide_eq_false_2 (SEEK_SET = SEEK_CUR)) by done.
  rewrite (bool_decide_eq_true_2 (SEEK_SET = SEEK_SET)) by done.
  case_bool_decide; [rewrite bool_decide_eq_false_2 by lia
                    |rewrite bool_decide_eq_true_2 by lia]; reflexivity.
Qed.

Lemma ioscm_lseek_address_cur (offset : Z) (w : port_world) :
  port_wf (w_port w) →
  (- 2 ^ 63 ≤ offset < 2 ^ 63)%Z →
  ioscm_lseek_address offset SEEK_CUR w
  = if bool_decide (0 ≤ iomem_current (iomem (w_port w)) + offset
                    ≤ iomem_size (iomem (w_port w)))%Z
    then (Returned true,
          set_iomem (set_current (iomem_current (iomem (w_port w)) + offset)) w)
    else (Returned false, w).
Proof.
  intros Hwf Hoff. destruct (port_wf_bounds _ Hwf) as (Hcur & Hsz & Hwp & Hst).
  unfold ioscm_lseek_address, bind, get_state. cbv zeta.
  rewrite (bool_decide_eq_true_2 (iomem_current _ ≤ iomem_size _)%Z) by lia.
  cbn [gdb_assert ret].
  rewrite (bool_decide_eq_true_2 (SEEK_CUR = SEEK_CUR)) by done.
  set (c := iomem_current (iomem (w_port w))) in *.
  set (sz := iomem_size (iomem (w_port w))) in *.
  destruct (decide (c + offset < 0)%Z) as [Hneg|Hnn].
  { rewrite (u64_neg (c + offset)) by lia.
    rewrite (bool_decide_eq_true_2 (_ ∨ _)) by lia.
    by rewrite bool_decide_eq_false_2 by lia. }
  destruct (decide (2 ^ 64 ≤ c + offset)%Z) as [Hov|Hin].
  { rewrite (u64_over (c + offset)) by lia.
    rewrite (bool_decide_eq_true_2 (_ ∨ _)) by lia.
    by rewrite bool_decide_eq_false_2 by lia. }
  rewrite (u64_small (c + offset)) by lia.
  rewrite (bool_decide_eq_false_2 (_ ∨ _)) by lia.
  case_bool_decide; [rewrite bool_decide_eq_false_2 by lia
                    |rewrite bool_decide_eq_true_2 by lia]; reflexivity.
Qed.

Lemma ioscm_lseek_address_end (offset : Z) (w : port_world) :
  port_wf (w_port w) →
  ioscm_lseek_address offset SEEK_END w
  = if bool_decide (offset = 0%Z)
    then (Returned true, set_iomem (set_current (iomem_size (iomem (w_port w)))) w)
    else (Returned false, w).
Proof.
  intros Hwf. destruct (port_wf_bounds _ Hwf) as (Hcur & Hsz & Hwp & Hst).
  unfold ioscm_lseek_address, bind, get_state. cbv zeta.
  rewrite (bool_decide_eq_true_2 (iomem_current _ ≤ iomem_size _)%Z) by lia.
  cbn [gdb_assert ret].
  rewrite (bool_decide_eq_false_2 (SEEK_END = SEEK_CUR)) by done.
  rewrite (bool_decide_eq_false_2 (SEEK_END = SEEK_SET)) by done.
  rewrite (bool_decide_eq_true_2 (SEEK_END = SEEK_END)) by done.
  case_bool_decide; [|reflexivity].
  by rewrite bool_decide_eq_false_2 by lia.
Qed.

Lemma ioscm_lseek_address_other (offset whence : Z) (w : port_world) :
  port_wf (w_port w) →
  whence ≠ SEEK_SET → whence ≠ SEEK_CUR → whence ≠ SEEK_END →
  ioscm_lseek_address offset whence w = (Returned false, w).
Proof.
  intros Hwf Hw0 Hw1 Hw2. destruct (port_wf_bounds _ Hwf) as (Hcur & Hsz & Hwp & Hst).
  unfold ioscm_lseek_address, bind, get_state. cbv zeta.
  rewrite (bool_decide_eq_true_2 (iomem_current _ ≤ iomem_size _)%Z) by lia.
  cbn [gdb_assert ret].
  by rewrite !bool_decide_eq_false_2 by done.
Qed.

(** Moving the position keeps the invariant. *)
Lemma set_current_wf (c : Z) (w : port_world) :
  port_wf (w_port w) → (0 ≤ c ≤ iomem_size (iomem (w_port w)))%Z →
  port_wf (w_port (set_iomem (set_current c) w)).
Proof.
  unfold port_wf. cbn.
  intros (? & ? & ? & ? & ? & ? & ? & ? & ? & ? & ? & ? & ? & ? & ? & ? & ? & ?) Hc.
  repeat split; try done; lia.
Qed.

(** Marking the port as reading, writing or neither keeps the invariant. *)
Lemma set_rw_active_wf (a : scm_t_port_rw_active) (w : port_world) :
  port_wf (w_port w) → port_wf (w_port (set_pt (set_rw_active a) w)).
Proof.
  unfold port_wf. cbn.
  intros (? & ? & ? & ? & ? & ? & ? & ? & ? & ? & ? & ? & ? & ? & ? & ? & ? & ?).
  repeat split; try done; lia.
Qed.

(** The seek method of a port that is neither reading nor writing is
    ioscm_lseek_address followed by the check of its answer. *)
Lemma gdbscm_memory_port_seek_neither (port : SCM) (offset whence : Z) (w : port_world) :
  rw_active (pt (w_port w)) = SCM_PORT_NEITHER →
  gdbscm_memory_port_seek port offset whence w
  = match ioscm_lseek_address offset whence w with
    | (Returned true, w') => (Returned (s64 (iomem_current (iomem (w_port w')))), w')
    | (Returned false, w') =>
        lift_gdb (gdbscm_out_of_range_error (Some "gdbscm_memory_port_seek") 0
                    (gdbscm_scm_from_longest offset) "bad seek") w'
    | (Thrown k l, w') => (Thrown k l, w')
    | (Fault, w') => (Fault, w')
    end.
Proof.
  intros Hrw. unfold gdbscm_memory_port_seek. unfold bind at 1. unfold get_state at 1.
  rewrite Hrw. cbv zeta. unfold seek_after, bind, get_state, ret.
  by destruct (ioscm_lseek_address offset whence w) as [[[|]| |] w'].
Qed.

(** X11.  Seeking on a memory port that is neither reading nor writing.
    SEEK_SET moves to the offset read as an unsigned number, SEEK_CUR to the
    current position plus the offset, SEEK_END with offset zero to the size
    of the range; the move succeeds exactly when the new position lies in
    [0, size], and the seek then returns the new position (as a signed
    64-bit number) having changed nothing but the position.  Every other
    request, SEEK_END with a nonzero offset included, throws out-of-range
    "bad seek" and leaves the port and the debuggee as they were. *)
Theorem memory_port_seek_moves_within_range (port : SCM) (offset whence : Z)
    (w : port_world) :
  port_wf (w_port w) →
  rw_active (pt (w_port w)) = SCM_PORT_NEITHER →
  (- 2 ^ 63 ≤ offset < 2 ^ 63)%Z →
  let io := iomem (w_port w) in
  let moves_to (c : Z) :=
    gdbscm_memory_port_seek port offset whence w
    = (Returned (s64 c), set_iomem (set_current c) w)
    ∧ port_wf (w_port (set_iomem (set_current c) w)) in
  let bad_seek :=
    ∃ g, gdbscm_memory_port_seek port offset whence w
         = (Thrown exscm_out_of_range_error_symbol
              (arg_error_args "gdbscm_memory_port_seek" 0 (SCM_INUM offset) "bad seek"),
            set_gdb g w) in
  (whence = SEEK_SET →
     ((u64 offset ≤ iomem_size io)%Z → moves_to (u64 offset) ∧ s64 (u64 offset) = offset)
     ∧ ((u64 offset > iomem_size io)%Z → bad_seek))
  ∧ (whence = SEEK_CUR →
     ((0 ≤ iomem_current io + offset ≤ iomem_size io)%Z →
        moves_to (iomem_current io + offset)%Z)
     ∧ (¬ (0 ≤ iomem_current io + offset ≤ iomem_size io)%Z → bad_seek))
  ∧ (whence = SEEK_END →
     (offset = 0%Z → moves_to (iomem_size io))
     ∧ (offset ≠ 0%Z → bad_seek))
  ∧ (whence ≠ SEEK_SET → whence ≠ SEEK_CUR → whence ≠ SEEK_END → bad_seek).
Proof.
  intros Hwf Hrw Hoff. cbv zeta.
  destruct (port_wf_bounds _ Hwf) as (Hcur & Hsz & Hwp & Hst).
  rewrite (gdbscm_memory_port_seek_neither _ _ _ _ Hrw).
  assert (Hu : (0 ≤ u64 offset < 2 ^ 64)%Z) by (unfold u64; apply Z.mod_pos_bound; lia).
  split; [|split; [|split]].
  - intros ->. rewrite (ioscm_lseek_address_set _ _ Hwf). split; intros Hc.
    + rewrite bool_decide_eq_true_2 by exact Hc. cbn.
      split; [split; [reflexivity|]|].
      * apply set_current_wf; [exact Hwf|lia].
      * by apply s64_u64.
    + rewrite bool_decide_eq_false_2 by lia.
      rewrite lift_out_of_range_error. by eexists.
  - intros ->. rewrite (ioscm_lseek_address_cur _ _ Hwf Hoff). split; intros Hc.
    + rewrite bool_decide_eq_true_2 by exact Hc. cbn.
      split; [reflexivity|]. by apply set_current_wf.
    + rewrite bool_decide_eq_false_2 by exact Hc.
      rewrite lift_out_of_range_error. by eexists.
  - intros ->. rewrite (ioscm_lseek_address_end _ _ Hwf). split; intros Hc.
    + rewrite bool_decide_eq_true_2 by exact Hc. cbn.
      split; [reflexivity|]. apply set_current_wf; [exact Hwf|lia].
    + rewrite bool_decide_eq_false_2 by exact Hc.
      rewrite lift_out_of_range_error. by eexists.
  - intros Hw0 Hw1 Hw2. rewrite (ioscm_lseek_address_other _ _ _ Hwf Hw0 Hw1 Hw2).
    rewrite lift_out_of_range_error. by eexists.
Qed.

End Lseek.

(** ** Memory ports: reading *)

Section PortReading.
Context `{SmobTags} `{Target}.

(** More of what the invariant gives the arithmetic. *)
Lemma port_wf_range (port : memory_port) :
  port_wf port →
  (iomem_start (iomem port) + iomem_size (iomem port) = iomem_end (iomem port) + 1
   ∧ iomem_end (iomem port) < 2 ^ 64 - 1
   ∧ 1 ≤ read_buf_size (pt port) ≤ 4096
   ∧ 0 ≤ read_pos (pt port) ∧ read_pos (pt port) ≤ read_end (pt port)
   ∧ read_end (pt port) ≤ read_buf_size (pt port))%Z.
Proof.
  unfold port_wf, CORE_ADDR_MAX, max_memory_port_buf_size, min_memory_port_buf_size.
  cbv zeta.
  intros (? & ? & ? & ? & ? & ? & ? & ? & ? & ? & ? & ? & ? & ? & ? & ? & ? & ?). lia.
Qed.

(** The world after fill_input has read DATA, N bytes, into the buffer. *)
Lemma gdbscm_memory_port_fill_input_cases (port : SCM) (w : port_world) :
  port_wf (w_port w) →
  let p := pt (w_port w) in
  let io := iomem (w_port w) in
  let n := Z.min (read_buf_size p) (iomem_size io - iomem_current io) in
  gdbscm_memory_port_fill_input port w
  = if bool_decide (iomem_current io >= iomem_size io)%Z then (Returned EOF, w)
    else
      match target_read_memory (w_inferior w) (iomem_start io + iomem_current io) n with
      | None =>
          (Thrown exscm_memory_error_symbol
             (scm_list_4 (SCM_STRING "gdbscm_memory_port_fill_input")
                (SCM_STRING "error reading memory") SCM_EOL SCM_EOL),
           set_gdb (gdbscm_make_memory_error (Some "gdbscm_memory_port_fill_input")
                      "error reading memory" SCM_EOL (w_gdb w)).2 w)
      | Some data =>
          (Returned (from_option byte_to_Z 0%Z
                       (head (data ++ drop (length data) (read_buf p)))),
           set_iomem (set_current (iomem_current io + n))
             (set_pt (set_read (data ++ drop (length data) (read_buf p)) 0 n
                        (read_buf_size p)) w))
      end.
Proof.
  intros Hwf. cbv zeta.
  destruct (port_wf_bounds _ Hwf) as (Hcur & Hsz & Hwp & Hst).
  destruct (port_wf_range _ Hwf) as (Hend & Hmax & Hrb & Hrp & Hre & Hrs).
  unfold gdbscm_memory_port_fill_input. unfold bind at 1. unfold get_state at 1.
  cbv zeta. case_bool_decide as Hc; [reflexivity|].
  rewrite (u64_small (read_buf_size _)) by lia.
  rewrite (u64_small (iomem_size _ - iomem_current _)) by lia.
  rewrite (u64_small (iomem_start _ + iomem_current _)) by lia.
  assert (Hmin : (if bool_decide (read_buf_size (pt (w_port w))
                                  > iomem_size (iomem (w_port w))
                                    - iomem_current (iomem (w_port w)))%Z
                  then (iomem_size (iomem (w_port w))
                        - iomem_current (iomem (w_port w)))%Z
                  else read_buf_size (pt (w_port w)))
                 = Z.min (read_buf_size (pt (w_port w)))
                     (iomem_size (iomem (w_port w))
                      - iomem_current (iomem (w_port w)))).
  { case_bool_decide; lia. }
  rewrite Hmin.
  destruct (target_read_memory _ _ _) as [data|]; [|by rewrite lift_memory_error].
  unfold bind, modify_state, ret. cbn.
  rewrite (u64_small (iomem_current _ + _)) by lia. reflexivity.
Qed.

(** X12.  The fill_input method.  At the end of the range it answers EOF
    and changes nothing.  Before the end it asks the target for the smaller of
    the read buffer size and the number of bytes left, starting at the
    address of the current position: the request never leaves the range of
    the port.  When the target delivers, the bytes are put at the start of
    the read buffer with nothing consumed, the position advances by their
    number, the first byte is returned, and the debuggee is not changed.
    When the target fails, gdb:memory-error is thrown and the port is as
    before. *)
Theorem memory_port_fill_input_reads_within_range (port : SCM) (w : port_world) :
  port_wf (w_port w) →
  let p := pt (w_port w) in
  let io := iomem (w_port w) in
  let n := Z.min (read_buf_size p) (iomem_size io - iomem_current io) in
  let addr := (iomem_start io + iomem_current io)%Z in
  (iomem_current io = iomem_size io →
     gdbscm_memory_port_fill_input port w = (Returned EOF, w))
  ∧ ((iomem_current io < iomem_size io)%Z →
     (0 < n ∧ iomem_start io ≤ addr ∧ addr + n - 1 ≤ iomem_end io)%Z
     ∧ (∀ b data,
          target_read_memory (w_inferior w) addr n = Some (b :: data) →
          Z.of_nat (length (b :: data)) = n →
          ∃ w', gdbscm_memory_port_fill_input port w = (Returned (byte_to_Z b), w')
                ∧ take (Z.to_nat n) (read_buf (pt (w_port w'))) = b :: data
                ∧ read_pos (pt (w_port w')) = 0%Z
                ∧ read_end (pt (w_port w')) = n
                ∧ iomem_current (iomem (w_port w')) = (iomem_current io + n)%Z
                ∧ w_inferior w' = w_inferior w
                ∧ w_gdb w' = w_gdb w
                ∧ port_wf (w_port w'))
     ∧ (target_read_memory (w_inferior w) addr n = None →
          ∃ g, gdbscm_memory_port_fill_input port w
               = (Thrown exscm_memory_error_symbol
                    (scm_list_4 (SCM_STRING "gdbscm_memory_port_fill_input")
                       (SCM_STRING "error reading memory") SCM_EOL SCM_EOL),
                  set_gdb g w))).
Proof.
  intros Hwf. cbv zeta.
  destruct (port_wf_bounds _ Hwf) as (Hcur & Hsz & Hwp & Hst).
  destruct (port_wf_range _ Hwf) as (Hend & Hmax & Hrb & Hrp & Hre & Hrs).
  pose proof (gdbscm_memory_port_fill_input_cases port w Hwf) as Hfill.
  cbv zeta in Hfill. rewrite Hfill. clear Hfill.
  split.
  - intros Heq. by rewrite bool_decide_eq_true_2 by lia.
  - intros Hlt. rewrite bool_decide_eq_false_2 by lia.
    split; [lia|]. split.
    + intros b data Hread Hlen. rewrite Hread.
      assert (Htake : ∀ rest, take (Z.to_nat (Z.min (read_buf_size (pt (w_port w)))
                                       (iomem_size (iomem (w_port w))
                                        - iomem_current (iomem (w_port w)))))
                                ((b :: data) ++ rest) = b :: data).
      { intros rest. rewrite <- Hlen, Nat2Z.id. apply take_app_length. }
      eexists. split; [reflexivity|].
      split; [apply Htake|].
      split; [reflexivity|]. split; [reflexivity|]. split; [reflexivity|].
      split; [reflexivity|]. split; [reflexivity|].
      revert Hwf. unfold port_wf. cbn -[Z.min].
      unfold min_memory_port_buf_size, max_memory_port_buf_size.
      intros (? & ? & ? & ? & ? & ? & ? & ? & ? & ? & ? & ? & ? & ? & ? & ? & ? & ?).
      repeat split; try done; lia.
    + intros Hread. rewrite Hread. by eexists.
Qed.

(** The end_input method with an offset that is not negative. *)
Lemma gdbscm_memory_port_end_input_cases (port : SCM) (offset : Z) (w : port_world) :
  port_wf (w_port w) →
  (0 ≤ offset < 2 ^ 31 - 4096)%Z →
  let p := pt (w_port w) in
  let io := iomem (w_port w) in
  let back := (offset + (read_end p - read_pos p))%Z in
  gdbscm_memory_port_end_input port offset w
  = if bool_decide (back = 0)%Z
    then (Returned tt, set_pt (set_rw_active SCM_PORT_NEITHER) w)
    else
      let w1 := set_pt (λ p, set_read (read_buf p) (read_end p) (read_end p)
                               (read_buf_size p) p) w in
      if bool_decide (back ≤ iomem_current io)%Z
      then (Returned tt,
            set_pt (set_rw_active SCM_PORT_NEITHER)
              (set_iomem (set_current (iomem_current io - back)) w1))
      else (Thrown exscm_out_of_range_error_symbol
              (arg_error_args "gdbscm_memory_port_end_input" 0 (SCM_INUM back)
                 "bad offset"),
            set_gdb (gdbscm_make_out_of_range_error
                       (Some "gdbscm_memory_port_end_input") 0 (SCM_INUM back)
                       "bad offset" (w_gdb w)).2 w1).
Proof.
  intros Hwf Hoff. cbv zeta.
  destruct (port_wf_bounds _ Hwf) as (Hcur & Hsz & Hwp & Hst).
  destruct (port_wf_range _ Hwf) as (Hend & Hmax & Hrb & Hrp & Hre & Hrs).
  unfold gdbscm_memory_port_end_input. unfold bind at 1. unfold get_state at 1.
  cbv zeta.
  rewrite (u64_small (read_end _ - read_pos _)) by lia.
  rewrite (u64_small (read_end _ - read_pos _ + offset)) by lia.
  rewrite (bool_decide_eq_false_2 (_ ∨ _)) by lia.
  unfold bind at 1. cbn [ret].
  assert (Hs32 : s32 (offset + (read_end (pt (w_port w)) - read_pos (pt (w_port w))))
                 = (offset + (read_end (pt (w_port w)) - read_pos (pt (w_port w))))%Z).
  { unfold s32. rewrite Z.mod_small by lia. lia. }
  rewrite Hs32.
  set (back := (offset + (read_end (pt (w_port w)) - read_pos (pt (w_port w))))%Z) in *.
  destruct (decide (back = 0%Z)) as [Hz|Hz].
  { rewrite (bool_decide_eq_true_2 (back = 0%Z)) by done.
    rewrite (bool_decide_eq_false_2 (back > 0)%Z) by lia. reflexivity. }
  rewrite (bool_decide_eq_false_2 (back = 0%Z)) by done.
  rewrite (bool_decide_eq_true_2 (back > 0)%Z) by lia.
  unfold bind at 1. unfold bind at 1. unfold modify_state at 1.
  set (w1 := set_pt _ w).
  assert (Hwf1 : port_wf (w_port w1)).
  { revert Hwf. unfold port_wf, w1. cbn.
    intros (? & ? & ? & ? & ? & ? & ? & ? & ? & ? & ? & ? & ? & ? & ? & ? & ? & ?).
    repeat split; try done; lia. }
  unfold bind at 1.
  rewrite (s64_small (- back)) by lia.
  rewrite (ioscm_lseek_address_cur _ _ Hwf1) by lia.
  change (iomem_current (iomem (w_port w1))) with (iomem_current (iomem (w_port w))).
  change (iomem_size (iomem (w_port w1))) with (iomem_size (iomem (w_port w))).
  case_bool_decide as Hb.
  - rewrite bool_decide_eq_true_2 by lia. cbn [negb]. unfold modify_state.
    by replace (iomem_current (iomem (w_port w)) + - back)%Z
      with (iomem_current (iomem (w_port w)) - back)%Z by lia.
  - rewrite bool_decide_eq_false_2 by lia. cbn [negb].
    by rewrite lift_out_of_range_error.
Qed.

(** X13.  The end_input method, called with the number of put-back
    characters (zero when there are none).  The bytes to give back are those
    plus the bytes buffered and not consumed.  When there are none, only the
    port's mode is reset.  When they number at most the current position, the
    read buffer is emptied and the position moves back by their number, so
    that it stands at the first byte the reader has not consumed.  When they
    number more, out-of-range "bad offset" is thrown and the position is not
    changed.  The write buffer and the debuggee are never touched. *)
Theorem memory_port_end_input_gives_back_unread (port : SCM) (offset : Z)
    (w : port_world) :
  port_wf (w_port w) →
  (0 ≤ offset < 2 ^ 31 - 4096)%Z →
  let p := pt (w_port w) in
  let io := iomem (w_port w) in
  let back := (offset + (read_end p - read_pos p))%Z in
  (back = 0%Z →
     gdbscm_memory_port_end_input port offset w
     = (Returned tt, set_pt (set_rw_active SCM_PORT_NEITHER) w))
  ∧ ((0 < back ≤ iomem_current io)%Z →
     ∃ w', gdbscm_memory_port_end_input port offset w = (Returned tt, w')
           ∧ iomem_current (iomem (w_port w')) = (iomem_current io - back)%Z
           ∧ read_pos (pt (w_port w')) = read_end (pt (w_port w'))
           ∧ rw_active (pt (w_port w')) = SCM_PORT_NEITHER
           ∧ write_buf (pt (w_port w')) = write_buf p
           ∧ write_pos (pt (w_port w')) = write_pos p
           ∧ w_inferior w' = w_inferior w
           ∧ port_wf (w_port w'))
  ∧ ((back > iomem_current io)%Z →
     ∃ w', gdbscm_memory_port_end_input port offset w
           = (Thrown exscm_out_of_range_error_symbol
                (arg_error_args "gdbscm_memory_port_end_input" 0 (SCM_INUM back)
                   "bad offset"), w')
           ∧ iomem (w_port w') = io
           ∧ w_inferior w' = w_inferior w).
Proof.
  intros Hwf Hoff. cbv zeta.
  destruct (port_wf_bounds _ Hwf) as (Hcur & Hsz & Hwp & Hst).
  destruct (port_wf_range _ Hwf) as (Hend & Hmax & Hrb & Hrp & Hre & Hrs).
  pose proof (gdbscm_memory_port_end_input_cases port offset w Hwf Hoff) as Hend_input.
  cbv zeta in Hend_input. rewrite Hend_input. clear Hend_input.
  split; [|split].
  - intros Hb. by rewrite bool_decide_eq_true_2 by exact Hb.
  - intros Hb. rewrite bool_decide_eq_false_2 by lia.
    rewrite bool_decide_eq_true_2 by lia.
    eexists. split; [reflexivity|]. cbn.
    repeat (split; [reflexivity|]).
    revert Hwf. unfold port_wf. cbn.
    intros (? & ? & ? & ? & ? & ? & ? & ? & ? & ? & ? & ? & ? & ? & ? & ? & ? & ?).
    repeat split; try done; lia.
  - intros Hb. rewrite bool_decide_eq_false_2 by lia.
    rewrite bool_decide_eq_false_2 by lia.
    eexists. split; [reflexivity|]. split; reflexivity.
Qed.

(** X14.  Asking a reading port for its position (a seek with offset zero
    relative to the current position, no put-back characters pending).  The
    position is the current position less the bytes buffered and not
    consumed.  The code accepts it when it is not below the start address of
    the range, and then returns it and changes nothing; when it is below the
    start address, out-of-range "bad seek" is thrown. *)
Theorem memory_port_tell_while_reading (port : SCM) (w : port_world) :
  port_wf (w_port w) →
  rw_active (pt (w_port w)) = SCM_PORT_READ →
  putback (pt (w_port w)) = false →
  let p := pt (w_port w) in
  let io := iomem (w_port w) in
  let position := (iomem_current io - (read_end p - read_pos p))%Z in
  ((iomem_start io ≤ position)%Z →
     gdbscm_memory_port_seek port 0 SEEK_CUR w = (Returned (s64 position), w))
  ∧ ((position < iomem_start io)%Z →
     ∃ g, gdbscm_memory_port_seek port 0 SEEK_CUR w
          = (Thrown exscm_out_of_range_error_symbol
               (arg_error_args "gdbscm_memory_port_seek" 0 (SCM_INUM 0) "bad seek"),
             set_gdb g w)).
Proof.
  intros Hwf Hrw Hpb. cbv zeta.
  destruct (port_wf_bounds _ Hwf) as (Hcur & Hsz & Hwp & Hst).
  destruct (port_wf_range _ Hwf) as (Hend & Hmax & Hrb & Hrp & Hre & Hrs).
  set (c := iomem_current (iomem (w_port w))) in *.
  set (r := (read_end (pt (w_port w)) - read_pos (pt (w_port w)))%Z) in *.
  assert (Hseek : gdbscm_memory_port_seek port 0 SEEK_CUR w
                  = if bool_decide (u64 (c - r) > c
                                    ∨ u64 (c - r) < iomem_start (iomem (w_port w)))%Z
                    then lift_gdb (gdbscm_out_of_range_error
                                     (Some "gdbscm_memory_port_seek") 0
                                     (gdbscm_scm_from_longest 0) "bad seek") w
                    else (Returned (s64 (u64 (c - r))), w)).
  { unfold gdbscm_memory_port_seek. unfold bind at 1. unfold get_state at 1.
    rewrite Hrw, Hpb. cbv zeta.
    rewrite (bool_decide_eq_false_2 (0%Z ≠ 0%Z ∨ SEEK_CUR ≠ SEEK_CUR))
      by (intros [?|?]; done).
    rewrite (u64_small (read_end _ - read_pos _)) by lia.
    fold c. fold r.
    destruct (bool_decide (u64 (c - r) > c
                           ∨ u64 (c - r) < iomem_start (iomem (w_port w)))%Z);
      reflexivity. }
  rewrite Hseek. clear Hseek.
  split; intros Hpos.
  - rewrite (u64_small (c - r)) by lia.
    by rewrite (bool_decide_eq_false_2 (_ ∨ _)) by lia.
  - assert (Hbad : bool_decide (u64 (c - r) > c
                                ∨ u64 (c - r) < iomem_start (iomem (w_port w)))%Z = true).
    { apply bool_decide_eq_true_2. destruct (decide (c - r < 0)%Z).
      - rewrite u64_neg by lia. lia.
      - rewrite u64_small by lia. lia. }
    rewrite Hbad, lift_out_of_range_error. by eexists.
Qed.

End PortReading.

(** ** Memory ports: from reading to writing and back *)

Section PortReadWrite.
Context `{SmobTags} `{Target}.

(** X15.  A write to a port that is reading (no put-back characters, no
    pending output).  The bytes buffered and not consumed are given back
    first, so the write lands at the position of the first byte the reader
    has not consumed: DATA goes to the target at the start address plus that
    position, the position then stands behind the written bytes, the read
    buffer is empty, and a random-access port is marked as writing. *)
Theorem memory_port_write_after_read (port : SCM) (data : list byte) (w : port_world)
    (inf' : inferior) :
  port_wf (w_port w) →
  rw_active (pt (w_port w)) = SCM_PORT_READ →
  putback (pt (w_port w)) = false →
  write_pos (pt (w_port w)) = 0%Z →
  let p := pt (w_port w) in
  let io := iomem (w_port w) in
  let position := (iomem_current io - (read_end p - read_pos p))%Z in
  let len := Z.of_nat (length data) in
  (0 ≤ position)%Z →
  (position + len ≤ iomem_size io)%Z →
  target_write_memory (w_inferior w) (iomem_start io + position) data = Some inf' →
  ∃ w', scm_c_write port data w = (Returned tt, w')
        ∧ w_inferior w' = inf'
        ∧ iomem_current (iomem (w_port w')) = (position + len)%Z
        ∧ read_pos (pt (w_port w')) = read_end (pt (w_port w'))
        ∧ rw_active (pt (w_port w'))
          = (if rw_random p then SCM_PORT_WRITE else SCM_PORT_NEITHER)
        ∧ port_wf (w_port w').
Proof.
  intros Hwf Hrw Hpb Hwp0. cbv zeta. intros Hpos Hfit Htarget.
  destruct (port_wf_bounds _ Hwf) as (Hcur & Hsz & Hwp & Hst).
  destruct (port_wf_range _ Hwf) as (Hend & Hmax & Hrb & Hrp & Hre & Hrs).
  set (back := (read_end (pt (w_port w)) - read_pos (pt (w_port w)))%Z) in *.
  (* the state the end of input leaves *)
  assert (Hei : ∃ w1, scm_end_input port w = (Returned tt, w1)
                  ∧ iomem (w_port w1)
                    = set_current (iomem_current (iomem (w_port w)) - back)
                        (iomem (w_port w))
                  ∧ read_pos (pt (w_port w1)) = read_end (pt (w_port w1))
                  ∧ write_pos (pt (w_port w1)) = 0%Z
                  ∧ rw_active (pt (w_port w1)) = SCM_PORT_NEITHER
                  ∧ rw_random (pt (w_port w1)) = rw_random (pt (w_port w))
                  ∧ w_inferior w1 = w_inferior w
                  ∧ port_wf (w_port w1)).
  { unfold scm_end_input. unfold bind at 1. unfold get_state at 1. rewrite Hpb.
    pose proof (gdbscm_memory_port_end_input_cases port 0 w Hwf) as Hc.
    cbv zeta in Hc. rewrite Hc by lia. clear Hc.
    rewrite Z.add_0_l. fold back.
    destruct (decide (back = 0%Z)) as [Hz|Hnz].
    - rewrite bool_decide_eq_true_2 by exact Hz.
      eexists. split; [reflexivity|]. cbn.
      split.
      { destruct (iomem (w_port w)) as [s e sz c rb wb]. unfold set_current. cbn.
        f_equal. cbn in *. lia. }
      split; [lia|]. split; [exact Hwp0|]. split; [reflexivity|].
      split; [reflexivity|]. split; [reflexivity|].
      revert Hwf. unfold port_wf. cbn.
      intros (? & ? & ? & ? & ? & ? & ? & ? & ? & ? & ? & ? & ? & ? & ? & ? & ? & ?).
      repeat split; try done; lia.
    - rewrite bool_decide_eq_false_2 by exact Hnz.
      rewrite bool_decide_eq_true_2 by lia.
      eexists. split; [reflexivity|]. cbn.
      split; [reflexivity|]. split; [reflexivity|]. split; [exact Hwp0|].
      split; [reflexivity|]. split; [reflexivity|]. split; [reflexivity|].
      revert Hwf. unfold port_wf. cbn.
      intros (? & ? & ? & ? & ? & ? & ? & ? & ? & ? & ? & ? & ? & ? & ? & ? & ? & ?).
      repeat split; try done; lia. }
  destruct Hei as (w1 & Hend_input & Hio1 & Hrd1 & Hwp1 & Hrw1 & Hrand1 & Hinf1 & Hwf1).
  pose proof (gdbscm_memory_port_flush_empty port w1 Hwp1) as Hflush.
  destruct (gdbscm_memory_port_write_after_flush port data w1 w1 Hflush Hwf1)
    as [_ Hwrite].
  { lia. }
  rewrite Hio1 in Hwrite. cbn [iomem_size iomem_current iomem_start set_current] in Hwrite.
  specialize (Hwrite ltac:(lia)).
  rewrite u64_small in Hwrite by lia.
  rewrite Hinf1, Htarget in Hwrite.
  exists (if rw_random (pt (w_port w))
          then set_pt (set_rw_active SCM_PORT_WRITE)
                 (written (Z.of_nat (length data)) inf' w1)
          else written (Z.of_nat (length data)) inf' w1).
  split.
  { unfold scm_c_write. unfold bind at 1. unfold get_state at 1. rewrite Hrw.
    unfold bind at 1. rewrite Hend_input. unfold bind at 1. rewrite Hwrite.
    unfold bind, get_state.
    change (rw_random (pt (w_port (written _ inf' w1))))
      with (rw_random (pt (w_port w1))).
    rewrite Hrand1. by destruct (rw_random (pt (w_port w))). }
  assert (Hwfw : port_wf (w_port (written (Z.of_nat (length data)) inf' w1))).
  { apply written_wf; [exact Hwf1|]. rewrite Hio1. cbn. lia. }
  destruct (rw_random (pt (w_port w))).
  - split; [reflexivity|].
    split; [cbn; rewrite Hio1; reflexivity|].
    split; [exact Hrd1|]. split; [reflexivity|].
    by apply set_rw_active_wf.
  - split; [reflexivity|].
    split; [cbn; rewrite Hio1; reflexivity|].
    split; [exact Hrd1|]. split; [exact Hrw1|].
    exact Hwfw.
Qed.

(** X16.  Writing and reading back.  On a random-access port that is
    neither reading nor writing, a write of DATA that fits in the range is
    followed by a seek back to where the write began and a fill of the read
    buffer.  When the target accepts the write and then delivers a read at
    that address whose first bytes are DATA, the fill returns the first byte
    of DATA and the read buffer starts with DATA. *)
Theorem memory_port_write_then_read_back (port : SCM) (b : byte) (rest got : list byte)
    (w : port_world) (inf' : inferior) :
  port_wf (w_port w) →
  rw_active (pt (w_port w)) = SCM_PORT_NEITHER →
  rw_random (pt (w_port w)) = true →
  write_pos (pt (w_port w)) = 0%Z →
  let p := pt (w_port w) in
  let io := iomem (w_port w) in
  let data := b :: rest in
  let c := iomem_current io in
  let len := Z.of_nat (length data) in
  let n := Z.min (read_buf_size p) (iomem_size io - c) in
  (c + len ≤ iomem_size io)%Z →
  (c < 2 ^ 63)%Z →
  target_write_memory (w_inferior w) (iomem_start io + c) data = Some inf' →
  target_read_memory inf' (iomem_start io + c) n = Some (data ++ got) →
  ∃ w1 w2 w3,
    scm_c_write port data w = (Returned tt, w1)
    ∧ gdbscm_memory_port_seek port c SEEK_SET w1 = (Returned c, w2)
    ∧ gdbscm_memory_port_fill_input port w2 = (Returned (byte_to_Z b), w3)
    ∧ take (length data) (read_buf (pt (w_port w3))) = data
    ∧ w_inferior w3 = inf'.
Proof.
  intros Hwf Hrw Hrand Hwp0. cbv zeta. intros Hfit Hc63 Hwrite_ok Hread_ok.
  destruct (port_wf_bounds _ Hwf) as (Hcur & Hsz & Hwp & Hst).
  destruct (port_wf_range _ Hwf) as (Hend & Hmax & Hrb & Hrp & Hre & Hrs).
  set (data := b :: rest) in *.
  (* the write *)
  pose proof (gdbscm_memory_port_flush_empty port w Hwp0) as Hflush.
  destruct (gdbscm_memory_port_write_after_flush port data w w Hflush Hwf)
    as [_ Hwrite]; [lia|].
  specialize (Hwrite ltac:(lia)).
  rewrite u64_small in Hwrite by lia. rewrite Hwrite_ok in Hwrite.
  set (w0 := written (Z.of_nat (length data)) inf' w) in *.
  set (w1 := set_pt (set_rw_active SCM_PORT_WRITE) w0).
  assert (Hw1 : scm_c_write port data w = (Returned tt, w1)).
  { rewrite scm_c_write_not_reading by (rewrite Hrw; discriminate).
    rewrite Hwrite.
    change (rw_random (pt (w_port w0))) with (rw_random (pt (w_port w))).
    by rewrite Hrand. }
  assert (Hwf1 : port_wf (w_port w1)).
  { apply set_rw_active_wf, written_wf; [exact Hwf|lia]. }
  (* the seek *)
  set (w2 := set_iomem (set_current (iomem_current (iomem (w_port w)))) w1).
  assert (Hw2 : gdbscm_memory_port_seek port (iomem_current (iomem (w_port w))) SEEK_SET w1
                = (Returned (iomem_current (iomem (w_port w))), w2)).
  { unfold gdbscm_memory_port_seek. unfold bind at 1. unfold get_state at 1.
    cbv zeta.
    change (rw_active (pt (w_port w1))) with SCM_PORT_WRITE. cbv iota.
    rewrite (bool_decide_eq_true_2 (_ ∨ SEEK_SET ≠ SEEK_CUR)) by (right; done).
    unfold bind at 1. unfold bind at 1.
    rewrite gdbscm_memory_port_flush_empty by exact Hwp0.
    unfold seek_after. unfold bind at 1.
    rewrite (ioscm_lseek_address_set _ _ Hwf1).
    rewrite (u64_small (iomem_current _)) by lia.
    rewrite bool_decide_eq_true_2 by (cbn; lia).
    unfold bind, get_state, ret. cbn [fst snd negb].
    f_equal. cbn. f_equal. apply s64_small. lia. }
  assert (Hwf2 : port_wf (w_port w2)).
  { apply set_current_wf; [exact Hwf1|]. cbn. lia. }
  (* the fill *)
  pose proof (gdbscm_memory_port_fill_input_cases port w2 Hwf2) as Hfill.
  cbv zeta in Hfill. cbn [w2 w1 w0 written set_iomem set_pt set_inferior w_port w_inferior
    iomem pt iomem_current iomem_size iomem_start set_current read_buf_size set_rw_active
    read_buf] in Hfill.
  rewrite bool_decide_eq_false_2 in Hfill by (unfold data in *; cbn in Hfit; lia).
  rewrite Hread_ok in Hfill.
  eexists w1, w2, _. split; [exact Hw1|]. split; [exact Hw2|].
  split; [exact Hfill|].
  split; [|reflexivity].
  cbn [w_port pt read_buf set_iomem set_pt set_read].
  rewrite <- app_assoc. apply take_app_length.
Qed.

End PortReadWrite.

(** ** Memory ports: what every method keeps *)

Section PortInvariant.
Context `{SmobTags} `{Target}.

Lemma port_kept_refl (port : memory_port) :
  port_wf port → putback (pt port) = false → port_kept port port.
Proof. intros Hwf Hpb. split; [exact Hwf|]. split; [exact Hpb|]. by repeat split. Qed.

Lemma port_kept_trans (p1 p2 p3 : memory_port) :
  port_kept p1 p2 → port_kept p2 p3 → port_kept p1 p3.
Proof.
  intros (_ & _ & ? & ? & ? & ? & ?) (Hwf & Hpb & ? & ? & ? & ? & ?).
  split; [exact Hwf|]. split; [exact Hpb|]. repeat split; congruence.
Qed.

Lemma kept_ret {A : Type} (a : A) (w : port_world) :
  port_wf (w_port w) → putback (pt (w_port w)) = false →
  kept_outcome w (ret a w).
Proof. intros Hwf Hpb. split; [done|]. by apply port_kept_refl. Qed.

Lemma kept_bind {A B : Type} (m : M port_world A) (k : A → M port_world B)
    (w : port_world) :
  kept_outcome w (m w) →
  (∀ a w1, m w = (Returned a, w1) → port_kept (w_port w) (w_port w1) →
     kept_outcome w1 (k a w1)) →
  kept_outcome w (bind m k w).
Proof.
  unfold kept_outcome, bind. destruct (m w) as [[a|k0 l|] w1]; cbn; intros [Hr Hk] Hnext.
  - destruct (Hnext a w1 eq_refl Hk) as [Hr2 Hk2]. split; [exact Hr2|].
    by apply (port_kept_trans _ _ _ Hk).
  - by split.
  - done.
Qed.

Lemma kept_modify (f : port_world → port_world) (w : port_world) :
  port_kept (w_port w) (w_port (f w)) → kept_outcome w (modify_state f w).
Proof. intros Hk. by split. Qed.

Lemma kept_out_of_range_error {A : Type} (subr : string) (arg_pos : Z) (bad_value : SCM)
    (error : string) (w : port_world) :
  port_wf (w_port w) → putback (pt (w_port w)) = false →
  kept_outcome w
    (lift_gdb (@gdbscm_out_of_range_error _ A (Some subr) arg_pos bad_value error) w).
Proof.
  intros Hwf Hpb. rewrite lift_out_of_range_error. split; [done|].
  by apply port_kept_refl.
Qed.

Lemma kept_memory_error {A : Type} (subr msg : string) (l : SCM) (w : port_world) :
  port_wf (w_port w) → putback (pt (w_port w)) = false →
  kept_outcome w (lift_gdb (@gdbscm_memory_error _ A (Some subr) msg l) w).
Proof.
  intros Hwf Hpb. rewrite lift_memory_error. split; [done|].
  by apply port_kept_refl.
Qed.

Lemma kept_set_current (c : Z) (w : port_world) :
  port_wf (w_port w) → putback (pt (w_port w)) = false →
  (0 ≤ c ≤ iomem_size (iomem (w_port w)))%Z →
  port_kept (w_port w) (w_port (set_iomem (set_current c) w)).
Proof.
  intros Hwf Hpb Hc. split; [by apply set_current_wf|]. by repeat split.
Qed.

Lemma kept_set_rw_active (a : scm_t_port_rw_active) (w : port_world) :
  port_wf (w_port w) → putback (pt (w_port w)) = false →
  port_kept (w_port w) (w_port (set_pt (set_rw_active a) w)).
Proof.
  intros Hwf Hpb. split; [by apply set_rw_active_wf|]. by repeat split.
Qed.

Lemma u64_nonneg (z : Z) : (0 ≤ u64 z)%Z.
Proof. unfold u64. apply Z.mod_pos_bound. lia. Qed.

Lemma kept_lseek (offset whence : Z) (w : port_world) :
  port_wf (w_port w) → putback (pt (w_port w)) = false →
  kept_outcome w (ioscm_lseek_address offset whence w).
Proof.
  intros Hwf Hpb. destruct (port_wf_bounds _ Hwf) as (Hcur & Hsz & Hwp & Hst).
  assert (Hmove : ∀ c, (0 ≤ c)%Z → ¬ (c > iomem_size (iomem (w_port w)))%Z →
            kept_outcome w
              ((let* _ := modify_state (set_iomem (set_current c)) in ret true) w)).
  { intros c Hc Hle. apply kept_bind.
    - apply kept_modify, kept_set_current; [done..|lia].
    - intros [] w1 _ (Hwf1 & Hpb1 & _). by apply kept_ret. }
  unfold ioscm_lseek_address. unfold bind at 1. unfold get_state at 1. cbv zeta.
  unfold bind at 1.
  rewrite (bool_decide_eq_true_2 (iomem_current _ ≤ iomem_size _)%Z) by lia.
  cbn [gdb_assert ret].
  repeat case_bool_decide;
    first [by apply kept_ret
          | apply Hmove; [first [apply u64_nonneg | lia]|assumption]].
Qed.

Lemma kept_flush (port : SCM) (w : port_world) :
  port_wf (w_port w) → putback (pt (w_port w)) = false →
  kept_outcome w (gdbscm_memory_port_flush port w).
Proof.
  intros Hwf Hpb. destruct (port_wf_bounds _ Hwf) as (Hcur & Hsz & Hwp & Hst).
  destruct (decide (write_pos (pt (w_port w)) = 0%Z)) as [Hz|Hnz].
  { rewrite (gdbscm_memory_port_flush_empty _ _ Hz). by apply kept_ret. }
  destruct (gdbscm_memory_port_flush_cases port w Hwf) as [Hbig Hfit]; [lia|].
  destruct (decide (write_pos (pt (w_port w))
                    > iomem_size (iomem (w_port w))
                      - iomem_current (iomem (w_port w)))%Z) as [Hgt|Hle].
  { rewrite (Hbig Hgt). split; [done|]. by apply port_kept_refl. }
  specialize (Hfit ltac:(lia)).
  destruct (target_write_memory _ _ _) as [inf'|]; rewrite Hfit.
  - split; [done|]. split; [apply flushed_wf; [exact Hwf|lia]|]. by repeat split.
  - split; [done|]. by apply port_kept_refl.
Qed.

Lemma kept_end_input (port : SCM) (offset : Z) (w : port_world) :
  port_wf (w_port w) → putback (pt (w_port w)) = false →
  kept_outcome w (gdbscm_memory_port_end_input port offset w).
Proof.
  intros Hwf Hpb.
  destruct (port_wf_range _ Hwf) as (Hend & Hmax & Hrb & Hrp & Hre & Hrs).
  unfold gdbscm_memory_port_end_input. unfold bind at 1. unfold get_state at 1.
  cbv zeta. apply kept_bind.
  { case_bool_decide; [by apply kept_out_of_range_error|by apply kept_ret]. }
  intros [] w1 _ (Hwf1 & Hpb1 & _). apply kept_bind.
  - case_bool_decide; [|by apply kept_ret].
    apply kept_bind.
    + apply kept_modify. split; [|by repeat split].
      destruct (port_wf_range _ Hwf1) as (_ & _ & _ & Hrp1 & Hre1 & Hrs1).
      revert Hwf1. unfold port_wf. cbn.
      intros (? & ? & ? & ? & ? & ? & ? & ? & ? & ? & ? & ? & ? & ? & ? & ? & ? & ?).
      repeat split; try done; lia.
    + intros [] w2 _ (Hwf2 & Hpb2 & _). apply kept_bind; [by apply kept_lseek|].
      intros ok w3 _ (Hwf3 & Hpb3 & _).
      destruct ok; cbn [negb]; [by apply kept_ret|by apply kept_out_of_range_error].
  - intros [] w2 _ (Hwf2 & Hpb2 & _). by apply kept_modify, kept_set_rw_active.
Qed.

Lemma kept_scm_end_input (port : SCM) (w : port_world) :
  port_wf (w_port w) → putback (pt (w_port w)) = false →
  kept_outcome w (scm_end_input port w).
Proof.
  intros Hwf Hpb. unfold scm_end_input. unfold bind at 1. unfold get_state at 1.
  rewrite Hpb. by apply kept_end_input.
Qed.

Lemma kept_fill_input (port : SCM) (w : port_world) :
  port_wf (w_port w) → putback (pt (w_port w)) = false →
  kept_outcome w (gdbscm_memory_port_fill_input port w).
Proof.
  intros Hwf Hpb.
  destruct (port_wf_bounds _ Hwf) as (Hcur & Hsz & Hwp & Hst).
  destruct (port_wf_range _ Hwf) as (Hend & Hmax & Hrb & Hrp & Hre & Hrs).
  pose proof (gdbscm_memory_port_fill_input_cases port w Hwf) as Hfill.
  cbv zeta in Hfill. rewrite Hfill. clear Hfill.
  case_bool_decide; [by apply kept_ret|].
  destruct (target_read_memory _ _ _) as [data|].
  - split; [done|]. split; [|by repeat split].
    revert Hwf. unfold port_wf. cbn -[Z.min].
    unfold min_memory_port_buf_size, max_memory_port_buf_size.
    intros (? & ? & ? & ? & ? & ? & ? & ? & ? & ? & ? & ? & ? & ? & ? & ? & ? & ?).
    repeat split; try done; lia.
  - split; [done|]. by apply port_kept_refl.
Qed.

Lemma kept_write (port : SCM) (data : list byte) (w : port_world) :
  port_wf (w_port w) → putback (pt (w_port w)) = false →
  (Z.of_nat (length data) < 2 ^ 64)%Z →
  kept_outcome w (gdbscm_memory_port_write port data w).
Proof.
  intros Hwf Hpb Hlen.
  pose proof (kept_flush port w Hwf Hpb) as [Hr Hk].
  destruct (gdbscm_memory_port_flush port w) as [[[]|k l|] w1] eqn:Hflush; cbn in Hr, Hk;
    [| |done].
  - pose proof Hk as (Hwf1 & Hpb1 & _).
    destruct (gdbscm_memory_port_write_after_flush port data w w1 Hflush Hwf1)
      as [Hbig Hfit]; [exact Hlen|].
    destruct (decide (Z.of_nat (length data)
                      > iomem_size (iomem (w_port w1))
                        - iomem_current (iomem (w_port w1)))%Z) as [Hgt|Hle].
    { rewrite (Hbig Hgt). split; [done|]. exact Hk. }
    specialize (Hfit ltac:(lia)).
    destruct (target_write_memory _ _ _) as [inf'|]; rewrite Hfit.
    + split; [done|]. apply (port_kept_trans _ _ _ Hk).
      split; [apply written_wf; [exact Hwf1|lia]|]. split; [exact Hpb1|].
      by repeat split.
    + split; [done|]. exact Hk.
  - rewrite (gdbscm_memory_port_write_flush_throws _ _ _ _ _ _ Hflush). by split.
Qed.

Lemma kept_seek (port : SCM) (offset whence : Z) (w : port_world) :
  port_wf (w_port w) → putback (pt (w_port w)) = false →
  kept_outcome w (gdbscm_memory_port_seek port offset whence w).
Proof.
  intros Hwf Hpb.
  assert (Hafter : ∀ w1, port_wf (w_port w1) → putback (pt (w_port w1)) = false →
            kept_outcome w1 (seek_after offset whence w1)).
  { intros w1 Hwf1 Hpb1. unfold seek_after. apply kept_bind; [by apply kept_lseek|].
    intros rc w2 _ (Hwf2 & Hpb2 & _). unfold bind, get_state. by apply kept_ret. }
  unfold gdbscm_memory_port_seek. unfold bind at 1. unfold get_state at 1. cbv zeta.
  apply kept_bind.
  - destruct (rw_active (pt (w_port w))).
    + by apply Hafter.
    + case_bool_decide.
      * apply kept_bind; [by apply kept_scm_end_input|].
        intros [] w1 _ (Hwf1 & Hpb1 & _). by apply Hafter.
      * rewrite Hpb, andb_false_r. by apply kept_ret.
    + case_bool_decide.
      * apply kept_bind; [by apply kept_flush|].
        intros [] w1 _ (Hwf1 & Hpb1 & _). by apply Hafter.
      * case_bool_decide; by apply kept_ret.
  - intros r w1 _ (Hwf1 & Hpb1 & _).
    destruct (negb r.1); [by apply kept_out_of_range_error|by apply kept_ret].
Qed.

Lemma kept_scm_c_write (port : SCM) (data : list byte) (w : port_world) :
  port_wf (w_port w) → putback (pt (w_port w)) = false →
  (Z.of_nat (length data) < 2 ^ 64)%Z →
  kept_outcome w (scm_c_write port data w).
Proof.
  intros Hwf Hpb Hlen. unfold scm_c_write. unfold bind at 1. unfold get_state at 1.
  apply kept_bind.
  { destruct (rw_active (pt (w_port w)));
      [by apply kept_ret|by apply kept_scm_end_input|by apply kept_ret]. }
  intros [] w1 _ (Hwf1 & Hpb1 & _). apply kept_bind; [by apply kept_write|].
  intros [] w2 _ (Hwf2 & Hpb2 & _). unfold bind at 1. unfold get_state at 1.
  destruct (rw_random (pt (w_port w2))); [|by apply kept_ret].
  by apply kept_modify, kept_set_rw_active.
Qed.

(** X17.  What every method of a memory port keeps.  On a port that
    satisfies the invariant and has no put-back buffer in use, each of
    fill_input, end_input, flush, write and seek, and Guile's scm_c_write on
    top of them, ends by returning or by throwing, never by a failed
    assertion; and however it ends, the port satisfies the invariant again
    (the position lies in [0, size], the buffer positions are in order) and
    its start, end, size, type word and random-access flag are unchanged. *)
Theorem memory_port_methods_keep_the_port_in_order (port : SCM) (w : port_world) :
  port_wf (w_port w) →
  putback (pt (w_port w)) = false →
  kept_outcome w (gdbscm_memory_port_fill_input port w)
  ∧ (∀ offset, kept_outcome w (gdbscm_memory_port_end_input port offset w))
  ∧ kept_outcome w (gdbscm_memory_port_flush port w)
  ∧ (∀ data, (Z.of_nat (length data) < 2 ^ 64)%Z →
       kept_outcome w (gdbscm_memory_port_write port data w))
  ∧ (∀ offset whence, kept_outcome w (gdbscm_memory_port_seek port offset whence w))
  ∧ (∀ data, (Z.of_nat (length data) < 2 ^ 64)%Z →
       kept_outcome w (scm_c_write port data w)).
Proof.
  intros Hwf Hpb.
  split; [by apply kept_fill_input|].
  split; [intros; by apply kept_end_input|].
  split; [by apply kept_flush|].
  split; [intros; by apply kept_write|].
  split; [intros; by apply kept_seek|].
  intros; by apply kept_scm_c_write.
Qed.

End PortInvariant.

(** ** Memory ports: the mode string *)

Section ModeBits.
Context `{SmobTags}.

(** A string of modifiers holds no character but 'b' and '+'. *)
Lemma mode_modifiers_strchr (p : string) (c : ascii) :
  mode_modifiers_ok p = true → c ≠ "b"%char → c ≠ "+"%char → strchr p c = false.
Proof.
  induction p as [|c' p IH]; intros Hok Hb Hplus; [reflexivity|].
  simpl in Hok. apply andb_true_iff in Hok as [Hc Hok].
  simpl. rewrite (IH Hok Hb Hplus).
  apply orb_true_iff in Hc as [Hc|Hc]; apply bool_decide_eq_true in Hc; subst c';
    by rewrite bool_decide_eq_false_2 by done.
Qed.

(** X18.  The mode string of open-memory.  A string is accepted when it
    starts with 'r' or 'w' and goes on with 'b' and '+' only; every other
    string, the empty one included, is rejected with out-of-range "bad mode
    string".  An accepted string gives one of three sets of mode bits: open
    for reading and writing when it holds a '+', open for reading when it
    starts with 'r' and holds none, open for writing when it starts with 'w'
    and holds none.  The unbuffered and line-buffered bits are never set. *)
Theorem open_memory_mode_bits (func_name mode : string) (st : gdb_state) :
  (mode_string_ok mode = true →
     ∃ c rest, mode = String c rest
       ∧ (c = "r"%char ∨ c = "w"%char)
       ∧ ioscm_parse_mode_bits func_name mode st
         = (Returned (if strchr rest "+"%char
                      then Z.lor SCM_OPN (Z.lor SCM_RDNG SCM_WRTNG)
                      else if bool_decide (c = "r"%char) then Z.lor SCM_OPN SCM_RDNG
                      else Z.lor SCM_OPN SCM_WRTNG), st)
       ∧ Z.land (scm_mode_bits mode) (Z.lor SCM_BUF0 SCM_BUFLINE) = 0%Z)
  ∧ (mode_string_ok mode = false →
     ∃ st', ioscm_parse_mode_bits func_name mode st
            = (Thrown exscm_out_of_range_error_symbol
                 (arg_error_args func_name 0 (SCM_STRING mode) "bad mode string"), st')).
Proof.
  split.
  - intros Hok. destruct mode as [|c rest]; [discriminate|].
    exists c, rest. split; [reflexivity|].
    pose proof Hok as Hok'. simpl in Hok'. apply andb_true_iff in Hok' as [Hc Hrest].
    assert (Hcases : c = "r"%char ∨ c = "w"%char).
    { apply orb_true_iff in Hc as [Hc|Hc]; apply bool_decide_eq_true in Hc; auto. }
    split; [exact Hcases|].
    assert (Hbits : scm_mode_bits (String c rest)
                    = if strchr rest "+"%char
                      then Z.lor SCM_OPN (Z.lor SCM_RDNG SCM_WRTNG)
                      else if bool_decide (c = "r"%char) then Z.lor SCM_OPN SCM_RDNG
                      else Z.lor SCM_OPN SCM_WRTNG).
    { unfold scm_mode_bits. cbn [strchr].
      rewrite (mode_modifiers_strchr rest "r"%char Hrest) by done.
      rewrite (mode_modifiers_strchr rest "w"%char Hrest) by done.
      rewrite (mode_modifiers_strchr rest "a"%char Hrest) by done.
      rewrite (mode_modifiers_strchr rest "0"%char Hrest) by done.
      rewrite (mode_modifiers_strchr rest "l"%char Hrest) by done.
      destruct Hcases as [-> | ->]; destruct (strchr rest "+"%char); reflexivity. }
    split.
    + unfold ioscm_parse_mode_bits. rewrite Hok. by rewrite Hbits.
    + rewrite Hbits.
      destruct (strchr rest "+"%char); [reflexivity|].
      destruct (bool_decide (c = "r"%char)); reflexivity.
  - intros Hbad. unfold ioscm_parse_mode_bits. rewrite Hbad.
    rewrite gdbscm_out_of_range_error_eq. by eexists.
Qed.

End ModeBits.

(** Some mode strings: "r", "w", "r+", "rb" and "w+b" are accepted, the
    append mode, a second access letter, the unbuffered flag and the empty
    string are not. *)
Example open_memory_mode_strings :
  mode_string_ok <$> ["r"; "w"; "r+"; "rb"; "w+b"; "a"; "rw"; "r0"; ""]
  = [true; true; true; true; true; false; false; false; false].
Proof. reflexivity. Qed.

(** ** Memory ports: what a port reports about itself *)

Section PortAccessors.
Context `{SmobTags} `{Target}.

(** X19.  What a memory port reports.  A port opened on SIZE bytes from
    START reports the range (START, START + SIZE - 1) and read and write
    buffer sizes of 16.  After set-memory-port-read-buffer-size! has
    returned, memory-port-read-buffer-size reports the new size, and likewise
    for the write buffer; the range is not changed by either.  Given a value
    that is not a memory port, memory-port? answers #f and the five accessors
    throw wrong-type-arg. *)
Theorem memory_port_reports_range_and_buffer_sizes (port_scm : SCM)
    (mode : option string) (start size n : Z) (st : gdb_state) (inf : inferior) :
  (0 ≤ start)%Z → (0 < size)%Z → (start + size < 2 ^ 64)%Z →
  mode_string_ok (default "r" mode) = true →
  (1 ≤ n ≤ 4096)%Z →
  ∃ port,
    gdbscm_open_memory mode (Some start) (Some size) st = (Returned port, st)
    ∧ let w := {| w_gdb := st; w_inferior := inf; w_port := port |} in
      (gdbscm_is_memory_port port_scm = true →
         gdbscm_memory_port_p port_scm w = (Returned SCM_BOOL_T, w)
         ∧ gdbscm_memory_port_range port_scm w
           = (Returned (scm_list_2 (SCM_INUM start) (SCM_INUM (start + size - 1))), w)
         ∧ gdbscm_memory_port_read_buffer_size port_scm w = (Returned (SCM_INUM 16), w)
         ∧ gdbscm_memory_port_write_buffer_size port_scm w = (Returned (SCM_INUM 16), w)
         ∧ (∃ w', gdbscm_set_memory_port_read_buffer_size_x port_scm (SCM_INUM n) w
                  = (Returned SCM_UNSPECIFIED, w')
                  ∧ gdbscm_memory_port_read_buffer_size port_scm w'
                    = (Returned (SCM_INUM n), w')
                  ∧ gdbscm_memory_port_write_buffer_size port_scm w'
                    = (Returned (SCM_INUM 16), w')
                  ∧ gdbscm_memory_port_range port_scm w'
                    = (Returned (scm_list_2 (SCM_INUM start)
                                   (SCM_INUM (start + size - 1))), w'))
         ∧ (∃ w', gdbscm_set_memory_port_write_buffer_size_x port_scm (SCM_INUM n) w
                  = (Returned SCM_UNSPECIFIED, w')
                  ∧ gdbscm_memory_port_write_buffer_size port_scm w'
                    = (Returned (SCM_INUM n), w')
                  ∧ gdbscm_memory_port_read_buffer_size port_scm w'
                    = (Returned (SCM_INUM 16), w')
                  ∧ gdbscm_memory_port_range port_scm w'
                    = (Returned (scm_list_2 (SCM_INUM start)
                                   (SCM_INUM (start + size - 1))), w')))
      ∧ (gdbscm_is_memory_port port_scm = false →
         gdbscm_memory_port_p port_scm w = (Returned SCM_BOOL_F, w)
         ∧ (∃ l, gdbscm_memory_port_range port_scm w = (Thrown scm_arg_type_key l, w))
         ∧ (∃ l, gdbscm_memory_port_read_buffer_size port_scm w
                 = (Thrown scm_arg_type_key l, w))
         ∧ (∃ l, gdbscm_memory_port_write_buffer_size port_scm w
                 = (Thrown scm_arg_type_key l, w))
         ∧ (∃ l, gdbscm_set_memory_port_read_buffer_size_x port_scm (SCM_INUM n) w
                 = (Thrown scm_arg_type_key l, w))
         ∧ (∃ l, gdbscm_set_memory_port_write_buffer_size_x port_scm (SCM_INUM n) w
                 = (Thrown scm_arg_type_key l, w))).
Proof.
  intros Hstart Hsize Hfit Hmode Hn.
  destruct (ioscm_init_memory_port_ok
              (ioscm_open_port memory_port_desc (scm_mode_bits (default "r" mode)))
              start (start + size - 1) st)
    as (port & Hinit & Hs & He & Hsz & Hc & Hrb & Hwb & Hwp & Hrp & Hre & _ & _ & Hwf);
    [lia|unfold CORE_ADDR_MAX; lia|].
  exists port. split.
  { rewrite (gdbscm_open_memory_sized mode (Some start) size st)
      by (cbn; unfold CORE_ADDR_MAX; done || lia).
    exact Hinit. }
  cbv zeta. set (w := {| w_gdb := st; w_inferior := inf; w_port := port |}).
  unfold default_read_buf_size in Hrb. unfold default_write_buf_size in Hwb.
  split.
  - intros Hport.
    split; [unfold gdbscm_memory_port_p; by rewrite Hport|].
    split.
    { unfold gdbscm_memory_port_range, bind, get_state. rewrite Hport. cbn.
      by rewrite Hs, He. }
    split.
    { unfold gdbscm_memory_port_read_buffer_size, bind, get_state. rewrite Hport. cbn.
      by rewrite Hrb. }
    split.
    { unfold gdbscm_memory_port_write_buffer_size, bind, get_state. rewrite Hport. cbn.
      by rewrite Hwb. }
    split.
    + rewrite (gdbscm_set_memory_port_read_buffer_size_x_cases _ _ _ Hport).
      rewrite bool_decide_eq_true_2
        by (unfold min_memory_port_buf_size, max_memory_port_buf_size; lia).
      unfold bind at 1.
      rewrite (ioscm_reinit_memory_port_read port_scm n _ w Hwf)
        by (unfold min_memory_port_buf_size, max_memory_port_buf_size; lia).
      change (read_end (pt (w_port w))) with (read_end (pt port)). rewrite Hre.
      rewrite bool_decide_eq_false_2 by (intros [_ ?]; done).
      case_bool_decide as Hchg.
      * eexists. split; [reflexivity|].
        unfold gdbscm_memory_port_read_buffer_size, gdbscm_memory_port_write_buffer_size,
          gdbscm_memory_port_range, bind, get_state. rewrite Hport. cbn.
        by rewrite Hwb, Hs, He.
      * eexists. split; [reflexivity|].
        unfold gdbscm_memory_port_read_buffer_size, gdbscm_memory_port_write_buffer_size,
          gdbscm_memory_port_range, bind, get_state. rewrite Hport. cbn.
        rewrite Hrb, Hwb, Hs, He.
        assert (Hsame : n = read_buf_size (pt port)) by exact Hchg.
        destruct Hwf as (_ & _ & _ & _ & _ & _ & Hagree & _).
        rewrite Hsame, Hagree, Hrb. done.
    + rewrite (gdbscm_set_memory_port_write_buffer_size_x_cases _ _ _ Hport).
      rewrite bool_decide_eq_true_2
        by (unfold min_memory_port_buf_size, max_memory_port_buf_size; lia).
      unfold bind at 1.
      rewrite (ioscm_reinit_memory_port_write port_scm n _ w Hwf)
        by (unfold min_memory_port_buf_size, max_memory_port_buf_size; lia).
      change (write_pos (pt (w_port w))) with (write_pos (pt port)). rewrite Hwp.
      rewrite bool_decide_eq_false_2 by (intros [_ ?]; done).
      case_bool_decide as Hchg.
      * eexists. split; [reflexivity|].
        unfold gdbscm_memory_port_read_buffer_size, gdbscm_memory_port_write_buffer_size,
          gdbscm_memory_port_range, bind, get_state. rewrite Hport. cbn.
        by rewrite Hrb, Hs, He.
      * eexists. split; [reflexivity|].
        unfold gdbscm_memory_port_read_buffer_size, gdbscm_memory_port_write_buffer_size,
          gdbscm_memory_port_range, bind, get_state. rewrite Hport. cbn.
        rewrite Hrb, Hwb, Hs, He.
        assert (Hsame : n = write_buf_size (pt port)) by exact Hchg.
        destruct Hwf as (_ & _ & _ & _ & _ & _ & _ & Hagree & _).
        rewrite Hsame, Hagree, Hwb. done.
  - intros Hport.
    split; [unfold gdbscm_memory_port_p; by rewrite Hport|].
    unfold gdbscm_memory_port_range, gdbscm_memory_port_read_buffer_size,
      gdbscm_memory_port_write_buffer_size, gdbscm_set_memory_port_read_buffer_size_x,
      gdbscm_set_memory_port_write_buffer_size_x, bind.
    rewrite Hport. cbn. by repeat (split; [eexists; reflexivity|]); eexists.
Qed.

End PortAccessors.

(** ** The port theorems at work on the example port *)

Lemma demo_world_read_mode_wf : port_wf (@w_port demo_target demo_world_read_mode).
Proof. apply (@set_rw_active_wf demo_target), demo_world_reading_wf. Qed.

(** X11 at work: a seek to offset 2 from the start. *)
Lemma memory_port_seek_moves_within_range_witness :
  @gdbscm_memory_port_seek demo_tags demo_target demo_port 2 SEEK_SET demo_world
  = (Returned 2%Z, @set_iomem demo_target (set_current 2) demo_world).
Proof.
  destruct (@memory_port_seek_moves_within_range demo_tags demo_target demo_port
              2 SEEK_SET demo_world demo_world_wf) as (Hset & _);
    [reflexivity|lia|].
  destruct (Hset eq_refl) as [Hmove _].
  destruct Hmove as [[Hrun _] _]; [by vm_compute|].
  exact Hrun.
Defined.

(** X12 at work: the first fill of the read buffer of the example port. *)
Lemma memory_port_fill_input_reads_within_range_witness :
  ∃ w', @gdbscm_memory_port_fill_input demo_tags demo_target demo_port demo_world
        = (Returned 0%Z, w')
        ∧ read_end (pt (w_port w')) = 4%Z
        ∧ iomem_current (iomem (w_port w')) = 4%Z.
Proof.
  destruct (@memory_port_fill_input_reads_within_range demo_tags demo_target demo_port
              demo_world demo_world_wf) as (_ & Hread).
  destruct Hread as (_ & Hsome & _); [by vm_compute|].
  destruct (Hsome Byte.x00 [Byte.x00; Byte.x00; Byte.x00])
    as (w' & Hrun & _ & _ & Hre & Hcur & _);
    [vm_compute; reflexivity|vm_compute; reflexivity|].
  exists w'. split; [exact Hrun|]. split; [exact Hre|exact Hcur].
Defined.

(** X13 at work: the four buffered bytes, none of them consumed, are given
    back. *)
Lemma memory_port_end_input_gives_back_unread_witness :
  ∃ w', @gdbscm_memory_port_end_input demo_tags demo_target demo_port 0 demo_world_reading
        = (Returned tt, w')
        ∧ iomem_current (iomem (w_port w')) = 0%Z.
Proof.
  destruct (@memory_port_end_input_gives_back_unread demo_tags demo_target demo_port 0
              demo_world_reading demo_world_reading_wf) as (_ & Hback & _); [lia|].
  destruct Hback as (w' & Hrun & Hcur & _); [by vm_compute|].
  exists w'. split; [exact Hrun|exact Hcur].
Defined.

(** X14 at work: the example port starts at 0x1000, so the position 0 of a
    reader that has consumed nothing is below the start address. *)
Lemma memory_port_tell_while_reading_witness :
  ∃ g, @gdbscm_memory_port_seek demo_tags demo_target demo_port 0 SEEK_CUR
         demo_world_read_mode
       = (Thrown exscm_out_of_range_error_symbol
            (arg_error_args "gdbscm_memory_port_seek" 0 (SCM_INUM 0) "bad seek"),
          @set_gdb demo_target g demo_world_read_mode).
Proof.
  destruct (@memory_port_tell_while_reading demo_tags demo_target demo_port
              demo_world_read_mode demo_world_read_mode_wf) as (_ & Hbad);
    [reflexivity|reflexivity|].
  apply Hbad. by vm_compute.
Defined.

(** X15 at work: two bytes are written to the example port while it holds
    four bytes that were read and not consumed. *)
Lemma memory_port_write_after_read_witness :
  ∃ w', @scm_c_write demo_tags demo_target demo_port [Byte.x01; Byte.x02]
          demo_world_read_mode = (Returned tt, w')
        ∧ iomem_current (iomem (w_port w')) = 2%Z
        ∧ w_inferior w' !! 4096%Z = Some Byte.x01.
Proof.
  destruct (@memory_port_write_after_read demo_tags demo_target demo_port
              [Byte.x01; Byte.x02] demo_world_read_mode
              (default demo_inferior (mem_write demo_inferior 4096 [Byte.x01; Byte.x02]))
              demo_world_read_mode_wf)
    as (w' & Hrun & Hinf & Hcur & _);
    [reflexivity|reflexivity|reflexivity|by vm_compute|by vm_compute
    |vm_compute; reflexivity|].
  exists w'. split; [exact Hrun|]. split; [exact Hcur|].
  rewrite Hinf. vm_compute. reflexivity.
Defined.

(** X16 at work: four bytes are written to the example port and read
    back. *)
Lemma memory_port_write_then_read_back_witness :
  ∃ w1 w2 w3,
    @scm_c_write demo_tags demo_target demo_port
      [Byte.x01; Byte.x02; Byte.x03; Byte.x04] demo_world = (Returned tt, w1)
    ∧ @gdbscm_memory_port_seek demo_tags demo_target demo_port 0 SEEK_SET w1
      = (Returned 0%Z, w2)
    ∧ @gdbscm_memory_port_fill_input demo_tags demo_target demo_port w2
      = (Returned 1%Z, w3)
    ∧ take 4 (read_buf (pt (w_port w3))) = [Byte.x01; Byte.x02; Byte.x03; Byte.x04].
Proof.
  destruct (@memory_port_write_then_read_back demo_tags demo_target demo_port
              Byte.x01 [Byte.x02; Byte.x03; Byte.x04] [] demo_world
              (default demo_inferior
                 (mem_write demo_inferior 4096 [Byte.x01; Byte.x02; Byte.x03; Byte.x04]))
              demo_world_wf)
    as (w1 & w2 & w3 & Hw & Hs & Hf & Htake & _);
    [reflexivity|reflexivity|reflexivity|by vm_compute|by vm_compute
    |vm_compute; reflexivity|vm_compute; reflexivity|].
  exists w1, w2, w3. split; [exact Hw|]. split; [exact Hs|]. split; [exact Hf|exact Htake].
Defined.

(** X17 at work on the example port. *)
Lemma memory_port_methods_keep_the_port_in_order_witness :
  @kept_outcome demo_target Z demo_world
    (@gdbscm_memory_port_fill_input demo_tags demo_target demo_port demo_world)
  ∧ @kept_outcome demo_target Z demo_world
      (@gdbscm_memory_port_seek demo_tags demo_target demo_port 9 SEEK_SET demo_world).
Proof.
  destruct (@memory_port_methods_keep_the_port_in_order demo_tags demo_target demo_port
              demo_world demo_world_wf eq_refl) as (Hfill & _ & _ & _ & Hseek & _).
  split; [exact Hfill|apply Hseek].
Defined.

(** X19 at work: the example port reports its range, and its read buffer
    size after a resize to 32. *)
Lemma memory_port_reports_range_and_buffer_sizes_witness :
  @gdbscm_memory_port_range demo_tags demo_target demo_port demo_world
  = (Returned (scm_list_2 (SCM_INUM 4096) (SCM_INUM 4099)), demo_world)
  ∧ ∃ w', @gdbscm_set_memory_port_read_buffer_size_x demo_tags demo_target demo_port
            (SCM_INUM 32) demo_world = (Returned SCM_UNSPECIFIED, w')
          ∧ @gdbscm_memory_port_read_buffer_size demo_tags demo_target demo_port w'
            = (Returned (SCM_INUM 32), w').
Proof.
  destruct (@memory_port_reports_range_and_buffer_sizes demo_tags demo_target demo_port
              (Some "r+") 4096 4 32 (demo_state SCM_BOOL_F SCM_BOOL_F) demo_inferior)
    as (port & Hopen & Hport & _); [lia|lia|lia|reflexivity|lia|].
  destruct (Hport eq_refl) as (_ & Hrange & _ & _ & (w' & Hset & Hget & _) & _).
  assert (Hworld : demo_world
                   = @Build_port_world demo_target (demo_state SCM_BOOL_F SCM_BOOL_F)
                       demo_inferior port).
  { unfold demo_world, demo_open. rewrite Hopen. reflexivity. }
  rewrite Hworld. split; [exact Hrange|]. exists w'. split; [exact Hset|exact Hget].
Defined.

(** ** Memory ports: seeking while output is pending *)

Section SeekWhileWriting.
Context `{SmobTags} `{Target}.


End SeekWhileWriting.

(** ** Symtab handles that are valid *)

Section ValidSymtab.
Context `{SmobTags} `{GuileRuntime} `{GdbHost}.

(** X21.  A new handle answers for its symtab.  The handle
    stscm_gsmob_from_symtab makes for a symtab is a symtab smob for which
    symtab-valid? answers #t; symtab-filename and symtab-fullname return the
    display name and the full name of that symtab, and symtab-objfile,
    symtab-global-block and symtab-static-block hand the symtab's objfile and
    the symtab to the constructors of objfile and block smobs.  The handles
    that were valid before are still valid. *)
Theorem new_symtab_handle_answers_for_its_symtab (sym o : N) (l : list N)
    (st : gdb_state) :
  symtab_objfile sym = Some o →
  chained_symtabs o l st →
  ∃ a st',
    let self := SCM_SMOB symtab_smob_tag a in
    stscm_gsmob_from_symtab sym st = (Returned self, st')
    ∧ gdbscm_symtab_p self st' = (Returned SCM_BOOL_T, st')
    ∧ gdbscm_symtab_valid_p self st' = (Returned SCM_BOOL_T, st')
    ∧ gdbscm_symtab_filename self st'
      = (Returned (SCM_STRING (symtab_to_filename_for_display sym)), st')
    ∧ gdbscm_symtab_fullname self st'
      = (Returned (SCM_STRING (symtab_to_fullname sym)), st')
    ∧ gdbscm_symtab_objfile self st' = ofscm_scm_from_objfile_unsafe (Some o) st'
    ∧ gdbscm_symtab_global_block self st' = bkscm_scm_from_global_block_unsafe sym st'
    ∧ gdbscm_symtab_static_block self st' = bkscm_scm_from_static_block_unsafe sym st'
    ∧ (∀ b sb, b ∈ l → smobs st !! b = Some (SymtabSmob sb) →
         ∃ sb', smobs st' !! b = Some (SymtabSmob sb') ∧ symtab sb' = symtab sb).
Proof.
  intros Hobj Hch.
  destruct (stscm_gsmob_from_symtab_chain sym o l st Hobj Hch)
    as (a & st' & Hrun & Hfresh & Hch' & Hat).
  exists a, st'. cbv zeta. split; [exact Hrun|].
  split; [unfold gdbscm_symtab_p; by rewrite stscm_is_symtab_smob|].
  split.
  { unfold gdbscm_symtab_valid_p, bind.
    by rewrite (stscm_get_symtab_smob_arg_unsafe_smob _ _ _ _ _ Hat). }
  pose proof (λ pos fn, stscm_get_valid_symtab_smob_arg_unsafe_valid a _ sym pos fn st'
                          Hat eq_refl) as Hvalid.
  split; [unfold gdbscm_symtab_filename, bind; by rewrite Hvalid|].
  split; [unfold gdbscm_symtab_fullname, bind; by rewrite Hvalid|].
  split; [unfold gdbscm_symtab_objfile, bind; rewrite Hvalid; cbn; by rewrite Hobj|].
  split; [unfold gdbscm_symtab_global_block, bind; by rewrite Hvalid|].
  split; [unfold gdbscm_symtab_static_block, bind; by rewrite Hvalid|].
  intros b sb Hb Hsb.
  assert (Hba : b ≠ a) by (intros ->; congruence).
  revert Hrun. unfold stscm_gsmob_from_symtab, stscm_make_symtab_smob, scm_new_smob.
  unfold bind at 1. unfold bind at 1. cbn [symtab_smob_data smobs set_smobs].
  rewrite lookup_insert_eq. cbn [fst snd]. rewrite Hobj.
  unfold bind, modify_state.
  destruct (gdbscm_add_objfile_ref _ _ _ _) as [[[]| |] st2] eqn:Hadd; [|discriminate..].
  intros [= <- <-]. cbn [smobs set_smobs]. rewrite lookup_alter_ne by done.
  apply (gdbscm_add_objfile_ref_keeps_symtab _ _ _ _ _ _ Hadd).
  cbn. by rewrite lookup_insert_ne.
Qed.

End ValidSymtab.


(** X21 at work: a handle for symtab 12 of objfile 1 in the example
    state. *)
Lemma new_symtab_handle_answers_for_its_symtab_witness :
  ∃ a st',
    @stscm_gsmob_from_symtab demo_tags demo_host 12%N demo_symtab_state
    = (Returned (SCM_SMOB 895 a), st')
    ∧ @gdbscm_symtab_filename demo_tags demo_runtime demo_host (SCM_SMOB 895 a) st'
      = (Returned (SCM_STRING "main.c"), st').
Proof.
  destruct (@new_symtab_handle_answers_for_its_symtab demo_tags demo_runtime demo_host
              12%N 1%N [1%N; 0%N] demo_symtab_state eq_refl demo_symtab_state_chained)
    as (a & st' & Hrun & _ & _ & Hname & _).
  exists a, st'. split; [exact Hrun|exact Hname].
Defined.

(** ** Symtab-and-line handles *)

Section SalFacts.
Context `{SalTag} `{GuileRuntime} `{GdbHost}.

Lemma lift_sal_run {A : Type} (m : M gdb_state A) (r : result A) (st' : gdb_state)
    (w : sal_world) :
  m (sw_gdb w) = (r, st') →
  lift_sal m w = (r, {| sw_gdb := st'; sw_sals := sw_sals w |}).
Proof. intros Hm. unfold lift_sal. by rewrite Hm. Qed.

Lemma lift_sal_same {A : Type} (m : M gdb_state A) (r : result A) (w : sal_world) :
  m (sw_gdb w) = (r, sw_gdb w) → lift_sal m w = (r, w).
Proof. intros Hm. unfold lift_sal. rewrite Hm. by destruct w. Qed.

Lemma stscm_is_sal_smob (a : N) : stscm_is_sal (SCM_SMOB sal_smob_tag a) = true.
Proof. unfold stscm_is_sal; simpl. by apply bool_decide_eq_true. Qed.

Lemma sal_smob_not_exception (a : N) :
  gdbscm_is_exception (SCM_SMOB sal_smob_tag a) = false.
Proof.
  unfold gdbscm_is_exception; simpl. apply bool_decide_eq_false, sal_exception_ne.
Qed.

(** A raw sal smob passes the argument check unchanged, whatever the
    scm->smob hook is. *)
Lemma stscm_get_sal_smob_arg_smob (a : N) (s : sal_smob) (arg_pos : Z)
    (func_name : string) (w : sal_world) :
  sw_sals w !! a = Some s →
  stscm_get_sal_smob_arg (SCM_SMOB sal_smob_tag a) arg_pos func_name w
  = (Returned (a, s), w).
Proof.
  intros Hl.
  unfold stscm_get_sal_smob_arg, stscm_get_sal_arg, stscm_scm_to_sal_gsmob.
  unfold bind at 1. unfold bind at 1.
  rewrite (lift_sal_same _ (Returned (SCM_SMOB sal_smob_tag a))).
  - rewrite sal_smob_not_exception, stscm_is_sal_smob. cbn. by rewrite Hl.
  - unfold gdbscm_scm_to_gsmob_safe, bind, get_state.
    by rewrite (matches_own_tag _ _ _ sal_smob_tag_nz).
Qed.

Lemma stscm_sal_is_valid_no_symtab (s : sal_smob) (w : sal_world) :
  symtab_scm s = SCM_BOOL_F → stscm_sal_is_valid s w = (Returned true, w).
Proof. intros Hs. unfold stscm_sal_is_valid. by rewrite Hs. Qed.

Lemma stscm_sal_is_valid_symtab (s : sal_smob) (b : N) (sb : symtab_smob)
    (w : sal_world) :
  symtab_scm s = SCM_SMOB symtab_smob_tag b →
  smobs (sw_gdb w) !! b = Some (SymtabSmob sb) →
  stscm_sal_is_valid s w = (Returned (bool_decide (symtab sb ≠ None)), w).
Proof.
  intros Hs Hb. unfold stscm_sal_is_valid. rewrite Hs. cbn [gdbscm_is_false].
  unfold bind. rewrite (lift_sal_same _ (Returned (b, sb))); [reflexivity|].
  unfold symtab_smob_data. by rewrite Hb.
Qed.

Lemma stscm_get_valid_sal_smob_arg_valid (a : N) (s : sal_smob) (arg_pos : Z)
    (func_name : string) (w : sal_world) :
  sw_sals w !! a = Some s →
  stscm_sal_is_valid s w = (Returned true, w) →
  stscm_get_valid_sal_smob_arg (SCM_SMOB sal_smob_tag a) arg_pos func_name w
  = (Returned (a, s), w).
Proof.
  intros Hl Hv. unfold stscm_get_valid_sal_smob_arg. unfold bind at 1.
  rewrite (stscm_get_sal_smob_arg_smob _ _ _ _ _ Hl). cbn [snd].
  unfold bind. by rewrite Hv.
Qed.

Lemma stscm_get_valid_sal_smob_arg_stale (a : N) (s : sal_smob) (arg_pos : Z)
    (func_name : string) (w : sal_world) :
  sw_sals w !! a = Some s →
  stscm_sal_is_valid s w = (Returned false, w) →
  let self := SCM_SMOB sal_smob_tag a in
  ∃ w', stscm_get_valid_sal_smob_arg self arg_pos func_name w
        = (Thrown gdbscm_invalid_object_error_symbol
             (stale_sal_args self arg_pos func_name), w').
Proof.
  intros Hl Hv. cbv zeta. unfold stscm_get_valid_sal_smob_arg. unfold bind at 1.
  rewrite (stscm_get_sal_smob_arg_smob _ _ _ _ _ Hl). cbn [snd].
  unfold bind. rewrite Hv. cbn [negb].
  eexists. apply lift_sal_run.
  unfold gdbscm_invalid_object_error, gdbscm_make_invalid_object_error,
    gdbscm_make_arg_error, gdbscm_make_error, gdbscm_make_error_scm.
  rewrite make_then_throw. reflexivity.
Qed.

(** The accessors of a sal whose validity check passes. *)
Lemma sal_accessors_valid (a : N) (s : sal_smob) (w : sal_world) :
  sw_sals w !! a = Some s →
  stscm_sal_is_valid s w = (Returned true, w) →
  let self := SCM_SMOB sal_smob_tag a in
  gdbscm_sal_valid_p self w = (Returned SCM_BOOL_T, w)
  ∧ gdbscm_sal_pc self w = (Returned (SCM_INUM (sal_pc (sal s))), w)
  ∧ gdbscm_sal_last self w
    = (Returned (if bool_decide (sal_end (sal s) > 0)%Z
                 then SCM_INUM (sal_end (sal s) - 1) else SCM_BOOL_F), w)
  ∧ gdbscm_sal_line self w
    = (Returned (if bool_decide (sal_line (sal s) > 0)%Z
                 then SCM_INUM (sal_line (sal s)) else SCM_BOOL_F), w)
  ∧ gdbscm_sal_symtab self w = (Returned (symtab_scm s), w).
Proof.
  intros Hl Hv. cbv zeta.
  pose proof (λ pos fn, stscm_get_valid_sal_smob_arg_valid a s pos fn w Hl Hv) as Hok.
  split.
  { unfold gdbscm_sal_valid_p. unfold bind at 1.
    rewrite (stscm_get_sal_smob_arg_smob _ _ _ _ _ Hl). cbn [snd].
    unfold bind. by rewrite Hv. }
  split; [unfold gdbscm_sal_pc, bind; by rewrite Hok|].
  split; [unfold gdbscm_sal_last, bind; rewrite Hok; cbn [snd]; by case_bool_decide|].
  split; [unfold gdbscm_sal_line, bind; rewrite Hok; cbn [snd]; by case_bool_decide|].
  unfold gdbscm_sal_symtab, bind. by rewrite Hok.
Qed.

(** The accessors of a sal whose validity check fails. *)
Lemma sal_accessors_stale (a : N) (s : sal_smob) (w : sal_world) :
  sw_sals w !! a = Some s →
  stscm_sal_is_valid s w = (Returned false, w) →
  let self := SCM_SMOB sal_smob_tag a in
  gdbscm_sal_valid_p self w = (Returned SCM_BOOL_F, w)
  ∧ (∃ w', gdbscm_sal_pc self w
           = (Thrown gdbscm_invalid_object_error_symbol
                (stale_sal_args self SCM_ARG1 "gdbscm_sal_pc"), w'))
  ∧ (∃ w', gdbscm_sal_last self w
           = (Thrown gdbscm_invalid_object_error_symbol
                (stale_sal_args self SCM_ARG1 "gdbscm_sal_last"), w'))
  ∧ (∃ w', gdbscm_sal_line self w
           = (Thrown gdbscm_invalid_object_error_symbol
                (stale_sal_args self SCM_ARG1 "gdbscm_sal_line"), w'))
  ∧ (∃ w', gdbscm_sal_symtab self w
           = (Thrown gdbscm_invalid_object_error_symbol
                (stale_sal_args self SCM_ARG1 "gdbscm_sal_symtab"), w')).
Proof.
  intros Hl Hv. cbv zeta.
  split.
  { unfold gdbscm_sal_valid_p. unfold bind at 1.
    rewrite (stscm_get_sal_smob_arg_smob _ _ _ _ _ Hl). cbn [snd].
    unfold bind. by rewrite Hv. }
  split.
  { destruct (stscm_get_valid_sal_smob_arg_stale a s SCM_ARG1 "gdbscm_sal_pc" w Hl Hv)
      as [w' Hw']. exists w'. unfold gdbscm_sal_pc, bind. by rewrite Hw'. }
  split.
  { destruct (stscm_get_valid_sal_smob_arg_stale a s SCM_ARG1 "gdbscm_sal_last" w Hl Hv)
      as [w' Hw']. exists w'. unfold gdbscm_sal_last, bind. by rewrite Hw'. }
  split.
  { destruct (stscm_get_valid_sal_smob_arg_stale a s SCM_ARG1 "gdbscm_sal_line" w Hl Hv)
      as [w' Hw']. exists w'. unfold gdbscm_sal_line, bind. by rewrite Hw'. }
  destruct (stscm_get_valid_sal_smob_arg_stale a s SCM_ARG1 "gdbscm_sal_symtab" w Hl Hv)
    as [w' Hw']. exists w'. unfold gdbscm_sal_symtab, bind. by rewrite Hw'.
Qed.

(** stscm_gsmob_from_sal on a sal with a symtab: a new sal struct that
    holds the sal and a new handle for the symtab. *)
Lemma stscm_gsmob_from_sal_symtab (sal_ : symtab_and_line) (sym : N) (b : N)
    (st' : gdb_state) (w : sal_world) :
  sal_symtab sal_ = Some sym →
  stscm_gsmob_from_symtab sym (sw_gdb w) = (Returned (SCM_SMOB symtab_smob_tag b), st') →
  let a := fresh (dom (sw_sals w)) in
  stscm_gsmob_from_sal sal_ w
  = (Returned (SCM_SMOB sal_smob_tag a),
     {| sw_gdb := st';
        sw_sals := <[a := {| s_base := gdbscm_init_gsmob;
                             symtab_scm := SCM_SMOB symtab_smob_tag b;
                             converted_symtab_scm := SCM_BOOL_F;
                             sal := sal_ |}]> (sw_sals w) |}).
Proof.
  intros Hsym Hrun. cbv zeta.
  unfold stscm_gsmob_from_sal, stscm_make_sal_smob.
  unfold bind at 1. unfold bind at 1. unfold sal_smob_data at 1.
  cbn [sw_sals set_sals]. rewrite lookup_insert_eq. cbn [fst snd].
  rewrite Hsym. unfold bind at 1.
  rewrite (lift_sal_run _ _ st') by exact Hrun.
  unfold bind, modify_state, set_sals. cbn. by rewrite insert_insert_eq.
Qed.

(** stscm_gsmob_from_sal on a sal without a symtab. *)
Lemma stscm_gsmob_from_sal_no_symtab (sal_ : symtab_and_line) (w : sal_world) :
  sal_symtab sal_ = None →
  let a := fresh (dom (sw_sals w)) in
  stscm_gsmob_from_sal sal_ w
  = (Returned (SCM_SMOB sal_smob_tag a),
     {| sw_gdb := sw_gdb w;
        sw_sals := <[a := {| s_base := gdbscm_init_gsmob;
                             symtab_scm := SCM_BOOL_F;
                             converted_symtab_scm := SCM_BOOL_F;
                             sal := sal_ |}]> (sw_sals w) |}).
Proof.
  intros Hsym. cbv zeta.
  unfold stscm_gsmob_from_sal, stscm_make_sal_smob.
  unfold bind at 1. unfold bind at 1. unfold sal_smob_data at 1.
  cbn [sw_sals set_sals]. rewrite lookup_insert_eq. cbn [fst snd].
  rewrite Hsym. unfold bind, modify_state, set_sals. cbn. by rewrite insert_insert_eq.
Qed.

End SalFacts.

Section SalHandles.
Context `{SalTag} `{GuileRuntime} `{GdbHost}.

(** X22.  A sal handle lives as long as its symtab.  For a sal with a
    symtab of an objfile, stscm_gsmob_from_sal makes a new sal smob and a new
    symtab handle, which it links in front of the objfile's chain.  The sal
    is then valid: sal-pc returns the pc, sal-last returns end - 1 when end
    is above zero and #f otherwise, sal-line returns the line when it is
    above zero and #f otherwise, and sal-symtab returns the new symtab
    handle.  Once the objfile is destroyed the object is still a sal smob,
    sal-valid? answers #f, and each of the four accessors throws
    gdb:invalid-object-error naming itself and the sal. *)
Theorem sal_handle_valid_until_objfile_teardown (sal_ : symtab_and_line) (sym o : N)
    (l : list N) (w : sal_world) :
  sal_symtab sal_ = Some sym →
  symtab_objfile sym = Some o →
  chained_symtabs o l (sw_gdb w) →
  ∃ a b w1,
    let self := SCM_SMOB sal_smob_tag a in
    stscm_gsmob_from_sal sal_ w = (Returned self, w1)
    ∧ sw_sals w !! a = None
    ∧ chained_symtabs o (b :: l) (sw_gdb w1)
    ∧ gdbscm_sal_p self w1 = (Returned SCM_BOOL_T, w1)
    ∧ gdbscm_sal_valid_p self w1 = (Returned SCM_BOOL_T, w1)
    ∧ gdbscm_sal_pc self w1 = (Returned (SCM_INUM (sal_pc sal_)), w1)
    ∧ gdbscm_sal_last self w1
      = (Returned (if bool_decide (sal_end sal_ > 0)%Z
                   then SCM_INUM (sal_end sal_ - 1) else SCM_BOOL_F), w1)
    ∧ gdbscm_sal_line self w1
      = (Returned (if bool_decide (sal_line sal_ > 0)%Z
                   then SCM_INUM (sal_line sal_) else SCM_BOOL_F), w1)
    ∧ gdbscm_sal_symtab self w1 = (Returned (SCM_SMOB symtab_smob_tag b), w1)
    ∧ ∃ w2,
        lift_sal (free_objfile o) w1 = (Returned tt, w2)
        ∧ gdbscm_sal_p self w2 = (Returned SCM_BOOL_T, w2)
        ∧ gdbscm_sal_valid_p self w2 = (Returned SCM_BOOL_F, w2)
        ∧ (∃ w', gdbscm_sal_pc self w2
                 = (Thrown gdbscm_invalid_object_error_symbol
                      (stale_sal_args self SCM_ARG1 "gdbscm_sal_pc"), w'))
        ∧ (∃ w', gdbscm_sal_last self w2
                 = (Thrown gdbscm_invalid_object_error_symbol
                      (stale_sal_args self SCM_ARG1 "gdbscm_sal_last"), w'))
        ∧ (∃ w', gdbscm_sal_line self w2
                 = (Thrown gdbscm_invalid_object_error_symbol
                      (stale_sal_args self SCM_ARG1 "gdbscm_sal_line"), w'))
        ∧ (∃ w', gdbscm_sal_symtab self w2
                 = (Thrown gdbscm_invalid_object_error_symbol
                      (stale_sal_args self SCM_ARG1 "gdbscm_sal_symtab"), w')).
Proof.
  intros Hsym Hobj Hch.
  destruct (stscm_gsmob_from_symtab_chain sym o l (sw_gdb w) Hobj Hch)
    as (b & st' & Hrun & _ & Hch' & Hat).
  set (a := fresh (dom (sw_sals w))).
  set (s := {| s_base := gdbscm_init_gsmob; symtab_scm := SCM_SMOB symtab_smob_tag b;
               converted_symtab_scm := SCM_BOOL_F; sal := sal_ |}).
  set (w1 := {| sw_gdb := st'; sw_sals := <[a := s]> (sw_sals w) |}).
  assert (Hs : sw_sals w1 !! a = Some s) by apply lookup_insert_eq.
  exists a, b, w1. cbv zeta.
  split; [exact (stscm_gsmob_from_sal_symtab sal_ sym b st' w Hsym Hrun)|].
  split; [apply not_elem_of_dom, is_fresh|].
  split; [exact Hch'|].
  split; [unfold gdbscm_sal_p; by rewrite stscm_is_sal_smob|].
  assert (Hv : stscm_sal_is_valid s w1 = (Returned true, w1)).
  { rewrite (stscm_sal_is_valid_symtab s b _ w1 eq_refl Hat). cbn [symtab].
    by rewrite bool_decide_eq_true_2. }
  destruct (sal_accessors_valid a s w1 Hs Hv) as (Hvalid & Hpc & Hlast & Hline & Hst).
  split; [exact Hvalid|]. split; [exact Hpc|]. split; [exact Hlast|].
  split; [exact Hline|]. split; [exact Hst|].
  destruct (free_objfile_chain o (b :: l) st' Hch') as (h' & Hfree & Hin & _).
  destruct (Hin b) as (sb & _ & Hb'); [by left|].
  eexists. split; [apply lift_sal_run; exact Hfree|].
  split; [unfold gdbscm_sal_p; by rewrite stscm_is_sal_smob|].
  apply (sal_accessors_stale a s); [exact Hs|].
  rewrite (stscm_sal_is_valid_symtab s b (invalidate_symtab_smob sb));
    [|reflexivity|exact Hb'].
  cbn [symtab invalidate_symtab_smob]. by rewrite bool_decide_eq_false_2 by (intros Hn; by apply Hn).
Qed.

(** X23.  A sal without a symtab gets no symtab handle and is valid for
    good.  stscm_gsmob_from_sal leaves the state of the symtab handles as it
    is, and in every later state in which the sal struct is unchanged,
    whatever became of the objfiles, sal-valid? answers #t, sal-symtab
    returns #f, and sal-pc, sal-last and sal-line answer from the sal. *)
Theorem sal_without_symtab_is_always_valid (sal_ : symtab_and_line) (w : sal_world) :
  sal_symtab sal_ = None →
  ∃ a w1,
    let self := SCM_SMOB sal_smob_tag a in
    stscm_gsmob_from_sal sal_ w = (Returned self, w1)
    ∧ sw_sals w !! a = None
    ∧ sw_gdb w1 = sw_gdb w
    ∧ ∀ w2, sw_sals w2 !! a = sw_sals w1 !! a →
        gdbscm_sal_valid_p self w2 = (Returned SCM_BOOL_T, w2)
        ∧ gdbscm_sal_pc self w2 = (Returned (SCM_INUM (sal_pc sal_)), w2)
        ∧ gdbscm_sal_last self w2
          = (Returned (if bool_decide (sal_end sal_ > 0)%Z
                       then SCM_INUM (sal_end sal_ - 1) else SCM_BOOL_F), w2)
        ∧ gdbscm_sal_line self w2
          = (Returned (if bool_decide (sal_line sal_ > 0)%Z
                       then SCM_INUM (sal_line sal_) else SCM_BOOL_F), w2)
        ∧ gdbscm_sal_symtab self w2 = (Returned SCM_BOOL_F, w2).
Proof.
  intros Hsym.
  set (a := fresh (dom (sw_sals w))).
  set (s := {| s_base := gdbscm_init_gsmob; symtab_scm := SCM_BOOL_F;
               converted_symtab_scm := SCM_BOOL_F; sal := sal_ |}).
  exists a, {| sw_gdb := sw_gdb w; sw_sals := <[a := s]> (sw_sals w) |}. cbv zeta.
  split; [exact (stscm_gsmob_from_sal_no_symtab sal_ w Hsym)|].
  split; [apply not_elem_of_dom, is_fresh|].
  split; [reflexivity|].
  intros w2 Hw2. cbn [sw_sals] in Hw2. rewrite lookup_insert_eq in Hw2.
  exact (sal_accessors_valid a s w2 Hw2 (stscm_sal_is_valid_no_symtab s w2 eq_refl)).
Qed.

End SalHandles.

Section SalThroughHook.
Context `{SalTag} `{GuileRuntime} `{GdbHost}.

(** X24.  stscm_scm_from_sal_unsafe makes the sal smob, with the handle of
    its symtab already linked in the objfile's chain, and then passes the sal
    smob through the smob->scm hook.  With the hook unset the sal smob is
    returned.  When the hook returns a value that is no exception object,
    that value is returned.  When the hook throws, and the script has left
    the chain and the new symtab handle as they were, the new symtab handle
    is taken out of the chain again and its symtab pointer is cleared before
    the throw is passed on. *)
Theorem sal_hook_failure_unlinks_the_symtab_handle (sal_ : symtab_and_line) (sym o : N)
    (l : list N) (w : sal_world) :
  sal_symtab sal_ = Some sym →
  symtab_objfile sym = Some o →
  chained_symtabs o l (sw_gdb w) →
  ∃ a b st1,
    let self := SCM_SMOB sal_smob_tag a in
    let st_scm := SCM_SMOB symtab_smob_tag b in
    let hook := scm_from_smob_var st1 in
    stscm_gsmob_from_symtab sym (sw_gdb w) = (Returned st_scm, st1)
    ∧ sw_sals w !! a = None
    ∧ chained_symtabs o (b :: l) st1
    ∧ (gdbscm_is_false hook = true →
         ∃ w1, stscm_scm_from_sal_unsafe sal_ w = (Returned self, w1)
               ∧ sw_gdb w1 = st1
               ∧ gdbscm_sal_symtab self w1 = (Returned st_scm, w1))
    ∧ (gdbscm_is_false hook = false →
         (∀ x st2,
            scm_apply hook [self] (log_call hook [self] st1) = (Returned x, st2) →
            gdbscm_is_exception x = false →
            ∃ w1, stscm_scm_from_sal_unsafe sal_ w = (Returned x, w1)
                  ∧ sw_gdb w1 = st2)
         ∧ (∀ k args st2,
              scm_apply hook [self] (log_call hook [self] st1) = (Thrown k args, st2) →
              chained_symtabs o (b :: l) st2 →
              (∃ sb, smobs st2 !! b = Some (SymtabSmob sb) ∧ symtab sb = Some sym) →
              ∃ w', stscm_scm_from_sal_unsafe sal_ w = (Thrown k args, w')
                    ∧ chained_symtabs o l (sw_gdb w')
                    ∧ (∃ sb', smobs (sw_gdb w') !! b = Some (SymtabSmob sb')
                              ∧ symtab sb' = None))).
Proof.
  intros Hsym Hobj Hch.
  destruct (stscm_gsmob_from_symtab_chain sym o l (sw_gdb w) Hobj Hch)
    as (b & st1 & Hrun & _ & Hch1 & Hat).
  set (a := fresh (dom (sw_sals w))).
  set (s := {| s_base := gdbscm_init_gsmob; symtab_scm := SCM_SMOB symtab_smob_tag b;
               converted_symtab_scm := SCM_BOOL_F; sal := sal_ |}).
  set (w1 := {| sw_gdb := st1; sw_sals := <[a := s]> (sw_sals w) |}).
  assert (Hmake : stscm_gsmob_from_sal sal_ w = (Returned (SCM_SMOB sal_smob_tag a), w1))
    by exact (stscm_gsmob_from_sal_symtab sal_ sym b st1 w Hsym Hrun).
  exists a, b, st1. cbv zeta.
  split; [exact Hrun|]. split; [apply not_elem_of_dom, is_fresh|].
  split; [exact Hch1|]. split.
  - intros Hhook. exists w1. split.
    { unfold stscm_scm_from_sal_unsafe. unfold bind at 1. rewrite Hmake.
      unfold bind at 1.
      rewrite (lift_sal_same _ (Returned (SCM_SMOB sal_smob_tag a)) w1).
      - by rewrite sal_smob_not_exception.
      - unfold gdbscm_scm_from_gsmob_safe, bind, get_state. cbn [sw_gdb w1].
        by rewrite Hhook. }
    split; [reflexivity|].
    assert (Hs : sw_sals w1 !! a = Some s) by apply lookup_insert_eq.
    apply (sal_accessors_valid a s w1 Hs).
    rewrite (stscm_sal_is_valid_symtab s b _ w1 eq_refl Hat). cbn [symtab].
    by rewrite bool_decide_eq_true_2.
  - intros Hhook. split.
    + intros x st2 Hcall Hx.
      exists {| sw_gdb := st2; sw_sals := sw_sals w1 |}. split; [|reflexivity].
      unfold stscm_scm_from_sal_unsafe. unfold bind at 1. rewrite Hmake.
      unfold bind at 1.
      rewrite (lift_sal_run _ (Returned x) st2 w1).
      * by rewrite Hx.
      * unfold gdbscm_scm_from_gsmob_safe, bind, get_state. cbn [sw_gdb w1].
        rewrite Hhook. by apply gdbscm_safe_call_1_returned.
    + intros k args st2 Hcall [Hc2 Hnd2] (sb & Hb2 & Hsb).
      set (e := fresh (dom (smobs st2))).
      set (x := ExceptionSmob {| e_base := gdbscm_init_gsmob; key := k; args := args |}).
      set (st3 := set_exception_count (ulong_wrap (gdbscm_exception_count st2 + 1))
                    (set_smobs (insert e x) st2)).
      assert (Hfresh : smobs st2 !! e = None) by apply fresh_smob_unused.
      assert (He : e ∉ b :: l).
      { intros Hin. destruct (symtab_chain_elem _ _ _ _ _ Hc2 Hin) as [s' Hs'].
        congruence. }
      assert (Hsafe : gdbscm_scm_from_gsmob_safe (SCM_SMOB sal_smob_tag a) st1
                      = (Returned (SCM_SMOB exception_smob_tag e), st3)).
      { unfold gdbscm_scm_from_gsmob_safe, bind, get_state. rewrite Hhook.
        rewrite (gdbscm_safe_call_1_thrown _ _ _ _ _ _ Hcall).
        by rewrite gdbscm_make_exception_eq. }
      assert (Hch3 : chained_symtabs o ([] ++ b :: l) st3).
      { split; [|exact Hnd2]. cbn [app].
        change (objfile_data o stscm_objfile_data_key st3)
          with (objfile_data o stscm_objfile_data_key st2).
        cbn [smobs st3 set_exception_count set_smobs].
        by apply symtab_chain_insert_other. }
      assert (Hb3 : smobs st3 !! b = Some (SymtabSmob sb)).
      { cbn [smobs st3 set_exception_count set_smobs]. rewrite lookup_insert_ne; [done|].
        intros ->. apply He. by left. }
      destruct (stscm_free_symtab_smob_linked o b sym [] l sb st3 Hch3 Hb3 Hsb Hobj)
        as (st4 & Hfree & Hch4 & Hb4 & Hout).
      exists {| sw_gdb := st4; sw_sals := sw_sals w1 |}.
      split.
      { unfold stscm_scm_from_sal_unsafe. unfold bind at 1. rewrite Hmake.
        unfold bind at 1. rewrite (lift_sal_run _ _ st3 w1) by exact Hsafe.
        cbv beta iota. rewrite gdbscm_is_exception_smob.
        unfold bind at 1. unfold sal_smob_data at 1. cbn [sw_sals w1].
        rewrite lookup_insert_eq. cbn [fst snd s symtab_scm gdbscm_is_false negb].
        unfold bind at 1.
        rewrite (lift_sal_run _ _ st4
                   {| sw_gdb := st3; sw_sals := <[a := s]> (sw_sals w) |}) by exact Hfree.
        apply lift_sal_run. cbn [sw_gdb].
        rewrite (gdbscm_throw_smob e
                   {| e_base := gdbscm_init_gsmob; key := k; args := args |});
          [reflexivity|].
        rewrite Hout by exact He.
        cbn [smobs st3 set_exception_count set_smobs]. apply lookup_insert_eq. }
      split; [exact Hch4|].
      eexists. split; [exact Hb4|reflexivity].
Qed.

End SalThroughHook.

(** X22 at work: a sal of symtab 12 in the example state; objfile 1 is then
    destroyed. *)
Lemma sal_handle_valid_until_objfile_teardown_witness :
  ∃ a w1 w2,
    @stscm_gsmob_from_sal demo_tags demo_sal_tag demo_host demo_sal demo_sal_world
    = (Returned (SCM_SMOB 1151 a), w1)
    ∧ @gdbscm_sal_line demo_tags demo_sal_tag demo_runtime (SCM_SMOB 1151 a) w1
      = (Returned (SCM_INUM 42), w1)
    ∧ @gdbscm_sal_last demo_tags demo_sal_tag demo_runtime (SCM_SMOB 1151 a) w1
      = (Returned SCM_BOOL_F, w1)
    ∧ lift_sal (@free_objfile demo_host 1%N) w1 = (Returned tt, w2)
    ∧ @gdbscm_sal_valid_p demo_tags demo_sal_tag demo_runtime (SCM_SMOB 1151 a) w2
      = (Returned SCM_BOOL_F, w2).
Proof.
  destruct (@sal_handle_valid_until_objfile_teardown demo_tags demo_sal_tag demo_runtime
              demo_host demo_sal 12%N 1%N [1%N; 0%N] demo_sal_world eq_refl eq_refl
              demo_symtab_state_chained)
    as (a & b & w1 & Hrun & _ & _ & _ & _ & _ & Hlast & Hline & _ & w2 & Hfree & _ & Hv & _).
  exists a, w1, w2.
  split; [exact Hrun|]. split; [exact Hline|]. split; [exact Hlast|].
  split; [exact Hfree|exact Hv].
Defined.

(** X23 at work: a sal without a symtab in the example state. *)
Lemma sal_without_symtab_is_always_valid_witness :
  ∃ a w1,
    @stscm_gsmob_from_sal demo_tags demo_sal_tag demo_host demo_sal_no_symtab
      demo_sal_world
    = (Returned (SCM_SMOB 1151 a), w1)
    ∧ @gdbscm_sal_last demo_tags demo_sal_tag demo_runtime (SCM_SMOB 1151 a) w1
      = (Returned (SCM_INUM 4099), w1)
    ∧ @gdbscm_sal_symtab demo_tags demo_sal_tag demo_runtime (SCM_SMOB 1151 a) w1
      = (Returned SCM_BOOL_F, w1).
Proof.
  destruct (@sal_without_symtab_is_always_valid demo_tags demo_sal_tag demo_runtime
              demo_host demo_sal_no_symtab demo_sal_world eq_refl)
    as (a & w1 & Hrun & _ & _ & Hlater).
  destruct (Hlater w1 eq_refl) as (_ & _ & Hlast & _ & Hst).
  exists a, w1. split; [exact Hrun|]. split; [exact Hlast|exact Hst].
Defined.

Lemma demo_sal_world_throwing_chained :
  @chained_symtabs demo_host 1%N [0%N] (sw_gdb demo_sal_world_throwing).
Proof.
  split.
  - simpl. split; [vm_compute; reflexivity|].
    eexists. split; [vm_compute; reflexivity|]. split; reflexivity.
  - apply NoDup_singleton.
Defined.

(** X24 at work: the smob->scm hook throws on the new sal smob; the handle
    made for symtab 12 is unlinked again and the chain of objfile 1 is the
    one handle it was before. *)
Lemma sal_hook_failure_unlinks_the_symtab_handle_witness :
  ∃ w',
    @stscm_scm_from_sal_unsafe demo_tags demo_sal_tag demo_runtime demo_host demo_sal
      demo_sal_world_throwing
    = (Thrown (SCM_SYMBOL "misc-error") (scm_list_1 (SCM_STRING "boom")), w')
    ∧ @chained_symtabs demo_host 1%N [0%N] (sw_gdb w').
Proof.
  destruct (@sal_hook_failure_unlinks_the_symtab_handle demo_tags demo_sal_tag
              demo_runtime demo_host demo_sal 12%N 1%N [0%N] demo_sal_world_throwing
              eq_refl eq_refl demo_sal_world_throwing_chained)
    as (a & b & st1 & Hrun & _ & Hch1 & _ & Hset).
  vm_compute in Hrun. injection Hrun as <- <-.
  destruct (Hset eq_refl) as [_ Hthrow].
  edestruct Hthrow as (w' & Hr & Hc & _).
  - reflexivity.
  - split.
    + simpl. split; [vm_compute; reflexivity|].
      eexists. split; [vm_compute; reflexivity|]. split; [reflexivity|].
      simpl. split; [reflexivity|].
      eexists. split; [vm_compute; reflexivity|]. split; reflexivity.
    + apply NoDup_cons. split; [|apply NoDup_singleton].
      intros Hin. apply list_elem_of_singleton in Hin. discriminate.
  - eexists. split; [vm_compute; reflexivity|reflexivity].
  - exists w'. split; [exact Hr|exact Hc].
Defined.

(** ** Registering a smob type *)

Section Registration.
Context `{SmobTags} `{GuileRuntime}.

(** X25.  gdbscm_make_smob_type records the tag of the new smob type.
    From then on every smob of that tag is a gdb smob, which the inbound
    conversion for "any gsmob" (tag zero) returns as it is without a call of
    the scm->smob hook; smobs of other tags are judged as before, and no smob
    struct is touched.  Recording a tag that is recorded already trips the
    assertion of register_gsmob, so a second registration of the new tag
    fails. *)
Theorem registered_smob_type_is_a_gsmob (t : Z) (st : gdb_state) :
  (t ∈ registered_gsmobs st → gdbscm_make_smob_type t st = (Fault, st))
  ∧ (t ∉ registered_gsmobs st →
     ∃ st',
       gdbscm_make_smob_type t st = (Returned t, st')
       ∧ smobs st' = smobs st
       ∧ scm_calls st' = scm_calls st
       ∧ (∀ a, gdbscm_is_gsmob (SCM_SMOB t a) st' = true)
       ∧ (∀ t' a, t' ≠ t →
            gdbscm_is_gsmob (SCM_SMOB t' a) st' = gdbscm_is_gsmob (SCM_SMOB t' a) st)
       ∧ (∀ a, gdbscm_scm_to_gsmob_safe (SCM_SMOB t a) 0 st'
               = (Returned (SCM_SMOB t a), st'))
       ∧ gdbscm_make_smob_type t st' = (Fault, st')).
Proof.
  split.
  - intros Hin. unfold gdbscm_make_smob_type, bind, register_gsmob.
    by rewrite bool_decide_eq_true_2.
  - intros Hout. eexists. split.
    { unfold gdbscm_make_smob_type, bind, register_gsmob.
      rewrite bool_decide_eq_false_2 by done. reflexivity. }
    split; [reflexivity|]. split; [reflexivity|].
    assert (Hreg : ∀ a, gdbscm_is_gsmob (SCM_SMOB t a)
                          {| smobs := smobs st;
                             registered_gsmobs := {[ t ]} ∪ registered_gsmobs st;
                             scm_from_smob_var := scm_from_smob_var st;
                             scm_to_smob_var := scm_to_smob_var st;
                             gdbscm_exception_count := gdbscm_exception_count st;
                             objfile_data_tab := objfile_data_tab st;
                             scm_calls := scm_calls st |} = true).
    { intros a. cbn. apply bool_decide_eq_true. set_solver. }
    split; [exact Hreg|].
    split.
    { intros t' a Hne. cbn. apply bool_decide_ext.
      rewrite elem_of_union, elem_of_singleton.
      split; [intros [Heq|Hin]; [done|exact Hin]|by right]. }
    split.
    { intros a. unfold gdbscm_scm_to_gsmob_safe, bind, get_state, matches_tag.
      rewrite bool_decide_eq_false_2 by (intros Hz; by apply Hz).
      by rewrite Hreg. }
    unfold gdbscm_make_smob_type, bind, register_gsmob. cbn.
    rewrite bool_decide_eq_true_2 by set_solver. reflexivity.
Qed.

End Registration.

(** ** Objfile teardown with symtab and type handles *)

Section TypeTeardown.
Context `{TypeHost} `{GuileRuntime}.







End TypeTeardown.




(** ** A smob->scm hook that answers an exception object *)

(** make-iterator throws what the exception object records. *)
Example make_iterator_hook_answers_an_exception_object :
  (@gdbscm_make_iterator demo_tags demo_runtime_exception (SCM_INUM 0) SCM_BOOL_F
     (SCM_PROC 4) (demo_state (SCM_PROC 5) SCM_BOOL_F)).1
  = Thrown (SCM_SYMBOL "my-error") SCM_EOL.
Proof. vm_compute. reflexivity. Qed.

(** stscm_scm_from_symtab_unsafe throws it as well, and the handle it made
    for symtab 12 is not linked to objfile 1. *)
Example symtab_hook_answers_an_exception_object :
  (@stscm_scm_from_symtab_unsafe demo_tags demo_runtime_exception demo_host 12%N
     (demo_state (SCM_PROC 5) SCM_BOOL_F)).1
  = Thrown (SCM_SYMBOL "my-error") SCM_EOL
  ∧ objfile_data 1%N (@stscm_objfile_data_key demo_host)
      (@stscm_scm_from_symtab_unsafe demo_tags demo_runtime_exception demo_host 12%N
         (demo_state (SCM_PROC 5) SCM_BOOL_F)).2
    = None.
Proof. split; vm_compute; reflexivity. Qed.
